(** * holoviews/plotting/bokeh/plot.py: placement and synchronisation logic

    A shallow embedding of the composite plots of the Bokeh backend
    ([BokehPlot], [CompositePlot], [GridPlot], [LayoutPlot],
    [AdjointLayoutPlot]) and the properties of their placement, axis
    sharing, data-source sharing and frame-update code.

    Conventions of the embedding.
    - Python methods that raise or mutate [self] are computations in the
      state-and-exception monad [py St A]: the state that has been built
      is still visible when an exception is raised.
    - Dictionaries whose iteration order is not observed ([handles],
      [subplots], keyword arguments) are [gmap]s; the [data] of a
      [ColumnDataSource], whose column order is observed, is an
      insertion-ordered association list ([odict]).
    - Lengths, indices and grid coordinates are [nat]; pixel sizes, which
      are arbitrary [param.Integer]s, are [Z].
    - Calls into the upstream framework and into the toolkit
      ([compute_ranges], [lookup_options], [displayable], [collate], the
      plotting-class constructors, [subplot.update_frame], ...) are
      variables of the enclosing section and are taken to return
      normally. *)

From stdpp Require Import gmap strings list fin_maps sorting.
From Stdlib Require Import ZArith Lia.

Local Open Scope string_scope.
Local Open Scope list_scope.
Local Open Scope nat_scope.

(** ** Python classes, values and exceptions *)

(** The classes of the upstream object model that the module inspects
    with [type], [isinstance] and [is]. [cElement n] is an element class
    named [n]; [cSubclass n b] is a user-defined subclass of [b]. *)
Inductive pyclass :=
| cLayout
| cNdLayout
| cAdjointLayout
| cGridSpace
| cHoloMap
| cDynamicMap
| cEmpty
| cElement (name : string)
| cSubclass (name : string) (base : pyclass).

#[global] Instance pyclass_eq_dec : EqDecision pyclass.
Proof. solve_decision. Defined.

(** [cls.__name__] *)
Definition class_name (c : pyclass) : string :=
  match c with
  | cLayout => "Layout"
  | cNdLayout => "NdLayout"
  | cAdjointLayout => "AdjointLayout"
  | cGridSpace => "GridSpace"
  | cHoloMap => "HoloMap"
  | cDynamicMap => "DynamicMap"
  | cEmpty => "Empty"
  | cElement n => n
  | cSubclass n _ => n
  end.

(** [issubclass(c, base)]; upstream [DynamicMap] derives from [HoloMap]. *)
Fixpoint issubclass (c base : pyclass) : bool :=
  if decide (c = base) then true
  else match c with
       | cSubclass _ b => issubclass b base
       | cDynamicMap => bool_decide (base = cHoloMap)
       | _ => false
       end.

(** Option values as they appear in keyword arguments; [VRef pos] stands
    for the plot object made for position [pos] of an adjoint layout. *)
Inductive pyval :=
| VNone
| VBool (b : bool)
| VInt (z : Z)
| VStr (s : string)
| VStrs (l : list string)
| VRef (name : string).

#[global] Instance pyval_eq_dec : EqDecision pyval.
Proof. solve_decision. Defined.

Inductive exn :=
| SkipRendering (msg : string)
| PyException (msg : string)
| KeyError (key : string)
| IndexError
| ZeroDivisionError
| AttributeError (msg : string)
| TypeError (msg : string)
| ValueError (msg : string).

#[global] Instance exn_eq_dec : EqDecision exn.
Proof. solve_decision. Defined.

(** ** The state-and-exception monad *)

Inductive outcome (St A : Type) :=
| Returns (a : A) (s : St)
| Raises (e : exn) (s : St).
Arguments Returns {St A} a s.
Arguments Raises {St A} e s.

Definition py (St A : Type) : Type := St → outcome St A.

Definition py_ret {St A} (a : A) : py St A := λ s, Returns a s.

Definition py_bind {St A B} (f : A → py St B) (m : py St A) : py St B :=
  λ s, match m s with
       | Returns a s' => f a s'
       | Raises e s' => Raises e s'
       end.

#[global] Instance py_mret St : MRet (py St) := @py_ret St.
#[global] Instance py_mbind St : MBind (py St) := @py_bind St.

Definition raise {St A} (e : exn) : py St A := λ s, Raises e s.
Definition get_state {St} : py St St := λ s, Returns s s.
Definition modify {St} (f : St → St) : py St unit := λ s, Returns tt (f s).

(** The state in which a computation stops, normally or not. *)
Definition final_state {St A} (o : outcome St A) : St :=
  match o with Returns _ s => s | Raises _ s => s end.

(** [for x in l: body(x)] *)
Fixpoint for_each {St A} (body : A → py St unit) (l : list A) : py St unit :=
  match l with
  | [] => mret tt
  | x :: l' => body x ;; for_each body l'
  end.

(** [for i, x in enumerate(l): body(i, x)], counting from [i0]. *)
Fixpoint for_enumerate {St A} (body : nat → A → py St unit)
    (i0 : nat) (l : list A) : py St unit :=
  match l with
  | [] => mret tt
  | x :: l' => body i0 x ;; for_enumerate body (S i0) l'
  end.

(** Python indexing of a list with a possibly negative index. *)
Definition py_index {A} (l : list A) (i : Z) : option nat :=
  if (0 <=? i)%Z then
    (if (i <? Z.of_nat (length l))%Z then Some (Z.to_nat i) else None)
  else if (- Z.of_nat (length l) <=? i)%Z
       then Some (Z.to_nat (Z.of_nat (length l) + i)) else None.

(** [l[i]] *)
Definition py_getitem {St A} (l : list A) (i : Z) : py St A :=
  match py_index l i ≫= λ n, l !! n with
  | Some x => mret x
  | None => raise IndexError
  end.

(** [l[i] = x] *)
Definition py_setitem {St A} (l : list A) (i : Z) (x : A) : py St (list A) :=
  match py_index l i with
  | Some n => mret (<[n := x]> l)
  | None => raise IndexError
  end.

(** ** Keys and layouts of the upstream framework *)

(** A key of a dimensioned container is a scalar or a tuple of scalars;
    the scalars are represented by integers. *)
Inductive pykey :=
| KScalar (a : Z)
| KTuple (t : list Z).

#[global] Instance pykey_eq_dec : EqDecision pykey.
Proof. solve_decision. Defined.

Definition coord : Type := list Z.

(** [wrap_tuple] of [core.util], which [_create_subplots] also spells
    out as [if not isinstance(coord, tuple): coord = (coord,)]. *)
Definition wrap_tuple (k : pykey) : coord :=
  match k with
  | KScalar a => [a]
  | KTuple t => t
  end.

(** A frame key (a tuple indexing a frame of a HoloMap). *)
Definition framekey : Type := list Z.

(** What the module reads of a viewable object held in a container:
    its class and, for a HoloMap, the [type] of its elements. *)
Record view := View {
  view_class : pyclass;
  view_type : pyclass;
  view_id : nat;
}.

#[global] Instance view_eq_dec : EqDecision view.
Proof. solve_decision. Defined.

(** [isinstance(v, c)] *)
Definition isinstance (v : view) (c : pyclass) : bool :=
  issubclass (view_class v) c.

(** A dimensioned container handed to a composite plot: its class, its
    [shape] and its [data] dictionary. *)
Record layout_obj := LayoutObj {
  lo_class : pyclass;
  lo_id : nat;
  lo_shape : nat * nat;
  lo_data : gmap coord view;
}.

(** [layout.clone(shared_data=False, id=layout.id)]: the same container
    without its items. *)
Definition clone_empty (l : layout_obj) : layout_obj :=
  {| lo_class := lo_class l; lo_id := lo_id l;
     lo_shape := lo_shape l; lo_data := ∅ |}.

(** An [AdjointLayout]: the views at its positions ['main'], ['right']
    and ['top']. *)
Record adjoint_layout := AdjointLayoutObj {
  al_id : nat;
  al_data : gmap string view;
}.

(** [layout[k] = v] *)
Definition layout_setitem (k : coord) (v : view) (l : layout_obj) : layout_obj :=
  {| lo_class := lo_class l; lo_id := lo_id l;
     lo_shape := lo_shape l; lo_data := <[k := v]> (lo_data l) |}.

(** ** Column data *)

(** A column of a data source: a Python list, a numpy array, or another
    sized object (of which only the length is kept). *)
Inductive column :=
| ColList (items : list pyval)
| ColArray (items : list pyval)
| ColOther (size : nat).

#[global] Instance column_eq_dec : EqDecision column.
Proof. solve_decision. Defined.

(** [len(v)] *)
Definition col_len (v : column) : nat :=
  match v with
  | ColList l => length l
  | ColArray l => length l
  | ColOther n => n
  end.

(** [isinstance(v, (list, np.ndarray))] *)
Definition is_list_or_array (v : column) : bool :=
  match v with
  | ColList _ | ColArray _ => true
  | ColOther _ => false
  end.

(** [l[-n:]]; [l[-0:]] is the whole of [l]. *)
Definition list_tail {A} (n : nat) (l : list A) : list A :=
  if decide (n = 0) then l else drop (length l - n) l.

(** [v[-n:]] *)
Definition col_tail (n : nat) (v : column) : column :=
  match v with
  | ColList l => ColList (list_tail n l)
  | ColArray l => ColArray (list_tail n l)
  | ColOther m => ColOther (if decide (n = 0) then m else m `min` n)
  end.

(** A Python [dict] with string keys whose iteration order (the order of
    first insertion) is observed. *)
Definition odict (V : Type) : Type := list (string * V).

Fixpoint od_lookup {V} (k : string) (d : odict V) : option V :=
  match d with
  | [] => None
  | (k', v) :: d' => if decide (k = k') then Some v else od_lookup k d'
  end.

(** [k in d] *)
Definition od_mem {V} (k : string) (d : odict V) : bool :=
  bool_decide (is_Some (od_lookup k d)).

(** [d[k] = v]: an existing key keeps its place, a new key goes last. *)
Fixpoint od_set {V} (k : string) (v : V) (d : odict V) : odict V :=
  match d with
  | [] => [(k, v)]
  | (k', v') :: d' =>
      if decide (k = k') then (k, v) :: d' else (k', v') :: od_set k v d'
  end.

(** [d.update(new)] *)
Definition od_update {V} (d new : odict V) : odict V :=
  foldl (λ acc kv, od_set kv.1 kv.2 acc) d new.

(** [d.keys()] and [d.values()] *)
Definition od_keys {V} (d : odict V) : list string := fst <$> d.
Definition od_values {V} (d : odict V) : list V := snd <$> d.

(** [{k: f(v) for k, v in d.items()}] *)
Definition od_map {V W} (f : V → W) (d : odict V) : odict W :=
  (λ kv, (kv.1, f kv.2)) <$> d.

(** ** Toolkit models and the upstream interface *)

(** The [ranges] argument of a plot method: [None], a computed ranges
    object, or the per-frame dictionary built by [_create_subplots]. *)
Inductive ranges_arg (R : Type) :=
| NoRanges
| Ranges (r : R)
| FrameRanges (l : list (framekey * R)).
Arguments NoRanges {R}.
Arguments Ranges {R} r.
Arguments FrameRanges {R} l.

(** What the module reads of a plotting class found in a registry. *)
Record plotclass := PlotClass {
  pc_name : string;
  pc_composite : bool;       (* issubclass(cls, GenericCompositePlot) *)
  pc_width : Z;              (* cls.width *)
  pc_height : Z;             (* cls.height *)
  pc_xaxis : pyval;          (* cls.xaxis *)
  pc_yaxis : pyval;          (* cls.yaxis *)
}.

#[global] Instance plotclass_eq_dec : EqDecision plotclass.
Proof. solve_decision. Defined.

(** A subplot is the record of the constructor call that made it: the
    plotting class, the view, the [ranges] and [keys] arguments and the
    remaining keyword arguments. The pass-through arguments
    [dimensions], [renderer] and [uniform] are not recorded. *)
Record subplot (R : Type) := Subplot {
  sp_class : plotclass;
  sp_view : view;
  sp_ranges : list (framekey * R);
  sp_keys : list framekey;
  sp_params : gmap string pyval;
}.
Arguments Subplot {R}.
Arguments sp_class {R}.
Arguments sp_view {R}.
Arguments sp_ranges {R}.
Arguments sp_keys {R}.
Arguments sp_params {R}.

(** The toolkit's models, as far as this module assembles them. A
    [Panel(child, title)] of a [Tabs] model is the pair [(title, child)];
    a [Div] is a reference into the store of title divs. Styling
    arguments such as [sizing_mode] are not recorded. *)
#[local] Unset Elimination Schemes.
Inductive bmodel :=
| BFigure (n : nat)
| BEmptyPlot (w h : Z)
| BGrid (children : list (list (option bmodel))) (toolbar_location : pyval)
    (merge : bool)
| BColumn (children : list bmodel)
| BRow (children : list bmodel)
| BDiv (ref : nat)
| BTabs (panels : list (string * option bmodel)).
#[local] Set Elimination Schemes.

Class Upstream := {
  ranges : Type;
  (** [self.compute_ranges(obj, key, ranges)] *)
  compute_ranges : layout_obj → option framekey → ranges_arg ranges → ranges;
  (** [self.lookup_options(view, 'plot').options] *)
  lookup_options : view → gmap string pyval;
  (** [displayable] and [collate] of [plotting.util] *)
  displayable : view → bool;
  collate : view → view;
  (** [Store.registry[self.renderer.backend].get(vtype, None)] *)
  registry : pyclass → option plotclass;
  (** [AdjointLayoutPlot.registry.get(vtype)] *)
  adjoint_registry : pyclass → option plotclass;
  (** [layout.keys(full_grid=True)] of a GridSpace *)
  keys_full_grid : layout_obj → list pykey;
  (** [subplot.hmap] and [subplot.layout] *)
  subplot_hmap : subplot ranges → view;
  subplot_layout : subplot ranges → view;
  (** [subplot.initialize_plot(ranges=ranges, plots=plots)] of an
      element plot *)
  subplot_initialize_plot :
    subplot ranges → ranges → list (option bmodel) → bmodel;
  (** [subplot._format_title(key, dimensions=False)] of an element plot *)
  subplot_format_title : subplot ranges → framekey → string;
  (** [bool(element.traverse(lambda x: x, [Element, Empty]))] *)
  has_elements : view → bool;
  (** [GridPlot._make_axes(plot)], which puts the axis models made by
      [make_axis] around the grid; it is kept abstract *)
  make_axes : bmodel → bmodel;
  (** [layout_padding], [filter_toolboxes] and [pad_plots] of
      [bokeh.util], on a grid of plots and on a list of plots *)
  layout_padding : list (list (option bmodel)) → list (list (option bmodel));
  filter_toolboxes : list (list (option bmodel)) → list (list (option bmodel));
  filter_toolboxes_list : list (option bmodel) → list (option bmodel);
  pad_plots : list (list (option bmodel)) → list (list (option bmodel));
  (** [decode_bytes] of [bokeh.util] *)
  decode_bytes : column → column;
  (** the data of a [ColumnDataSource] after [source.stream(data, rollover)] *)
  source_stream : odict column → odict column → Z → odict column;
}.

(** ** BokehPlot *)

Module BokehPlot.
Section BokehPlot.
Context `{Upstream}.

(** *** _update_datasource *)

(** What [_update_datasource] reads of the first stream in
    [self.streaming]. *)
Record stream := Stream {
  data_is_frame_data : bool;   (* stream.data is self.current_frame.data *)
  _triggering : bool;
  _chunk_length : nat;
  length : Z;
}.

Record update_params := UpdateParams {
  streaming : list stream;
  _stream_data : bool;
}.

(** How [_update_datasource] left the source. *)
Inductive update_kind := Streamed | Untouched | Replaced | Merged.

#[global] Instance update_kind_eq_dec : EqDecision update_kind.
Proof. solve_decision. Defined.

(** [all(len(v) == 0 for v in data.values())] *)
Definition all_empty (data : odict column) : bool :=
  forallb (λ v, bool_decide (col_len v = 0)) (od_values data).

(** The condition of the streaming branch, on the decoded data. *)
Definition streaming_branch (self : update_params) (data : odict column) : bool :=
  match streaming self with
  | [] => false
  | stream :: _ =>
      data_is_frame_data stream && _stream_data self && negb (all_empty data)
  end.

(** [[len(v) for v in d.values() if isinstance(v, (list, np.ndarray))]] *)
Definition list_lengths (d : odict column) : list nat :=
  col_len <$> filter (λ v, is_list_or_array v = true) (od_values d).

(** [[k for k in source.data if k not in data]] *)
Definition untouched (source_data data : odict column) : list string :=
  filter (λ k, od_mem k data = false) (od_keys source_data).

(** The test that decides between replacing and updating
    [source.data]. *)
Definition needs_replacement (source_data data : odict column) : bool :=
  match untouched source_data data, list_lengths source_data, list_lengths data with
  | _ :: _, current :: _, new :: _ => negb (bool_decide (current = new))
  | _, _, _ => false
  end.

(** [_update_datasource(source, data)]: the branch taken and the
    resulting [source.data]. *)
Definition _update_datasource (self : update_params) (source_data data : odict column)
    : update_kind * odict column :=
  let data := od_map decode_bytes data in
  if streaming_branch self data then
    match streaming self with
    | stream :: _ =>
        if _triggering stream then
          let data := od_map (col_tail (_chunk_length stream)) data in
          (Streamed, source_stream source_data data (length stream))
        else (Untouched, source_data)
    | [] => (Untouched, source_data)
    end
  else if needs_replacement source_data data then (Replaced, data)
  else (Merged, od_update source_data data).

(** *** sync_sources *)

(** A glyph renderer: whether it has a [data_source] property and a
    [view], and the sources these refer to. *)
Record renderer := Renderer {
  has_data_source : bool;
  has_view : bool;
  r_data_source : option nat;
  r_source : option nat;
  r_view_source : option nat;
}.

(** What [sync_sources] reads of a traversed plot: [shared_datasource],
    the identity of [current_frame.data] and whether it is a numpy array
    ([None] when there is no current frame), and the handles ['source'],
    ['cds'] and ['glyph_renderer'] (absent or [None] modelled alike). *)
Record plot := Plot {
  shared_datasource : bool;
  current_frame : option (nat * bool);
  h_source : option nat;
  h_cds : option nat;
  h_glyph_renderer : option renderer;
}.

Inductive event :=
| CallbackReset (plot : nat)
| FinalizeHooks (plot : nat)
| CallbackInitialize (plot : nat).

(** The objects [sync_sources] works on: the plots reached by
    [self.traverse], in traversal order (a plot is identified by its
    position), the store of [ColumnDataSource] objects with their
    [data], the two handles it sets on [self], and the calls made on
    callbacks and hooks. *)
Record world := World {
  plots : list plot;
  sources : gmap nat (odict column);
  shared_sources : list nat;
  source_cols : gmap nat (list string);
  events : list event;
}.

Definition filter_fn (x : plot) : bool :=
  shared_datasource x
  && match current_frame x with
     | Some (_, is_ndarray) => negb is_ndarray
     | None => false
     end
  && bool_decide (is_Some (h_source x)).

(** [id(x.current_frame.data)] *)
Definition data_id (x : plot) : nat :=
  match current_frame x with
  | Some (i, _) => i
  | None => 0
  end.

(** [self.traverse(get_sources, [filter_fn])]: the pairs of a data
    identity and a plot, for the plots passing the filter. *)
Definition data_sources (ps : list plot) : list (nat * nat) :=
  omap (λ ip, if filter_fn ip.2 then Some (data_id ip.2, ip.1) else None)
       (imap pair ps).

(** [sorted(l, key=lambda x: x[0])]: a stable sort. *)
Fixpoint insert_by_key (x : nat * nat) (l : list (nat * nat)) : list (nat * nat) :=
  match l with
  | [] => [x]
  | y :: l' => if decide (x.1 ≤ y.1) then x :: l else y :: insert_by_key x l'
  end.

Definition sorted_by_key (l : list (nat * nat)) : list (nat * nat) :=
  foldr insert_by_key [] l.

(** [itertools.groupby(l, lambda x: x[0])]: the runs of equal keys. *)
Fixpoint groupby (l : list (nat * nat)) : list (nat * list (nat * nat)) :=
  match l with
  | [] => []
  | x :: l' =>
      match groupby l' with
      | (k, g) :: gs => if decide (x.1 = k) then (k, x :: g) :: gs
                        else (x.1, [x]) :: (k, g) :: gs
      | [] => [(x.1, [x])]
      end
  end.

(** [plot.handles['source'].data] *)
Definition source_data_of (w : world) (i : nat) : odict column :=
  match plots w !! i with
  | Some x =>
      match h_source x with
      | Some n => default [] (sources w !! n)
      | None => []
      end
  | None => []
  end.

(** [plot.handles.get('glyph_renderer') is not None] *)
Definition has_renderer (w : world) (i : nat) : bool :=
  match plots w !! i with
  | Some x => bool_decide (is_Some (h_glyph_renderer x))
  | None => false
  end.

(** The renderer after [renderer.update(...)] and
    [renderer.view.update(source=new_source)]. *)
Definition renderer_update (new_source : nat) (r : renderer) : renderer :=
  {| has_data_source := has_data_source r; has_view := has_view r;
     r_data_source := if has_data_source r then Some new_source else r_data_source r;
     r_source := if has_data_source r then r_source r else Some new_source;
     r_view_source := if has_view r then Some new_source else r_view_source r |}.

(** The inner loop body, for a plot of a group that shares [new_source]:
    it returns whether the plot was appended to [plots]. *)
Definition share_source (new_source : nat) (x : plot) : plot :=
  match h_glyph_renderer x with
  | None => x
  | Some r =>
      {| shared_datasource := shared_datasource x;
         current_frame := current_frame x;
         h_source := Some new_source; h_cds := Some new_source;
         h_glyph_renderer := Some (renderer_update new_source r) |}
  end.

(** [source_data = {}; for _, plot in group:
     source_data.update(plot.handles['source'].data)] *)
Definition merged_data (w : world) (members : list nat) : odict column :=
  foldl (λ acc i, od_update acc (source_data_of w i)) [] members.

(** The plots after the inner loop over the members of a group. *)
Definition share_all (new_source : nat) (members : list nat) (ps : list plot)
    : list plot :=
  foldl (λ ps i, alter (share_source new_source) i ps) ps members.

(** The body of the loop over the groups. The second component is the
    local list [plots] of the method. *)
Definition sync_group (st : world * list nat) (group : nat * list (nat * nat))
    : world * list nat :=
  let '(w, synced) := st in
  let members := snd <$> group.2 in
  if decide (1 < List.length members) then
    let source_data := merged_data w members in
    let new_source := fresh (dom (sources w)) in
    ({| plots := share_all new_source members (plots w);
        sources := <[new_source := source_data]> (sources w);
        shared_sources := shared_sources w ++ [new_source];
        source_cols := <[new_source := od_keys source_data]> (source_cols w);
        events := events w ++ (CallbackReset <$> members) |},
     synced ++ filter (λ i, has_renderer w i = true) members)
  else st.

(** [sync_sources]: the handles ['shared_sources'] and ['source_cols']
    of [self] are overwritten at the end. *)
Definition sync_sources (w : world) : world :=
  let grouped_sources := groupby (sorted_by_key (data_sources (plots w))) in
  let '(w', synced) :=
    foldl sync_group
      ({| plots := plots w; sources := sources w; shared_sources := [];
          source_cols := ∅; events := events w |}, [])
      grouped_sources in
  {| plots := plots w'; sources := sources w';
     shared_sources := shared_sources w'; source_cols := source_cols w';
     events := events w'
               ++ mjoin ((λ i, [FinalizeHooks i; CallbackInitialize i]) <$> synced) |}.

(** *** Vocabulary for the properties of sync_sources *)

(** The plots that pass the filter and whose current frame data is the
    object [d], in traversal order. *)
Definition sharing (w : world) (d : nat) : list nat :=
  snd <$> filter (λ x, x.1 = d) (data_sources (plots w)).

(** Every ['source'] handle refers to a data source of the store. *)
Definition sources_wf (w : world) : Prop :=
  ∀ i x n, plots w !! i = Some x → h_source x = Some n → n ∈ dom (sources w).

End BokehPlot.
End BokehPlot.

(** ** CompositePlot *)

Module CompositePlot.
Section CompositePlot.
Context `{Upstream}.

(** A [Div] model: the title text lives in a mutable object that the
    plot's handles and the assembled model tree both refer to. *)
Record div := Div {
  div_width : Z;
  div_text : string;
}.

(** The values kept in [self.handles] of a composite plot. *)
Inductive handle :=
| HModel (m : bmodel)
| HGrid (g : list (list (option bmodel)))
| HList (l : list (option bmodel))
| HNone.

(** The mutable state of a composite plot with subplots addressed by
    [C]: its handles, the store of [Div] models, and the calls of
    [subplot.update_frame(key, ranges)] made so far, each with the
    address of the subplot that received it. *)
Record state (C : Type) := State {
  handles : gmap string handle;
  divs : gmap nat div;
  updates : list (C * framekey * ranges);
}.
Arguments State {C}.
Arguments handles {C}.
Arguments divs {C}.
Arguments updates {C}.

Definition set_handle {C} (k : string) (h : handle) (s : state C) : state C :=
  {| handles := <[k := h]> (handles s); divs := divs s; updates := updates s |}.

Definition set_div {C} (r : nat) (d : div) (s : state C) : state C :=
  {| handles := handles s; divs := <[r := d]> (divs s); updates := updates s |}.

Definition log_update {C} (c : C) (key : framekey) (rng : ranges)
    (s : state C) : state C :=
  {| handles := handles s; divs := divs s;
     updates := updates s ++ [(c, key, rng)] |}.

(** What [_get_title] reads of [self]: [show_title], [_format_title],
    the ['Title'] attributes of the renderer's theme (empty when the
    theme lookup raises [KeyError]), [_fontsize('title')['fontsize']],
    and the floating-point adjustment of an [em] size, kept abstract. *)
Record title_params := TitleParams {
  show_title : bool;
  _format_title : framekey → string;
  title_json : gmap string string;
  title_fontsize : string;
  em_plus_quarter : string → string;
}.

Definition dquote : string := String (Ascii.ascii_of_nat 34) EmptyString.

(** [self._title_template.format(...)] *)
Definition _title_template (color font fontstyle fontsize title : string) : string :=
  "<span style=" +:+ dquote +:+ "color:" +:+ color +:+
  ";font-family:" +:+ font +:+
  ";font-style:" +:+ fontstyle +:+ ";font-weight:" +:+ fontstyle +:+
  ";font-size:" +:+ fontsize +:+ dquote +:+ ">" +:+ title +:+ "</span>".

(** ['em' in fontsize] *)
Definition contains_em (fontsize : string) : bool :=
  bool_decide (is_Some (String.index 0 "em" fontsize)).

Definition title_tags (tp : title_params) (title : string) : string :=
  let color := default "None" (title_json tp !! "text_color") in
  let font := default "Arial" (title_json tp !! "text_font") in
  let fontstyle := default "bold" (title_json tp !! "text_font_style") in
  let fontsize := title_fontsize tp in
  let fontsize :=
    if decide (fontsize = "15pt") then
      let fontsize := default "15pt" (title_json tp !! "text_font_size") in
      if contains_em fontsize then em_plus_quarter tp fontsize else fontsize
    else fontsize in
  _title_template color font fontstyle fontsize title.

(** [CompositePlot._get_title]: [None] for an empty title, else the title
    div (the one under ['title'] in the handles when there is one, a new
    [Div(width=450)] otherwise) with its text set. *)
Definition _get_title {C} (tp : title_params) (key : framekey)
    : py (state C) (option nat) :=
  let title := if show_title tp then _format_title tp key else EmptyString in
  if decide (title = EmptyString) then mret None
  else
    s ← get_state;
    match handles s !! "title" with
    | Some (HModel (BDiv r)) =>
        modify (set_div r (Div (default 450%Z (div_width <$> divs s !! r))
                               (title_tags tp title))) ;;
        mret (Some r)
    | Some _ => raise (AttributeError "text")
    | None =>
        let r := fresh (dom (divs s)) in
        modify (set_div r (Div 450 (title_tags tp title))) ;;
        mret (Some r)
    end.

(** [self.handles[k]] evaluated for its value. *)
Definition get_handle {C} (k : string)
    : py (state C) handle :=
  s ← get_state;
  match handles s !! k with
  | Some h => mret h
  | None => raise (KeyError k)
  end.

(** [subplot.update_frame(key, ranges)] on the subplot addressed by [c]. *)
Definition subplot_update_frame {C} (c : C) (key : framekey) (rng : ranges)
    : py (state C) unit :=
  modify (log_update c key rng).

End CompositePlot.

Arguments State {_ C}.
Arguments handles {_ C}.
Arguments divs {_ C}.
Arguments updates {_ C}.
End CompositePlot.

(** ** GridPlot *)

Module GridPlot.
Section GridPlot.
Context `{Upstream}.

(** The parameters and inherited attributes of a [GridPlot] that the
    embedded methods read. *)
Record params := Params {
  axis_offset : Z;
  plot_size : Z;
  shared_xaxis : bool;
  shared_yaxis : bool;
  merge_tools : bool;
  toolbar : pyval;
  keys : list framekey;
  dynamic : bool;
  title : CompositePlot.title_params;
}.

(** The local state of [_create_subplots]: the [subplots] dictionary, the
    collapsed layout, the warnings emitted through [self.warning] and the
    constructor calls made so far, in order. *)
Record cs_state := CsState {
  cs_subplots : gmap coord (subplot ranges);
  cs_collapsed : layout_obj;
  cs_warnings : list string;
  cs_constructed : list (coord * subplot ranges);
}.

(** The state of a process that has built nothing yet. *)
Definition cs_init : cs_state :=
  {| cs_subplots := ∅; cs_collapsed := LayoutObj cGridSpace 0 (0, 0) ∅;
     cs_warnings := []; cs_constructed := [] |}.

Definition cs_warn (msg : string) (s : cs_state) : cs_state :=
  {| cs_subplots := cs_subplots s; cs_collapsed := cs_collapsed s;
     cs_warnings := cs_warnings s ++ [msg];
     cs_constructed := cs_constructed s |}.

(** [self.warning(msg)] *)
Definition warning (msg : string) : py cs_state unit := modify (cs_warn msg).

Definition not_found_warning (vtype : pyclass) : string :=
  "Bokeh plotting class for " +:+ class_name vtype +:+
  " type not found, object will not be rendered.".

(** [r = i % self.rows; c = i // self.rows] *)
Definition grid_position {St} (rows i : nat) : py St (nat * nat) :=
  if decide (rows = 0) then raise ZeroDivisionError
  else mret (i mod rows, i / rows).

(** The keyword arguments computed under [# Create axes]. *)
Definition axis_kwargs (self : params) (r c : nat) : gmap string pyval :=
  let offset := axis_offset self in
  let kwargs : gmap string pyval := ∅ in
  let kwargs :=
    if bool_decide (c = 0) && negb (bool_decide (r = 0))
    then <["width" := VInt (plot_size self + offset)]> (<["xaxis" := VNone]> kwargs)
    else kwargs in
  let kwargs :=
    if negb (bool_decide (c = 0)) && bool_decide (r = 0)
    then <["height" := VInt (plot_size self + offset)]> (<["yaxis" := VNone]> kwargs)
    else kwargs in
  let kwargs :=
    if bool_decide (c = 0) && bool_decide (r = 0)
    then <["height" := VInt (plot_size self + offset)]>
           (<["width" := VInt (plot_size self + offset)]> kwargs)
    else kwargs in
  let kwargs :=
    if negb (bool_decide (r = 0)) && negb (bool_decide (c = 0))
    then <["yaxis" := VNone]> (<["xaxis" := VNone]> kwargs)
    else kwargs in
  let kwargs :=
    if bool_decide (kwargs !! "width" = None) || negb (shared_yaxis self)
    then <["width" := VInt (plot_size self)]> kwargs else kwargs in
  let kwargs :=
    if bool_decide (kwargs !! "height" = None) || negb (shared_xaxis self)
    then <["height" := VInt (plot_size self)]> kwargs else kwargs in
  let kwargs :=
    if bool_decide (kwargs !! "border" = None)
    then <["border" := VInt 3]> kwargs else kwargs in
  let kwargs := <["show_legend" := VBool false]> kwargs in
  let kwargs :=
    if negb (shared_xaxis self) then <["xaxis" := VNone]> kwargs else kwargs in
  let kwargs :=
    if negb (shared_yaxis self) then <["yaxis" := VNone]> kwargs else kwargs in
  kwargs.

(** [dict(opts, **kwargs)]: the entries of [kwargs] win. *)
Definition dict_override (opts kwargs : gmap string pyval) : gmap string pyval :=
  kwargs ∪ opts.

(** A call [f(k1=..., k2=..., **d)] binds every keyword once: when [d]
    names one of [k1, k2, ...] again, the call raises [TypeError] before
    the body of [f] runs. *)
Definition keyword_clash (explicit : list string) (d : gmap string pyval) : bool :=
  bool_decide (Exists (λ k, is_Some (d !! k)) explicit).

(** The [TypeError] of such a call; its message, which also names the
    callable and the keyword, is abbreviated. *)
Definition multiple_values : exn :=
  TypeError "got multiple values for keyword argument".

(** The keywords that the constructor call of [_create_subplots] names
    itself, next to [**dict(opts, **kwargs)]. *)
Definition explicit_keywords : list string :=
  ["dimensions"; "show_title"; "subplot"; "renderer"; "ranges"; "uniform"; "keys"].

(** [type(view) in (Layout, NdLayout)]; [type(None)] is neither. *)
Definition is_nested_layout (v : option view) : bool :=
  match v with
  | Some v => bool_decide (view_class v = cLayout)
              || bool_decide (view_class v = cNdLayout)
  | None => false
  end.

(** [view.type if isinstance(view, HoloMap) else view.__class__] *)
Definition vtype_of (v : view) : pyclass :=
  if isinstance v cHoloMap then view_type v else view_class v.

(** [collapsed_layout[coord] = ...; subplots[coord] = subplot], after the
    constructor call that made [sp]. *)
Definition cs_add (coord : coord) (sp : subplot ranges) (s : cs_state) : cs_state :=
  {| cs_subplots := <[coord := sp]> (cs_subplots s);
     cs_collapsed :=
       layout_setitem coord
         (if pc_composite (sp_class sp) then subplot_layout sp
          else subplot_hmap sp)
         (cs_collapsed s);
     cs_warnings := cs_warnings s;
     cs_constructed := cs_constructed s ++ [(coord, sp)] |}.

Definition add_subplot (coord : coord) (sp : subplot ranges) : py cs_state unit :=
  modify (cs_add coord sp).

(** The subplot made by the constructor call
    [plotting_class(view, dimensions=self.dimensions, show_title=False,
                    subplot=True, renderer=self.renderer,
                    ranges=frame_ranges, uniform=self.uniform,
                    keys=self.keys, **dict(opts, **kwargs))]
    when the call binds its arguments, that is when [dict(opts, **kwargs)]
    names none of [explicit_keywords]; [create_subplot_at] raises
    otherwise. The arguments [dimensions], [renderer] and [uniform] are
    passed through from [self] and not recorded. *)
Definition construct_subplot (self : params) (plotting_class : plotclass)
    (v : view) (frame_ranges : list (framekey * ranges))
    (opts kwargs : gmap string pyval) : subplot ranges :=
  {| sp_class := plotting_class; sp_view := v;
     sp_ranges := frame_ranges; sp_keys := keys self;
     sp_params :=
       <["subplot" := VBool true]>
         (<["show_title" := VBool false]> (dict_override opts kwargs)) |}.

(** The body of the loop of [_create_subplots]. *)
Definition create_subplot_at (self : params) (rows : nat) (layout : layout_obj)
    (frame_ranges : list (framekey * ranges)) (i : nat) (k : pykey)
    : py cs_state unit :=
  '(r, c) ← grid_position rows i;
  let coord := wrap_tuple k in
  let view := lo_data layout !! coord in
  let vtype := vtype_of <$> view in
  let opts := lookup_options <$> view in
  if is_nested_layout view then raise (SkipRendering "Cannot plot nested Layouts.")
  else
    (* displayable(None) holds upstream, so None is never collated *)
    let view := (λ v, if displayable v then v else collate v) <$> view in
    let kwargs := axis_kwargs self r c in
    match vtype ≫= registry with
    | None =>
        match view, vtype with
        | Some _, Some t => warning (not_found_warning t)
        | _, _ => mret tt
        end
    | Some plotting_class =>
        match view, opts with
        | Some v, Some opts =>
            if keyword_clash explicit_keywords (dict_override opts kwargs)
            then raise multiple_values
            else
              add_subplot coord
                (construct_subplot self plotting_class v frame_ranges opts kwargs)
        | _, _ => mret tt
        end
    end.

(** The effect on the state of one iteration that reaches its end; the
    loop lemmas are stated with it. *)
Definition create_subplot_effect (self : params) (rows : nat) (layout : layout_obj)
    (frame_ranges : list (framekey * ranges)) (i : nat) (k : pykey)
    (s : cs_state) : cs_state :=
  match lo_data layout !! wrap_tuple k with
  | None => s
  | Some v =>
      match registry (vtype_of v) with
      | None => cs_warn (not_found_warning (vtype_of v)) s
      | Some plotting_class =>
          cs_add (wrap_tuple k)
            (construct_subplot self plotting_class
               (if displayable v then v else collate v) frame_ranges
               (lookup_options v) (axis_kwargs self (i mod rows) (i / rows)))
            s
      end
  end.

Fixpoint create_subplots_effect (self : params) (rows : nat) (layout : layout_obj)
    (frame_ranges : list (framekey * ranges)) (i0 : nat) (l : list pykey)
    (s : cs_state) : cs_state :=
  match l with
  | [] => s
  | k :: l' =>
      create_subplots_effect self rows layout frame_ranges (S i0) l'
        (create_subplot_effect self rows layout frame_ranges i0 k s)
  end.

(** [frame_ranges] as computed at the top of [_create_subplots]. *)
Definition frame_ranges_of (self : params) (layout : layout_obj)
    (rng : ranges_arg ranges) : list (framekey * ranges) :=
  let frame_ranges := compute_ranges layout None rng in
  let ks := if dynamic self then take 1 (keys self) else keys self in
  (λ key, (key, compute_ranges layout (Some key) (Ranges frame_ranges))) <$> ks.

(** [subplots = OrderedDict()] and
    [collapsed_layout = layout.clone(shared_data=False, id=layout.id)] *)
Definition cs_enter (layout : layout_obj) (s : cs_state) : cs_state :=
  {| cs_subplots := ∅; cs_collapsed := clone_empty layout;
     cs_warnings := cs_warnings s; cs_constructed := cs_constructed s |}.

Definition _create_subplots (self : params) (rows : nat) (layout : layout_obj)
    (rng : ranges_arg ranges) : py cs_state unit :=
  modify (cs_enter layout) ;;
  for_enumerate
    (create_subplot_at self rows layout (frame_ranges_of self layout rng))
    0 (keys_full_grid layout).

(** A constructed [GridPlot]. *)
Record t := GridPlotObj {
  self_params : params;
  cols : nat;
  rows : nat;
  subplots : gmap coord (subplot ranges);
  layout : layout_obj;
}.

(** [GridPlot.__init__], up to the assignment of [self.subplots] and
    [self.layout]; the state records what [_create_subplots] did. The
    call of the upstream [__init__] between the check and
    [_create_subplots] is taken to return normally. *)
Definition __init__ (self : params) (layout : layout_obj)
    (rng : ranges_arg ranges) : py cs_state t :=
  if negb (issubclass (lo_class layout) cGridSpace)
  then raise (PyException "GridPlot only accepts GridSpace.")
  else
    let '(cols, rows) := lo_shape layout in
    _create_subplots self rows layout rng ;;
    s ← get_state;
    mret {| self_params := self; cols := cols; rows := rows;
            subplots := cs_subplots s; layout := cs_collapsed s |}.

(** [plots[r][c]] *)
Definition get_cell (plots : list (list (option bmodel))) (r c : nat)
    : option (option bmodel) :=
  plots !! r ≫= λ row, row !! c.

(** [plots[r][c] = plot] on the list of rows built by
    [initialize_plot]; out of range it raises [IndexError]. The indices
    are never negative there. *)
Definition set_cell {St} (plots : list (list (option bmodel))) (r c : nat)
    (plot : bmodel) : py St (list (list (option bmodel))) :=
  match plots !! r with
  | None => raise IndexError
  | Some row =>
      if decide (c < length row)
      then mret (<[r := <[c := Some plot]> row]> plots)
      else raise IndexError
  end.

(** The body of the loop of [initialize_plot]; its state is the pair of
    the local variables [plots] and [passed_plots]. *)
Definition place_subplot_at (g : t) (rng : ranges) (i : nat) (k : pykey)
    : py (list (list (option bmodel)) * list (option bmodel)) unit :=
  '(r, c) ← grid_position (rows g) i;
  match subplots g !! wrap_tuple k with
  | Some subplot =>
      '(plots, passed_plots) ← get_state;
      let plot := subplot_initialize_plot subplot rng passed_plots in
      plots' ← set_cell plots r c plot;
      modify (λ _, (plots', passed_plots ++ [Some plot]))
  | None =>
      modify (λ '(plots, passed_plots), (plots, passed_plots ++ [None]))
  end.

(** [[[None for c in range(self.cols)] for r in range(self.rows)]] *)
Definition empty_grid (rows cols : nat) : list (list (option bmodel)) :=
  replicate rows (replicate cols None).

Definition place_subplots (g : t) (rng : ranges) (passed : list (option bmodel))
    : outcome (list (list (option bmodel)) * list (option bmodel)) unit :=
  for_enumerate (place_subplot_at g rng) 0 (keys_full_grid (layout g))
    (empty_grid (rows g) (cols g), passed).

(** [GridPlot.initialize_plot], up to the assignment of the ['plot'] and
    ['plots'] handles; it returns [self.handles['plot']]. The calls that
    follow ([_update_callbacks], [sync_sources], [init_links]) leave
    these handles as they are. *)
Definition initialize_plot (g : t) (plots : list (option bmodel))
    : py (CompositePlot.state coord) bmodel :=
  match last (keys (self_params g)) with
  | None => raise IndexError
  | Some key =>
      let rng := compute_ranges (layout g) (Some key) NoRanges in
      match place_subplots g rng plots with
      | Raises e _ => raise e
      | Returns _ (plots, _) =>
          let plot := BGrid (reverse plots) (toolbar (self_params g))
                        (merge_tools (self_params g)) in
          let plot := make_axes plot in
          title ← CompositePlot._get_title (title (self_params g)) key;
          plot ← match title with
                 | Some r =>
                     modify (CompositePlot.set_handle "title"
                               (CompositePlot.HModel (BDiv r))) ;;
                     mret (BColumn [BDiv r; plot])
                 | None => mret plot
                 end;
          modify (CompositePlot.set_handle "plot" (CompositePlot.HModel plot)) ;;
          modify (CompositePlot.set_handle "plots" (CompositePlot.HGrid plots)) ;;
          mret plot
      end
  end.

(** [GridPlot.update_frame], the method under the
    [update_shared_sources] decorator. *)
Definition update_frame (g : t) (key : framekey) (rng : ranges_arg ranges)
    : py (CompositePlot.state coord) unit :=
  let rng := compute_ranges (layout g) (Some key) rng in
  for_each
    (λ k, match subplots g !! wrap_tuple k with
          | Some _ => CompositePlot.subplot_update_frame (wrap_tuple k) key rng
          | None => mret tt
          end)
    (keys_full_grid (layout g)) ;;
  title ← CompositePlot._get_title (title (self_params g)) key;
  match title with
  | Some _ => CompositePlot.get_handle "title" ;; mret tt
  | None => mret tt
  end.

End GridPlot.
End GridPlot.

(** ** AdjointLayoutPlot *)

Module AdjointLayoutPlot.
Section AdjointLayoutPlot.
Context `{Upstream}.

Inductive layout_type := Single | Dual | Triple.

(** [layout_dict[layout_type]['positions']] *)
Definition positions (lt : layout_type) : list string :=
  match lt with
  | Single => ["main"]
  | Dual => ["main"; "right"]
  | Triple => ["main"; "right"; "top"]
  end.

(** An [AdjointLayoutPlot]; a position of [subplots] may hold [None]. *)
Record t := AdjointLayoutPlotObj {
  layout : adjoint_layout;
  type : layout_type;
  subplots : gmap string (option (subplot ranges));
}.

Definition view_positions (self : t) : list string := positions (type self).

(** The loop of [initialize_plot] over the positions, threading
    [adjoined_plots]. *)
Fixpoint adjoin_plots (self : t) (rng : ranges) (plots : list (option bmodel))
    (adjoined_plots : list bmodel) (ps : list string) : list bmodel :=
  match ps with
  | [] => adjoined_plots
  | pos :: ps' =>
      let plot :=
        match subplots self !! pos with
        | Some (Some subplot) =>
            let passed_plots := plots ++ (Some <$> adjoined_plots) in
            subplot_initialize_plot subplot rng passed_plots
        | _ => BEmptyPlot 0 0
        end in
      adjoin_plots self rng plots (adjoined_plots ++ [plot]) ps'
  end.

(** [AdjointLayoutPlot.initialize_plot(ranges, plots)] *)
Definition initialize_plot (self : t) (rng : ranges)
    (plots : option (list (option bmodel))) : list (option bmodel) :=
  let plots := default [] plots in
  let adjoined_plots := adjoin_plots self rng plots [] (view_positions self) in
  if decide (adjoined_plots = [] :> list bmodel) then [None]
  else Some <$> adjoined_plots.

End AdjointLayoutPlot.
End AdjointLayoutPlot.

(** ** LayoutPlot *)

Module LayoutPlot.
Section LayoutPlot.
Context `{Upstream}.

(** A [LayoutPlot] after [__init__]: its parameters, the attributes set
    by the upstream [GenericLayoutPlot] ([rows], [cols], [coords]) and
    the results of [_init_layout] ([layout], [subplots], [paths]). *)
Record t := LayoutPlotObj {
  shared_axes : bool;
  merge_tools : bool;
  tabs : bool;
  toolbar : pyval;
  keys : list framekey;
  title : CompositePlot.title_params;
  rows : nat;
  cols : nat;
  coords : list (nat * nat);
  layout : layout_obj;
  subplots : gmap (nat * nat) AdjointLayoutPlot.t;
  paths : gmap (nat * nat) (option (list string));
}.

(** *** _create_subplots *)

(** The local state of [_create_subplots]. *)
Record cs_state := CsState {
  cs_subplots : gmap string (option (subplot ranges));
  cs_clone : adjoint_layout;
  cs_main_plot : option (subplot ranges);
  cs_warnings : list string;
  cs_constructed : list (string * subplot ranges);
}.

Definition cs_enter (layout : adjoint_layout) (s : cs_state) : cs_state :=
  {| cs_subplots := ∅;
     cs_clone := {| al_id := al_id layout; al_data := ∅ |};
     cs_main_plot := None;
     cs_warnings := cs_warnings s; cs_constructed := cs_constructed s |}.

Definition cs_warn (msg : string) (s : cs_state) : cs_state :=
  {| cs_subplots := cs_subplots s; cs_clone := cs_clone s;
     cs_main_plot := cs_main_plot s;
     cs_warnings := cs_warnings s ++ [msg];
     cs_constructed := cs_constructed s |}.

(** [adjoint_clone[pos] = element; subplots[pos] = None] *)
Definition cs_add_empty (pos : string) (element : view) (s : cs_state) : cs_state :=
  {| cs_subplots := <[pos := None]> (cs_subplots s);
     cs_clone := {| al_id := al_id (cs_clone s);
                    al_data := <[pos := element]> (al_data (cs_clone s)) |};
     cs_main_plot := cs_main_plot s;
     cs_warnings := cs_warnings s; cs_constructed := cs_constructed s |}.

(** The assignments that follow the constructor call that made [sp]. *)
Definition cs_add (pos : string) (sp : subplot ranges) (s : cs_state) : cs_state :=
  {| cs_subplots := <[pos := Some sp]> (cs_subplots s);
     cs_clone :=
       {| al_id := al_id (cs_clone s);
          al_data := <[pos := if pc_composite (sp_class sp) then subplot_layout sp
                              else subplot_hmap sp]> (al_data (cs_clone s)) |};
     cs_main_plot := if decide (pos = "main") then Some sp else cs_main_plot s;
     cs_warnings := cs_warnings s;
     cs_constructed := cs_constructed s ++ [(pos, sp)] |}.

Definition not_found_warning (vtype : pyclass) : string :=
  "Bokeh plotting class for " +:+ class_name vtype +:+
  " type not found, object will " +:+ "not be rendered.".

(** An attribute of a plot instance: the constructor argument when one
    was given, the default of the class otherwise. *)
Definition plot_attr (sp : subplot ranges) (name : string) (dflt : pyval) : pyval :=
  default dflt (sp_params sp !! name).

(** ['bare' in axis] *)
Definition contains_bare {St} (axis : pyval) : py St bool :=
  match axis with
  | VStr a => mret (bool_decide (is_Some (String.index 0 "bare" a)))
  | _ => raise (TypeError "argument is not iterable")
  end.

(** [main_plot.attr], where [main_plot] may be [None]. *)
Definition main_attr {St} (main_plot : option (subplot ranges)) (name : string)
    (dflt : plotclass → pyval) : py St pyval :=
  match main_plot with
  | Some mp => mret (plot_attr mp name (dflt (sp_class mp)))
  | None => raise (AttributeError name)
  end.

(** The [side_opts] of a position other than ['main']. *)
Definition side_options (pos : string) (plot_type : option plotclass)
    (main_plot : option (subplot ranges)) : py cs_state (gmap string pyval) :=
  if decide (pos = "right") then
    bare ← match plot_type return py cs_state bool with
           | Some pt => contains_bare (pc_yaxis pt)
           | None => mret false
           end;
    let yaxis := if (bare : bool) then "right-bare" else "right" in
    let width := match plot_type with Some pt => pc_width pt | None => 0%Z end in
    height ← main_attr main_plot "height" (λ c, VInt (pc_height c));
    xaxis ← main_attr main_plot "xaxis" pc_xaxis;
    mret (<["height" := height]>
            (<["yaxis" := VStr yaxis]>
               (<["width" := VInt width]>
                  (<["invert_axes" := VBool true]>
                     (<["labelled" := VStrs ["y"]]>
                        (<["xticks" := VInt 1]>
                           (<["xaxis" := xaxis]> ∅)))))))
  else
    bare ← match plot_type return py cs_state bool with
           | Some pt => contains_bare (pc_xaxis pt)
           | None => mret false
           end;
    let xaxis := if (bare : bool) then "top-bare" else "top" in
    let height := match plot_type with Some pt => pc_height pt | None => 0%Z end in
    width ← main_attr main_plot "width" (λ c, VInt (pc_width c));
    yaxis ← main_attr main_plot "yaxis" pc_yaxis;
    mret (<["width" := width]>
            (<["xaxis" := VStr xaxis]>
               (<["height" := VInt height]>
                  (<["labelled" := VStrs ["x"]]>
                     (<["yticks" := VInt 1]>
                        (<["yaxis" := yaxis]> ∅)))))).

(** The keywords that the constructor call of [_create_subplots] names
    itself, next to [**dict({'shared_axes': self.shared_axes}, **plotopts)]. *)
Definition explicit_keywords : list string :=
  ["keys"; "dimensions"; "layout_dimensions"; "ranges"; "subplot"; "uniform";
   "layout_num"; "renderer"].

(** The subplot made by the constructor call
    [plot_type(element, keys=self.keys, dimensions=self.dimensions,
               layout_dimensions=layout_dimensions, ranges=ranges,
               subplot=True, uniform=self.uniform, layout_num=num,
               renderer=self.renderer,
               **dict({'shared_axes': self.shared_axes}, **plotopts))]
    when the call binds its arguments, that is when the dictionary names
    none of [explicit_keywords]; [create_subplot_for] raises otherwise.
    The arguments [dimensions], [layout_dimensions], [uniform] and
    [renderer] are passed through and not recorded. *)
Definition construct_subplot (self : t) (plot_type : plotclass) (element : view)
    (frame_ranges : list (framekey * ranges)) (num : nat)
    (plotopts : gmap string pyval) : subplot ranges :=
  {| sp_class := plot_type; sp_view := element;
     sp_ranges := frame_ranges; sp_keys := keys self;
     sp_params :=
       <["subplot" := VBool true]>
         (<["layout_num" := VInt (Z.of_nat num)]>
            (plotopts ∪ {["shared_axes" := VBool (shared_axes self)]})) |}.

(** The body of the loop of [_create_subplots]. *)
Definition create_subplot_for (self : t) (layout : adjoint_layout)
    (frame_ranges : list (framekey * ranges)) (num : nat) (pos : string)
    : py cs_state unit :=
  match al_data layout !! pos with
  | None => mret tt
  | Some element =>
      if negb (has_elements element) then mret tt
      else
        let element := if displayable element then element else collate element in
        s ← get_state;
        let main_plot := cs_main_plot s in
        let subplot_opts : gmap string pyval :=
          {["adjoined" := match main_plot with
                          | Some _ => VRef "main"
                          | None => VNone
                          end]} in
        let vtype := GridPlot.vtype_of element in
        let plot_type := registry vtype in
        let plotopts := lookup_options element in
        '(plot_type, side_opts) ←
          (if decide (pos = "main")
           then mret (plot_type, (∅ : gmap string pyval))
           else
             let plot_type :=
               match adjoint_registry vtype with
               | Some pt => Some pt
               | None => plot_type
               end in
             side_opts ← side_options pos plot_type main_plot;
             mret (plot_type, side_opts));
        let plotopts := plotopts ∪ side_opts in
        let plotopts := subplot_opts ∪ plotopts in
        if decide (vtype = cEmpty) then modify (cs_add_empty pos element)
        else
          match plot_type with
          | None => modify (cs_warn (not_found_warning vtype))
          | Some plot_type =>
              let num := if decide (1 < length (coords self)) then num else 0 in
              if GridPlot.keyword_clash explicit_keywords
                   (plotopts ∪ {["shared_axes" := VBool (shared_axes self)]})
              then raise GridPlot.multiple_values
              else
                modify (cs_add pos
                          (construct_subplot self plot_type element frame_ranges
                             num plotopts))
          end
  end.

(** [LayoutPlot._create_subplots(layout, positions, layout_dimensions,
    ranges, num)]; it leaves [subplots] and [adjoint_clone] in the
    state. The pass-through argument [layout_dimensions] is not
    recorded. *)
Definition _create_subplots (self : t) (layout : adjoint_layout)
    (positions : list string) (frame_ranges : list (framekey * ranges))
    (num : nat) : py cs_state unit :=
  modify (cs_enter layout) ;;
  for_each (create_subplot_for self layout frame_ranges num) positions.

(** *** initialize_plot *)

(** [len(subplot.layout)] *)
Definition layout_len (sp : AdjointLayoutPlot.t) : nat :=
  size (al_data (AdjointLayoutPlot.layout sp)).

(** [max(l)] *)
Definition py_max {St} (l : list nat) : py St nat :=
  match l with
  | [] => raise (ValueError "max() arg is an empty sequence")
  | x :: l' => mret (foldl Nat.max x l')
  end.

(** [_compute_grid]: the empty grid on which the adjoint layouts are
    situated when tabs are disabled. *)
Definition _compute_grid {St} (self : t) : py St (list (list (option bmodel))) :=
  let nsubplots r c :=
    match subplots self !! (r, c) with
    | None => 1
    | Some subplot => layout_len subplot
    end in
  widths ← mapM (λ c, py_max ((λ r, if decide (1 < nsubplots r c) then 2 else 1)
                                <$> seq 0 (rows self)))
             (seq 0 (cols self));
  heights ← mapM (λ r, py_max ((λ c, if decide (2 < nsubplots r c) then 2 else 1)
                                 <$> seq 0 (cols self)))
              (seq 0 (rows self));
  mret (replicate (sum_list heights) (replicate (sum_list widths) None)).

(** The local variables of [initialize_plot]. *)
Record locals := Locals {
  plot_grid : list (list (option bmodel));
  passed_plots : list (option bmodel);
  r_offset : nat;
  col_offsets : gmap nat nat;
  tab_plots : list (string * option bmodel);
}.

Definition set_plot_grid (g : list (list (option bmodel))) (s : locals) : locals :=
  {| plot_grid := g; passed_plots := passed_plots s; r_offset := r_offset s;
     col_offsets := col_offsets s; tab_plots := tab_plots s |}.

(** [plot_grid[i][j] = x] *)
Definition grid_setitem (i j : Z) (x : option bmodel) : py locals unit :=
  s ← get_state;
  row ← py_getitem (plot_grid s) i;
  row' ← py_setitem row j x;
  g ← py_setitem (plot_grid s) i row';
  modify (set_plot_grid g).

(** The tab made for the adjoint layout at [(r, c)]: its title and the
    arrangement of its plots. *)
Definition tab_of (self : t) (key : framekey) (r c : nat)
    (adjoint : AdjointLayoutPlot.t) (subplots : list (option bmodel))
    : py locals (string * option bmodel) :=
  main ← match AdjointLayoutPlot.subplots adjoint !! "main"
         return py locals (subplot ranges) with
         | None => raise (KeyError "main")
         | Some None => raise (AttributeError "_format_title")
         | Some (Some main) => mret main
         end;
  let title := subplot_format_title main key in
  title ← (if decide (title = EmptyString) then
             match paths self !! (r, c) return py locals string with
             | None => raise (KeyError "paths")
             | Some None => raise (TypeError "can only join an iterable")
             | Some (Some path) => mret (String.concat " " path)
             end
           else mret title);
  grid ← (if decide (length subplots = 1) then py_getitem subplots 0
          else if decide (length subplots = 2) then
            mret (Some (BGrid [subplots] (toolbar self) (merge_tools self)))
          else
            top ← py_getitem subplots 2;
            mret (Some (BGrid [[top; None]; take 2 subplots]
                          (toolbar self) (merge_tools self))));
  mret (title, grid).

(** The body of the inner loop of [initialize_plot], for column [c] of
    row [r]. *)
Definition situate (self : t) (rng : ranges) (key : framekey) (r c : nat)
    : py locals unit :=
  let adjoint := subplots self !! (r, c) in
  let col_padded :=
    bool_decide (Exists (λ ksp, ksp.1.2 = c ∧ 1 < layout_len ksp.2)
                   (map_to_list (subplots self))) in
  (if col_padded
   then modify (λ s, {| plot_grid := plot_grid s; passed_plots := passed_plots s;
                        r_offset := r_offset s;
                        col_offsets :=
                          <[r := S (default 0 (col_offsets s !! r))]> (col_offsets s);
                        tab_plots := tab_plots s |})
   else mret tt) ;;
  s ← get_state;
  let c_offset := default 0 (col_offsets s !! r) in
  match adjoint with
  | None => mret tt
  | Some adjoint =>
      let shared_plots := if shared_axes self then Some (passed_plots s) else None in
      let subplots := AdjointLayoutPlot.initialize_plot adjoint rng shared_plots in
      let nsubplots := length subplots in
      if tabs self then
        tab ← tab_of self key r c adjoint subplots;
        modify (λ s, {| plot_grid := plot_grid s; passed_plots := passed_plots s;
                        r_offset := r_offset s; col_offsets := col_offsets s;
                        tab_plots := tab_plots s ++ [tab] |})
      else
        let row := (Z.of_nat r + Z.of_nat (r_offset s))%Z in
        let col := (Z.of_nat c + Z.of_nat c_offset)%Z in
        (if decide (2 < nsubplots) then
           top ← py_getitem subplots 2;
           grid_setitem (row - 1) (col - 1) top
         else mret tt) ;;
        (if decide (1 < nsubplots) then
           p0 ← py_getitem subplots 0;
           p1 ← py_getitem subplots 1;
           grid_setitem row (col - 1) p0 ;;
           grid_setitem row col p1
         else
           p0 ← py_getitem subplots 0;
           grid_setitem row (col - (if col_padded then 1 else 0)) p0) ;;
        p0 ← py_getitem subplots 0;
        modify (λ s, {| plot_grid := plot_grid s;
                        passed_plots := passed_plots s ++ [p0];
                        r_offset := r_offset s; col_offsets := col_offsets s;
                        tab_plots := tab_plots s |})
  end.

(** The body of the outer loop, for row [r]. *)
Definition situate_row (self : t) (rng : ranges) (key : framekey) (r : nat)
    : py locals unit :=
  let row_padded :=
    bool_decide (Exists (λ ksp, ksp.1.1 = r ∧ 2 < layout_len ksp.2)
                   (map_to_list (subplots self))) in
  (if row_padded
   then modify (λ s, {| plot_grid := plot_grid s; passed_plots := passed_plots s;
                        r_offset := S (r_offset s); col_offsets := col_offsets s;
                        tab_plots := tab_plots s |})
   else mret tt) ;;
  for_each (situate self rng key r) (seq 0 (cols self)).

(** [LayoutPlot.initialize_plot], up to the assignment of the ['plot']
    and ['plots'] handles; it returns [self.handles['plot']]. When a list
    is passed as [plots], [passed_plots] is that same list, so the
    ['plots'] handle sees what the loop appended to it. *)
Definition initialize_plot (self : t) (plots : option (list (option bmodel)))
    : py (CompositePlot.state (nat * nat)) bmodel :=
  match last (keys self) with
  | None => raise IndexError
  | Some key =>
      let rng := compute_ranges (layout self) (Some key) NoRanges in
      grid ← _compute_grid self;
      match for_each (situate_row self rng key) (seq 0 (rows self))
              {| plot_grid := grid; passed_plots := default [] plots;
                 r_offset := 0; col_offsets := ∅; tab_plots := [] |} with
      | Raises e _ => raise e
      | Returns _ loc =>
          let '(plots, layout_plot) :=
            if tabs self then
              (CompositePlot.HList (filter_toolboxes_list (snd <$> tab_plots loc)),
               BTabs (tab_plots loc))
            else
              (match plots with
               | Some _ => CompositePlot.HList (passed_plots loc)
               | None => CompositePlot.HNone
               end,
               BGrid (pad_plots (filter_toolboxes (layout_padding (plot_grid loc))))
                 (toolbar self) (merge_tools self)) in
          title ← CompositePlot._get_title (title self) key;
          layout_plot ← match title with
                        | Some r =>
                            modify (CompositePlot.set_handle "title"
                                      (CompositePlot.HModel (BDiv r))) ;;
                            mret (BColumn [BDiv r; layout_plot])
                        | None => mret layout_plot
                        end;
          modify (CompositePlot.set_handle "plot" (CompositePlot.HModel layout_plot)) ;;
          modify (CompositePlot.set_handle "plots" plots) ;;
          mret layout_plot
      end
  end.

(** *** update_frame *)

(** [LayoutPlot.update_frame], the method under the
    [update_shared_sources] decorator. *)
Definition update_frame (self : t) (key : framekey) (rng : ranges_arg ranges)
    : py (CompositePlot.state (nat * nat)) unit :=
  let rng := compute_ranges (layout self) (Some key) rng in
  for_each
    (λ rc, match subplots self !! rc with
           | Some _ => CompositePlot.subplot_update_frame rc key rng
           | None => mret tt
           end)
    (coords self) ;;
  title ← CompositePlot._get_title (title self) key;
  match title with
  | Some r => modify (CompositePlot.set_handle "title" (CompositePlot.HModel (BDiv r)))
  | None => mret tt
  end.

(** *** The tabs that initialize_plot is expected to make *)

(** The coordinates in the order of the two nested loops,
    [for r in range(rows): for c in range(cols)]. *)
Definition row_major (rows cols : nat) : list (nat * nat) :=
  r ← seq 0 rows; (λ c, (r, c)) <$> seq 0 cols.

(** The child of the tab of an adjoint layout rendered as [subplots]:
    the plot itself, a one-row grid of two plots, or the two-row grid
    with the top plot above the main plot. *)
Definition tab_child (self : t) (subplots : list (option bmodel)) : option bmodel :=
  match subplots with
  | [] => None
  | [p] => p
  | [_; _] => Some (BGrid [subplots] (toolbar self) (merge_tools self))
  | p0 :: p1 :: top :: _ =>
      Some (BGrid [[top; None]; [p0; p1]] (toolbar self) (merge_tools self))
  end.

End LayoutPlot.
End LayoutPlot.

(** ** A concrete backend and concrete plots *)

(** A small backend on which the methods can be run: [Curve] and
    [Histogram] elements have plotting classes, [Spikes] only has one for
    the side positions of an adjoint layout, and grids are keyed by pairs
    of integers. Curves come with axis options and histograms with the
    plot option [show_title]. *)
Module Demo.

Definition CurvePlot : plotclass :=
  PlotClass "CurvePlot" false 300 300 (VStr "bottom") (VStr "left").
Definition HistogramPlot : plotclass :=
  PlotClass "HistogramPlot" false 300 300 (VStr "bottom") (VStr "left").
Definition SideHistogramPlot : plotclass :=
  PlotClass "SideHistogramPlot" false 125 125 (VStr "bottom") (VStr "left").
Definition SideSpikesPlot : plotclass :=
  PlotClass "SideSpikesPlot" false 50 50 (VStr "bare") (VStr "bare").

Definition store_registry (c : pyclass) : option plotclass :=
  match c with
  | cElement n =>
      if decide (n = "Curve") then Some CurvePlot
      else if decide (n = "Histogram") then Some HistogramPlot
      else None
  | _ => None
  end.

Definition side_registry (c : pyclass) : option plotclass :=
  match c with
  | cElement n =>
      if decide (n = "Histogram") then Some SideHistogramPlot
      else if decide (n = "Spikes") then Some SideSpikesPlot
      else None
  | _ => None
  end.

(** The full grid of a two-dimensional GridSpace: the product of the
    sorted values of its two key dimensions. *)
Definition full_grid (l : layout_obj) : list pykey :=
  let ks := (map_to_list (lo_data l)).*1 in
  let dim1 := merge_sort Z.le (remove_dups (omap (λ k, k !! 0) ks)) in
  let dim2 := merge_sort Z.le (remove_dups (omap (λ k, k !! 1) ks)) in
  d1 ← dim1; (λ d2, KTuple [d1; d2]) <$> dim2.

Definition upstream : Upstream :=
  {| ranges := nat;
     compute_ranges := λ _ key _, match key with Some (k :: _) => Z.to_nat k | _ => 0 end;
     lookup_options := λ v,
       if decide (view_class v = cElement "Curve")
       then {["xaxis" := VStr "bottom"; "yaxis" := VStr "left"]}
       else if decide (view_class v = cElement "Histogram")
       then {["show_title" := VBool true]}
       else ∅;
     displayable := λ _, true;
     collate := λ v, v;
     registry := store_registry;
     adjoint_registry := side_registry;
     keys_full_grid := full_grid;
     subplot_hmap := sp_view;
     subplot_layout := sp_view;
     subplot_initialize_plot := λ sp _ _, BFigure (view_id (sp_view sp));
     subplot_format_title := λ sp _,
       if decide (view_class (sp_view sp) = cElement "Curve") then "Curve"
       else EmptyString;
     has_elements := λ _, true;
     make_axes := λ m, m;
     layout_padding := λ g, g;
     filter_toolboxes := λ g, g;
     filter_toolboxes_list := λ l, l;
     pad_plots := λ g, g;
     decode_bytes := λ c, c;
     source_stream := λ d new _, od_update d new |}.

Definition curve (n : nat) : view := View (cElement "Curve") (cElement "Curve") n.
Definition histogram (n : nat) : view :=
  View (cElement "Histogram") (cElement "Histogram") n.
Definition spikes (n : nat) : view := View (cElement "Spikes") (cElement "Spikes") n.
Definition image (n : nat) : view := View (cElement "Image") (cElement "Image") n.
Definition empty (n : nat) : view := View cEmpty cEmpty n.
Definition nested (n : nat) : view := View cLayout cLayout n.

Definition titled (t : string) : CompositePlot.title_params :=
  {| CompositePlot.show_title := true;
     CompositePlot._format_title := λ _, t;
     CompositePlot.title_json := ∅;
     CompositePlot.title_fontsize := "16pt";
     CompositePlot.em_plus_quarter := λ x, x |}.

(** A 2 x 2 GridSpace of curves, and the parameters of its plot. *)
Definition grid : layout_obj :=
  LayoutObj cGridSpace 1 (2, 2)
    (list_to_map [([0; 0], curve 0); ([0; 1], curve 1);
                  ([1; 0], curve 2); ([1; 1], curve 3)]%Z).

Definition grid_params : GridPlot.params :=
  {| GridPlot.axis_offset := 50; GridPlot.plot_size := 120;
     GridPlot.shared_xaxis := true; GridPlot.shared_yaxis := true;
     GridPlot.merge_tools := true; GridPlot.toolbar := VStr "above";
     GridPlot.keys := [[0%Z]]; GridPlot.dynamic := false;
     GridPlot.title := titled "Grid" |}.

End Demo.

(** ** Vocabulary of the properties *)

Section Vocabulary.
Context `{Upstream}.
Implicit Types (self : GridPlot.params) (layout : layout_obj) (k : pykey)
  (plots : list (list (option bmodel))) (lp : LayoutPlot.t)
  (adj : AdjointLayoutPlot.t) (w : BokehPlot.world) (ms : list nat)
  (x y : nat * nat).

(** A view whose exact type is [Layout] or [NdLayout]. *)
Definition nested_at layout k : Prop :=
  ∃ v, lo_data layout !! wrap_tuple k = Some v
       ∧ (view_class v = cLayout ∨ view_class v = cNdLayout).

(** The element at the coordinate of [k] has a plotting class and its
    plot options name one of the keywords that the constructor call of
    [GridPlot._create_subplots] gives itself. *)
Definition clashes layout k : bool :=
  match lo_data layout !! wrap_tuple k with
  | Some v =>
      bool_decide (is_Some (registry (GridPlot.vtype_of v)))
      && GridPlot.keyword_clash GridPlot.explicit_keywords (lookup_options v)
  | None => false
  end.

(** [k] is the first key of the full grid that holds a nested layout,
    and [pre] are the keys before it. *)
Definition first_nested layout (pre : list pykey) k : Prop :=
  (∃ post, keys_full_grid layout = pre ++ k :: post)
  ∧ nested_at layout k
  ∧ ∀ k', k' ∈ pre → ¬ nested_at layout k'.

(** [plots] has [rows] rows of [cols] cells. *)
Definition grid_shape plots (rows cols : nat) : Prop :=
  length plots = rows ∧ ∀ row, row ∈ plots → length row = cols.

(** The state after the calls [us] of [subplot.update_frame]. *)
Definition with_updates {C} (us : list (C * framekey * ranges))
    (st : CompositePlot.state C) : CompositePlot.state C :=
  {| CompositePlot.handles := CompositePlot.handles st;
     CompositePlot.divs := CompositePlot.divs st;
     CompositePlot.updates := CompositePlot.updates st ++ us |}.

(** The title of [key] is not empty. *)
Definition has_title (tp : CompositePlot.title_params) (key : framekey) : Prop :=
  CompositePlot.show_title tp = true
  ∧ CompositePlot._format_title tp key ≠ EmptyString.

(** The title of the tab at [(r, c)] for a main subplot [main]. *)
Definition tab_title lp key (rc : nat * nat) (main : subplot ranges) : string :=
  let title := subplot_format_title main key in
  if decide (title = EmptyString) then
    match LayoutPlot.paths lp !! rc with
    | Some (Some path) => String.concat " " path
    | _ => EmptyString
    end
  else title.

(** The tab of the adjoint layout at [rc], if there is one. *)
Definition tab_at lp key rng (passed : list (option bmodel)) (rc : nat * nat)
    : option (string * option bmodel) :=
  match LayoutPlot.subplots lp !! rc with
  | Some adj =>
      match AdjointLayoutPlot.subplots adj !! "main" with
      | Some (Some main) =>
          Some (tab_title lp key rc main,
                LayoutPlot.tab_child lp
                  (AdjointLayoutPlot.initialize_plot adj rng
                     (if LayoutPlot.shared_axes lp then Some passed else None)))
      | _ => None
      end
  | None => None
  end.

(** The adjoint layout at [rc], when there is one, has a main subplot,
    and a path to stand for an empty title. *)
Definition tab_ready lp key (rc : nat * nat) : Prop :=
  ∀ adj, LayoutPlot.subplots lp !! rc = Some adj →
    ∃ main, AdjointLayoutPlot.subplots adj !! "main" = Some (Some main)
      ∧ (subplot_format_title main key = EmptyString →
         ∃ path, LayoutPlot.paths lp !! rc = Some (Some path)).

(** The tab at a coordinate shows the adjoint layout found there, under
    the formatted title of its main subplot or, when that is empty, the
    joined path of the coordinate. *)
Definition is_tab_of lp key rng (passed : list (option bmodel))
    (rc : nat * nat) (tab : string * option bmodel) : Prop :=
  ∃ adj main,
    LayoutPlot.subplots lp !! rc = Some adj
    ∧ AdjointLayoutPlot.subplots adj !! "main" = Some (Some main)
    ∧ (let title := subplot_format_title main key in
       (title ≠ EmptyString ∧ tab.1 = title)
       ∨ (title = EmptyString
          ∧ ∃ path, LayoutPlot.paths lp !! rc = Some (Some path)
                    ∧ tab.1 = String.concat " " path))
    ∧ tab.2 = LayoutPlot.tab_child lp
                (AdjointLayoutPlot.initialize_plot adj rng
                   (if LayoutPlot.shared_axes lp then Some passed else None)).

(** The plot type that [LayoutPlot._create_subplots] resolves for an
    element of type [vtype] at position [pos]: the entry of the backend
    registry at ['main'], and elsewhere the entry of
    [AdjointLayoutPlot.registry] if there is one, else the backend's. *)
Definition resolved_plot_type (pos : string) (vtype : pyclass) : option plotclass :=
  if decide (pos = "main") then registry vtype
  else match adjoint_registry vtype with
       | Some pt => Some pt
       | None => registry vtype
       end.

(** The order in which [sorted] puts two entries of [data_sources]. *)
Definition key_le x y : Prop := x.1 ≤ y.1.

(** The groups that [sync_sources] iterates over. *)
Definition grouped_sources w : list (nat * list (nat * nat)) :=
  BokehPlot.groupby (BokehPlot.sorted_by_key (BokehPlot.data_sources (BokehPlot.plots w))).

(** The plots of a group. *)
Definition members (group : nat * list (nat * nat)) : list nat := group.2.*2.

(** The state after the body of the loop, for a group of two or more
    plots. *)
Definition synced_world w ms : BokehPlot.world :=
  let n := fresh (dom (BokehPlot.sources w)) in
  {| BokehPlot.plots := BokehPlot.share_all n ms (BokehPlot.plots w);
     BokehPlot.sources := <[n := BokehPlot.merged_data w ms]> (BokehPlot.sources w);
     BokehPlot.shared_sources := BokehPlot.shared_sources w ++ [n];
     BokehPlot.source_cols :=
       <[n := od_keys (BokehPlot.merged_data w ms)]> (BokehPlot.source_cols w);
     BokehPlot.events := BokehPlot.events w ++ (BokehPlot.CallbackReset <$> ms) |}.

End Vocabulary.

(** ** Concrete plots *)

Section ConcretePlots.
Local Existing Instance Demo.upstream.

(** A grid whose second cell holds a nested layout. *)
Definition nested_grid : layout_obj :=
  LayoutObj cGridSpace 2 (1, 2)
    (list_to_map [([0; 0], Demo.curve 0); ([0; 1], Demo.nested 1)]%Z).

(** A GridSpace of one row and two columns: an image, for which the
    backend has no plotting class, and a curve. *)
Definition image_curve_grid : layout_obj :=
  LayoutObj cGridSpace 9 (2, 1)
    (list_to_map [([0; 0], Demo.image 0); ([1; 0], Demo.curve 1)]%Z).

(** A GridSpace of a curve and a histogram, whose plot options name
    [show_title]. *)
Definition histogram_grid : layout_obj :=
  LayoutObj cGridSpace 11 (2, 1)
    (list_to_map [([0; 0], Demo.curve 0); ([1; 0], Demo.histogram 1)]%Z).

(** Three plots: the first two draw from the same data object, and the
    second has no glyph renderer. *)
Definition shared_world : BokehPlot.world :=
  {| BokehPlot.plots :=
       [BokehPlot.Plot true (Some (5, false)) (Some 0) (Some 0)
          (Some (BokehPlot.Renderer true true (Some 0) None (Some 0)));
        BokehPlot.Plot true (Some (5, false)) (Some 1) (Some 1) None;
        BokehPlot.Plot true (Some (9, false)) (Some 1) (Some 1)
          (Some (BokehPlot.Renderer false false None (Some 1) None))];
     BokehPlot.sources :=
       {[0 := [("x", ColList [VInt 1; VInt 2])];
         1 := [("y", ColList [VInt 3; VInt 4])]]};
     BokehPlot.shared_sources := [];
     BokehPlot.source_cols := ∅;
     BokehPlot.events := [] |}.

Definition curve_subplot (n : nat) : subplot ranges :=
  Subplot Demo.CurvePlot (Demo.curve n) [] [[0%Z]] ∅.

Definition histogram_subplot (n : nat) : subplot ranges :=
  Subplot Demo.HistogramPlot (Demo.histogram n) [] [[0%Z]] ∅.

(** A grid plot with a single subplot, at the first coordinate. *)
Definition sparse_grid_plot : GridPlot.t :=
  GridPlot.GridPlotObj Demo.grid_params 2 2 {[ [0; 0]%Z := curve_subplot 0 ]} Demo.grid.

Definition single (sp : subplot ranges) : AdjointLayoutPlot.t :=
  AdjointLayoutPlot.AdjointLayoutPlotObj
    (AdjointLayoutObj 0 {[ "main" := sp_view sp ]}) AdjointLayoutPlot.Single
    {[ "main" := Some sp ]}.

(** A layout plot of one row: a curve and a histogram. *)
Definition row_layout_plot (tabs : bool) : LayoutPlot.t :=
  {| LayoutPlot.shared_axes := true; LayoutPlot.merge_tools := true;
     LayoutPlot.tabs := tabs; LayoutPlot.toolbar := VStr "above";
     LayoutPlot.keys := [[0%Z]]; LayoutPlot.title := Demo.titled "Layout";
     LayoutPlot.rows := 1; LayoutPlot.cols := 2;
     LayoutPlot.coords := [(0, 0); (0, 1)];
     LayoutPlot.layout := LayoutObj cLayout 3 (1, 2) ∅;
     LayoutPlot.subplots :=
       {[ (0, 0) := single (curve_subplot 0); (0, 1) := single (histogram_subplot 1) ]};
     LayoutPlot.paths :=
       {[ (0, 0) := Some ["Curve"; "I"]; (0, 1) := Some ["Histogram"; "I"] ]} |}.

(** A grid and an adjoint layout that hold an [Image], for which the
    backend has no plotting class. *)
Definition image_grid : layout_obj :=
  LayoutObj cGridSpace 4 (1, 1) {[ [0; 0]%Z := Demo.image 0 ]}.

Definition image_adjoint : adjoint_layout :=
  AdjointLayoutObj 5 {[ "main" := Demo.image 0 ]}.

(** An adjoint layout of a curve with spikes to its right and an [Empty]
    on top. *)
Definition spikes_adjoint : adjoint_layout :=
  AdjointLayoutObj 6
    {[ "main" := Demo.curve 0; "right" := Demo.spikes 1; "top" := Demo.empty 2 ]}.

End ConcretePlots.

(** ** BokehPlot.push *)

Module Push.

(** A call of [comm.send]: with a string, or with [buffers=[payload]]. *)
Inductive sent :=
| SendData (data : string)
| SendBuffers (buffers : list string).

Section Push.
(** The header of a binary buffer and [json.dumps] on it. *)
Variable header : Type.
Variable json_dumps : header → string.

(** The message returned by [self.renderer.diff(self, binary=True)]. *)
Record message := Message {
  header_json : string;
  metadata_json : string;
  content_json : string;
  buffers : list (header * string);
}.

(** What [push] reads of [self]: [renderer.mode], whether [comm] is
    set, and the message of the renderer ([None] when nothing
    changed). *)
Record t := PushSelf {
  mode : string;
  has_comm : bool;
  diff : option message;
}.

(** [self.comm.send(...)]; the state is the list of what the comm was
    sent. *)
Definition send (x : sent) : py (list sent) unit := modify (λ log, log ++ [x]).

Definition push (self : t) : py (list sent) unit :=
  if decide (mode self = "server") then mret tt
  else if negb (has_comm self)
  then raise (PyException "Renderer does not have a comm.")
  else
    match diff self with
    | None => mret tt
    | Some msg =>
        send (SendData (header_json msg)) ;;
        send (SendData (metadata_json msg)) ;;
        send (SendData (content_json msg)) ;;
        for_each (λ hp, send (SendData (json_dumps hp.1)) ;;
                        send (SendBuffers [hp.2]))
          (buffers msg)
    end.

(** What a message amounts to on the wire. *)
Definition wire (msg : message) : list sent :=
  [SendData (header_json msg); SendData (metadata_json msg);
   SendData (content_json msg)]
  ++ (buffers msg ≫= λ hp, [SendData (json_dumps hp.1); SendBuffers [hp.2]]).

End Push.

Arguments Message {header}.
Arguments header_json {header}.
Arguments metadata_json {header}.
Arguments content_json {header}.
Arguments buffers {header}.
Arguments PushSelf {header}.
Arguments mode {header}.
Arguments has_comm {header}.
Arguments diff {header}.
Arguments push {header}.
Arguments wire {header}.
End Push.

(** ** The document property of BokehPlot *)

Module Document.

(** A plot as the [document] setter sees it: its [_document] and its
    [subplots], which is [None] or a dictionary whose values, plots or
    [None], are listed in iteration order. *)
#[local] Unset Elimination Schemes.
Inductive plot :=
| Plot (_document : option nat) (subplots : option (list (option plot))).
#[local] Set Elimination Schemes.

(** The getter. *)
Definition document (p : plot) : option nat :=
  match p with Plot d _ => d end.

Definition subplots (p : plot) : option (list (option plot)) :=
  match p with Plot _ subs => subs end.

(** The setter, [plot.document = doc]; on the subplots it runs itself. *)
Fixpoint set_document (doc : option nat) (p : plot) : plot :=
  match p with
  | Plot _ subs =>
      Plot doc
        (match subs with
         | Some l =>
             Some (List.map (λ o, match o with
                                  | Some q => Some (set_document doc q)
                                  | None => None
                                  end) l)
         | None => None
         end)
  end.

(** The plot and the plots below it. *)
Fixpoint plots_of (p : plot) : list plot :=
  p :: match subplots p with
       | Some l => List.flat_map (λ o, match o with
                                       | Some q => plots_of q
                                       | None => []
                                       end) l
       | None => []
       end.

(** Induction on a plot with the property assumed of its subplots. *)
Fixpoint plot_ind (P : plot → Prop)
    (leaf : ∀ d, P (Plot d None))
    (node : ∀ d l, Forall (λ o, match o with Some q => P q | None => True end) l →
                   P (Plot d (Some l)))
    (p : plot) {struct p} : P p :=
  match p with
  | Plot d None => leaf d
  | Plot d (Some l) =>
      node d l
        ((fix go (l : list (option plot))
            : Forall (λ o, match o with Some q => P q | None => True end) l :=
            match l with
            | [] => @List.Forall_nil _ _
            | o :: l' =>
                @List.Forall_cons _ _ o l'
                  (match o return match o with Some q => P q | None => True end with
                   | Some q => plot_ind P leaf node q
                   | None => I
                   end)
                  (go l')
            end) l)
  end.

End Document.

(** ** AdjointLayoutPlot.update_frame *)

Module AdjointFrames.
Section AdjointFrames.
Context `{Upstream}.

(** [AdjointLayoutPlot.update_frame(key, ranges)], with the subplots
    addressed by their position. It returns [None]. *)
Definition update_frame (self : AdjointLayoutPlot.t) (key : framekey) (rng : ranges)
    : py (CompositePlot.state string) unit :=
  for_each
    (λ pos, match AdjointLayoutPlot.subplots self !! pos with
            | Some (Some _) => CompositePlot.subplot_update_frame pos key rng
            | _ => mret tt
            end)
    ["main"; "right"; "top"].

End AdjointFrames.
End AdjointFrames.

(** ** GridPlot._make_axes *)

Module GridAxes.
Section GridAxes.
Context `{Upstream}.

(** [make_axis(dim, size, factors, kdim, flip=flip, ...)] of
    [bokeh.util], of which the dimension, the factors and [flip] are
    recorded; [unique_iterator] of [core.util]; [filter_toolboxes] on a
    single plot; and the [toolbar_location] and [merge_tools] that
    [gridplot] takes by default. *)
Variable make_axis : string → list Z → bool → bmodel.
Variable unique_iterator : list Z → list Z.
Variable filter_toolboxes_plot : bmodel → bmodel.
Variable gridplot_toolbar : pyval.
Variable gridplot_merge : bool.

(** What [_make_axes] reads of [self] beside the grid plot: the truth
    values of [self.xaxis] and [self.yaxis], and [self.layout.ndims]. *)
Record t := GridAxesSelf {
  grid : GridPlot.t;
  xaxis : bool;
  yaxis : bool;
  ndims : nat;
}.

(** [wrap_tuple(k)[0]] and [k[1]] *)
Definition first_of {St} (k : pykey) : py St Z :=
  match wrap_tuple k with
  | a :: _ => mret a
  | [] => raise IndexError
  end.

Definition second_of {St} (k : pykey) : py St Z :=
  match k with
  | KScalar _ => raise (TypeError "object is not subscriptable")
  | KTuple t =>
      match t !! 1 with
      | Some b => mret b
      | None => raise IndexError
      end
  end.

Definition _make_axes {St} (self : t) (plot : bmodel) : py St bmodel :=
  let params := GridPlot.self_params (grid self) in
  let keys := keys_full_grid (GridPlot.layout (grid self)) in
  x_axis ← (if xaxis self return py St (option bmodel) then
              xfactors ← mapM first_of keys;
              mret (Some (make_axis "x" (unique_iterator xfactors)
                            (GridPlot.shared_xaxis params)))
            else mret None);
  y_axis ← (if yaxis self && bool_decide (1 < ndims self)
            return py St (option bmodel) then
              yfactors ← mapM second_of keys;
              mret (Some (make_axis "y" (unique_iterator yfactors)
                            (GridPlot.shared_yaxis params)))
            else mret None);
  mret (match x_axis, y_axis with
        | Some x_axis, Some y_axis =>
            let plot := filter_toolboxes_plot plot in
            let r1 := [Some y_axis; Some plot] in
            let r2 := [None; Some x_axis] in
            let '(r1, r2) :=
              if GridPlot.shared_xaxis params then (r2, r1) else (r1, r2) in
            let '(r1, r2) :=
              if GridPlot.shared_yaxis params then (reverse r1, reverse r2)
              else (r1, r2) in
            BGrid (layout_padding [r1; r2]) gridplot_toolbar gridplot_merge
        | None, Some y_axis =>
            let models := [y_axis; plot] in
            BRow (if GridPlot.shared_yaxis params then reverse models else models)
        | Some x_axis, None =>
            let models := [plot; x_axis] in
            BColumn (if GridPlot.shared_xaxis params then reverse models else models)
        | None, None => plot
        end).

(** The rows handed to [layout_padding] when both axes are drawn. *)
Definition axes_rows (self : t) (x_axis y_axis plot : bmodel)
    : list (list (option bmodel)) :=
  let params := GridPlot.self_params (grid self) in
  let r1 := [Some y_axis; Some plot] in
  let r2 := [None; Some x_axis] in
  let '(r1, r2) := if GridPlot.shared_xaxis params then (r2, r1) else (r1, r2) in
  let '(r1, r2) := if GridPlot.shared_yaxis params then (reverse r1, reverse r2)
                   else (r1, r2) in
  [r1; r2].

End GridAxes.

Arguments GridAxesSelf {_}.
Arguments grid {_}.
Arguments xaxis {_}.
Arguments yaxis {_}.
Arguments ndims {_}.
End GridAxes.

(** ** LayoutPlot._init_layout *)

Module InitLayout.

(** A view found in [layout.grid_items()]: an [AdjointLayout] or
    another viewable object. *)
Inductive grid_view :=
| GAdjoint (a : adjoint_layout)
| GView (v : view).

Section InitLayout.
Context `{Upstream}.

(** [bool(view.traverse(lambda x: x, [Element]))] on an adjoint layout
    and the [id] of an [AdjointLayout] made by its constructor. The text
    of ['%s' % view.main] is the variable [view_repr]. *)
Variable adjoint_has_elements : adjoint_layout → bool.
Variable view_repr : view → string.
Variable new_adjoint_id : nat.

(** [view if isinstance(view, AdjointLayout) else AdjointLayout([view])];
    the main view of [AdjointLayout([None])] is [None]. *)
Definition wrap_adjoint (view : option grid_view) : adjoint_layout :=
  match view with
  | Some (GAdjoint a) => a
  | Some (GView v) => AdjointLayoutObj new_adjoint_id {[ "main" := v ]}
  | None => AdjointLayoutObj new_adjoint_id ∅
  end.

(** [len(view)] after the wrapping. *)
Definition wrapped_len (view : option grid_view) : nat :=
  match view with
  | Some (GAdjoint a) => size (al_data a)
  | _ => 1
  end.

(** [layout_lens.get(len(view), 'Single')] *)
Definition layout_type_of (n : nat) : AdjointLayoutPlot.layout_type :=
  match n with
  | 2 => AdjointLayoutPlot.Dual
  | 3 => AdjointLayoutPlot.Triple
  | _ => AdjointLayoutPlot.Single
  end.

(** The local variables of [_init_layout]; [cs] holds the warnings and
    the state in which the last call of [_create_subplots] stopped. The
    items of [collapsed_layout] are kept, which starts as an empty clone
    of the layout. *)
Record state := State {
  cs : LayoutPlot.cs_state;
  layout_subplots : gmap (nat * nat) AdjointLayoutPlot.t;
  layouts : gmap (nat * nat) adjoint_layout;
  paths : gmap (nat * nat) (option (list string));
  collapsed_layout : gmap (list string) adjoint_layout;
  layout_count : nat;
}.

Definition enter (s : state) : state :=
  {| cs := cs s; layout_subplots := ∅; layouts := ∅; paths := ∅;
     collapsed_layout := ∅; layout_count := 0 |}.

(** [layouts[(r, c)] = view; paths[r, c] = key] *)
Definition set_view (rc : nat * nat) (view : adjoint_layout)
    (key : option (list string)) (s : state) : state :=
  {| cs := cs s; layout_subplots := layout_subplots s;
     layouts := <[rc := view]> (layouts s); paths := <[rc := key]> (paths s);
     collapsed_layout := collapsed_layout s; layout_count := layout_count s |}.

(** [self.warning(msg)] *)
Definition warn (msg : string) (s : state) : state :=
  {| cs := LayoutPlot.cs_warn msg (cs s); layout_subplots := layout_subplots s;
     layouts := layouts s; paths := paths s;
     collapsed_layout := collapsed_layout s; layout_count := layout_count s |}.

(** [layout_count += 1] *)
Definition count (s : state) : state :=
  {| cs := cs s; layout_subplots := layout_subplots s;
     layouts := layouts s; paths := paths s;
     collapsed_layout := collapsed_layout s; layout_count := S (layout_count s) |}.

(** A call of [self._create_subplots] from [_init_layout]. *)
Definition create_subplots (m : py LayoutPlot.cs_state unit) : py state unit :=
  λ s,
    let with_cs c :=
      {| cs := c; layout_subplots := layout_subplots s;
         layouts := layouts s; paths := paths s;
         collapsed_layout := collapsed_layout s; layout_count := layout_count s |} in
    match m (cs s) with
    | Returns _ c => Returns tt (with_cs c)
    | Raises e c => Raises e (with_cs c)
    end.

(** [layout_subplots[(r, c)] = layout_plot] and, for a key that is not
    empty, [collapsed_layout[layout_key] = adjoint_layout]. *)
Definition add_layout_plot (rc : nat * nat) (layout_plot : AdjointLayoutPlot.t)
    (layout_key : option (list string)) (s : state) : state :=
  {| cs := cs s; layout_subplots := <[rc := layout_plot]> (layout_subplots s);
     layouts := layouts s; paths := paths s;
     collapsed_layout :=
       match layout_key with
       | Some (p :: key) =>
           <[p :: key := AdjointLayoutPlot.layout layout_plot]> (collapsed_layout s)
       | _ => collapsed_layout s
       end;
     layout_count := layout_count s |}.

(** [frame_ranges] as computed at the top of [_init_layout]. *)
Definition frame_ranges_of (self : LayoutPlot.t) (dynamic : bool)
    (layout : layout_obj) : list (framekey * ranges) :=
  let frame_ranges := compute_ranges layout None NoRanges in
  let ks := if dynamic then take 1 (LayoutPlot.keys self) else LayoutPlot.keys self in
  (λ key, (key, compute_ranges layout (Some key) (Ranges frame_ranges))) <$> ks.

(** The item shown at [(r, c)]. *)
Definition item_at (transpose : bool)
    (layout_items : gmap (nat * nat) (list string * grid_view)) (rc : nat * nat)
    : option (list string * grid_view) :=
  layout_items !! (if transpose then (rc.2, rc.1) else rc).

(** The body of the loop of [_init_layout]. The pass-through values
    [layout_dimensions] and [plotopts] are not recorded. *)
Definition situate_layout (self : LayoutPlot.t) (transpose : bool)
    (layout_items : gmap (nat * nat) (list string * grid_view))
    (frame_ranges : list (framekey * ranges)) (rc : nat * nat) : py state unit :=
  let item := item_at transpose layout_items rc in
  let key := fst <$> item in
  let view := wrap_adjoint (snd <$> item) in
  modify (set_view rc view key) ;;
  let layout_type := layout_type_of (wrapped_len (snd <$> item)) in
  let positions := AdjointLayoutPlot.positions layout_type in
  let layout_key := fst <$> layout_items !! rc in
  match al_data view !! "main" with
  | None => mret tt
  | Some main =>
      if isinstance main cEmpty then mret tt
      else if negb (adjoint_has_elements view)
      then modify (warn (view_repr main +:+ " is empty, skipping subplot."))
      else
        modify count ;;
        s ← get_state;
        let num := layout_count s in
        create_subplots
          (LayoutPlot._create_subplots self view positions frame_ranges num) ;;
        s ← get_state;
        let layout_plot :=
          AdjointLayoutPlot.AdjointLayoutPlotObj
            (LayoutPlot.cs_clone (cs s)) layout_type (LayoutPlot.cs_subplots (cs s)) in
        modify (add_layout_plot rc layout_plot layout_key)
  end.

(** [_init_layout(layout)]: it leaves [collapsed_layout],
    [layout_subplots] and [paths], which it returns, in the state.
    [self] is the plot under construction, of which [keys],
    [shared_axes] and [coords] are read. *)
Definition _init_layout (self : LayoutPlot.t) (transpose dynamic : bool)
    (layout : layout_obj)
    (layout_items : gmap (nat * nat) (list string * grid_view)) : py state unit :=
  modify enter ;;
  for_each
    (situate_layout self transpose layout_items (frame_ranges_of self dynamic layout))
    (LayoutPlot.coords self).

End InitLayout.
End InitLayout.

(** ** BokehPlot._construct_callbacks, _update_callbacks and cleanup *)

Module Callbacks.

(** A stream: its identity, its type and whether it is linked. *)
Record stream := Stream {
  stream_id : nat;
  stream_type : nat;
  linked : bool;
}.

(** What [_construct_callbacks] reads of [self]: whether it is a
    [GenericOverlayPlot], [batched], [zorder], [len(self.hmap.last)] and
    the identity of [self.hmap.last], [static], whether [self.hmap] is a
    [DynamicMap], and the items of [stream_sources] with the sources
    given by their identity. *)
Record t := CallbacksSelf {
  is_overlay : bool;
  batched : bool;
  zorder : nat;
  last_len : nat;
  hmap_last : nat;
  static : bool;
  hmap_is_dynamic : bool;
  stream_sources : list (nat * list nat);
}.

Section ConstructCallbacks.
(** [Stream.registry], keyed by the identity of the source, and
    [Stream._callbacks['bokeh']], from stream types to callback classes;
    a callback class is represented by its [id]. *)
Variable stream_registry : gmap nat (list stream).
Variable callback_registry : gmap nat nat.

Definition zorders (self : t) : list nat :=
  if is_overlay self then []
  else if batched self then seq (zorder self) (last_len self)
  else [zorder self].

Definition sources (self : t) : list (nat * nat) :=
  if is_overlay self && negb (batched self) then []
  else if negb (static self) || hmap_is_dynamic self then
    i_inputs ← stream_sources self;
    o ← i_inputs.2;
    if bool_decide (i_inputs.1 ∈ zorders self) then [(i_inputs.1, o)] else []
  else [(zorder self, hmap_last self)].

(** The pairs of a callback class and a stream that a source adds to
    [cb_classes]. *)
Definition source_classes (source : nat) : list (nat * nat) :=
  omap (λ stream,
          match callback_registry !! stream_type stream with
          | Some cb => if linked stream then Some (cb, stream_id stream) else None
          | None => None
          end)
    (default [] (stream_registry !! source)).

Definition cb_classes (self : t) : gset (nat * nat) :=
  foldl (λ acc i_source, acc ∪ list_to_set (source_classes i_source.2))
    ∅ (sources self).

(** [_construct_callbacks]: the constructor calls
    [cb(self, cb_streams, source)], each given by the callback class,
    the streams and the source. The elements of the set are sorted in the
    order in which [elements] lists them. [source] is the variable of the
    loop over the sources, which is unbound ([None] here) if that loop
    made no iteration. *)
Definition _construct_callbacks (self : t) : list (nat * list nat * option nat) :=
  let source := snd <$> last (sources self) in
  let sorted_cbs := BokehPlot.sorted_by_key (elements (cb_classes self)) in
  (λ cb_group : nat * list (nat * nat), (cb_group.1, snd <$> cb_group.2, source))
    <$> BokehPlot.groupby sorted_cbs.

End ConstructCallbacks.

(** *** _update_callbacks *)

(** A [CustomJS] callback: its [args], with the models given by their
    identity, and its [code]. *)
Record customjs := CustomJS {
  args : gmap string nat;
  code : string;
}.

Definition _merged_tools : list string :=
  ["pan"; "box_zoom"; "box_select"; "lasso_select"; "poly_select"; "ypan"; "xpan"].

Section UpdateCallbacks.
(** [list(plot.select({'type': TOOLS[t]}))], [str.replace] and what
    [_update_callbacks] reads of [self]. *)
Variable select : string → list nat.
Variable str_replace : string → string → string → string.
Variable top_level : bool.
Variable self_id : string.

Definition merged_tools : list (string * list nat) :=
  (λ t, (t, select t)) <$> _merged_tools.

(** The body of the loop over [cb.callbacks]. *)
Definition update_customjs (c : customjs) : customjs :=
  {| args :=
       foldl (λ a tool_objs,
                match tool_objs.2 with
                | o :: _ =>
                    if bool_decide (is_Some (a !! tool_objs.1))
                    then <[tool_objs.1 := o]> a else a
                | [] => a
                end)
         (args c) merged_tools;
     code := if top_level
             then str_replace (code c) "PLACEHOLDER_PLOT_ID" self_id
             else code c |}.

(** [_update_callbacks(plot)] on the callbacks of the traversed element
    plots: for each subplot, the [callbacks] of each of its callbacks. *)
Definition _update_callbacks (subplots : list (list (list customjs)))
    : list (list (list customjs)) :=
  (λ cbs : list (list customjs),
     (λ cb : list customjs, update_customjs <$> cb) <$> cbs) <$> subplots.

End UpdateCallbacks.

(** *** cleanup *)

(** What [cleanup] reads of a traversed plot: its identity, whether it
    is a [GenericCompositePlot], [GenericElementPlot] or
    [GenericOverlayPlot], whether it is a [GenericElementPlot], its
    streams and its callbacks, given by their identity. *)
Record plot := Plot {
  plot_id : nat;
  is_generic : bool;
  is_element : bool;
  streams : list nat;
  callbacks : list nat;
}.

(** The objects [cleanup] works on: the [_subscribers] of the streams,
    each a precedence and the owner of the subscribing method; the
    dictionary [Callback._callbacks], whose values are callbacks; and
    the calls of [callback.cleanup()]. *)
Record world := World {
  subscribers : gmap nat (list (nat * nat));
  callback_instances : list (string * nat);
  cleaned : list nat;
}.

(** The loop over [set(streams)]; filtering is idempotent, so that the
    streams can be taken in the order of the list. *)
Definition unsubscribe (plots : list nat) (streams : list nat) (w : world) : world :=
  {| subscribers :=
       foldl (λ subs stream,
                alter (filter (λ p_owner, p_owner.2 ∉ plots)) stream subs)
         (subscribers w) streams;
     callback_instances := callback_instances w;
     cleaned := cleaned w |}.

(** The body of the loop over [plot.callbacks]. *)
Definition cleanup_callback (w : world) (callback : nat) : world :=
  {| subscribers := subscribers w;
     callback_instances :=
       filter (λ k_cb, k_cb.2 ≠ callback) (callback_instances w);
     cleaned := cleaned w ++ [callback] |}.

(** The body of the loop over the traversed plots. *)
Definition cleanup_plot (plots : list nat) (w : world) (x : plot) : world :=
  if negb (is_generic x) then w
  else
    let w := unsubscribe plots (streams x) w in
    if negb (is_element x) then w
    else foldl cleanup_callback w (callbacks x).

(** [cleanup()], with the plots that [self.traverse] reaches. *)
Definition cleanup (plots : list plot) (w : world) : world :=
  foldl (cleanup_plot (plot_id <$> plots)) w plots.

End Callbacks.

(** ** Vocabulary of the further properties *)

Section FurtherVocabulary.
Context `{Upstream}.

(** What [GridPlot._create_subplots] maintains: the collapsed layout and
    [subplots] have their items at the same coordinates; a subplot sits
    at the coordinate of one of the keys [l], was made by the plotting
    class registered for the view found there, with the keys of the plot
    and the frame ranges [fr], and the collapsed layout holds its [hmap]
    (its [layout], for a composite plot). *)
Definition grid_keys_inv (self : GridPlot.params) (layout : layout_obj)
    (fr : list (framekey * ranges)) (l : list pykey) (s : GridPlot.cs_state) : Prop :=
  dom (lo_data (GridPlot.cs_collapsed s)) = dom (GridPlot.cs_subplots s)
  ∧ ∀ c sp, GridPlot.cs_subplots s !! c = Some sp →
      c ∈ wrap_tuple <$> l
      ∧ lo_data (GridPlot.cs_collapsed s) !! c
        = Some (if pc_composite (sp_class sp) then subplot_layout sp
                else subplot_hmap sp)
      ∧ sp_keys sp = GridPlot.keys self ∧ sp_ranges sp = fr
      ∧ ∃ v, lo_data layout !! c = Some v
             ∧ registry (GridPlot.vtype_of v) = Some (sp_class sp)
             ∧ sp_view sp = (if displayable v then v else collate v).

(** [len(subplot.layout)] for the adjoint layout at [(r, c)], and 1
    where there is none: the [nsubplots] of [_compute_grid]. *)
Definition cell_len (lp : LayoutPlot.t) (r c : nat) : nat :=
  match LayoutPlot.subplots lp !! (r, c) with
  | None => 1
  | Some subplot => LayoutPlot.layout_len subplot
  end.

(** The columns that hold an adjoint layout of more than one item, and
    the rows that hold one of more than two. *)
Definition wide_columns (lp : LayoutPlot.t) : list nat :=
  filter (λ c, Exists (λ r, 1 < cell_len lp r c) (seq 0 (LayoutPlot.rows lp)))
    (seq 0 (LayoutPlot.cols lp)).

Definition tall_rows (lp : LayoutPlot.t) : list nat :=
  filter (λ r, Exists (λ c, 2 < cell_len lp r c) (seq 0 (LayoutPlot.cols lp)))
    (seq 0 (LayoutPlot.rows lp)).

(** The groups of two or more plots that [sync_sources] finds, and
    their plots in the order of the loop. *)
Definition big_groups (w : BokehPlot.world) : list (nat * list (nat * nat)) :=
  filter (λ kg, 1 < length (members kg)) (grouped_sources w).

Definition shared_members (w : BokehPlot.world) : list nat :=
  big_groups w ≫= members.

(** The world at the start of the loop of [sync_sources]. *)
Definition sync_start (w : BokehPlot.world) : BokehPlot.world :=
  {| BokehPlot.plots := BokehPlot.plots w; BokehPlot.sources := BokehPlot.sources w;
     BokehPlot.shared_sources := []; BokehPlot.source_cols := ∅;
     BokehPlot.events := BokehPlot.events w |}.

(** The first and the second component of a key of the grid. *)
Definition key_first (k : pykey) : Z := default 0%Z (wrap_tuple k !! 0).
Definition key_second (k : pykey) : Z := default 0%Z (wrap_tuple k !! 1).

(** A key that is a tuple of at least two components. *)
Definition is_pair_key (k : pykey) : Prop :=
  ∃ a b t, k = KTuple (a :: b :: t).

(** The streams that [cleanup] visits, and the callbacks it removes. *)
Definition cleanup_streams (plots : list Callbacks.plot) : list nat :=
  filter (λ x, Callbacks.is_generic x = true) plots ≫= Callbacks.streams.

Definition cleanup_callbacks (plots : list Callbacks.plot) : list nat :=
  filter (λ x, Callbacks.is_generic x = true ∧ Callbacks.is_element x = true) plots
    ≫= Callbacks.callbacks.

(** Every adjoint layout of the plot holds a single item and is of
    type ['Single']. *)
Definition single_layouts (lp : LayoutPlot.t) : Prop :=
  ∀ rc adj, LayoutPlot.subplots lp !! rc = Some adj →
    LayoutPlot.layout_len adj ≤ 1
    ∧ AdjointLayoutPlot.type adj = AdjointLayoutPlot.Single.

(** The plot that an adjoint layout of type ['Single'] renders. *)
Definition single_plot (adj : AdjointLayoutPlot.t) (rng : ranges)
    (plots : list (option bmodel)) : bmodel :=
  match AdjointLayoutPlot.subplots adj !! "main" with
  | Some (Some sp) => subplot_initialize_plot sp rng plots
  | _ => BEmptyPlot 0 0
  end.

(** What the cell of coordinate [rc] holds once the coordinate has been
    traversed: nothing where the layout has no adjoint layout, and else
    the plot of the adjoint layout, rendered with the plots that had
    been passed on by then when the axes are shared. *)
Definition cell_filled (lp : LayoutPlot.t) (rng : ranges)
    (plots : list (option bmodel)) (rc : nat * nat) (o : option bmodel) : Prop :=
  match LayoutPlot.subplots lp !! rc with
  | Some adj =>
      ∃ passed, plots `prefix_of` passed
        ∧ o = Some (single_plot adj rng
                      (if LayoutPlot.shared_axes lp then passed else []))
  | None => o = None
  end.

(** The local variables of [LayoutPlot.initialize_plot] while it
    traverses a layout of single items without tabs, after the
    coordinates [done]. *)
Definition plain_locals (lp : LayoutPlot.t) (rng : ranges)
    (plots : list (option bmodel)) (done : list (nat * nat))
    (s : LayoutPlot.locals) : Prop :=
  grid_shape (LayoutPlot.plot_grid s) (LayoutPlot.rows lp) (LayoutPlot.cols lp)
  ∧ LayoutPlot.r_offset s = 0
  ∧ LayoutPlot.col_offsets s = ∅
  ∧ plots `prefix_of` LayoutPlot.passed_plots s
  ∧ ∀ r c, r < LayoutPlot.rows lp → c < LayoutPlot.cols lp →
      ∃ o, GridPlot.get_cell (LayoutPlot.plot_grid s) r c = Some o
           ∧ ((r, c) ∈ done → cell_filled lp rng plots (r, c) o)
           ∧ ((r, c) ∉ done → o = None).

End FurtherVocabulary.


(** ** Further concrete plots *)

Section FurtherConcretePlots.
Local Existing Instance Demo.upstream.

(** A grid plot of one cell whose layout has four keys, with a subplot
    for the second of them. *)
Definition cramped_grid_plot : GridPlot.t :=
  GridPlot.GridPlotObj Demo.grid_params 1 1 {[ [0; 1]%Z := curve_subplot 1 ]} Demo.grid.

(** Two plots that draw from different data objects. *)
Definition separate_world : BokehPlot.world :=
  {| BokehPlot.plots :=
       [BokehPlot.Plot true (Some (5, false)) (Some 0) (Some 0)
          (Some (BokehPlot.Renderer true true (Some 0) None (Some 0)));
        BokehPlot.Plot true (Some (9, false)) (Some 1) (Some 1)
          (Some (BokehPlot.Renderer false false None (Some 1) None))];
     BokehPlot.sources :=
       {[0 := [("x", ColList [VInt 1; VInt 2])];
         1 := [("y", ColList [VInt 3; VInt 4])]]};
     BokehPlot.shared_sources := [];
     BokehPlot.source_cols := ∅;
     BokehPlot.events := [] |}.

(** An adjoint layout of a single curve. *)
Definition curve_adjoint : adjoint_layout :=
  AdjointLayoutObj 8 {[ "main" := Demo.curve 0 ]}.

(** A plot with a comm and a message of one buffer to push. *)
Definition pushing_plot : Push.t string :=
  Push.PushSelf "default" true
    (Some (Push.Message "header" "metadata" "content" [("h1", "payload1")])).

(** A plot with two subplots, one of which has a subplot of its own. *)
Definition nested_plots : Document.plot :=
  Document.Plot None
    (Some [Some (Document.Plot (Some 1) None); None;
           Some (Document.Plot None (Some [Some (Document.Plot (Some 2) None)]))]).

(** A grid plot with both axes drawn, the x-axis shared. *)
Definition axes_plot : GridAxes.t :=
  GridAxes.GridAxesSelf
    (GridPlot.GridPlotObj
       {| GridPlot.axis_offset := 50; GridPlot.plot_size := 120;
          GridPlot.shared_xaxis := true; GridPlot.shared_yaxis := false;
          GridPlot.merge_tools := true; GridPlot.toolbar := VStr "above";
          GridPlot.keys := [[0%Z]]; GridPlot.dynamic := false;
          GridPlot.title := Demo.titled "Grid" |}
       2 2 ∅ Demo.grid)
    true true 2.

(** An axis model for a list of factors: the figure numbered by their
    count. *)
Definition demo_axis (dim : string) (factors : list Z) (flip : bool) : bmodel :=
  BFigure (length factors).

(** An element plot whose two sources each have a linked stream, of two
    different types. *)
Definition streamed_plot : Callbacks.t :=
  {| Callbacks.is_overlay := false; Callbacks.batched := false;
     Callbacks.zorder := 0; Callbacks.last_len := 1; Callbacks.hmap_last := 7;
     Callbacks.static := false; Callbacks.hmap_is_dynamic := false;
     Callbacks.stream_sources := [(0, [7; 8])] |}.

Definition demo_stream_registry : gmap nat (list Callbacks.stream) :=
  {[ 7 := [Callbacks.Stream 100 1 true]; 8 := [Callbacks.Stream 101 2 true] ]}.

Definition demo_callback_registry : gmap nat nat := {[ 1 := 10; 2 := 20 ]}.

(** A layout of one row with a curve and an image, shown transposed. *)
Definition demo_layout_items : gmap (nat * nat) (list string * InitLayout.grid_view) :=
  {[ (0, 0) := (["Curve"; "I"], InitLayout.GView (Demo.curve 0));
     (1, 0) := (["Image"; "I"], InitLayout.GView (Demo.image 1)) ]}.

End FurtherConcretePlots.

(** ** A layout of a single image *)

Section ImageLayout.
Local Existing Instance Demo.upstream.

(** A [LayoutPlot] of one cell, with the [subplots] and [paths] that
    [__init__] takes from [_init_layout]. *)
Definition image_layout_plot (tabs : bool)
    (subplots : gmap (nat * nat) AdjointLayoutPlot.t)
    (paths : gmap (nat * nat) (option (list string))) : LayoutPlot.t :=
  {| LayoutPlot.shared_axes := true; LayoutPlot.merge_tools := true;
     LayoutPlot.tabs := tabs; LayoutPlot.toolbar := VStr "above";
     LayoutPlot.keys := [[0%Z]]; LayoutPlot.title := Demo.titled "Layout";
     LayoutPlot.rows := 1; LayoutPlot.cols := 1;
     LayoutPlot.coords := [(0, 0)];
     LayoutPlot.layout := LayoutObj cLayout 3 (1, 1) ∅;
     LayoutPlot.subplots := subplots; LayoutPlot.paths := paths |}.

(** What [_init_layout] leaves for a layout whose only item is an
    image, for which the backend has no plotting class. *)
Definition image_layout_made : InitLayout.state :=
  final_state
    (InitLayout._init_layout (λ _, true) (λ _, "Image") 9
       (image_layout_plot true ∅ ∅) false false (LayoutObj cLayout 3 (1, 1) ∅)
       {[ (0, 0) := (["Image"; "I"], InitLayout.GView (Demo.image 0)) ]}
       (InitLayout.State (LayoutPlot.CsState ∅ image_adjoint None [] []) ∅ ∅ ∅ ∅ 0)).

(** The plot that [__init__] makes of it. *)
Definition image_tabs_plot (tabs : bool) : LayoutPlot.t :=
  image_layout_plot tabs (InitLayout.layout_subplots image_layout_made)
    (InitLayout.paths image_layout_made).

End ImageLayout.
(** * Properties *)

(** ** Monad laws used by the proofs *)

Lemma py_bind_returns {St A B} (m : py St A) (f : A → py St B) s a s' :
  m s = Returns a s' → (m ≫= f) s = f a s'.
Proof. intros H. unfold mbind, py_mbind, py_bind. by rewrite H. Qed.

Lemma py_bind_raises {St A B} (m : py St A) (f : A → py St B) s e s' :
  m s = Raises e s' → (m ≫= f) s = Raises e s'.
Proof. intros H. unfold mbind, py_mbind, py_bind. by rewrite H. Qed.

Lemma for_enumerate_app {St A} (body : nat → A → py St unit) i0 l1 l2 s :
  for_enumerate body i0 (l1 ++ l2) s =
  match for_enumerate body i0 l1 s with
  | Returns _ s' => for_enumerate body (i0 + length l1) l2 s'
  | Raises e s' => Raises e s'
  end.
Proof.
  revert i0 s. induction l1 as [|x l1 IH]; intros i0 s; simpl.
  - by rewrite Nat.add_0_r.
  - unfold mbind, py_mbind, py_bind. destruct (body i0 x s) as [[] s1|e s1]; [|done].
    rewrite IH. by replace (S i0 + length l1) with (i0 + S (length l1)) by lia.
Qed.

(** Every list splits at its first element satisfying a boolean test. *)
Lemma first_split {A} (p : A → bool) (xs : list A) :
  (∃ x, x ∈ xs ∧ p x = true) →
  ∃ pre x post, xs = pre ++ x :: post ∧ p x = true ∧ ∀ y, y ∈ pre → p y = false.
Proof.
  induction xs as [|a xs IH]; intros (x & Hx & Hp).
  - by apply elem_of_nil in Hx.
  - destruct (p a) eqn:Ha.
    + exists [], a, xs. split_and!; [done..|]. intros y Hy. by apply elem_of_nil in Hy.
    + destruct IH as (pre & y & post & -> & Hy & Hpre).
      { apply elem_of_cons in Hx as [->|Hx]; [congruence|eauto]. }
      exists (a :: pre), y, post. split_and!; [done..|].
      intros z Hz. apply elem_of_cons in Hz as [->|Hz]; auto.
Qed.

(** ** GridPlot._create_subplots *)

Section GridCreate.
Context `{Upstream}.
Implicit Types (self : GridPlot.params) (layout : layout_obj)
  (s : GridPlot.cs_state) (k : pykey) (l : list pykey).

Lemma is_nested_layout_spec layout k :
  GridPlot.is_nested_layout (lo_data layout !! wrap_tuple k) = true
  ↔ nested_at layout k.
Proof.
  unfold nested_at, GridPlot.is_nested_layout.
  destruct (lo_data layout !! wrap_tuple k) as [v|]; split.
  - intros Hb. exists v. split; [done|].
    apply orb_true_iff in Hb as [Hb|Hb]; apply bool_decide_eq_true in Hb; auto.
  - intros (v' & [= <-] & Hc). apply orb_true_iff.
    destruct Hc as [Hc|Hc]; [left|right]; by apply bool_decide_eq_true.
  - done.
  - by intros (v & Hv & _).
Qed.

Lemma create_subplot_at_nested self rows layout fr i k s :
  rows ≠ 0 →
  GridPlot.is_nested_layout (lo_data layout !! wrap_tuple k) = true →
  GridPlot.create_subplot_at self rows layout fr i k s
  = Raises (SkipRendering "Cannot plot nested Layouts.") s.
Proof.
  intros Hr Hn. unfold GridPlot.create_subplot_at, GridPlot.grid_position.
  destruct (decide (rows = 0)) as [|_]; [done|].
  unfold mbind, py_mbind, py_bind, mret, py_mret, py_ret. simpl.
  by rewrite Hn.
Qed.

(** The keyword arguments computed for the axes name none of the
    keywords that the constructor call gives itself: the call clashes
    exactly when the options of the element do. *)
Lemma axis_kwargs_explicit self r c (name : string) :
  name ∈ GridPlot.explicit_keywords → GridPlot.axis_kwargs self r c !! name = None.
Proof.
  intros Hname. unfold GridPlot.explicit_keywords in Hname.
  repeat (apply elem_of_cons in Hname as [->|Hname];
          [destruct self as [off size [] [] mt tb ks dyn ttl], r as [|r], c as [|c];
           vm_compute; reflexivity|]).
  by apply elem_of_nil in Hname.
Qed.

Lemma keyword_clash_axis_kwargs self r c opts :
  GridPlot.keyword_clash GridPlot.explicit_keywords
    (GridPlot.dict_override opts (GridPlot.axis_kwargs self r c))
  = GridPlot.keyword_clash GridPlot.explicit_keywords opts.
Proof.
  unfold GridPlot.keyword_clash. apply bool_decide_ext.
  rewrite !Exists_exists. split; intros (name & Hname & Hsome); exists name;
    (split; [done|]); revert Hsome; unfold GridPlot.dict_override;
    rewrite lookup_union, (axis_kwargs_explicit _ _ _ _ Hname);
    by destruct (opts !! name).
Qed.

Lemma create_subplot_at_plain self rows layout fr i k s :
  rows ≠ 0 →
  GridPlot.is_nested_layout (lo_data layout !! wrap_tuple k) = false →
  clashes layout k = false →
  GridPlot.create_subplot_at self rows layout fr i k s
  = Returns tt (GridPlot.create_subplot_effect self rows layout fr i k s).
Proof.
  intros Hr Hn Hc.
  unfold GridPlot.create_subplot_at, GridPlot.create_subplot_effect,
    GridPlot.grid_position.
  destruct (decide (rows = 0)) as [|_]; [done|].
  unfold mbind at 1, py_mbind, py_bind, mret, py_mret, py_ret. simpl.
  rewrite Hn. unfold clashes in Hc.
  destruct (lo_data layout !! wrap_tuple k) as [v|]; simpl; [|done].
  destruct (registry (GridPlot.vtype_of v)); [|done].
  simpl in Hc. by rewrite keyword_clash_axis_kwargs, Hc.
Qed.

(** The constructor call raises when the options of the element name
    one of its keywords; nothing is stored then. *)
Lemma create_subplot_at_clash self rows layout fr i k s :
  rows ≠ 0 →
  GridPlot.is_nested_layout (lo_data layout !! wrap_tuple k) = false →
  clashes layout k = true →
  GridPlot.create_subplot_at self rows layout fr i k s
  = Raises GridPlot.multiple_values s.
Proof.
  intros Hr Hn Hc.
  unfold GridPlot.create_subplot_at, GridPlot.grid_position.
  destruct (decide (rows = 0)) as [|_]; [done|].
  unfold mbind at 1, py_mbind, py_bind, mret, py_mret, py_ret. simpl.
  rewrite Hn. unfold clashes in Hc.
  destruct (lo_data layout !! wrap_tuple k) as [v|]; simpl; [|done].
  destruct (registry (GridPlot.vtype_of v)); [|done].
  simpl in Hc. by rewrite keyword_clash_axis_kwargs, Hc.
Qed.

Lemma create_subplot_at_zero_rows self layout fr i k s :
  GridPlot.create_subplot_at self 0 layout fr i k s = Raises ZeroDivisionError s.
Proof. done. Qed.

(** The loop runs to its end over keys without a nested layout whose
    constructor calls bind their arguments. *)
Lemma create_loop_plain self rows layout fr l : ∀ i0 s,
  rows ≠ 0 →
  (∀ k, k ∈ l → GridPlot.is_nested_layout (lo_data layout !! wrap_tuple k) = false) →
  (∀ k, k ∈ l → clashes layout k = false) →
  for_enumerate (GridPlot.create_subplot_at self rows layout fr) i0 l s
  = Returns tt (GridPlot.create_subplots_effect self rows layout fr i0 l s).
Proof.
  induction l as [|k l IH]; intros i0 s Hr Hl Hc; simpl; [done|].
  erewrite py_bind_returns;
    [|apply create_subplot_at_plain; [done|apply Hl; left|apply Hc; left]].
  apply IH; [done|intros k' Hk'; apply Hl; by right
            |intros k' Hk'; apply Hc; by right].
Qed.

(** It stops at the first key that holds a nested layout. *)
Lemma create_loop_nested self rows layout fr l1 k l2 i0 s :
  rows ≠ 0 →
  (∀ k', k' ∈ l1 →
     GridPlot.is_nested_layout (lo_data layout !! wrap_tuple k') = false) →
  (∀ k', k' ∈ l1 → clashes layout k' = false) →
  GridPlot.is_nested_layout (lo_data layout !! wrap_tuple k) = true →
  for_enumerate (GridPlot.create_subplot_at self rows layout fr) i0 (l1 ++ k :: l2) s
  = Raises (SkipRendering "Cannot plot nested Layouts.")
      (GridPlot.create_subplots_effect self rows layout fr i0 l1 s).
Proof.
  intros Hr Hl1 Hc1 Hk. rewrite for_enumerate_app, create_loop_plain by done.
  simpl. by erewrite py_bind_raises; [|by apply create_subplot_at_nested].
Qed.

(** Or at the first key whose constructor call names a keyword twice. *)
Lemma create_loop_clash self rows layout fr l1 k l2 i0 s :
  rows ≠ 0 →
  (∀ k', k' ∈ l1 →
     GridPlot.is_nested_layout (lo_data layout !! wrap_tuple k') = false) →
  (∀ k', k' ∈ l1 → clashes layout k' = false) →
  GridPlot.is_nested_layout (lo_data layout !! wrap_tuple k) = false →
  clashes layout k = true →
  for_enumerate (GridPlot.create_subplot_at self rows layout fr) i0 (l1 ++ k :: l2) s
  = Raises GridPlot.multiple_values
      (GridPlot.create_subplots_effect self rows layout fr i0 l1 s).
Proof.
  intros Hr Hl1 Hc1 Hk Hc. rewrite for_enumerate_app, create_loop_plain by done.
  simpl. by erewrite py_bind_raises; [|by apply create_subplot_at_clash].
Qed.

(** The loop only raises [ZeroDivisionError], [SkipRendering] or the
    [TypeError] of a constructor call. *)
Lemma create_loop_raises self rows layout fr l : ∀ i0 s e s',
  for_enumerate (GridPlot.create_subplot_at self rows layout fr) i0 l s
  = Raises e s' →
  (rows = 0 ∧ e = ZeroDivisionError)
  ∨ (e = SkipRendering "Cannot plot nested Layouts."
     ∧ ∃ k, k ∈ l
            ∧ GridPlot.is_nested_layout (lo_data layout !! wrap_tuple k) = true)
  ∨ (e = GridPlot.multiple_values ∧ ∃ k, k ∈ l ∧ clashes layout k = true).
Proof.
  induction l as [|k l IH]; intros i0 s e s' Hrun; simpl in Hrun; [done|].
  destruct (decide (rows = 0)) as [->|Hr].
  { rewrite (py_bind_raises _ _ _ _ _ (create_subplot_at_zero_rows _ _ _ _ _ _)) in Hrun.
    left. split; congruence. }
  destruct (GridPlot.is_nested_layout (lo_data layout !! wrap_tuple k)) eqn:Hn.
  { rewrite (py_bind_raises _ _ _ _ _ (create_subplot_at_nested _ _ _ _ _ _ _ Hr Hn)) in Hrun.
    right. left. split; [congruence|]. exists k. split; [left|done]. }
  destruct (clashes layout k) eqn:Hc.
  { rewrite (py_bind_raises _ _ _ _ _ (create_subplot_at_clash _ _ _ _ _ _ _ Hr Hn Hc)) in Hrun.
    right. right. split; [congruence|]. exists k. split; [left|done]. }
  rewrite (py_bind_returns _ _ _ _ _ (create_subplot_at_plain _ _ _ _ _ _ _ Hr Hn Hc)) in Hrun.
  apply IH in Hrun as [[? ?]|[[? (k' & Hk' & ?)]|[? (k' & Hk' & ?)]]]; [by left|..].
  - right. left. split; [done|]. exists k'. split; [by right|done].
  - right. right. split; [done|]. exists k'. split; [by right|done].
Qed.

(** When the loop returns, every iteration reached its end. *)
Lemma create_loop_returns self rows layout fr l : ∀ i0 s s',
  rows ≠ 0 →
  for_enumerate (GridPlot.create_subplot_at self rows layout fr) i0 l s
  = Returns tt s' →
  s' = GridPlot.create_subplots_effect self rows layout fr i0 l s
  ∧ ∀ k, k ∈ l →
      GridPlot.is_nested_layout (lo_data layout !! wrap_tuple k) = false
      ∧ clashes layout k = false.
Proof.
  induction l as [|k l IH]; intros i0 s s' Hr Hrun; simpl in Hrun.
  { split; [by injection Hrun|]. intros k Hk. by apply elem_of_nil in Hk. }
  destruct (GridPlot.is_nested_layout (lo_data layout !! wrap_tuple k)) eqn:Hn.
  { by rewrite (py_bind_raises _ _ _ _ _
                  (create_subplot_at_nested _ _ _ _ _ _ _ Hr Hn)) in Hrun. }
  destruct (clashes layout k) eqn:Hc.
  { by rewrite (py_bind_raises _ _ _ _ _
                  (create_subplot_at_clash _ _ _ _ _ _ _ Hr Hn Hc)) in Hrun. }
  rewrite (py_bind_returns _ _ _ _ _ (create_subplot_at_plain _ _ _ _ _ _ _ Hr Hn Hc)) in Hrun.
  apply IH in Hrun as [-> Hall]; [|done]. split; [done|].
  intros k' [->|Hk']%elem_of_cons; [done|by apply Hall].
Qed.

(** What the iterations leave in the state. *)
Lemma effect_subplots_other self rows layout fr l : ∀ i0 s c,
  c ∉ wrap_tuple <$> l →
  GridPlot.cs_subplots (GridPlot.create_subplots_effect self rows layout fr i0 l s) !! c
  = GridPlot.cs_subplots s !! c.
Proof.
  induction l as [|k l IH]; intros i0 s c Hc; simpl; [done|].
  rewrite fmap_cons in Hc. apply not_elem_of_cons in Hc as [Hck Hc].
  rewrite IH by done. unfold GridPlot.create_subplot_effect.
  destruct (lo_data layout !! wrap_tuple k) as [v|]; [|done].
  destruct (registry (GridPlot.vtype_of v)); [|done].
  simpl. by rewrite lookup_insert_ne.
Qed.

Lemma effect_constructed_other self rows layout fr l : ∀ i0 s c sp,
  c ∉ wrap_tuple <$> l →
  (c, sp) ∈ GridPlot.cs_constructed
              (GridPlot.create_subplots_effect self rows layout fr i0 l s) →
  (c, sp) ∈ GridPlot.cs_constructed s.
Proof.
  induction l as [|k l IH]; intros i0 s c sp Hc; simpl; [done|].
  rewrite fmap_cons in Hc. apply not_elem_of_cons in Hc as [Hck Hc].
  intros Hin. apply IH in Hin; [|done]. revert Hin.
  unfold GridPlot.create_subplot_effect.
  destruct (lo_data layout !! wrap_tuple k) as [v|]; [|done].
  destruct (registry (GridPlot.vtype_of v)); [|done].
  simpl. intros [Hin|Hin]%elem_of_app; [done|].
  apply list_elem_of_singleton in Hin. congruence.
Qed.

Lemma effect_warnings_mono self rows layout fr l : ∀ i0 s w,
  w ∈ GridPlot.cs_warnings s →
  w ∈ GridPlot.cs_warnings (GridPlot.create_subplots_effect self rows layout fr i0 l s).
Proof.
  induction l as [|k l IH]; intros i0 s w Hw; simpl; [done|].
  apply IH. unfold GridPlot.create_subplot_effect.
  destruct (lo_data layout !! wrap_tuple k) as [v|]; [|done].
  destruct (registry (GridPlot.vtype_of v)); [done|].
  simpl. apply elem_of_app. by left.
Qed.

Lemma effect_warns_unregistered self rows layout fr l : ∀ i0 s k v,
  k ∈ l → lo_data layout !! wrap_tuple k = Some v →
  registry (GridPlot.vtype_of v) = None →
  GridPlot.not_found_warning (GridPlot.vtype_of v)
  ∈ GridPlot.cs_warnings (GridPlot.create_subplots_effect self rows layout fr i0 l s).
Proof.
  induction l as [|k' l IH]; intros i0 s k v Hk Hv Hreg; simpl.
  - by apply elem_of_nil in Hk.
  - apply elem_of_cons in Hk as [<-|Hk]; [|by eapply IH].
    apply effect_warnings_mono. unfold GridPlot.create_subplot_effect.
    rewrite Hv, Hreg. simpl. apply elem_of_app. right. by apply list_elem_of_singleton.
Qed.

(** No subplot is made at a coordinate without a registered class. *)
Lemma effect_subplots_unregistered self rows layout fr l : ∀ i0 s c,
  (∀ v, lo_data layout !! c = Some v → registry (GridPlot.vtype_of v) = None) →
  GridPlot.cs_subplots (GridPlot.create_subplots_effect self rows layout fr i0 l s) !! c
  = GridPlot.cs_subplots s !! c
  ∧ ∀ sp, (c, sp) ∈ GridPlot.cs_constructed
                     (GridPlot.create_subplots_effect self rows layout fr i0 l s) →
          (c, sp) ∈ GridPlot.cs_constructed s.
Proof.
  induction l as [|k l IH]; intros i0 s c Hc; simpl; [done|].
  destruct (IH (S i0) (GridPlot.create_subplot_effect self rows layout fr i0 k s) c Hc)
    as [IH1 IH2].
  assert (Hstep :
    GridPlot.cs_subplots (GridPlot.create_subplot_effect self rows layout fr i0 k s) !! c
    = GridPlot.cs_subplots s !! c
    ∧ ∀ sp, (c, sp) ∈ GridPlot.cs_constructed
                       (GridPlot.create_subplot_effect self rows layout fr i0 k s) →
            (c, sp) ∈ GridPlot.cs_constructed s).
  { unfold GridPlot.create_subplot_effect.
    destruct (lo_data layout !! wrap_tuple k) as [v|] eqn:Hv; [|done].
    destruct (registry (GridPlot.vtype_of v)) as [pc|] eqn:Hreg; [|done].
    assert (c ≠ wrap_tuple k) as Hne.
    { intros ->. specialize (Hc v Hv). congruence. }
    simpl. split; [by rewrite lookup_insert_ne|].
    intros sp [Hin|Hin]%elem_of_app; [done|].
    apply list_elem_of_singleton in Hin. congruence. }
  destruct Hstep as [Hs1 Hs2]. split; [by rewrite IH1|]. auto.
Qed.

(** A subplot is made at every coordinate with a registered class, with
    the keyword arguments of the index at which its key is enumerated. *)
Lemma effect_subplots_registered self rows layout fr l : ∀ i0 s k v pc,
  k ∈ l → lo_data layout !! wrap_tuple k = Some v →
  registry (GridPlot.vtype_of v) = Some pc →
  ∃ j k', l !! j = Some k' ∧ wrap_tuple k' = wrap_tuple k
    ∧ GridPlot.cs_subplots
        (GridPlot.create_subplots_effect self rows layout fr i0 l s) !! wrap_tuple k
      = Some (GridPlot.construct_subplot self pc
                (if displayable v then v else collate v) fr (lookup_options v)
                (GridPlot.axis_kwargs self ((i0 + j) mod rows) ((i0 + j) / rows))).
Proof.
  induction l as [|k0 l IH]; intros i0 s k v pc Hk Hv Hreg.
  - by apply elem_of_nil in Hk.
  - destruct (decide (wrap_tuple k ∈ wrap_tuple <$> l)) as [Hin|Hnin].
    + apply list_elem_of_fmap in Hin as (k1 & Heq & Hk1).
      destruct (IH (S i0) (GridPlot.create_subplot_effect self rows layout fr i0 k0 s)
                  k1 v pc Hk1) as (j & k' & Hj & Hw & Hsp); [by rewrite <-Heq|done|].
      exists (S j), k'. split_and!; [done|congruence|].
      simpl. rewrite Heq, Hsp. by replace (S i0 + j) with (i0 + S j) by lia.
    + apply elem_of_cons in Hk as [->|Hk];
        [|exfalso; apply Hnin, list_elem_of_fmap; eauto].
      exists 0, k0. split_and!; [done..|].
      simpl. rewrite effect_subplots_other by done.
      unfold GridPlot.create_subplot_effect. rewrite Hv, Hreg. simpl.
      rewrite lookup_insert_eq. by rewrite Nat.add_0_r.
Qed.

(** The whole method, when no view is a nested layout and every
    constructor call binds its arguments. *)
Lemma create_subplots_plain self rows layout rng s :
  rows ≠ 0 →
  (∀ k, k ∈ keys_full_grid layout →
        GridPlot.is_nested_layout (lo_data layout !! wrap_tuple k) = false) →
  (∀ k, k ∈ keys_full_grid layout → clashes layout k = false) →
  GridPlot._create_subplots self rows layout rng s
  = Returns tt
      (GridPlot.create_subplots_effect self rows layout
         (GridPlot.frame_ranges_of self layout rng) 0 (keys_full_grid layout)
         (GridPlot.cs_enter layout s)).
Proof.
  intros Hr Hl Hc. unfold GridPlot._create_subplots.
  erewrite py_bind_returns; [|done]. by apply create_loop_plain.
Qed.

(** C9. [GridPlot.__init__] raises an exception for every layout that is
    not an instance of [GridSpace], in the state in which it was called:
    no subplot has been constructed, no warning emitted, and no
    [GridPlot] object is returned for such a layout. *)
Theorem C9_init_rejects_non_gridspace self layout rng s :
  issubclass (lo_class layout) cGridSpace = false →
  GridPlot.__init__ self layout rng s
  = Raises (PyException "GridPlot only accepts GridSpace.") s
  ∧ ∀ g s', GridPlot.__init__ self layout rng s ≠ Returns g s'.
Proof.
  intros Hc. unfold GridPlot.__init__. rewrite Hc. simpl. split; [done|].
  intros g s'. discriminate.
Qed.

(** C6. With a grid of at least one row, [GridPlot._create_subplots]
    raises [SkipRendering] at the first grid coordinate whose view has
    exact type [Layout] or [NdLayout], provided the constructor calls
    for the coordinates before it bind their arguments: the exception
    leaves the method with no subplot stored and no plotting class
    constructed for that coordinate. Whenever some coordinate holds such
    a view there is a first one; when the options of a registered
    element before it name a keyword of the constructor call, that call
    raises [TypeError] first. Conversely the method raises
    [SkipRendering] only when some coordinate holds a view of one of
    these two exact types. *)
Theorem C6_skip_rendering_nested_layout self rows layout rng s :
  rows ≠ 0 →
  ((∃ k, k ∈ keys_full_grid layout ∧ nested_at layout k) →
   ∃ pre k, first_nested layout pre k)
  ∧ (∀ pre k, first_nested layout pre k →
       (∀ k', k' ∈ pre → clashes layout k' = false) →
       ∃ s',
         GridPlot._create_subplots self rows layout rng s
         = Raises (SkipRendering "Cannot plot nested Layouts.") s'
         ∧ GridPlot.cs_subplots s' !! wrap_tuple k = None
         ∧ ∀ sp, (wrap_tuple k, sp) ∈ GridPlot.cs_constructed s' →
                 (wrap_tuple k, sp) ∈ GridPlot.cs_constructed s)
  ∧ (∀ pre k, first_nested layout pre k →
       (∃ k', k' ∈ pre ∧ clashes layout k' = true) →
       ∃ s', GridPlot._create_subplots self rows layout rng s
             = Raises GridPlot.multiple_values s')
  ∧ (∀ msg s',
       GridPlot._create_subplots self rows layout rng s
       = Raises (SkipRendering msg) s' →
       ∃ k, k ∈ keys_full_grid layout ∧ nested_at layout k).
Proof.
  intros Hr.
  assert (∀ pre k, first_nested layout pre k →
            (∀ k', k' ∈ pre →
               GridPlot.is_nested_layout (lo_data layout !! wrap_tuple k') = false)
            ∧ GridPlot.is_nested_layout (lo_data layout !! wrap_tuple k) = true)
    as Hfirst.
  { intros pre k (_ & Hk & Hpre). split; [|by apply is_nested_layout_spec].
    intros k' Hk'. apply not_true_is_false. intros Hn.
    by apply (Hpre k' Hk'), is_nested_layout_spec. }
  split_and!.
  - intros (k0 & Hk0 & Hn0).
    destruct (first_split
                (λ k, GridPlot.is_nested_layout (lo_data layout !! wrap_tuple k))
                (keys_full_grid layout)) as (pre & k & post & Hsplit & Hk & Hpre).
    { exists k0. split; [done|]. by apply is_nested_layout_spec. }
    exists pre, k. split_and!; [by exists post|by apply is_nested_layout_spec|].
    intros k' Hk' Hn. apply is_nested_layout_spec in Hn.
    specialize (Hpre k' Hk'). simpl in Hpre. congruence.
  - intros pre k Hfst Hclash. destruct (Hfirst pre k Hfst) as [Hpre Hk].
    destruct Hfst as ([post Hsplit] & _ & _).
    assert (wrap_tuple k ∉ wrap_tuple <$> pre) as Hfresh.
    { intros (k' & Heq & Hk')%list_elem_of_fmap.
      specialize (Hpre k' Hk'). congruence. }
    eexists. split_and!.
    + unfold GridPlot._create_subplots. erewrite py_bind_returns; [|done].
      rewrite Hsplit. by apply create_loop_nested.
    + by rewrite effect_subplots_other.
    + intros sp Hin. by apply effect_constructed_other in Hin.
  - intros pre k Hfst Hclash. destruct (Hfirst pre k Hfst) as [Hpre Hk].
    destruct Hfst as ([post Hsplit] & _ & _).
    destruct (first_split (clashes layout) pre Hclash)
      as (pre1 & k1 & post1 & -> & Hk1 & Hpre1).
    eexists. unfold GridPlot._create_subplots. erewrite py_bind_returns; [|done].
    rewrite Hsplit, <- app_assoc, <- app_comm_cons.
    apply create_loop_clash; [done| |done| |done].
    + intros k' Hk'. apply Hpre, elem_of_app. by left.
    + apply Hpre, elem_of_app. right. left.
  - intros msg s' Hrun. unfold GridPlot._create_subplots in Hrun.
    erewrite py_bind_returns in Hrun; [|done].
    apply create_loop_raises in Hrun as [[? ?]|[[_ (k & Hk & Hn)]|[? _]]];
      [done| |done].
    exists k. split; [done|]. by apply is_nested_layout_spec.
Qed.

(** The x-axis and y-axis entries of the keyword arguments. *)
Lemma axis_kwargs_xaxis self r c :
  GridPlot.axis_kwargs self r c !! "xaxis"
  = if GridPlot.shared_xaxis self
    then (if decide (r = 0) then None else Some VNone)
    else Some VNone.
Proof.
  destruct self as [off size [] [] mt tb ks dyn ttl], r as [|r], c as [|c];
    vm_compute; reflexivity.
Qed.

Lemma axis_kwargs_yaxis self r c :
  GridPlot.axis_kwargs self r c !! "yaxis"
  = if GridPlot.shared_yaxis self
    then (if decide (c = 0) then None else Some VNone)
    else Some VNone.
Proof.
  destruct self as [off size [] [] mt tb ks dyn ttl], r as [|r], c as [|c];
    vm_compute; reflexivity.
Qed.

(** The options of a constructed subplot: keyword arguments first, the
    options looked up for the view otherwise. *)
Lemma construct_subplot_axis self pc v fr opts kwargs (name : string) :
  name = "xaxis" ∨ name = "yaxis" →
  sp_params (GridPlot.construct_subplot self pc v fr opts kwargs) !! name
  = match kwargs !! name with Some x => Some x | None => opts !! name end.
Proof.
  intros Hname. unfold GridPlot.construct_subplot, GridPlot.dict_override. simpl.
  rewrite !lookup_insert_ne by (destruct Hname as [-> | ->]; done).
  rewrite lookup_union. by destruct (kwargs !! name), (opts !! name).
Qed.

(** C5. Every subplot that an iteration of [GridPlot._create_subplots]
    creates, at grid row [r = i % rows] and column [c = i // rows], has
    [xaxis] set to [None] when [shared_xaxis] is disabled and, when it is
    enabled, exactly when [r != 0]; in row 0 it keeps the [xaxis] of its
    own options. Symmetrically [yaxis] is [None] when [shared_yaxis] is
    disabled and, when it is enabled, exactly when [c != 0]; in column 0
    the subplot keeps its own [yaxis]. The iteration does create a
    subplot when there is at least one row, the view is not a nested
    layout and has a plotting class, and its options name none of the
    keywords of the constructor call. *)
Theorem C5_shared_axes self rows layout fr i k v s :
  lo_data layout !! wrap_tuple k = Some v →
  let axes_of sp :=
    sp_params sp !! "xaxis"
    = (if GridPlot.shared_xaxis self
       then (if decide (i mod rows = 0) then lookup_options v !! "xaxis"
             else Some VNone)
       else Some VNone)
    ∧ sp_params sp !! "yaxis"
      = (if GridPlot.shared_yaxis self
         then (if decide (i / rows = 0) then lookup_options v !! "yaxis"
               else Some VNone)
         else Some VNone) in
  (∀ s' sp,
     GridPlot.create_subplot_at self rows layout fr i k s = Returns tt s' →
     GridPlot.cs_constructed s' = GridPlot.cs_constructed s ++ [(wrap_tuple k, sp)] →
     axes_of sp)
  ∧ (rows ≠ 0 →
     GridPlot.is_nested_layout (Some v) = false →
     is_Some (registry (GridPlot.vtype_of v)) →
     GridPlot.keyword_clash GridPlot.explicit_keywords (lookup_options v) = false →
     ∃ sp,
       GridPlot.create_subplot_at self rows layout fr i k s
       = Returns tt (GridPlot.cs_add (wrap_tuple k) sp s)
       ∧ axes_of sp).
Proof.
  intros Hv axes_of.
  assert (∀ pc, axes_of (GridPlot.construct_subplot self pc
                           (if displayable v then v else collate v) fr
                           (lookup_options v)
                           (GridPlot.axis_kwargs self (i mod rows) (i / rows))))
    as Haxes.
  { intros pc. split.
    - rewrite construct_subplot_axis, axis_kwargs_xaxis by auto.
      destruct (GridPlot.shared_xaxis self); [|done]. by case_decide.
    - rewrite construct_subplot_axis, axis_kwargs_yaxis by auto.
      destruct (GridPlot.shared_yaxis self); [|done]. by case_decide. }
  split.
  - intros s' sp Hrun Hcons.
    destruct (decide (rows = 0)) as [->|Hr];
      [by rewrite create_subplot_at_zero_rows in Hrun|].
    destruct (GridPlot.is_nested_layout (lo_data layout !! wrap_tuple k)) eqn:Hn;
      [by rewrite create_subplot_at_nested in Hrun|].
    destruct (clashes layout k) eqn:Hc;
      [by rewrite create_subplot_at_clash in Hrun|].
    rewrite create_subplot_at_plain in Hrun by done.
    injection Hrun as <-. revert Hcons.
    unfold GridPlot.create_subplot_effect. rewrite Hv.
    destruct (registry (GridPlot.vtype_of v)) as [pc|]; simpl.
    + intros [= <-]%app_inv_head. apply Haxes.
    + intros Hcons. apply (f_equal length) in Hcons.
      rewrite length_app in Hcons. simpl in Hcons. lia.
  - intros Hr Hn [pc Hreg] Hc. eexists. split; [|apply (Haxes pc)].
    rewrite create_subplot_at_plain; [| done | by rewrite Hv |].
    + unfold GridPlot.create_subplot_effect. by rewrite Hv, Hreg.
    + unfold clashes. by rewrite Hv, Hreg, Hc.
Qed.

End GridCreate.

(** ** GridPlot.initialize_plot *)

Section GridInitialize.
Context `{Upstream}.
Implicit Types (g : GridPlot.t) (k : pykey) (l : list pykey)
  (plots : list (list (option bmodel))) (passed : list (option bmodel)).

Lemma empty_grid_shape rows cols :
  grid_shape (GridPlot.empty_grid rows cols) rows cols.
Proof.
  unfold GridPlot.empty_grid. split; [by rewrite length_replicate|].
  intros row [-> _]%elem_of_replicate. by rewrite length_replicate.
Qed.

Lemma position_injective (n a b : nat) :
  n ≠ 0 → a mod n = b mod n → a / n = b / n → a = b.
Proof.
  intros Hn Hm Hd. rewrite (Nat.div_mod_eq a n), (Nat.div_mod_eq b n). by rewrite Hm, Hd.
Qed.

Lemma position_in_grid (rows cols i : nat) :
  i < rows * cols → i mod rows < rows ∧ i / rows < cols.
Proof.
  intros Hi. assert (rows ≠ 0) by lia. split.
  - by apply Nat.mod_upper_bound.
  - apply Nat.Div0.div_lt_upper_bound. lia.
Qed.

Lemma set_cell_spec {St} plots rows cols r c p (s : St) :
  grid_shape plots rows cols → r < rows → c < cols →
  ∃ plots',
    GridPlot.set_cell plots r c p s = Returns plots' s
    ∧ grid_shape plots' rows cols
    ∧ GridPlot.get_cell plots' r c = Some (Some p)
    ∧ ∀ r' c', (r', c') ≠ (r, c) →
               GridPlot.get_cell plots' r' c' = GridPlot.get_cell plots r' c'.
Proof.
  intros [Hlen Hrows] Hr Hc. unfold GridPlot.set_cell.
  destruct (plots !! r) as [row|] eqn:Hrow;
    [|apply lookup_ge_None in Hrow; lia].
  assert (length row = cols) as Hrl by (eapply Hrows, list_elem_of_lookup_2; done).
  rewrite decide_True by lia. eexists. split_and!; [done| | |].
  - split; [by rewrite length_insert|].
    intros row' Hin. apply list_elem_of_lookup in Hin as [j Hj].
    destruct (decide (j = r)) as [->|Hne].
    + rewrite list_lookup_insert_eq in Hj by lia. injection Hj as <-.
      by rewrite length_insert.
    + rewrite list_lookup_insert_ne in Hj by done.
      by eapply Hrows, list_elem_of_lookup_2.
  - unfold GridPlot.get_cell. rewrite list_lookup_insert_eq by lia. simpl.
    by rewrite list_lookup_insert_eq by lia.
  - intros r' c' Hne. unfold GridPlot.get_cell.
    destruct (decide (r' = r)) as [->|Hr'].
    + rewrite list_lookup_insert_eq by lia. rewrite Hrow. simpl.
      rewrite list_lookup_insert_ne; [done|congruence].
    + by rewrite list_lookup_insert_ne.
Qed.

(** The loop of [initialize_plot] over a grid large enough for the keys:
    it ends normally, the plot of the subplot found for the [j]-th key is
    in cell [(j % rows, j // rows)], and the other cells are as before. *)
Lemma place_loop g rng l : ∀ i0 plots passed,
  i0 + length l ≤ GridPlot.rows g * GridPlot.cols g →
  grid_shape plots (GridPlot.rows g) (GridPlot.cols g) →
  ∃ plots' passed',
    for_enumerate (GridPlot.place_subplot_at g rng) i0 l (plots, passed)
    = Returns tt (plots', passed')
    ∧ grid_shape plots' (GridPlot.rows g) (GridPlot.cols g)
    ∧ (∀ j k sp, l !! j = Some k →
         GridPlot.subplots g !! wrap_tuple k = Some sp →
         ∃ p, GridPlot.get_cell plots'
                ((i0 + j) mod GridPlot.rows g) ((i0 + j) / GridPlot.rows g)
              = Some (Some (subplot_initialize_plot sp rng p)))
    ∧ (∀ r c, (∀ j, j < length l →
                    (r, c) ≠ ((i0 + j) mod GridPlot.rows g,
                              (i0 + j) / GridPlot.rows g)) →
              GridPlot.get_cell plots' r c = GridPlot.get_cell plots r c).
Proof.
  induction l as [|k l IH]; intros i0 plots passed Hlen Hshape.
  - exists plots, passed. split_and!; [done..| |done].
    intros j k sp Hj. by rewrite lookup_nil in Hj.
  - simpl in Hlen.
    assert (GridPlot.rows g ≠ 0) as Hr by lia.
    destruct (position_in_grid (GridPlot.rows g) (GridPlot.cols g) i0) as [Hrow Hcol];
      [lia|].
    assert (∃ plots1 passed1,
      GridPlot.place_subplot_at g rng i0 k (plots, passed) = Returns tt (plots1, passed1)
      ∧ grid_shape plots1 (GridPlot.rows g) (GridPlot.cols g)
      ∧ (∀ sp, GridPlot.subplots g !! wrap_tuple k = Some sp →
           ∃ p, GridPlot.get_cell plots1
                  (i0 mod GridPlot.rows g) (i0 / GridPlot.rows g)
                = Some (Some (subplot_initialize_plot sp rng p)))
      ∧ (∀ r c, (r, c) ≠ (i0 mod GridPlot.rows g, i0 / GridPlot.rows g) →
           GridPlot.get_cell plots1 r c = GridPlot.get_cell plots r c))
      as (plots1 & passed1 & Hstep & Hshape1 & Hcell1 & Hframe1).
    { unfold GridPlot.place_subplot_at, GridPlot.grid_position.
      rewrite decide_False by done.
      unfold mbind at 1, py_mbind, py_bind, mret, py_mret, py_ret.
      destruct (GridPlot.subplots g !! wrap_tuple k) as [sp|].
      - destruct (set_cell_spec (St := list (list (option bmodel)) * list (option bmodel))
                    plots _ _ _ _ (subplot_initialize_plot sp rng passed)
                    (plots, passed) Hshape Hrow Hcol)
          as (plots1 & Hset & Hshape1 & Hget & Hframe).
        exists plots1, (passed ++ [Some (subplot_initialize_plot sp rng passed)]).
        split_and!; [|done| |done].
        + unfold mbind, py_mbind, py_bind, get_state. simpl. by rewrite Hset.
        + intros sp' [= <-]. eauto.
      - exists plots, (passed ++ [None]). split_and!; done. }
    destruct (IH (S i0) plots1 passed1) as (plots' & passed' & Hrun & Hshape' & Hcells & Hframe);
      [lia|done|].
    exists plots', passed'. split_and!; [|done| |].
    + simpl. by erewrite py_bind_returns.
    + intros [|j] k' sp Hj Hsp; simpl in Hj.
      * injection Hj as <-. rewrite Nat.add_0_r, Hframe; [by apply Hcell1|].
        intros j Hj [= Hm Hd].
        apply position_injective in Hm; [lia|done..].
      * replace (i0 + S j) with (S i0 + j) by lia. by eapply Hcells.
    + intros r c Hrc. rewrite Hframe, Hframe1; [done| |].
      * specialize (Hrc 0). rewrite Nat.add_0_r in Hrc. apply Hrc. simpl. lia.
      * intros j Hj. replace (S i0 + j) with (i0 + S j) by lia. apply Hrc. simpl. lia.
Qed.

End GridInitialize.

Section GridPlacement.
Context `{Upstream}.

(** When [_create_subplots] returns, no view was a nested layout and the
    state is the accumulated effect of the iterations. *)
Lemma create_subplots_returns self rows layout rng s s' :
  rows ≠ 0 →
  GridPlot._create_subplots self rows layout rng s = Returns tt s' →
  s' = GridPlot.create_subplots_effect self rows layout
         (GridPlot.frame_ranges_of self layout rng) 0 (keys_full_grid layout)
         (GridPlot.cs_enter layout s).
Proof.
  intros Hr Hrun. unfold GridPlot._create_subplots in Hrun.
  erewrite py_bind_returns in Hrun; [|done].
  by apply create_loop_returns in Hrun as [-> _].
Qed.

(** [_get_title] does not raise when no ['title'] handle is set, and
    leaves the handles and the update log as they are. *)
Lemma get_title_no_handle {C} tp key (st : CompositePlot.state C) :
  CompositePlot.handles st !! "title" = None →
  ∃ o st', CompositePlot._get_title tp key st = Returns o st'
    ∧ CompositePlot.handles st' = CompositePlot.handles st
    ∧ CompositePlot.updates st' = CompositePlot.updates st.
Proof.
  intros Hno. unfold CompositePlot._get_title.
  case_decide; [by eexists _, _|].
  unfold mbind, py_mbind, py_bind, get_state. rewrite Hno. by eexists _, _.
Qed.

(** Let [__init__] build a [GridPlot] from a GridSpace whose full
    grid has [cols * rows] distinct keys. The subplot stored for the
    [i]-th of these keys was constructed with the keyword arguments of
    row [i % rows] and column [i // rows], and [i = c * rows + r]
    (column-major filling). [initialize_plot] enumerates the full grid
    of [self.layout], the collapsed clone: when the key is the [j]-th
    there, the plot of the subplot goes to cell
    [plots[j % rows][j // rows]] of the grid kept under the ['plots']
    handle. *)
Lemma grid_coordinates_by_enumeration self layout rng s0 g s1 i j k k' sp :
  GridPlot.__init__ self layout rng s0 = Returns g s1 →
  length (keys_full_grid layout) = GridPlot.cols g * GridPlot.rows g →
  NoDup (wrap_tuple <$> keys_full_grid layout) →
  length (keys_full_grid (GridPlot.layout g)) ≤ GridPlot.rows g * GridPlot.cols g →
  keys_full_grid layout !! i = Some k →
  keys_full_grid (GridPlot.layout g) !! j = Some k' →
  wrap_tuple k' = wrap_tuple k →
  GridPlot.subplots g !! wrap_tuple k = Some sp →
  let r := i mod GridPlot.rows g in
  let c := i / GridPlot.rows g in
  (r < GridPlot.rows g ∧ c < GridPlot.cols g ∧ i = c * GridPlot.rows g + r)
  ∧ (∃ v pc, lo_data layout !! wrap_tuple k = Some v
       ∧ registry (GridPlot.vtype_of v) = Some pc
       ∧ sp = GridPlot.construct_subplot self pc
                (if displayable v then v else collate v)
                (GridPlot.frame_ranges_of self layout rng) (lookup_options v)
                (GridPlot.axis_kwargs self r c))
  ∧ (∀ passed st key,
       last (GridPlot.keys (GridPlot.self_params g)) = Some key →
       CompositePlot.handles st !! "title" = None →
       ∃ m st' plots p,
         GridPlot.initialize_plot g passed st = Returns m st'
         ∧ CompositePlot.handles st' !! "plots" = Some (CompositePlot.HGrid plots)
         ∧ GridPlot.get_cell plots (j mod GridPlot.rows g) (j / GridPlot.rows g)
           = Some (Some (subplot_initialize_plot sp
                           (compute_ranges (GridPlot.layout g) (Some key) NoRanges) p))).
Proof.
  intros Hinit Hlen Hnodup Hlen' Hi Hj Hkk' Hsp r c.
  assert (i < GridPlot.rows g * GridPlot.cols g) as Hlt.
  { apply lookup_lt_Some in Hi. lia. }
  assert (GridPlot.rows g ≠ 0) as Hr by lia.
  destruct (position_in_grid _ _ _ Hlt) as [Hrow Hcol].
  (* what __init__ did *)
  unfold GridPlot.__init__ in Hinit.
  destruct (negb (issubclass (lo_class layout) cGridSpace)); [done|].
  destruct (lo_shape layout) as [cols0 rows0].
  unfold mbind, py_mbind, py_bind in Hinit.
  destruct (GridPlot._create_subplots self rows0 layout rng s0) as [[] s|] eqn:Hcs;
    [|done].
  unfold get_state, mret, py_mret, py_ret in Hinit. injection Hinit as <- <-.
  simpl in *.
  apply create_subplots_returns in Hcs; [|done]. subst s.
  split_and!; [done|done|subst r c; rewrite Nat.mul_comm; apply Nat.div_mod_eq| |].
  - destruct (lo_data layout !! wrap_tuple k) as [v|] eqn:Hv.
    + destruct (registry (GridPlot.vtype_of v)) as [pc|] eqn:Hreg.
      * destruct (effect_subplots_registered self rows0 layout
                    (GridPlot.frame_ranges_of self layout rng) (keys_full_grid layout)
                    0 (GridPlot.cs_enter layout s0) k v pc) as (j0 & k0 & Hj0 & Hw & Hlook);
          [by eapply list_elem_of_lookup_2|done..|].
        assert (j0 = i) as ->.
        { eapply (NoDup_lookup _ _ _ (wrap_tuple k)); [exact Hnodup|..];
            rewrite list_lookup_fmap; [rewrite Hj0|rewrite Hi]; simpl; by rewrite ?Hw. }
        exists v, pc. split_and!; [done..|]. subst r c. simpl in Hlook. congruence.
      * destruct (effect_subplots_unregistered self rows0 layout
                    (GridPlot.frame_ranges_of self layout rng) (keys_full_grid layout)
                    0 (GridPlot.cs_enter layout s0) (wrap_tuple k)) as [Hnone _].
        { intros v' Hv'. congruence. }
        rewrite Hnone in Hsp. simpl in Hsp. by rewrite lookup_empty in Hsp.
    + destruct (effect_subplots_unregistered self rows0 layout
                  (GridPlot.frame_ranges_of self layout rng) (keys_full_grid layout)
                  0 (GridPlot.cs_enter layout s0) (wrap_tuple k)) as [Hnone _].
      { intros v' Hv'. congruence. }
      rewrite Hnone in Hsp. simpl in Hsp. by rewrite lookup_empty in Hsp.
  - intros passed st key Hkey Hno.
    set (g := {| GridPlot.self_params := self; GridPlot.cols := cols0;
                 GridPlot.rows := rows0;
                 GridPlot.subplots := _; GridPlot.layout := _ |}) in *.
    set (rng' := compute_ranges (GridPlot.layout g) (Some key) NoRanges).
    destruct (place_loop g rng' (keys_full_grid (GridPlot.layout g)) 0
                (GridPlot.empty_grid rows0 cols0) passed)
      as (plots & passed' & Hrun & _ & Hcells & _).
    { unfold g. simpl. exact Hlen'. }
    { apply empty_grid_shape. }
    destruct (Hcells j k' sp) as [p Hp];
      [done|by rewrite Hkk'|].
    destruct (get_title_no_handle (C := coord) (GridPlot.title self) key st Hno)
      as (o & st1 & Htitle & Hh1 & _).
    unfold GridPlot.initialize_plot.
    change (GridPlot.self_params g) with self. rewrite Hkey.
    unfold GridPlot.place_subplots. fold rng'.
    change (GridPlot.rows g) with rows0. change (GridPlot.cols g) with cols0.
    rewrite Hrun.
    unfold mbind, py_mbind, py_bind. rewrite Htitle.
    destruct o as [d|]; simpl; eexists _, _, plots, p;
      (split_and!; [reflexivity| |exact Hp]);
      simpl; by rewrite lookup_insert_eq.
Qed.

End GridPlacement.

(** ** Ordered dictionaries *)

Section OrderedDict.
Context {V : Type}.
Implicit Types (d new : odict V) (k : string) (v : V).

Lemma od_lookup_set k k' v d :
  od_lookup k (od_set k' v d) = if decide (k = k') then Some v else od_lookup k d.
Proof.
  induction d as [|[k0 v0] d IH]; simpl.
  - by destruct (decide (k = k')).
  - destruct (decide (k' = k0)) as [->|Hne]; simpl.
    + by destruct (decide (k = k0)).
    + destruct (decide (k = k0)) as [->|Hne'].
      * by rewrite decide_False by done.
      * done.
Qed.

Lemma od_lookup_None k d : od_lookup k d = None ↔ k ∉ od_keys d.
Proof.
  unfold od_keys. induction d as [|[k0 v0] d IH]; simpl.
  - split; [intros _; apply not_elem_of_nil|done].
  - rewrite not_elem_of_cons. destruct (decide (k = k0)) as [->|Hne]; simpl.
    + split; [done|]. by intros [? _].
    + rewrite IH. tauto.
Qed.

Lemma od_mem_false k d : od_mem k d = false ↔ od_lookup k d = None.
Proof.
  unfold od_mem. rewrite bool_decide_eq_false.
  destruct (od_lookup k d) as [v|].
  - split; [intros Hn; destruct Hn; by exists v|done].
  - split; [done|]. intros _ [v Hv]. done.
Qed.

(** Updating leaves the columns that the update does not name. *)
Lemma od_lookup_update_None k new : ∀ d,
  od_lookup k new = None → od_lookup k (od_update d new) = od_lookup k d.
Proof.
  unfold od_update. induction new as [|[k0 v0] new IH]; intros d Hk; simpl in *; [done|].
  destruct (decide (k = k0)) as [->|Hne]; [done|].
  rewrite IH by done. rewrite od_lookup_set. by rewrite decide_False.
Qed.

(** It gives the named columns their new values. *)
Lemma od_lookup_update_Some k v new : ∀ d,
  NoDup (od_keys new) → od_lookup k new = Some v →
  od_lookup k (od_update d new) = Some v.
Proof.
  induction new as [|[k0 v0] new IH]; intros d Hnd Hk; simpl in *; [done|].
  apply NoDup_cons in Hnd as [Hk0 Hnd].
  destruct (decide (k = k0)) as [->|Hne].
  - injection Hk as ->.
    change (od_lookup k0 (od_update (od_set k0 v d) new) = Some v).
    rewrite od_lookup_update_None by (by apply od_lookup_None).
    rewrite od_lookup_set. by rewrite decide_True.
  - by apply IH.
Qed.

Lemma od_keys_map {W} (f : V → W) d : od_keys (od_map f d) = od_keys d.
Proof. unfold od_keys, od_map. rewrite <-list_fmap_compose. by apply list_fmap_ext. Qed.

End OrderedDict.

(** ** BokehPlot._update_datasource *)

Section UpdateDatasource.
Context `{Upstream}.

Lemma needs_replacement_spec (source_data data : odict column) :
  BokehPlot.needs_replacement source_data data = true
  ↔ (∃ k, k ∈ od_keys source_data ∧ od_lookup k data = None)
    ∧ ∃ a b, head (BokehPlot.list_lengths source_data) = Some a
             ∧ head (BokehPlot.list_lengths data) = Some b ∧ a ≠ b.
Proof.
  unfold BokehPlot.needs_replacement.
  assert (BokehPlot.untouched source_data data ≠ []
          ↔ ∃ k, k ∈ od_keys source_data ∧ od_lookup k data = None) as Hunt.
  { unfold BokehPlot.untouched. split.
    - intros Hne. destruct (filter _ _) as [|k l] eqn:Hf; [done|].
      assert (k ∈ filter (λ k, od_mem k data = false) (od_keys source_data)) as Hin
        by (rewrite Hf; left).
      apply list_elem_of_filter in Hin as [Hm Hin].
      exists k. split; [done|]. by apply od_mem_false.
    - intros (k & Hk & Hn) Hnil.
      assert (k ∈ filter (λ k, od_mem k data = false) (od_keys source_data)) as Hin
        by (apply list_elem_of_filter; split; [by apply od_mem_false|done]).
      rewrite Hnil in Hin. by apply elem_of_nil in Hin. }
  destruct (BokehPlot.untouched source_data data) as [|k0 u].
  { split; [done|]. intros [Hex _]. by apply Hunt in Hex. }
  destruct (BokehPlot.list_lengths source_data) as [|a la]; simpl.
  { split; [done|]. by intros (_ & a & b & ? & _). }
  destruct (BokehPlot.list_lengths data) as [|b lb]; simpl.
  { split; [done|]. by intros (_ & a' & b & _ & ? & _). }
  rewrite negb_true_iff, bool_decide_eq_false. split.
  - intros Hab. split; [by apply Hunt|]. by exists a, b.
  - intros (_ & a' & b' & [= <-] & [= <-] & Hab). done.
Qed.

(** C3. When the streaming branch of [_update_datasource] is not taken,
    [source.data] is replaced by the new (decoded) data exactly when some
    existing column is absent from the new data and both the existing
    data and the new data have a first list/array column and the lengths
    of these two columns differ. In every other case the new data is
    merged into the existing dictionary: the columns it does not name
    stay as they were and, the new data being a dictionary, its columns
    take their new values. *)
Theorem C3_replace_or_update self (source_data data : odict column) :
  NoDup (od_keys data) →
  BokehPlot.streaming_branch self (od_map decode_bytes data) = false →
  let new := od_map decode_bytes data in
  let replace :=
    (∃ k, k ∈ od_keys source_data ∧ od_lookup k new = None)
    ∧ ∃ a b, head (BokehPlot.list_lengths source_data) = Some a
             ∧ head (BokehPlot.list_lengths new) = Some b ∧ a ≠ b in
  (replace →
   BokehPlot._update_datasource self source_data data = (BokehPlot.Replaced, new))
  ∧ (¬ replace →
     ∃ merged,
       BokehPlot._update_datasource self source_data data = (BokehPlot.Merged, merged)
       ∧ merged = od_update source_data new
       ∧ (∀ k, k ∈ od_keys source_data → od_lookup k new = None →
               od_lookup k merged = od_lookup k source_data
               ∧ is_Some (od_lookup k merged))
       ∧ (∀ k v, od_lookup k new = Some v → od_lookup k merged = Some v)).
Proof.
  intros Hnd Hstream new replace. subst new replace.
  unfold BokehPlot._update_datasource. rewrite Hstream. split.
  - intros Hrep. apply needs_replacement_spec in Hrep. by rewrite Hrep.
  - intros Hrep. rewrite <-needs_replacement_spec in Hrep.
    apply not_true_is_false in Hrep. rewrite Hrep.
    eexists. split_and!; [done..| |].
    + intros k Hk Hnone. rewrite od_lookup_update_None by done. split; [done|].
      apply not_eq_None_Some. intros Hn. by apply od_lookup_None in Hn.
    + intros k v Hk. apply od_lookup_update_Some; [|done].
      by rewrite od_keys_map.
Qed.

End UpdateDatasource.

(** ** update_frame *)

Lemma filter_fmap_comm {A B} (f : A → B) (P : B → Prop) `{∀ y, Decision (P y)}
    (xs : list A) :
  filter P (f <$> xs) = f <$> filter (λ x, P (f x)) xs.
Proof.
  induction xs as [|x xs IH]; [done|]. rewrite fmap_cons.
  destruct (decide (P (f x))).
  - rewrite !filter_cons_True by done. by rewrite fmap_cons, IH.
  - by rewrite !filter_cons_False by done.
Qed.

Section UpdateFrame.
Context `{Upstream}.

(** The loop of [update_frame]: one call for each traversed item that
    has a subplot, none for the others, and no exception. *)
Lemma update_loop {C X Y} (look : X → option Y) (addr : X → C) key rng (xs : list X) :
  ∀ st : CompositePlot.state C,
  for_each (λ x, match look x with
                 | Some _ => CompositePlot.subplot_update_frame (addr x) key rng
                 | None => mret tt
                 end) xs st
  = Returns tt
      (with_updates ((λ x, (addr x, key, rng)) <$> filter (λ x, is_Some (look x)) xs) st).
Proof.
  induction xs as [|x xs IH]; intros st; simpl.
  - unfold with_updates. rewrite app_nil_r. by destruct st.
  - unfold mbind, py_mbind, py_bind. destruct (look x) as [y|] eqn:Hx.
    + rewrite filter_cons_True by (by rewrite Hx).
      unfold CompositePlot.subplot_update_frame, modify. rewrite IH.
      unfold with_updates, CompositePlot.log_update. simpl.
      by rewrite <-app_assoc.
    + rewrite filter_cons_False by (rewrite Hx; by intros [? ?]).
      unfold mret, py_mret, py_ret. by rewrite IH.
Qed.

(** [_get_title] leaves the log of update calls as it is. *)
Lemma get_title_updates {C} tp key (st : CompositePlot.state C) :
  CompositePlot.updates (final_state (CompositePlot._get_title tp key st))
  = CompositePlot.updates st.
Proof.
  unfold CompositePlot._get_title. case_decide; [done|].
  unfold mbind, py_mbind, py_bind, get_state.
  destruct (CompositePlot.handles st !! "title") as [[[]| | |]|]; done.
Qed.

Lemma grid_update_frame_updates (g : GridPlot.t) key rng st :
  CompositePlot.updates (final_state (GridPlot.update_frame g key rng st))
  = CompositePlot.updates st
    ++ ((λ k, (wrap_tuple k, key, compute_ranges (GridPlot.layout g) (Some key) rng))
          <$> filter (λ k, is_Some (GridPlot.subplots g !! wrap_tuple k))
                (keys_full_grid (GridPlot.layout g))).
Proof.
  unfold GridPlot.update_frame.
  erewrite py_bind_returns; [|apply (update_loop (λ k, GridPlot.subplots g !! wrap_tuple k))].
  set (st1 := with_updates _ st).
  pose proof (get_title_updates (GridPlot.title (GridPlot.self_params g)) key st1) as Ht.
  unfold mbind, py_mbind, py_bind.
  destruct (CompositePlot._get_title _ key st1) as [[r|] st2|e st2]; simpl in *.
  - unfold CompositePlot.get_handle, mbind, py_mbind, py_bind, get_state.
    by destruct (CompositePlot.handles st2 !! "title").
  - done.
  - done.
Qed.

Lemma layout_update_frame_updates (lp : LayoutPlot.t) key rng st :
  CompositePlot.updates (final_state (LayoutPlot.update_frame lp key rng st))
  = CompositePlot.updates st
    ++ ((λ rc, (rc, key, compute_ranges (LayoutPlot.layout lp) (Some key) rng))
          <$> filter (λ rc, is_Some (LayoutPlot.subplots lp !! rc))
                (LayoutPlot.coords lp)).
Proof.
  unfold LayoutPlot.update_frame.
  erewrite py_bind_returns; [|apply (update_loop (λ rc, LayoutPlot.subplots lp !! rc) id)].
  set (st1 := with_updates _ st).
  pose proof (get_title_updates (LayoutPlot.title lp) key st1) as Ht.
  unfold mbind, py_mbind, py_bind.
  by destruct (CompositePlot._get_title _ key st1) as [[r|] st2|e st2].
Qed.

(** Over a duplicate-free traversal that covers the subplots, the
    reached addresses enumerate the subplots without repetition. *)
Lemma reached_once {C X} `{Countable C} (subplots : gmap C X) (cs : list C) :
  NoDup cs → (∀ c, is_Some (subplots !! c) → c ∈ cs) →
  NoDup (filter (λ c, is_Some (subplots !! c)) cs)
  ∧ ∀ c, c ∈ filter (λ c, is_Some (subplots !! c)) cs ↔ is_Some (subplots !! c).
Proof.
  intros Hnd Hcov. split; [by apply NoDup_filter|].
  intros c. rewrite list_elem_of_filter. split; [by intros [? _]|]. auto.
Qed.

(** C4. For every key, [GridPlot.update_frame] calls [update_frame] with
    that key and the freshly computed ranges on the subplot of every
    full-grid coordinate that has one, and [LayoutPlot.update_frame] does
    so for every coordinate of [self.coords]; a coordinate without a
    subplot gets no call and stops nothing. When the traversed
    coordinates are distinct and every subplot sits at one of them, the
    calls of one update enumerate the existing subplots, each exactly
    once. *)
Theorem C4_update_frame_propagation (g : GridPlot.t) (lp : LayoutPlot.t)
    key rng (st : CompositePlot.state coord) (st' : CompositePlot.state (nat * nat)) :
  let grid_coords := wrap_tuple <$> keys_full_grid (GridPlot.layout g) in
  let grid_reached := filter (λ c, is_Some (GridPlot.subplots g !! c)) grid_coords in
  let layout_reached :=
    filter (λ rc, is_Some (LayoutPlot.subplots lp !! rc)) (LayoutPlot.coords lp) in
  CompositePlot.updates (final_state (GridPlot.update_frame g key rng st))
  = CompositePlot.updates st
    ++ ((λ c, (c, key, compute_ranges (GridPlot.layout g) (Some key) rng))
          <$> grid_reached)
  ∧ CompositePlot.updates (final_state (LayoutPlot.update_frame lp key rng st'))
    = CompositePlot.updates st'
      ++ ((λ rc, (rc, key, compute_ranges (LayoutPlot.layout lp) (Some key) rng))
            <$> layout_reached)
  ∧ (NoDup grid_coords →
     (∀ c, is_Some (GridPlot.subplots g !! c) → c ∈ grid_coords) →
     NoDup grid_reached
     ∧ ∀ c, c ∈ grid_reached ↔ is_Some (GridPlot.subplots g !! c))
  ∧ (NoDup (LayoutPlot.coords lp) →
     (∀ rc, is_Some (LayoutPlot.subplots lp !! rc) → rc ∈ LayoutPlot.coords lp) →
     NoDup layout_reached
     ∧ ∀ rc, rc ∈ layout_reached ↔ is_Some (LayoutPlot.subplots lp !! rc)).
Proof.
  intros grid_coords grid_reached layout_reached. split_and!.
  - rewrite grid_update_frame_updates. f_equal.
    subst grid_reached grid_coords.
    rewrite filter_fmap_comm, <-list_fmap_compose.
    by apply list_fmap_ext.
  - apply layout_update_frame_updates.
  - apply reached_once.
  - apply reached_once.
Qed.

End UpdateFrame.

(** ** The title refresh of update_frame *)

Section TitleRefresh.
Context `{Upstream}.

Lemma get_title_new_div {C} tp key (st : CompositePlot.state C) :
  has_title tp key → CompositePlot.handles st !! "title" = None →
  CompositePlot._get_title tp key st
  = Returns (Some (fresh (dom (CompositePlot.divs st))))
      (CompositePlot.set_div (fresh (dom (CompositePlot.divs st)))
         (CompositePlot.Div 450
            (CompositePlot.title_tags tp (CompositePlot._format_title tp key)))
         st).
Proof.
  intros [Hshow Hne] Hno. unfold CompositePlot._get_title. rewrite Hshow.
  rewrite decide_False by done.
  unfold mbind, py_mbind, py_bind, get_state. by rewrite Hno.
Qed.

Lemma get_title_existing_div {C} tp key r (st : CompositePlot.state C) :
  has_title tp key →
  CompositePlot.handles st !! "title" = Some (CompositePlot.HModel (BDiv r)) →
  CompositePlot._get_title tp key st
  = Returns (Some r)
      (CompositePlot.set_div r
         (CompositePlot.Div
            (default 450%Z (CompositePlot.div_width <$> CompositePlot.divs st !! r))
            (CompositePlot.title_tags tp (CompositePlot._format_title tp key)))
         st).
Proof.
  intros [Hshow Hne] Hh. unfold CompositePlot._get_title. rewrite Hshow.
  rewrite decide_False by done.
  unfold mbind, py_mbind, py_bind, get_state. by rewrite Hh.
Qed.

(** Without a ['title'] handle, the title step of [GridPlot.update_frame]
    raises [KeyError] and stores nothing... *)
Lemma grid_update_frame_title_missing (g : GridPlot.t) key rng st :
  has_title (GridPlot.title (GridPlot.self_params g)) key →
  CompositePlot.handles st !! "title" = None →
  ∃ st1, GridPlot.update_frame g key rng st = Raises (KeyError "title") st1
         ∧ CompositePlot.handles st1 = CompositePlot.handles st.
Proof.
  intros Ht Hno. unfold GridPlot.update_frame.
  erewrite py_bind_returns; [|apply (update_loop (λ k, GridPlot.subplots g !! wrap_tuple k))].
  erewrite py_bind_returns; [|by apply get_title_new_div].
  unfold CompositePlot.get_handle, mbind, py_mbind, py_bind, get_state. simpl.
  rewrite Hno. by eexists.
Qed.

(** ... where that of [LayoutPlot.update_frame] stores the new div. *)
Lemma layout_update_frame_title_missing (lp : LayoutPlot.t) key rng st :
  has_title (LayoutPlot.title lp) key →
  CompositePlot.handles st !! "title" = None →
  ∃ r st1, LayoutPlot.update_frame lp key rng st = Returns tt st1
           ∧ CompositePlot.handles st1 !! "title" = Some (CompositePlot.HModel (BDiv r))
           ∧ CompositePlot.divs st1 !! r
             = Some (CompositePlot.Div 450
                       (CompositePlot.title_tags (LayoutPlot.title lp)
                          (CompositePlot._format_title (LayoutPlot.title lp) key))).
Proof.
  intros Ht Hno. unfold LayoutPlot.update_frame.
  erewrite py_bind_returns; [|apply (update_loop (λ rc, LayoutPlot.subplots lp !! rc) id)].
  erewrite py_bind_returns; [|by apply get_title_new_div].
  eexists _, _. split; [done|]. simpl. by rewrite !lookup_insert_eq.
Qed.

(** With a title div already under ['title'], the two methods agree:
    both return, keep the handles and set the text of that div. *)
Lemma grid_update_frame_title_present (g : GridPlot.t) key rng r st :
  has_title (GridPlot.title (GridPlot.self_params g)) key →
  CompositePlot.handles st !! "title" = Some (CompositePlot.HModel (BDiv r)) →
  ∃ st1, GridPlot.update_frame g key rng st = Returns tt st1
    ∧ CompositePlot.handles st1 = CompositePlot.handles st
    ∧ CompositePlot.divs st1
      = <[r := CompositePlot.Div
                 (default 450%Z (CompositePlot.div_width <$> CompositePlot.divs st !! r))
                 (CompositePlot.title_tags (GridPlot.title (GridPlot.self_params g))
                    (CompositePlot._format_title
                       (GridPlot.title (GridPlot.self_params g)) key))]>
          (CompositePlot.divs st).
Proof.
  intros Ht Hh. unfold GridPlot.update_frame.
  erewrite py_bind_returns; [|apply (update_loop (λ k, GridPlot.subplots g !! wrap_tuple k))].
  erewrite py_bind_returns; [|by apply get_title_existing_div].
  unfold CompositePlot.get_handle, mbind, py_mbind, py_bind, get_state. simpl.
  rewrite Hh. by eexists.
Qed.

Lemma layout_update_frame_title_present (lp : LayoutPlot.t) key rng r st :
  has_title (LayoutPlot.title lp) key →
  CompositePlot.handles st !! "title" = Some (CompositePlot.HModel (BDiv r)) →
  ∃ st1, LayoutPlot.update_frame lp key rng st = Returns tt st1
    ∧ CompositePlot.handles st1 = CompositePlot.handles st
    ∧ CompositePlot.divs st1
      = <[r := CompositePlot.Div
                 (default 450%Z (CompositePlot.div_width <$> CompositePlot.divs st !! r))
                 (CompositePlot.title_tags (LayoutPlot.title lp)
                    (CompositePlot._format_title (LayoutPlot.title lp) key))]>
          (CompositePlot.divs st).
Proof.
  intros Ht Hh. unfold LayoutPlot.update_frame.
  erewrite py_bind_returns; [|apply (update_loop (λ rc, LayoutPlot.subplots lp !! rc) id)].
  erewrite py_bind_returns; [|by apply get_title_existing_div].
  eexists. split_and!; [done| |done]. simpl. by apply insert_id.
Qed.

End TitleRefresh.

(** ** LayoutPlot.initialize_plot with tabs *)

(** A loop whose iterations all return keeps an invariant indexed by the
    items already visited. *)
Lemma for_each_invariant {St A} (body : A → py St unit) (I : list A → St → Prop)
    (xs : list A) : ∀ pre s,
  I pre s →
  (∀ done x s, I done s → x ∈ xs →
     ∃ s', body x s = Returns tt s' ∧ I (done ++ [x]) s') →
  ∃ s', for_each body xs s = Returns tt s' ∧ I (pre ++ xs) s'.
Proof.
  induction xs as [|x xs IH]; intros pre s Hpre Hstep; simpl.
  - exists s. by rewrite app_nil_r.
  - destruct (Hstep pre x s Hpre) as (s1 & Hx & Hs1); [left|].
    destruct (IH (pre ++ [x]) s1 Hs1) as (s' & Hrun & Hs').
    { intros done y s2 Hd Hy. apply Hstep; [done|by right]. }
    exists s'. rewrite <-app_assoc in Hs'. split; [|done].
    by erewrite py_bind_returns.
Qed.

Section LayoutTabs.
Context `{Upstream}.
Implicit Types (lp : LayoutPlot.t) (adj : AdjointLayoutPlot.t).

Lemma adjoin_plots_length adj rng plots ps : ∀ acc,
  length (AdjointLayoutPlot.adjoin_plots adj rng plots acc ps)
  = length acc + length ps.
Proof.
  induction ps as [|pos ps IH]; intros acc; simpl; [lia|].
  rewrite IH, length_app. simpl. lia.
Qed.

(** An adjoint layout renders one plot for each of its positions. *)
Lemma adjoint_initialize_plot_length adj rng plots :
  length (AdjointLayoutPlot.initialize_plot adj rng plots)
  = length (AdjointLayoutPlot.positions (AdjointLayoutPlot.type adj))
  ∧ 1 ≤ length (AdjointLayoutPlot.initialize_plot adj rng plots) ≤ 3.
Proof.
  unfold AdjointLayoutPlot.initialize_plot, AdjointLayoutPlot.view_positions.
  pose proof (adjoin_plots_length adj rng (default [] plots)
                (AdjointLayoutPlot.positions (AdjointLayoutPlot.type adj)) []) as Hlen.
  destruct (decide _) as [Hnil|_].
  - rewrite Hnil in Hlen. destruct (AdjointLayoutPlot.type adj); simpl in *; lia.
  - rewrite length_fmap, Hlen. destruct (AdjointLayoutPlot.type adj); simpl; lia.
Qed.

Lemma tab_of_spec lp key rng passed r c adj main (s : LayoutPlot.locals) :
  LayoutPlot.subplots lp !! (r, c) = Some adj →
  AdjointLayoutPlot.subplots adj !! "main" = Some (Some main) →
  (subplot_format_title main key = EmptyString →
   ∃ path, LayoutPlot.paths lp !! (r, c) = Some (Some path)) →
  LayoutPlot.tab_of lp key r c adj
    (AdjointLayoutPlot.initialize_plot adj rng
       (if LayoutPlot.shared_axes lp then Some passed else None)) s
  = Returns (tab_title lp key (r, c) main,
             LayoutPlot.tab_child lp
               (AdjointLayoutPlot.initialize_plot adj rng
                  (if LayoutPlot.shared_axes lp then Some passed else None))) s.
Proof.
  intros Hadj Hmain Hpath. unfold LayoutPlot.tab_of, tab_title. rewrite Hmain.
  unfold mbind at 1, py_mbind, py_bind, mret, py_mret, py_ret.
  destruct (adjoint_initialize_plot_length adj rng
              (if LayoutPlot.shared_axes lp then Some passed else None)) as [_ Hlen].
  set (ps := AdjointLayoutPlot.initialize_plot adj rng _) in *.
  assert (∀ t : string,
    ((if decide (length ps = 1) then py_getitem ps 0
      else if decide (length ps = 2)
           then mret (Some (BGrid [ps] (LayoutPlot.toolbar lp)
                              (LayoutPlot.merge_tools lp)))
           else top ← py_getitem ps 2;
                mret (Some (BGrid [[top; None]; take 2 ps] (LayoutPlot.toolbar lp)
                              (LayoutPlot.merge_tools lp))))
       ≫= λ grid, mret (t, grid)) s
    = Returns (t, LayoutPlot.tab_child lp ps) s) as Hgrid.
  { intros t. destruct ps as [|p0 [|p1 [|p2 [|p3 ps]]]]; simpl in Hlen; try lia; done. }
  destruct (decide (subplot_format_title main key = EmptyString)) as [He|Hne].
  - destruct (Hpath He) as [path Hp]. rewrite Hp.
    unfold mbind at 1, py_mbind, py_bind. apply Hgrid.
  - unfold mbind at 1, py_mbind, py_bind, mret, py_mret, py_ret. apply Hgrid.
Qed.

(** One cell of the traversal with tabs enabled: the tab of its adjoint
    layout, if any, is appended; [passed_plots] stays as it is. *)
Lemma situate_tabs lp key rng passed r c (s : LayoutPlot.locals) :
  LayoutPlot.tabs lp = true → tab_ready lp key (r, c) →
  LayoutPlot.passed_plots s = passed →
  ∃ s', LayoutPlot.situate lp rng key r c s = Returns tt s'
    ∧ LayoutPlot.passed_plots s' = passed
    ∧ LayoutPlot.tab_plots s'
      = LayoutPlot.tab_plots s ++ option_list (tab_at lp key rng passed (r, c)).
Proof.
  intros Htabs Hready Hpassed. unfold LayoutPlot.situate. cbv zeta.
  set (padded := bool_decide _).
  assert (∃ s1, (if padded
                 then modify (λ s, {| LayoutPlot.plot_grid := LayoutPlot.plot_grid s;
                        LayoutPlot.passed_plots := LayoutPlot.passed_plots s;
                        LayoutPlot.r_offset := LayoutPlot.r_offset s;
                        LayoutPlot.col_offsets :=
                          <[r := S (default 0 (LayoutPlot.col_offsets s !! r))]>
                            (LayoutPlot.col_offsets s);
                        LayoutPlot.tab_plots := LayoutPlot.tab_plots s |})
                 else mret tt) s = Returns tt s1
          ∧ LayoutPlot.passed_plots s1 = passed
          ∧ LayoutPlot.tab_plots s1 = LayoutPlot.tab_plots s)
    as (s1 & Hs1 & Hp1 & Ht1).
  { destruct padded; by eexists. }
  rewrite (py_bind_returns _ _ _ _ _ Hs1).
  unfold mbind at 1, py_mbind, py_bind, get_state.
  unfold tab_at. destruct (LayoutPlot.subplots lp !! (r, c)) as [adj|] eqn:Hadj.
  - destruct (Hready adj Hadj) as (main & Hmain & Hpath).
    rewrite Htabs, Hmain. rewrite Hp1.
    rewrite (py_bind_returns _ _ _ _ _
               (tab_of_spec lp key rng passed r c adj main s1 Hadj Hmain Hpath)).
    eexists. split_and!; [done..|]. simpl. by rewrite Ht1.
  - exists s1. split_and!; [done..|]. simpl. by rewrite app_nil_r.
Qed.

(** One row of the traversal with tabs enabled. *)
Lemma situate_row_tabs lp key rng passed r (s : LayoutPlot.locals) :
  LayoutPlot.tabs lp = true →
  (∀ c, c < LayoutPlot.cols lp → tab_ready lp key (r, c)) →
  LayoutPlot.passed_plots s = passed →
  ∃ s', LayoutPlot.situate_row lp rng key r s = Returns tt s'
    ∧ LayoutPlot.passed_plots s' = passed
    ∧ LayoutPlot.tab_plots s'
      = LayoutPlot.tab_plots s
        ++ omap (tab_at lp key rng passed)
             ((λ c, (r, c)) <$> seq 0 (LayoutPlot.cols lp)).
Proof.
  intros Htabs Hready Hpassed. unfold LayoutPlot.situate_row. cbv zeta.
  set (padded := bool_decide _).
  assert (∃ s1, (if padded
                 then modify (λ s, {| LayoutPlot.plot_grid := LayoutPlot.plot_grid s;
                        LayoutPlot.passed_plots := LayoutPlot.passed_plots s;
                        LayoutPlot.r_offset := S (LayoutPlot.r_offset s);
                        LayoutPlot.col_offsets := LayoutPlot.col_offsets s;
                        LayoutPlot.tab_plots := LayoutPlot.tab_plots s |})
                 else mret tt) s = Returns tt s1
          ∧ LayoutPlot.passed_plots s1 = passed
          ∧ LayoutPlot.tab_plots s1 = LayoutPlot.tab_plots s)
    as (s1 & Hs1 & Hp1 & Ht1).
  { destruct padded; by eexists. }
  rewrite (py_bind_returns _ _ _ _ _ Hs1).
  destruct (for_each_invariant (LayoutPlot.situate lp rng key r)
              (λ done s', LayoutPlot.passed_plots s' = passed
                 ∧ LayoutPlot.tab_plots s'
                   = LayoutPlot.tab_plots s
                     ++ omap (tab_at lp key rng passed) ((λ c, (r, c)) <$> done))
              (seq 0 (LayoutPlot.cols lp)) [] s1) as (s' & Hrun & Hp & Ht).
  { simpl. by rewrite app_nil_r. }
  { intros done c s2 [Hp2 Ht2] Hc. apply elem_of_seq in Hc.
    destruct (situate_tabs lp key rng passed r c s2) as (s3 & Hs3 & Hp3 & Ht3);
      [done|apply Hready; lia|done|].
    exists s3. split_and!; [done..|].
    rewrite Ht3, Ht2, fmap_app, omap_app, <-app_assoc. simpl.
    by destruct (tab_at lp key rng passed (r, c)). }
  exists s'. by split_and!.
Qed.

(** The whole traversal with tabs enabled: one tab for each adjoint
    layout, in row-major order. *)
Lemma situate_all_tabs lp key rng passed (s : LayoutPlot.locals) :
  LayoutPlot.tabs lp = true →
  (∀ r c, r < LayoutPlot.rows lp → c < LayoutPlot.cols lp → tab_ready lp key (r, c)) →
  LayoutPlot.passed_plots s = passed →
  ∃ s', for_each (LayoutPlot.situate_row lp rng key) (seq 0 (LayoutPlot.rows lp)) s
        = Returns tt s'
    ∧ LayoutPlot.tab_plots s'
      = LayoutPlot.tab_plots s
        ++ omap (tab_at lp key rng passed)
             (LayoutPlot.row_major (LayoutPlot.rows lp) (LayoutPlot.cols lp)).
Proof.
  intros Htabs Hready Hpassed.
  destruct (for_each_invariant (LayoutPlot.situate_row lp rng key)
              (λ done s', LayoutPlot.passed_plots s' = passed
                 ∧ LayoutPlot.tab_plots s'
                   = LayoutPlot.tab_plots s
                     ++ omap (tab_at lp key rng passed)
                          (done ≫= λ r, (λ c, (r, c)) <$> seq 0 (LayoutPlot.cols lp)))
              (seq 0 (LayoutPlot.rows lp)) [] s) as (s' & Hrun & Hp & Ht).
  { simpl. by rewrite app_nil_r. }
  { intros done r s2 [Hp2 Ht2] Hr. apply elem_of_seq in Hr.
    destruct (situate_row_tabs lp key rng passed r s2) as (s3 & Hs3 & Hp3 & Ht3);
      [done|intros c Hc; apply Hready; lia|done|].
    exists s3. split_and!; [done..|].
    rewrite Ht3, Ht2, bind_app, omap_app, <-app_assoc. simpl.
    by rewrite app_nil_r. }
  exists s'. by split.
Qed.

Lemma mapM_returns {St A B} (f : A → py St B) (xs : list A) :
  (∀ x, x ∈ xs → ∃ y, ∀ s, f x s = Returns y s) →
  ∃ ys, ∀ s, mapM f xs s = Returns ys s.
Proof.
  induction xs as [|x xs IH]; intros Hf; simpl.
  - by exists [].
  - destruct (Hf x) as [y Hy]; [left|].
    destruct IH as [ys Hys]; [intros x' Hx'; apply Hf; by right|].
    exists (y :: ys). intros s.
    unfold mbind, py_mbind, py_bind. by rewrite Hy, Hys.
Qed.

(** [_compute_grid] returns for a layout with at least one row and one
    column. *)
Lemma compute_grid_returns {St} lp :
  0 < LayoutPlot.rows lp → 0 < LayoutPlot.cols lp →
  ∃ grid, ∀ s : St, LayoutPlot._compute_grid lp s = Returns grid s.
Proof.
  intros Hr Hc. unfold LayoutPlot._compute_grid.
  assert (∀ (f : nat → nat) n, 0 < n →
            ∃ y, ∀ s : St, LayoutPlot.py_max (f <$> seq 0 n) s = Returns y s) as Hmax.
  { intros f [|n] Hn; [lia|]. simpl. by eexists. }
  cbv zeta.
  match goal with
  | |- context [mapM ?f (seq 0 (LayoutPlot.cols lp))] =>
      destruct (mapM_returns (St := St) f (seq 0 (LayoutPlot.cols lp)))
        as [widths Hw]
  end.
  { intros c _. by apply (Hmax (λ r, if decide (1 < _) then 2 else 1)). }
  match goal with
  | |- context [mapM ?f (seq 0 (LayoutPlot.rows lp))] =>
      destruct (mapM_returns (St := St) f (seq 0 (LayoutPlot.rows lp)))
        as [heights Hh]
  end.
  { intros r _. by apply (Hmax (λ c, if decide (2 < _) then 2 else 1)). }
  eexists. intros s. unfold mbind, py_mbind, py_bind. rewrite Hw, Hh. reflexivity.
Qed.

Lemma tabs_one_per_subplot lp key rng passed (cs : list (nat * nat)) :
  (∀ rc, rc ∈ cs → tab_ready lp key rc) →
  Forall2 (is_tab_of lp key rng passed)
    (filter (λ rc, is_Some (LayoutPlot.subplots lp !! rc)) cs)
    (omap (tab_at lp key rng passed) cs).
Proof.
  induction cs as [|rc cs IH]; intros Hready; [constructor|].
  assert (∀ rc', rc' ∈ cs → tab_ready lp key rc') as Hcs
    by (intros rc' Hrc'; apply Hready; by right).
  simpl omap. unfold tab_at at 1.
  destruct (LayoutPlot.subplots lp !! rc) as [adj|] eqn:Hadj.
  - rewrite filter_cons_True by (by rewrite Hadj).
    destruct (Hready rc ltac:(left) adj Hadj) as (main & Hmain & Hpath).
    rewrite Hmain. constructor; [|by apply IH].
    exists adj, main. split_and!; [done..| |done].
    simpl. unfold tab_title.
    destruct (decide (subplot_format_title main key = EmptyString)) as [He|Hne].
    + right. split; [done|]. destruct (Hpath He) as [path Hp].
      exists path. by rewrite Hp.
    + by left.
  - rewrite filter_cons_False by (rewrite Hadj; by intros [? ?]). by apply IH.
Qed.

(** With the tabs option enabled, on a layout of at least one row
    and one column whose adjoint layouts each have a main subplot (and a
    path where that subplot's formatted title is empty),
    [LayoutPlot.initialize_plot] returns a [Tabs] model, placed under the
    title div in a [Column] when the layout has a title, and no overall
    grid. The panels of the [Tabs] model correspond one to one, in
    row-major order of the coordinates, to the adjoint layouts of the
    layout; each panel is titled with the formatted title of the main
    subplot or, when that title is empty, with the joined path of its
    coordinate, and holds the plots rendered for its adjoint layout. *)
Lemma tabs_layout_when_ready lp plots key (st : CompositePlot.state (nat * nat)) :
  LayoutPlot.tabs lp = true →
  last (LayoutPlot.keys lp) = Some key →
  0 < LayoutPlot.rows lp → 0 < LayoutPlot.cols lp →
  (∀ r c, r < LayoutPlot.rows lp → c < LayoutPlot.cols lp →
          tab_ready lp key (r, c)) →
  CompositePlot.handles st !! "title" = None →
  ∃ panels m st',
    LayoutPlot.initialize_plot lp plots st = Returns m st'
    ∧ CompositePlot.handles st' !! "plot" = Some (CompositePlot.HModel m)
    ∧ (m = BTabs panels ∨ ∃ r, m = BColumn [BDiv r; BTabs panels])
    ∧ Forall2
        (is_tab_of lp key
           (compute_ranges (LayoutPlot.layout lp) (Some key) NoRanges)
           (default [] plots))
        (filter (λ rc, is_Some (LayoutPlot.subplots lp !! rc))
           (LayoutPlot.row_major (LayoutPlot.rows lp) (LayoutPlot.cols lp)))
        panels.
Proof.
  intros Htabs Hkey Hr Hc Hready Hno.
  set (rng := compute_ranges (LayoutPlot.layout lp) (Some key) NoRanges).
  destruct (compute_grid_returns (St := CompositePlot.state (nat * nat)) lp Hr Hc)
    as [grid Hgrid].
  destruct (situate_all_tabs lp key rng (default [] plots)
              {| LayoutPlot.plot_grid := grid;
                 LayoutPlot.passed_plots := default [] plots;
                 LayoutPlot.r_offset := 0; LayoutPlot.col_offsets := ∅;
                 LayoutPlot.tab_plots := [] |}) as (loc & Hloop & Htabs_made);
    [done..|].
  simpl in Htabs_made.
  destruct (get_title_no_handle (LayoutPlot.title lp) key st Hno)
    as (o & st1 & Htitle & Hh1 & _).
  exists (LayoutPlot.tab_plots loc).
  unfold LayoutPlot.initialize_plot. rewrite Hkey. fold rng.
  unfold mbind at 1, py_mbind, py_bind. rewrite Hgrid, Hloop, Htabs.
  unfold mbind, py_mbind, py_bind. rewrite Htitle.
  assert (Forall2 (is_tab_of lp key rng (default [] plots))
            (filter (λ rc, is_Some (LayoutPlot.subplots lp !! rc))
               (LayoutPlot.row_major (LayoutPlot.rows lp) (LayoutPlot.cols lp)))
            (LayoutPlot.tab_plots loc)) as Hpanels.
  { rewrite Htabs_made. apply tabs_one_per_subplot.
    intros [r c] Hrc. unfold LayoutPlot.row_major in Hrc.
    apply list_elem_of_bind in Hrc as (r' & Hrc & Hr').
    apply list_elem_of_fmap in Hrc as (c' & [= -> ->] & Hc').
    apply elem_of_seq in Hr', Hc'. apply Hready; lia. }
  destruct o as [d|]; simpl; eexists _, _;
    (split_and!; [reflexivity| | |exact Hpanels]).
  - simpl. rewrite lookup_insert_ne by done. by rewrite lookup_insert_eq.
  - right. by eexists.
  - simpl. rewrite lookup_insert_ne by done. by rewrite lookup_insert_eq.
  - by left.
Qed.

End LayoutTabs.

(** ** Elements without a plotting class *)

Section MissingPlottingClass.
Context `{Upstream}.

Lemma side_options_no_plot_type pos main (s : LayoutPlot.cs_state) :
  ∃ opts, LayoutPlot.side_options pos None (Some main) s = Returns opts s.
Proof.
  unfold LayoutPlot.side_options, LayoutPlot.main_attr.
  destruct (decide (pos = "right")); by eexists.
Qed.

Lemma layout_create_subplot_unregistered (lp : LayoutPlot.t) layout fr num pos e s :
  al_data layout !! pos = Some e →
  has_elements e = true →
  let element := if displayable e then e else collate e in
  let vtype := GridPlot.vtype_of element in
  vtype ≠ cEmpty →
  resolved_plot_type pos vtype = None →
  pos = "main" ∨ is_Some (LayoutPlot.cs_main_plot s) →
  LayoutPlot.create_subplot_for lp layout fr num pos s
  = Returns tt (LayoutPlot.cs_warn (LayoutPlot.not_found_warning vtype) s).
Proof.
  intros He Hhas element vtype Hne Hres Hmain.
  unfold LayoutPlot.create_subplot_for. rewrite He, Hhas.
  change (negb true) with false. cbv iota. fold element. fold vtype.
  unfold mbind at 1, py_mbind, py_bind, get_state.
  unfold resolved_plot_type in Hres.
  destruct (decide (pos = "main")) as [->|Hpos].
  - unfold mbind, py_mbind, py_bind, mret, py_mret, py_ret.
    rewrite decide_False by done. by rewrite Hres.
  - destruct Hmain as [?|[main Hmain]]; [done|].
    destruct (adjoint_registry vtype) as [pt|] eqn:Hadj; [done|].
    rewrite Hres, Hmain.
    destruct (side_options_no_plot_type pos main s) as [opts Hopts].
    unfold mbind, py_mbind, py_bind, mret, py_mret, py_ret. rewrite Hopts.
    by rewrite decide_False by done.
Qed.

(** An [Empty] element gets the subplot [None]; no warning is emitted
    for it. *)
Lemma layout_create_subplot_empty (lp : LayoutPlot.t) layout fr num pos e s :
  al_data layout !! pos = Some e →
  has_elements e = true →
  let element := if displayable e then e else collate e in
  GridPlot.vtype_of element = cEmpty →
  pos = "main"
  ∨ (is_Some (LayoutPlot.cs_main_plot s) ∧ resolved_plot_type pos cEmpty = None) →
  LayoutPlot.create_subplot_for lp layout fr num pos s
  = Returns tt (LayoutPlot.cs_add_empty pos element s).
Proof.
  intros He Hhas element Hty Hmain.
  unfold LayoutPlot.create_subplot_for. rewrite He, Hhas.
  change (negb true) with false. cbv iota. fold element. rewrite Hty.
  unfold mbind at 1, py_mbind, py_bind, get_state.
  unfold resolved_plot_type in Hmain.
  destruct (decide (pos = "main")) as [->|Hpos].
  - unfold mbind, py_mbind, py_bind, mret, py_mret, py_ret.
    by rewrite decide_True by done.
  - destruct Hmain as [?|[[main Hmain] Hres]]; [done|].
    destruct (adjoint_registry cEmpty) as [pt|] eqn:Hadj; [done|].
    rewrite Hres, Hmain.
    destruct (side_options_no_plot_type pos main s) as [opts Hopts].
    unfold mbind, py_mbind, py_bind, mret, py_mret, py_ret. rewrite Hopts.
    by rewrite decide_True by done.
Qed.

(** C7 (amended). In a grid of at least one row, when the backend
    registry holds no plotting class for the type of the element at a
    grid coordinate, which is then no nested layout,
    [GridPlot._create_subplots] emits the warning that the object will
    not be rendered, creates no subplot for it and goes on with the next
    coordinate. [LayoutPlot._create_subplots] does the same for an
    element whose type is not [Empty] when no plot type is resolved for
    it, at ['main'] or, once the main plot exists, at a side position:
    the resolved plot type is the backend registry entry at ['main'] and
    the [AdjointLayoutPlot.registry] entry, or else the backend's, at the
    side positions. At the same positions an [Empty] element for which
    no plot type is resolved gets the subplot [None] and is kept in the
    clone, without a warning and without a constructor call, and the
    loop goes on. *)
Theorem C7_missing_plotting_class :
  (∀ (self : GridPlot.params) rows layout fr i k v rest s,
     rows ≠ 0 →
     lo_data layout !! wrap_tuple k = Some v →
     GridPlot.is_nested_layout (Some v) = false →
     registry (GridPlot.vtype_of v) = None →
     ∃ s',
       GridPlot.create_subplot_at self rows layout fr i k s = Returns tt s'
       ∧ GridPlot.cs_warnings s'
         = GridPlot.cs_warnings s
           ++ [GridPlot.not_found_warning (GridPlot.vtype_of v)]
       ∧ GridPlot.cs_subplots s' = GridPlot.cs_subplots s
       ∧ GridPlot.cs_constructed s' = GridPlot.cs_constructed s
       ∧ for_enumerate (GridPlot.create_subplot_at self rows layout fr) i (k :: rest) s
         = for_enumerate (GridPlot.create_subplot_at self rows layout fr) (S i) rest s')
  ∧ (∀ (lp : LayoutPlot.t) layout fr num pos e rest s,
       al_data layout !! pos = Some e →
       has_elements e = true →
       let vtype := GridPlot.vtype_of (if displayable e then e else collate e) in
       vtype ≠ cEmpty →
       resolved_plot_type pos vtype = None →
       pos = "main" ∨ is_Some (LayoutPlot.cs_main_plot s) →
       ∃ s',
         LayoutPlot.create_subplot_for lp layout fr num pos s = Returns tt s'
         ∧ LayoutPlot.cs_warnings s'
           = LayoutPlot.cs_warnings s ++ [LayoutPlot.not_found_warning vtype]
         ∧ LayoutPlot.cs_subplots s' = LayoutPlot.cs_subplots s
         ∧ LayoutPlot.cs_constructed s' = LayoutPlot.cs_constructed s
         ∧ for_each (LayoutPlot.create_subplot_for lp layout fr num) (pos :: rest) s
           = for_each (LayoutPlot.create_subplot_for lp layout fr num) rest s')
  ∧ (∀ (lp : LayoutPlot.t) layout fr num pos e rest s,
       al_data layout !! pos = Some e →
       has_elements e = true →
       let element := if displayable e then e else collate e in
       GridPlot.vtype_of element = cEmpty →
       resolved_plot_type pos cEmpty = None →
       pos = "main" ∨ is_Some (LayoutPlot.cs_main_plot s) →
       ∃ s',
         LayoutPlot.create_subplot_for lp layout fr num pos s = Returns tt s'
         ∧ LayoutPlot.cs_warnings s' = LayoutPlot.cs_warnings s
         ∧ LayoutPlot.cs_subplots s' = <[pos := None]> (LayoutPlot.cs_subplots s)
         ∧ al_data (LayoutPlot.cs_clone s') !! pos = Some element
         ∧ LayoutPlot.cs_constructed s' = LayoutPlot.cs_constructed s
         ∧ for_each (LayoutPlot.create_subplot_for lp layout fr num) (pos :: rest) s
           = for_each (LayoutPlot.create_subplot_for lp layout fr num) rest s').
Proof.
  split_and!.
  - intros self rows layout fr i k v rest s Hr Hv Hn Hreg.
    assert (GridPlot.create_subplot_at self rows layout fr i k s
            = Returns tt (GridPlot.cs_warn
                            (GridPlot.not_found_warning (GridPlot.vtype_of v)) s))
      as Hstep.
    { rewrite create_subplot_at_plain;
        [|done|by rewrite Hv|by unfold clashes; rewrite Hv, Hreg].
      unfold GridPlot.create_subplot_effect. by rewrite Hv, Hreg. }
    eexists. split_and!; [exact Hstep|done..|].
    simpl. by erewrite py_bind_returns.
  - intros lp layout fr num pos e rest s He Hhas vtype Hne Hres Hmain.
    pose proof (layout_create_subplot_unregistered lp layout fr num pos e s
                  He Hhas Hne Hres Hmain) as Hstep.
    eexists. split_and!; [exact Hstep|done..|].
    simpl. by erewrite py_bind_returns.
  - intros lp layout fr num pos e rest s He Hhas element Hty Hres Hmain.
    assert (LayoutPlot.create_subplot_for lp layout fr num pos s
            = Returns tt (LayoutPlot.cs_add_empty pos element s)) as Hstep.
    { apply layout_create_subplot_empty; [done..|]. tauto. }
    eexists. split_and!; [exact Hstep|done|done| |done|].
    + simpl. by rewrite lookup_insert_eq.
    + simpl. by erewrite py_bind_returns.
Qed.

End MissingPlottingClass.

(** ** BokehPlot.sync_sources: sorting and grouping *)

Lemma filter_none {A} (P : A → Prop) `{∀ x, Decision (P x)} (xs : list A) :
  (∀ x, x ∈ xs → ¬ P x) → filter P xs = [].
Proof.
  induction xs as [|x xs IH]; intros Hn; [done|].
  rewrite filter_cons_False by (apply Hn; left).
  apply IH. intros z Hz. apply Hn. by right.
Qed.

Section Grouping.
Implicit Types (x y : nat * nat) (l : list (nat * nat)) (k : nat).

Lemma insert_by_key_perm x l : BokehPlot.insert_by_key x l ≡ₚ x :: l.
Proof.
  induction l as [|y l IH]; simpl; [done|].
  destruct (decide (x.1 ≤ y.1)); [done|].
  rewrite IH. apply Permutation_swap.
Qed.

Lemma sorted_by_key_perm l : BokehPlot.sorted_by_key l ≡ₚ l.
Proof.
  induction l as [|x l IH]; simpl; [done|].
  by rewrite insert_by_key_perm, IH.
Qed.

Lemma insert_by_key_sorted x l :
  StronglySorted key_le l → StronglySorted key_le (BokehPlot.insert_by_key x l).
Proof.
  induction 1 as [|y l Hl IH Hy]; simpl.
  - repeat constructor.
  - destruct (decide (x.1 ≤ y.1)) as [Hle|Hgt].
    + constructor; [by constructor|]. constructor; [done|].
      eapply Forall_impl; [exact Hy|]. unfold key_le. intros z Hz. lia.
    + constructor; [done|]. rewrite insert_by_key_perm.
      constructor; [|done]. unfold key_le. lia.
Qed.

Lemma sorted_by_key_sorted l : StronglySorted key_le (BokehPlot.sorted_by_key l).
Proof.
  induction l as [|x l IH]; simpl; [constructor|]. by apply insert_by_key_sorted.
Qed.

(** The sort is stable: the items of one key keep their order. *)
Lemma insert_by_key_filter k x l :
  filter (λ y, y.1 = k) (BokehPlot.insert_by_key x l) = filter (λ y, y.1 = k) (x :: l).
Proof.
  induction l as [|y l IH]; simpl; [done|].
  destruct (decide (x.1 ≤ y.1)) as [Hle|Hgt]; [done|].
  rewrite (filter_cons _ y), IH, !(filter_cons _ x), (filter_cons _ y).
  destruct (decide (y.1 = k)), (decide (x.1 = k)); try done. lia.
Qed.

Lemma sorted_by_key_filter k l :
  filter (λ y, y.1 = k) (BokehPlot.sorted_by_key l) = filter (λ y, y.1 = k) l.
Proof.
  induction l as [|x l IH]; simpl; [done|].
  by rewrite insert_by_key_filter, !filter_cons, IH.
Qed.

(** The groups are consecutive runs of the grouped list. *)
Lemma groupby_concat l : mjoin ((BokehPlot.groupby l).*2) = l.
Proof.
  induction l as [|x l IH]; simpl; [done|].
  destruct (BokehPlot.groupby l) as [|[k g] gs]; simpl in *.
  - by rewrite <-IH.
  - destruct (decide (x.1 = k)); simpl; by rewrite <-IH.
Qed.

(** On a sorted list, the group of a key holds all the items of that
    key, and no key has two groups. *)
Lemma groupby_sorted l :
  StronglySorted key_le l →
  (∀ k g, (k, g) ∈ BokehPlot.groupby l → g = filter (λ y, y.1 = k) l)
  ∧ NoDup (BokehPlot.groupby l).*1
  ∧ (∀ k, k ∈ (BokehPlot.groupby l).*1 → ∃ y, y ∈ l ∧ y.1 = k)
  ∧ (∀ x l', l = x :: l' → ∃ g gs, BokehPlot.groupby l = (x.1, g) :: gs).
Proof.
  induction 1 as [|x l Hl IH Hx]; simpl.
  { split_and!; [by intros k g Hin%elem_of_nil|constructor
                |by intros k Hin%elem_of_nil|done]. }
  destruct IH as (IHg & IHnd & IHk & IHhd).
  rewrite Forall_forall in Hx. unfold key_le in Hx.
  destruct (BokehPlot.groupby l) as [|[k g] gs] eqn:Hgs.
  - assert (l = []) as -> by (destruct l as [|y l']; [done|];
      by destruct (IHhd y l' eq_refl) as (? & ? & ?)).
    split_and!.
    + intros k g Hin. apply list_elem_of_singleton in Hin as [= -> ->].
      by rewrite filter_cons_True, filter_nil.
    + repeat constructor. apply not_elem_of_nil.
    + intros k Hin. apply list_elem_of_singleton in Hin as ->. exists x. split; [left|done].
    + intros x' l' [= <- <-]. by eexists _, _.
  - destruct l as [|y l']; [by destruct (groupby_concat []); simpl in Hgs|].
    destruct (IHhd y l' eq_refl) as (g0 & gs0 & [= -> -> ->]).
    simpl in IHnd. apply NoDup_cons in IHnd as [Hk IHnd].
    destruct (decide (x.1 = y.1)) as [Heq|Hne].
    + split_and!.
      * intros k g' Hin. apply elem_of_cons in Hin as [[= -> ->]|Hin].
        -- rewrite filter_cons_True by done. f_equal. apply IHg. left.
        -- assert (k ≠ y.1) as Hky.
           { intros ->. apply Hk. apply list_elem_of_fmap. by exists (y.1, g'). }
           rewrite filter_cons_False by congruence. apply IHg. by right.
      * simpl. by constructor.
      * intros k Hin. destruct (IHk k Hin) as (z & Hz & Hzk). exists z. split; [by right|done].
      * intros x' l'' [= <- <-]. rewrite Heq. by eexists _, _.
    + assert (∀ z, z ∈ y :: l' → x.1 < z.1) as Hlt.
      { intros z Hz. pose proof (Hx z Hz) as Hxz. pose proof (Hx y ltac:(left)) as Hxy.
        apply elem_of_cons in Hz as [->|Hz]; [lia|].
        inversion Hl as [|? ? _ Hy]; subst. rewrite Forall_forall in Hy.
        specialize (Hy z Hz). unfold key_le in Hy. lia. }
      assert (∀ k, k ∈ ((y.1, g0) :: gs0).*1 → x.1 < k) as Hkeys.
      { intros k Hin. destruct (IHk k Hin) as (z & Hz & <-). by apply Hlt. }
      split_and!.
      * intros k g' Hin. apply elem_of_cons in Hin as [[= -> ->]|Hin].
        -- rewrite filter_cons_True by done. f_equal. symmetry.
           apply filter_none. intros z Hz Hzk.
           specialize (Hlt z Hz). lia.
        -- assert (x.1 < k) as Hxk
             by (apply Hkeys, list_elem_of_fmap; by exists (k, g')).
           rewrite filter_cons_False by lia. by apply IHg.
      * simpl. constructor; [|by constructor].
        intros Hin. specialize (Hkeys _ Hin). lia.
      * intros k Hin. apply elem_of_cons in Hin as [->|Hin].
        -- exists x. split; [left|done].
        -- destruct (IHk k Hin) as (z & Hz & Hzk). exists z. split; [by right|done].
      * intros x' l'' [= <- <-]. by eexists _, _.
Qed.

End Grouping.

(** ** BokehPlot.sync_sources *)

Section SyncSources.
Context `{Upstream}.
Implicit Types (w : BokehPlot.world) (ps : list BokehPlot.plot)
  (gs : list (nat * list (nat * nat))) (ms : list nat).

(** The entries of [data_sources], with indices counted from [n]. *)
Lemma data_sources_from n ps :
  let f := λ ip : nat * BokehPlot.plot,
             if BokehPlot.filter_fn ip.2
             then Some (BokehPlot.data_id ip.2, ip.1) else None in
  NoDup (omap f (imap (λ i, pair (n + i)) ps)).*2
  ∧ ∀ x, x ∈ omap f (imap (λ i, pair (n + i)) ps) → n ≤ x.2.
Proof.
  intros f. revert n. induction ps as [|p ps IH]; intros n.
  { split; [constructor|]. by intros x Hx%elem_of_nil. }
  rewrite imap_cons.
  assert (imap ((λ i, pair (n + i)) ∘ S) ps = imap (λ i, pair (S n + i)) ps) as ->
    by (apply imap_ext; intros i ? _; simpl; f_equal; lia).
  destruct (IH (S n)) as [IHnd IHge].
  set (rest := omap f (imap (λ i, pair (S n + i)) ps)) in *.
  assert (omap f ((n + 0, p) :: imap (λ i, pair (S n + i)) ps)
          = if BokehPlot.filter_fn p then (BokehPlot.data_id p, n + 0) :: rest
            else rest) as ->.
  { subst rest. simpl. unfold f at 1. simpl. by destruct (BokehPlot.filter_fn p). }
  destruct (BokehPlot.filter_fn p).
  - split.
    + rewrite fmap_cons. constructor; [|done].
      intros (x & Hx & Hin)%list_elem_of_fmap.
      specialize (IHge x Hin). simpl in Hx. lia.
    + intros x [->|Hx]%elem_of_cons; [simpl; lia|]. specialize (IHge x Hx). lia.
  - split; [done|]. intros x Hx. specialize (IHge x Hx). lia.
Qed.

Lemma data_sources_nodup ps : NoDup (BokehPlot.data_sources ps).*2.
Proof. apply (data_sources_from 0 ps). Qed.

Lemma elem_of_data_sources ps d i :
  (d, i) ∈ BokehPlot.data_sources ps
  ↔ ∃ p, ps !! i = Some p ∧ BokehPlot.filter_fn p = true ∧ BokehPlot.data_id p = d.
Proof.
  unfold BokehPlot.data_sources. rewrite list_elem_of_omap. split.
  - intros ([j p] & Hin & Hf). apply elem_of_lookup_imap in Hin as (j' & p' & [= -> ->] & Hp).
    simpl in Hf. destruct (BokehPlot.filter_fn p') eqn:Hfil; [|done].
    injection Hf as <- <-. by exists p'.
  - intros (p & Hp & Hfil & Hd). exists (i, p). split.
    + apply elem_of_lookup_imap. by exists i, p.
    + simpl. by rewrite Hfil, Hd.
Qed.

Lemma elem_of_sharing w d i :
  i ∈ BokehPlot.sharing w d
  ↔ ∃ p, BokehPlot.plots w !! i = Some p ∧ BokehPlot.filter_fn p = true
         ∧ BokehPlot.data_id p = d.
Proof.
  unfold BokehPlot.sharing. rewrite list_elem_of_fmap. split.
  - intros ([d' j] & -> & Hin). apply list_elem_of_filter in Hin as [Hd Hin].
    simpl in Hd. subst d'. by apply elem_of_data_sources in Hin.
  - intros Hp. apply elem_of_data_sources in Hp. exists (d, i). split; [done|].
    by apply list_elem_of_filter.
Qed.

Lemma grouped_sources_members w k g :
  (k, g) ∈ grouped_sources w → members (k, g) = BokehPlot.sharing w k.
Proof.
  intros Hin. unfold members, BokehPlot.sharing. simpl. f_equal.
  destruct (groupby_sorted _ (sorted_by_key_sorted
              (BokehPlot.data_sources (BokehPlot.plots w)))) as (Hg & _).
  rewrite (Hg k g Hin). apply sorted_by_key_filter.
Qed.

Lemma grouped_sources_nodup w : NoDup (grouped_sources w ≫= members).
Proof.
  unfold grouped_sources.
  assert (∀ gs, gs ≫= members = (mjoin gs.*2).*2) as ->.
  { induction gs as [|[k g] gs IH]; [done|].
    rewrite bind_cons, IH. simpl. by rewrite fmap_app. }
  rewrite groupby_concat, sorted_by_key_perm. apply data_sources_nodup.
Qed.

Lemma grouped_sources_complete w d :
  BokehPlot.sharing w d ≠ [] → ∃ g, (d, g) ∈ grouped_sources w.
Proof.
  intros Hne. destruct (BokehPlot.sharing w d) as [|i ms] eqn:Hs; [done|].
  assert (i ∈ BokehPlot.sharing w d) as Hi by (rewrite Hs; left).
  apply elem_of_sharing, elem_of_data_sources in Hi.
  rewrite <-sorted_by_key_perm, <-groupby_concat in Hi.
  apply list_elem_of_join in Hi as (g & Hig & Hg).
  apply list_elem_of_fmap in Hg as ([k g'] & -> & Hin). simpl in Hig.
  destruct (groupby_sorted _ (sorted_by_key_sorted
              (BokehPlot.data_sources (BokehPlot.plots w)))) as (Hgr & _).
  pose proof (Hgr k g' Hin) as Heq. rewrite Heq in Hig.
  apply list_elem_of_filter in Hig as [Hk _]. simpl in Hk. subst k. by exists g'.
Qed.

End SyncSources.

Section SyncGroups.
Context `{Upstream}.
Implicit Types (w : BokehPlot.world) (ps : list BokehPlot.plot)
  (gs : list (nat * list (nat * nat))) (ms : list nat).

Lemma share_all_lookup n ms : ∀ ps j,
  NoDup ms →
  BokehPlot.share_all n ms ps !! j
  = if decide (j ∈ ms) then BokehPlot.share_source n <$> ps !! j else ps !! j.
Proof.
  unfold BokehPlot.share_all.
  induction ms as [|i ms IH]; intros ps j Hnd.
  - destruct (decide (j ∈ [])) as [Hin|_]; [by apply elem_of_nil in Hin|done].
  - apply NoDup_cons in Hnd as [Hi Hnd]. simpl foldl. rewrite IH by done.
    destruct (decide (j = i)) as [->|Hne].
    + destruct (decide (i ∈ ms)) as [?|_]; [done|].
      destruct (decide (i ∈ i :: ms)) as [_|Hn]; [|exfalso; apply Hn; left].
      apply list_lookup_alter_eq.
    + rewrite list_lookup_alter_ne by done.
      destruct (decide (j ∈ ms)) as [Hin|Hnin];
        destruct (decide (j ∈ i :: ms)) as [Hin'|Hnin']; try done.
      * exfalso. apply Hnin'. by right.
      * apply elem_of_cons in Hin' as [?|?]; done.
Qed.

Lemma merged_data_ext w w' ms :
  (∀ i, i ∈ ms → BokehPlot.source_data_of w' i = BokehPlot.source_data_of w i) →
  BokehPlot.merged_data w' ms = BokehPlot.merged_data w ms.
Proof.
  unfold BokehPlot.merged_data. generalize (@nil (string * column)).
  induction ms as [|i ms IH]; intros acc Hext; simpl; [done|].
  rewrite Hext by left. apply IH. intros j Hj. apply Hext. by right.
Qed.

Lemma sync_group_fst w synced kg :
  (BokehPlot.sync_group (w, synced) kg).1
  = if decide (1 < length (members kg)) then synced_world w (members kg) else w.
Proof.
  unfold BokehPlot.sync_group, members. by destruct (decide _).
Qed.

Lemma foldl_sync_group_fst gs : ∀ w synced,
  (foldl BokehPlot.sync_group (w, synced) gs).1
  = foldl (λ w kg, if decide (1 < length (members kg))
                   then synced_world w (members kg) else w) w gs.
Proof.
  induction gs as [|kg gs IH]; intros w synced; [done|].
  cbn [foldl].
  destruct (BokehPlot.sync_group (w, synced) kg) as [w1 synced1] eqn:Hstep.
  rewrite IH. f_equal.
  by rewrite <-(sync_group_fst w synced kg), Hstep.
Qed.

Lemma synced_world_wf w ms :
  NoDup ms → BokehPlot.sources_wf w → BokehPlot.sources_wf (synced_world w ms).
Proof.
  intros Hnd Hwf i x n Hx Hn. unfold synced_world in *. simpl in *.
  rewrite dom_insert_L. rewrite share_all_lookup in Hx by done.
  destruct (decide (i ∈ ms)).
  - destruct (BokehPlot.plots w !! i) as [q|] eqn:Hq; [|done].
    injection Hx as <-. unfold BokehPlot.share_source in Hn.
    destruct (BokehPlot.h_glyph_renderer q); simpl in Hn.
    + injection Hn as <-. set_solver.
    + apply elem_of_union_r. by eapply Hwf.
  - apply elem_of_union_r. by eapply Hwf.
Qed.

Lemma synced_world_source_data w ms i :
  NoDup ms → BokehPlot.sources_wf w → i ∉ ms →
  BokehPlot.source_data_of (synced_world w ms) i = BokehPlot.source_data_of w i.
Proof.
  intros Hnd Hwf Hi. unfold BokehPlot.source_data_of, synced_world. simpl.
  rewrite share_all_lookup, decide_False by done.
  destruct (BokehPlot.plots w !! i) as [x|] eqn:Hx; [|done].
  destruct (BokehPlot.h_source x) as [n|] eqn:Hn; [|done].
  rewrite lookup_insert_ne; [done|]. intros Heq.
  pose proof (Hwf i x n Hx Hn) as Hdom. rewrite <-Heq in Hdom.
  by apply is_fresh in Hdom.
Qed.

(** The loop over the groups: the sources of the store are kept, a plot
    outside the groups of two or more is left as it is, and the plots of
    such a group are given one new source that holds their merged data. *)
Lemma sync_groups_spec gs : ∀ w,
  BokehPlot.sources_wf w → NoDup (gs ≫= members) →
  let w' := foldl (λ w kg, if decide (1 < length (members kg))
                           then synced_world w (members kg) else w) w gs in
  BokehPlot.sources_wf w'
  ∧ BokehPlot.sources w ⊆ BokehPlot.sources w'
  ∧ (∀ m, m ∈ BokehPlot.shared_sources w → m ∈ BokehPlot.shared_sources w')
  ∧ (∀ j, (∀ kg, kg ∈ gs → 1 < length (members kg) → j ∉ members kg) →
          BokehPlot.plots w' !! j = BokehPlot.plots w !! j)
  ∧ (∀ kg, kg ∈ gs → 1 < length (members kg) →
       ∃ n, (n ∉ dom (BokehPlot.sources w))
         ∧ BokehPlot.sources w' !! n = Some (BokehPlot.merged_data w (members kg))
         ∧ n ∈ BokehPlot.shared_sources w'
         ∧ ∀ j, j ∈ members kg →
                BokehPlot.plots w' !! j
                = BokehPlot.share_source n <$> BokehPlot.plots w !! j).
Proof.
  induction gs as [|kg0 gs IH]; intros w Hwf Hnd; simpl.
  { split_and!; [done..| |]; [done|]. by intros kg Hin%elem_of_nil. }
  rewrite bind_cons in Hnd. apply NoDup_app in Hnd as (Hnd0 & Hdisj & Hnd).
  destruct (decide (1 < length (members kg0))) as [Hbig|Hsmall].
  - set (n0 := fresh (dom (BokehPlot.sources w))).
    destruct (IH (synced_world w (members kg0))
                (synced_world_wf _ _ Hnd0 Hwf) Hnd) as (IHwf & IHsub & IHsh & IHout & IHin).
    assert (BokehPlot.sources w !! n0 = None) as Hfresh
      by (apply not_elem_of_dom, is_fresh).
    split_and!.
    + done.
    + etrans; [|exact IHsub]. simpl. by apply insert_subseteq.
    + intros m Hm. apply IHsh. simpl. apply elem_of_app. by left.
    + intros j Hj. rewrite IHout.
      * simpl. rewrite share_all_lookup, decide_False; [done| |done].
        apply (Hj kg0); [left|done].
      * intros kg Hkg. apply Hj. by right.
    + intros kg Hkg Hbigk. apply elem_of_cons in Hkg as [->|Hkg].
      * exists n0. split_and!.
        -- apply is_fresh.
        -- eapply lookup_weaken; [|exact IHsub]. simpl. apply lookup_insert_eq.
        -- apply IHsh. simpl. apply elem_of_app. right. left.
        -- intros j Hj. rewrite IHout.
           ++ simpl. by rewrite share_all_lookup, decide_True by done.
           ++ intros kg Hkg _ Hjk. apply (Hdisj j Hj).
              apply list_elem_of_bind. by exists kg.
      * destruct (IHin kg Hkg Hbigk) as (n & Hn & Hsrc & Hshared & Hplots).
        assert (∀ j, j ∈ members kg → j ∉ members kg0) as Hother.
        { intros j Hj Hj0. apply (Hdisj j Hj0). apply list_elem_of_bind. by exists kg. }
        exists n. split_and!.
        -- intros Hdom. apply Hn. simpl. rewrite dom_insert_L.
           by apply elem_of_union_r.
        -- rewrite Hsrc. f_equal. apply merged_data_ext. intros j Hj.
           apply synced_world_source_data; auto.
        -- done.
        -- intros j Hj. rewrite Hplots by done. simpl.
           rewrite share_all_lookup, decide_False; auto.
  - destruct (IH w Hwf Hnd) as (IHwf & IHsub & IHsh & IHout & IHin).
    split_and!; [done..| |].
    + intros j Hj. apply IHout. intros kg Hkg. apply Hj. by right.
    + intros kg Hkg Hbigk. apply elem_of_cons in Hkg as [->|Hkg]; [lia|]. by apply IHin.
Qed.

End SyncGroups.

Section SyncSourcesSpec.
Context `{Upstream}.

Lemma sync_sources_eq w :
  let w0 := {| BokehPlot.plots := BokehPlot.plots w;
               BokehPlot.sources := BokehPlot.sources w;
               BokehPlot.shared_sources := []; BokehPlot.source_cols := ∅;
               BokehPlot.events := BokehPlot.events w |} in
  let w' := foldl (λ w kg, if decide (1 < length (members kg))
                           then synced_world w (members kg) else w)
              w0 (grouped_sources w) in
  BokehPlot.plots (BokehPlot.sync_sources w) = BokehPlot.plots w'
  ∧ BokehPlot.sources (BokehPlot.sync_sources w) = BokehPlot.sources w'
  ∧ BokehPlot.shared_sources (BokehPlot.sync_sources w) = BokehPlot.shared_sources w'.
Proof.
  intros w0 w'. unfold BokehPlot.sync_sources.
  pose proof (foldl_sync_group_fst (grouped_sources w) w0 []) as Hfst.
  fold w0. unfold grouped_sources in *.
  destruct (foldl BokehPlot.sync_group (w0, []) _) as [w1 synced]. simpl in *.
  subst w'. by rewrite <-Hfst.
Qed.

(** C2 (amended). After [sync_sources], for every group of two or more
    plots that pass the filter and whose current frame data is one and
    the same object, there is one newly built data source, whose data is
    the merge, in traversal order, of the data of the sources that the
    plots of the group had; every plot of the group that has a glyph
    renderer holds this source under both ['source'] and ['cds'], and a
    plot of the group without a glyph renderer keeps its handles. A plot
    that does not pass the filter, or shares its data object with no
    other plot, is left as it is, and the data of the sources that
    existed before is unchanged. *)
Theorem C2_sync_sources w :
  BokehPlot.sources_wf w →
  let w' := BokehPlot.sync_sources w in
  (∀ d, 1 < length (BokehPlot.sharing w d) →
     ∃ n, (n ∉ dom (BokehPlot.sources w))
       ∧ BokehPlot.sources w' !! n
         = Some (BokehPlot.merged_data w (BokehPlot.sharing w d))
       ∧ n ∈ BokehPlot.shared_sources w'
       ∧ ∀ j x, j ∈ BokehPlot.sharing w d → BokehPlot.plots w !! j = Some x →
           ∃ x', BokehPlot.plots w' !! j = Some x'
             ∧ (is_Some (BokehPlot.h_glyph_renderer x) →
                BokehPlot.h_source x' = Some n ∧ BokehPlot.h_cds x' = Some n)
             ∧ (BokehPlot.h_glyph_renderer x = None → x' = x))
  ∧ (∀ j x, BokehPlot.plots w !! j = Some x →
       BokehPlot.filter_fn x = false
       ∨ length (BokehPlot.sharing w (BokehPlot.data_id x)) ≤ 1 →
       BokehPlot.plots w' !! j = Some x)
  ∧ (∀ m, m ∈ dom (BokehPlot.sources w) →
          BokehPlot.sources w' !! m = BokehPlot.sources w !! m).
Proof.
  intros Hwf w'. subst w'.
  destruct (sync_sources_eq w) as (-> & -> & ->).
  set (w0 := {| BokehPlot.plots := BokehPlot.plots w;
                BokehPlot.sources := BokehPlot.sources w;
                BokehPlot.shared_sources := []; BokehPlot.source_cols := ∅;
                BokehPlot.events := BokehPlot.events w |}).
  destruct (sync_groups_spec (grouped_sources w) w0 Hwf (grouped_sources_nodup w))
    as (_ & Hsub & _ & Hout & Hin).
  split_and!.
  - intros d Hbig.
    destruct (grouped_sources_complete w d) as [g Hg].
    { intros Hnil. rewrite Hnil in Hbig. simpl in Hbig. lia. }
    pose proof (grouped_sources_members w d g Hg) as Hmem.
    destruct (Hin (d, g) Hg) as (n & Hn & Hsrc & Hshared & Hplots);
      [by rewrite Hmem|].
    rewrite Hmem in Hsrc, Hplots.
    exists n. split; [done|]. split; [|split; [done|]].
    + exact Hsrc.
    + intros j x Hj Hx. rewrite (Hplots j Hj). simpl. rewrite Hx. simpl.
      eexists. split; [done|]. unfold BokehPlot.share_source. split.
      * intros [r Hr]. by rewrite Hr.
      * intros Hr. by rewrite Hr.
  - intros j x Hx Hsmall. rewrite Hout; [done|].
    intros [k g] Hg Hbig Hj.
    rewrite (grouped_sources_members w k g Hg) in Hbig, Hj.
    apply elem_of_sharing in Hj as (x' & Hx' & Hfil & Hd).
    rewrite Hx in Hx'. injection Hx' as <-.
    destruct Hsmall as [Hf|Hlen]; [congruence|]. rewrite Hd in Hlen. lia.
  - intros m Hm. apply elem_of_dom in Hm as [v Hv]. rewrite Hv.
    by eapply lookup_weaken.
Qed.

End SyncSourcesSpec.

(** ** The theorems at concrete plots *)

Section AtConcretePlots.
Local Existing Instance Demo.upstream.

Lemma C9_init_rejects_non_gridspace_witness :
  issubclass cNdLayout cGridSpace = false
  ∧ GridPlot.__init__ Demo.grid_params (LayoutObj cNdLayout 7 (1, 1) ∅) NoRanges
      GridPlot.cs_init
    = Raises (PyException "GridPlot only accepts GridSpace.") GridPlot.cs_init.
Proof.
  split; [reflexivity|].
  apply (C9_init_rejects_non_gridspace Demo.grid_params
           (LayoutObj cNdLayout 7 (1, 1) ∅) NoRanges GridPlot.cs_init).
  reflexivity.
Defined.

Lemma C6_skip_rendering_nested_layout_witness :
  2 ≠ 0
  ∧ first_nested nested_grid [KTuple [0; 0]%Z] (KTuple [0; 1]%Z)
  ∧ ∃ s',
      GridPlot._create_subplots Demo.grid_params 2 nested_grid NoRanges GridPlot.cs_init
      = Raises (SkipRendering "Cannot plot nested Layouts.") s'
      ∧ GridPlot.cs_subplots s' !! [0; 1]%Z = None.
Proof.
  assert (first_nested nested_grid [KTuple [0; 0]%Z] (KTuple [0; 1]%Z)) as Hfirst.
  { split_and!.
    - exists []. vm_compute. reflexivity.
    - exists (Demo.nested 1). split; [reflexivity|by left].
    - intros k' ->%list_elem_of_singleton (v & [= <-] & [Hv|Hv]); discriminate. }
  split; [lia|]. split; [exact Hfirst|].
  destruct (C6_skip_rendering_nested_layout Demo.grid_params 2 nested_grid NoRanges
              GridPlot.cs_init ltac:(lia)) as (_ & Hraise & _).
  destruct (Hraise _ _ Hfirst) as (s' & Hrun & Hnone & _).
  - intros k' ->%list_elem_of_singleton. vm_compute. reflexivity.
  - by exists s'.
Defined.

Lemma C5_shared_axes_witness :
  lo_data Demo.grid !! wrap_tuple (KTuple [0; 1]%Z) = Some (Demo.curve 1)
  ∧ ∃ sp,
      GridPlot.create_subplot_at Demo.grid_params 2 Demo.grid [] 1 (KTuple [0; 1]%Z)
        GridPlot.cs_init
      = Returns tt (GridPlot.cs_add [0; 1]%Z sp GridPlot.cs_init)
      ∧ sp_params sp !! "xaxis" = Some VNone
      ∧ sp_params sp !! "yaxis" = Some (VStr "left").
Proof.
  split; [reflexivity|].
  destruct (C5_shared_axes Demo.grid_params 2 Demo.grid [] 1 (KTuple [0; 1]%Z)
              (Demo.curve 1) GridPlot.cs_init eq_refl) as [_ Hmade].
  destruct Hmade as (sp & Hrun & Hx & Hy);
    [lia|reflexivity|by eexists|vm_compute; reflexivity|].
  exists sp. split_and!; [exact Hrun|exact Hx|exact Hy].
Defined.

(** On the 2 x 2 grid of curves both enumerations agree: the subplot of
    the second key, made for row 1 and column 0, is placed in
    [plots[1][0]]. *)
Lemma grid_coordinates_agree_on_curves :
  ∃ g s1 sp m st' plots p,
    GridPlot.__init__ Demo.grid_params Demo.grid NoRanges GridPlot.cs_init
    = Returns g s1
    ∧ keys_full_grid Demo.grid !! 1 = Some (KTuple [0; 1]%Z)
    ∧ GridPlot.subplots g !! [0; 1]%Z = Some sp
    ∧ GridPlot.initialize_plot g [] (CompositePlot.State ∅ ∅ []) = Returns m st'
    ∧ CompositePlot.handles st' !! "plots" = Some (CompositePlot.HGrid plots)
    ∧ GridPlot.get_cell plots (1 mod 2) (1 / 2)
      = Some (Some (subplot_initialize_plot sp
                      (compute_ranges (GridPlot.layout g) (Some [0%Z]) NoRanges) p)).
Proof.
  set (fr := GridPlot.frame_ranges_of Demo.grid_params Demo.grid NoRanges).
  set (s1 := GridPlot.create_subplots_effect Demo.grid_params 2 Demo.grid fr 0
               (keys_full_grid Demo.grid)
               (GridPlot.cs_enter Demo.grid GridPlot.cs_init)).
  set (g := GridPlot.GridPlotObj Demo.grid_params 2 2
              (GridPlot.cs_subplots s1) (GridPlot.cs_collapsed s1)).
  assert (keys_full_grid Demo.grid
          = [KTuple [0; 0]; KTuple [0; 1]; KTuple [1; 0]; KTuple [1; 1]]%Z) as Hkeys
    by (vm_compute; reflexivity).
  assert (∀ k, k ∈ keys_full_grid Demo.grid →
               GridPlot.is_nested_layout (lo_data Demo.grid !! wrap_tuple k) = false)
    as Hplain.
  { intros k Hk. rewrite Hkeys in Hk.
    repeat (apply elem_of_cons in Hk as [->|Hk]; [vm_compute; reflexivity|]).
    by apply elem_of_nil in Hk. }
  assert (∀ k, k ∈ keys_full_grid Demo.grid → clashes Demo.grid k = false)
    as Hbind.
  { intros k Hk. rewrite Hkeys in Hk.
    repeat (apply elem_of_cons in Hk as [->|Hk]; [vm_compute; reflexivity|]).
    by apply elem_of_nil in Hk. }
  assert (GridPlot.__init__ Demo.grid_params Demo.grid NoRanges GridPlot.cs_init
          = Returns g s1) as Hinit.
  { unfold GridPlot.__init__.
    change (negb (issubclass (lo_class Demo.grid) cGridSpace)) with false.
    change (lo_shape Demo.grid) with (2, 2). cbv iota beta.
    rewrite (py_bind_returns _ _ _ _ _
               (create_subplots_plain Demo.grid_params 2 Demo.grid NoRanges
                  GridPlot.cs_init ltac:(lia) Hplain Hbind)).
    reflexivity. }
  destruct (effect_subplots_registered Demo.grid_params 2 Demo.grid fr
              (keys_full_grid Demo.grid) 0
              (GridPlot.cs_enter Demo.grid GridPlot.cs_init)
              (KTuple [0; 1]%Z) (Demo.curve 1) Demo.CurvePlot)
    as (j & k' & _ & _ & Hsp);
    [vm_compute; right; left|vm_compute; reflexivity|vm_compute; reflexivity|].
  match type of Hsp with _ = Some ?x => set (sp := x) in * end.
  destruct (grid_coordinates_by_enumeration Demo.grid_params Demo.grid NoRanges
              GridPlot.cs_init g s1 1 1 (KTuple [0; 1]%Z) (KTuple [0; 1]%Z) sp Hinit)
    as (_ & _ & Hplace);
    [vm_compute; reflexivity
    |refine (bool_decide_unpack _ _); vm_compute; exact I
    |vm_compute; lia
    |vm_compute; reflexivity
    |vm_compute; reflexivity
    |reflexivity
    |exact Hsp|].
  destruct (Hplace [] (CompositePlot.State ∅ ∅ []) [0%Z])
    as (m & st' & plots & p & Hrun & Hh & Hcell);
    [reflexivity|reflexivity|].
  exists g, s1, sp, m, st', plots, p.
  split_and!; [exact Hinit|vm_compute; reflexivity|exact Hsp
              |exact Hrun|exact Hh|exact Hcell].
Qed.

(** C1 at a failing input: a GridSpace of shape (2, 1) that holds an
    image, for which the backend has no plotting class, at [(0, 0)] and
    a curve at [(1, 0)]. [_create_subplots] enumerates the full grid of
    the layout it is given, in which the curve has index 1, and
    constructs its subplot with the keyword arguments of row
    [1 % 1 = 0] and column [1 // 1 = 1], so without a y-axis.
    [initialize_plot] enumerates the full grid of the collapsed layout,
    which holds the curve only and in which it has index 0, and puts
    its plot in [plots[0][0]]; [plots[0][1]] stays [None]. *)
Theorem C1_grid_coordinates_diverge :
  ∃ g s1 sp m st',
    GridPlot.__init__ Demo.grid_params image_curve_grid NoRanges GridPlot.cs_init
    = Returns g s1
    ∧ (GridPlot.rows g, GridPlot.cols g) = (1, 2)
    ∧ keys_full_grid image_curve_grid = [KTuple [0; 0]; KTuple [1; 0]]%Z
    ∧ GridPlot.subplots g !! [1; 0]%Z = Some sp
    ∧ sp = GridPlot.construct_subplot Demo.grid_params Demo.CurvePlot (Demo.curve 1)
             (GridPlot.frame_ranges_of Demo.grid_params image_curve_grid NoRanges)
             (lookup_options (Demo.curve 1))
             (GridPlot.axis_kwargs Demo.grid_params (1 mod 1) (1 / 1))
    ∧ sp_params sp !! "yaxis" = Some VNone
    ∧ sp_params sp !! "width" = Some (VInt 120)
    ∧ keys_full_grid (GridPlot.layout g) = [KTuple [1; 0]%Z]
    ∧ GridPlot.initialize_plot g [] (CompositePlot.State ∅ ∅ []) = Returns m st'
    ∧ CompositePlot.handles st' !! "plots"
      = Some (CompositePlot.HGrid
                [[Some (subplot_initialize_plot sp
                          (compute_ranges (GridPlot.layout g) (Some [0%Z]) NoRanges)
                          []);
                  None]]).
Proof.
  set (fr := GridPlot.frame_ranges_of Demo.grid_params image_curve_grid NoRanges).
  set (s1 := GridPlot.create_subplots_effect Demo.grid_params 1 image_curve_grid fr 0
               (keys_full_grid image_curve_grid)
               (GridPlot.cs_enter image_curve_grid GridPlot.cs_init)).
  set (g := GridPlot.GridPlotObj Demo.grid_params 2 1
              (GridPlot.cs_subplots s1) (GridPlot.cs_collapsed s1)).
  assert (keys_full_grid image_curve_grid = [KTuple [0; 0]; KTuple [1; 0]]%Z) as Hkeys
    by (vm_compute; reflexivity).
  assert (∀ k, k ∈ keys_full_grid image_curve_grid →
               GridPlot.is_nested_layout (lo_data image_curve_grid !! wrap_tuple k)
               = false) as Hplain.
  { intros k Hk. rewrite Hkeys in Hk.
    repeat (apply elem_of_cons in Hk as [->|Hk]; [vm_compute; reflexivity|]).
    by apply elem_of_nil in Hk. }
  assert (∀ k, k ∈ keys_full_grid image_curve_grid → clashes image_curve_grid k = false)
    as Hbind.
  { intros k Hk. rewrite Hkeys in Hk.
    repeat (apply elem_of_cons in Hk as [->|Hk]; [vm_compute; reflexivity|]).
    by apply elem_of_nil in Hk. }
  assert (GridPlot.__init__ Demo.grid_params image_curve_grid NoRanges GridPlot.cs_init
          = Returns g s1) as Hinit.
  { unfold GridPlot.__init__.
    change (negb (issubclass (lo_class image_curve_grid) cGridSpace)) with false.
    change (lo_shape image_curve_grid) with (2, 1). cbv iota beta.
    rewrite (py_bind_returns _ _ _ _ _
               (create_subplots_plain Demo.grid_params 1 image_curve_grid NoRanges
                  GridPlot.cs_init ltac:(lia) Hplain Hbind)).
    reflexivity. }
  destruct (effect_subplots_registered Demo.grid_params 1 image_curve_grid fr
              (keys_full_grid image_curve_grid) 0
              (GridPlot.cs_enter image_curve_grid GridPlot.cs_init)
              (KTuple [1; 0]%Z) (Demo.curve 1) Demo.CurvePlot)
    as (j & k' & Hj & Hk' & Hsp);
    [vm_compute; right; left|vm_compute; reflexivity|vm_compute; reflexivity|].
  assert (j = 1) as ->.
  { rewrite Hkeys in Hj. destruct j as [|[|j]]; [|done|done].
    injection Hj as <-. discriminate Hk'. }
  match type of Hsp with _ = Some ?x => set (sp := x) in * end.
  set (init := GridPlot.initialize_plot g [] (CompositePlot.State ∅ ∅ [])).
  assert ((if init is Returns _ _ then true else false) = true) as Hreturns
    by (vm_compute; reflexivity).
  assert (CompositePlot.handles (final_state init) !! "plots"
          = Some (CompositePlot.HGrid [[Some (BFigure 1); None]])) as Hplots
    by (vm_compute; reflexivity).
  destruct init as [m st'|e st'] eqn:Hrun; [|discriminate].
  exists g, s1, sp, m, st'.
  split_and!; [exact Hinit|reflexivity|exact Hkeys|exact Hsp|reflexivity
              |vm_compute; reflexivity|vm_compute; reflexivity
              |vm_compute; reflexivity|exact Hrun|exact Hplots].
Qed.

Lemma shared_world_wf : BokehPlot.sources_wf shared_world.
Proof.
  intros i x n Hx Hn. apply elem_of_dom.
  destruct i as [|[|[|i]]]; simpl in Hx; [| | |done];
    injection Hx as <-; injection Hn as <-; by eexists.
Defined.

(** C2 fails as stated: of two plots that pass the filter and share
    their data object, the one without a glyph renderer keeps its old
    source while the other gets the new one. *)
Lemma C2_counterexample :
  BokehPlot.filter_fn <$> BokehPlot.plots shared_world !! 0 = Some true
  ∧ BokehPlot.filter_fn <$> BokehPlot.plots shared_world !! 1 = Some true
  ∧ BokehPlot.sharing shared_world 5 = [0; 1]
  ∧ BokehPlot.h_source <$> BokehPlot.plots (BokehPlot.sync_sources shared_world) !! 0
    = Some (Some 2)
  ∧ BokehPlot.h_source <$> BokehPlot.plots (BokehPlot.sync_sources shared_world) !! 1
    = Some (Some 1)
  ∧ BokehPlot.h_cds <$> BokehPlot.plots (BokehPlot.sync_sources shared_world) !! 1
    = Some (Some 1).
Proof. split_and!; vm_compute; reflexivity. Qed.

Lemma C2_sync_sources_witness :
  BokehPlot.sources_wf shared_world
  ∧ 1 < length (BokehPlot.sharing shared_world 5)
  ∧ ∃ n x',
      (n ∉ dom (BokehPlot.sources shared_world))
      ∧ BokehPlot.sources (BokehPlot.sync_sources shared_world) !! n
        = Some (BokehPlot.merged_data shared_world [0; 1])
      ∧ BokehPlot.plots (BokehPlot.sync_sources shared_world) !! 0 = Some x'
      ∧ BokehPlot.h_source x' = Some n ∧ BokehPlot.h_cds x' = Some n.
Proof.
  assert (1 < length (BokehPlot.sharing shared_world 5)) as Hbig
    by (vm_compute; lia).
  split; [exact shared_world_wf|]. split; [exact Hbig|].
  destruct (C2_sync_sources shared_world shared_world_wf) as (Hgroup & _ & _).
  destruct (Hgroup 5 Hbig) as (n & Hn & Hsrc & _ & Hplots).
  destruct (Hplots 0 _ ltac:(vm_compute; left) eq_refl) as (x' & Hx' & Hr & _).
  destruct Hr as [Hs Hc]; [by eexists|].
  exists n, x'. split_and!; [exact Hn|exact Hsrc|exact Hx'|exact Hs|exact Hc].
Defined.

Lemma C3_replace_or_update_witness :
  let self := BokehPlot.UpdateParams [] false in
  let source_data := [("x", ColList [VInt 1; VInt 2]); ("y", ColList [VInt 3; VInt 4])] in
  let data := [("x", ColArray [VInt 1; VInt 2; VInt 3])] in
  NoDup (od_keys data)
  ∧ BokehPlot.streaming_branch self (od_map decode_bytes data) = false
  ∧ BokehPlot._update_datasource self source_data data = (BokehPlot.Replaced, data).
Proof.
  intros self source_data data.
  assert (NoDup (od_keys data)) as Hnd
    by (refine (bool_decide_unpack _ _); vm_compute; exact I).
  split; [exact Hnd|]. split; [reflexivity|].
  destruct (C3_replace_or_update self source_data data Hnd eq_refl) as [Hrep _].
  apply Hrep. split.
  - exists "y". split; [vm_compute; right; left|reflexivity].
  - exists 2, 3. split_and!; [reflexivity|reflexivity|lia].
Defined.

Lemma C4_update_frame_propagation_witness :
  let coords := wrap_tuple <$> keys_full_grid (GridPlot.layout sparse_grid_plot) in
  NoDup coords
  ∧ (∀ c, is_Some (GridPlot.subplots sparse_grid_plot !! c) → c ∈ coords)
  ∧ NoDup (filter (λ c, is_Some (GridPlot.subplots sparse_grid_plot !! c)) coords)
  ∧ CompositePlot.updates
      (final_state (LayoutPlot.update_frame (row_layout_plot false) [0%Z] NoRanges
                      (CompositePlot.State ∅ ∅ [])))
    = [((0, 0), [0%Z], 0); ((0, 1), [0%Z], 0)].
Proof.
  intros coords.
  assert (NoDup coords) as Hnd
    by (refine (bool_decide_unpack _ _); vm_compute; exact I).
  assert (∀ c, is_Some (GridPlot.subplots sparse_grid_plot !! c) → c ∈ coords) as Hcov.
  { intros c [x Hx]. unfold sparse_grid_plot, GridPlot.subplots in Hx.
    apply lookup_singleton_Some in Hx as [<- _]. vm_compute. left. }
  destruct (C4_update_frame_propagation sparse_grid_plot (row_layout_plot false)
              [0%Z] NoRanges (CompositePlot.State ∅ ∅ []) (CompositePlot.State ∅ ∅ []))
    as (_ & Hlayout & Hgrid & _).
  destruct (Hgrid Hnd Hcov) as [Hreached _].
  split_and!; [exact Hnd|exact Hcov|exact Hreached|].
  rewrite Hlayout. vm_compute. reflexivity.
Defined.

Lemma C7_missing_plotting_class_witness :
  (∃ s', GridPlot.create_subplot_at Demo.grid_params 1 image_grid [] 0
           (KTuple [0; 0]%Z) GridPlot.cs_init = Returns tt s'
         ∧ GridPlot.cs_warnings s'
           = ["Bokeh plotting class for Image type not found, object will not be rendered."]
         ∧ GridPlot.cs_subplots s' = ∅)
  ∧ (∃ s', LayoutPlot.create_subplot_for (row_layout_plot false) image_adjoint [] 1
             "main" (LayoutPlot.CsState ∅ image_adjoint None [] []) = Returns tt s'
           ∧ LayoutPlot.cs_warnings s'
             = ["Bokeh plotting class for Image type not found, object will not be rendered."]
           ∧ LayoutPlot.cs_subplots s' = ∅)
  ∧ (∃ s', LayoutPlot.create_subplot_for (row_layout_plot false)
             (AdjointLayoutObj 10 {[ "main" := Demo.empty 0 ]}) [] 1
             "main" (LayoutPlot.CsState ∅ image_adjoint None [] []) = Returns tt s'
           ∧ LayoutPlot.cs_warnings s' = []
           ∧ LayoutPlot.cs_subplots s' = {[ "main" := None ]}).
Proof.
  destruct C7_missing_plotting_class as (Hgrid & Hlayout & Hempty). split_and!.
  - destruct (Hgrid Demo.grid_params 1 image_grid [] 0 (KTuple [0; 0]%Z)
                (Demo.image 0) [] GridPlot.cs_init)
      as (s' & Hrun & Hw & Hs & _); [lia|reflexivity|reflexivity|reflexivity|].
    exists s'. split_and!; [exact Hrun|exact Hw|exact Hs].
  - destruct (Hlayout (row_layout_plot false) image_adjoint [] 1 "main"
                (Demo.image 0) [] (LayoutPlot.CsState ∅ image_adjoint None [] []))
      as (s' & Hrun & Hw & Hs & _);
      [reflexivity|reflexivity|discriminate|reflexivity|by left|].
    exists s'. split_and!; [exact Hrun|exact Hw|exact Hs].
  - destruct (Hempty (row_layout_plot false)
                (AdjointLayoutObj 10 {[ "main" := Demo.empty 0 ]}) [] 1 "main"
                (Demo.empty 0) [] (LayoutPlot.CsState ∅ image_adjoint None [] []))
      as (s' & Hrun & Hw & Hs & _);
      [reflexivity|reflexivity|reflexivity|reflexivity|by left|].
    exists s'. split_and!; [exact Hrun|exact Hw|exact Hs].
Defined.

(** C7 fails as stated: the backend registry has no plotting class for
    [Spikes] nor for [Empty], yet [LayoutPlot._create_subplots] emits no
    warning; it creates a subplot for the spikes, from the class found in
    [AdjointLayoutPlot.registry], and sets the subplot of the [Empty]
    element to [None]. *)
Lemma C7_counterexample :
  let o := LayoutPlot._create_subplots (row_layout_plot false) spikes_adjoint
             (AdjointLayoutPlot.positions AdjointLayoutPlot.Triple) [] 1
             (LayoutPlot.CsState ∅ spikes_adjoint None [] []) in
  registry (cElement "Spikes") = None
  ∧ registry cEmpty = None
  ∧ (if o is Returns _ _ then True else False)
  ∧ LayoutPlot.cs_warnings (final_state o) = []
  ∧ sp_class <$> (LayoutPlot.cs_subplots (final_state o) !! "right" ≫= id)
    = Some Demo.SideSpikesPlot
  ∧ (if LayoutPlot.cs_subplots (final_state o) !! "top" is Some None
     then True else False).
Proof. split_and!; vm_compute; done. Qed.

Lemma row_layout_tab_ready r c :
  r < 1 → c < 2 → tab_ready (row_layout_plot true) [0%Z] (r, c).
Proof.
  intros Hr Hc adj Hadj. assert (r = 0) as -> by lia.
  unfold row_layout_plot, LayoutPlot.subplots in Hadj.
  destruct c as [|[|c]]; [| |lia].
  - rewrite lookup_insert_eq in Hadj. injection Hadj as <-.
    exists (curve_subplot 0). split; [reflexivity|].
    intros Htitle. vm_compute in Htitle. discriminate.
  - rewrite lookup_insert_ne, lookup_singleton_eq in Hadj by done.
    injection Hadj as <-.
    exists (histogram_subplot 1). split; [reflexivity|].
    intros _. exists ["Histogram"; "I"]. reflexivity.
Defined.

(** The row of a curve and a histogram, shown with tabs. *)
Lemma tabs_layout_on_row :
  ∃ panels m st',
    LayoutPlot.initialize_plot (row_layout_plot true) None (CompositePlot.State ∅ ∅ [])
    = Returns m st'
    ∧ (m = BTabs panels ∨ ∃ r, m = BColumn [BDiv r; BTabs panels])
    ∧ Forall2
        (is_tab_of (row_layout_plot true) [0%Z]
           (compute_ranges (LayoutPlot.layout (row_layout_plot true))
              (Some [0%Z]) NoRanges) [])
        [(0, 0); (0, 1)] panels.
Proof.
  destruct (tabs_layout_when_ready (row_layout_plot true) None [0%Z]
              (CompositePlot.State ∅ ∅ []))
    as (panels & m & st' & Hrun & _ & Hm & Hpanels);
    [reflexivity|reflexivity|simpl; lia|simpl; lia
    |exact row_layout_tab_ready|reflexivity|].
  exists panels, m, st'. split_and!; [exact Hrun|exact Hm|].
  assert (filter (λ rc, is_Some (LayoutPlot.subplots (row_layout_plot true) !! rc))
            (LayoutPlot.row_major 1 2) = [(0, 0); (0, 1)]) as Hcoords.
  { change (LayoutPlot.row_major 1 2) with [(0, 0); (0, 1)].
    rewrite filter_cons_True by (by eexists).
    rewrite filter_cons_True by (by eexists). reflexivity. }
  change (LayoutPlot.rows (row_layout_plot true)) with 1 in Hpanels.
  change (LayoutPlot.cols (row_layout_plot true)) with 2 in Hpanels.
  rewrite Hcoords in Hpanels. exact Hpanels.
Defined.

(** C8 at a failing input: a layout whose only item is an image, for
    which the backend has no plotting class, shown with tabs.
    [_init_layout] warns about the image and still stores an adjoint
    layout plot at the coordinate, of type [Single] and without a main
    subplot. With tabs [initialize_plot] then stops at
    [subplot.subplots['main']] with [KeyError] and produces no [Tabs]
    model; without tabs the sibling path renders the same plot, as an
    empty plot in the grid. *)
Theorem C8_tabs_without_main_subplot :
  (AdjointLayoutPlot.subplots <$> InitLayout.layout_subplots image_layout_made !! (0, 0))
  = Some ∅
  ∧ (AdjointLayoutPlot.type <$> InitLayout.layout_subplots image_layout_made !! (0, 0))
    = Some AdjointLayoutPlot.Single
  ∧ InitLayout.paths image_layout_made !! (0, 0) = Some (Some ["Image"; "I"])
  ∧ LayoutPlot.cs_warnings (InitLayout.cs image_layout_made)
    = ["Bokeh plotting class for Image type not found, object will not be rendered."]
  ∧ (∃ st', LayoutPlot.initialize_plot (image_tabs_plot true) None
              (CompositePlot.State ∅ ∅ [])
            = Raises (KeyError "main") st'
            ∧ CompositePlot.handles st' !! "plot" = None)
  ∧ (∃ d st', LayoutPlot.initialize_plot (image_tabs_plot false) None
                (CompositePlot.State ∅ ∅ [])
              = Returns (BColumn [BDiv d; BGrid [[Some (BEmptyPlot 0 0)]]
                                            (VStr "above") true]) st').
Proof.
  split_and!; [vm_compute; reflexivity..| |].
  - set (run := LayoutPlot.initialize_plot (image_tabs_plot true) None
                  (CompositePlot.State ∅ ∅ [])).
    assert ((if run is Raises e _ then Some e else None) = Some (KeyError "main"))
      as Hraises by (vm_compute; reflexivity).
    assert (CompositePlot.handles (final_state run) !! "plot" = None) as Hplot
      by (vm_compute; reflexivity).
    destruct run as [m st'|e st']; [discriminate|].
    injection Hraises as ->. by exists st'.
  - set (run := LayoutPlot.initialize_plot (image_tabs_plot false) None
                  (CompositePlot.State ∅ ∅ [])).
    assert ((if run is Returns m _ then Some m else None)
            = Some (BColumn [BDiv 0; BGrid [[Some (BEmptyPlot 0 0)]]
                                       (VStr "above") true]))
      as Hreturns by (vm_compute; reflexivity).
    destruct run as [m st'|e st']; [|discriminate].
    injection Hreturns as ->. by exists 0, st'.
Qed.

(** C10 at a concrete input: with a non-empty title and no ['title']
    handle yet, [GridPlot.update_frame] raises [KeyError] and stores no
    title div, where [LayoutPlot.update_frame] returns and stores one. *)
Lemma C10_title_refresh_diverges :
  (∃ st1,
     GridPlot.update_frame sparse_grid_plot [0%Z] NoRanges (CompositePlot.State ∅ ∅ [])
     = Raises (KeyError "title") st1
     ∧ CompositePlot.handles st1 !! "title" = None)
  ∧ (∃ r st2,
       LayoutPlot.update_frame (row_layout_plot false) [0%Z] NoRanges
         (CompositePlot.State ∅ ∅ [])
       = Returns tt st2
       ∧ CompositePlot.handles st2 !! "title" = Some (CompositePlot.HModel (BDiv r))).
Proof.
  split.
  - destruct (grid_update_frame_title_missing sparse_grid_plot [0%Z] NoRanges
                (CompositePlot.State ∅ ∅ [])) as (st1 & Hrun & Hh);
      [split; [reflexivity|discriminate]|reflexivity|].
    exists st1. split; [exact Hrun|]. by rewrite Hh.
  - destruct (layout_update_frame_title_missing (row_layout_plot false) [0%Z] NoRanges
                (CompositePlot.State ∅ ∅ [])) as (r & st2 & Hrun & Hh & _);
      [split; [reflexivity|discriminate]|reflexivity|].
    by exists r, st2.
Qed.

End AtConcretePlots.

(** ** The methods run on small inputs *)

Section Examples.
Local Existing Instance Demo.upstream.

Example contains_em_yes : CompositePlot.contains_em "1.5em" = true.
Proof. reflexivity. Qed.

Example contains_em_no : CompositePlot.contains_em "15pt" = false.
Proof. reflexivity. Qed.

Example title_tags_default :
  CompositePlot.title_tags (Demo.titled "Grid") "Grid"
  = "<span style=" +:+ CompositePlot.dquote
    +:+ "color:None;font-family:Arial;font-style:bold;font-weight:bold;font-size:16pt"
    +:+ CompositePlot.dquote +:+ ">Grid</span>".
Proof. vm_compute. reflexivity. Qed.

Example issubclass_dynamicmap : issubclass cDynamicMap cHoloMap = true.
Proof. reflexivity. Qed.

(** A subclass of [Layout] is an instance of it but not of its exact
    type, so it does not raise [SkipRendering]. *)
Example layout_subclass_is_not_nested :
  issubclass (cSubclass "MyLayout" cLayout) cLayout = true
  ∧ GridPlot.is_nested_layout
      (Some (View (cSubclass "MyLayout" cLayout) cLayout 0)) = false.
Proof. split; reflexivity. Qed.

Example grid_position_column_major :
  (λ i, (i mod 2, i / 2)) <$> [0; 1; 2; 3; 4; 5]
  = [(0, 0); (1, 0); (0, 1); (1, 1); (0, 2); (1, 2)].
Proof. reflexivity. Qed.

Example grid_position_no_rows :
  GridPlot.grid_position 0 3 tt = Raises ZeroDivisionError tt.
Proof. reflexivity. Qed.

Example py_index_negative : py_index [10; 20; 30] (-1) = Some 2.
Proof. reflexivity. Qed.

Example py_index_out_of_range : py_index [10; 20; 30] 3 = None.
Proof. reflexivity. Qed.

Example od_update_order :
  od_update [("a", 1); ("b", 2)] [("b", 20); ("c", 30)]
  = [("a", 1); ("b", 20); ("c", 30)].
Proof. reflexivity. Qed.

Example sorted_groupby_stable :
  BokehPlot.groupby (BokehPlot.sorted_by_key [(5, 0); (3, 1); (5, 2); (3, 3)])
  = [(3, [(3, 1); (3, 3)]); (5, [(5, 0); (5, 2)])].
Proof. reflexivity. Qed.

(** Equal lengths: the new column is merged and the untouched one stays. *)
Example update_datasource_merges :
  BokehPlot._update_datasource (BokehPlot.UpdateParams [] false)
    [("x", ColList [VInt 1; VInt 2]); ("y", ColList [VInt 3; VInt 4])]
    [("x", ColList [VInt 5; VInt 6])]
  = (BokehPlot.Merged,
     [("x", ColList [VInt 5; VInt 6]); ("y", ColList [VInt 3; VInt 4])]).
Proof. reflexivity. Qed.

(** No list or array column among the existing ones: merged, whatever
    the new lengths. *)
Example update_datasource_no_list_column :
  BokehPlot._update_datasource (BokehPlot.UpdateParams [] false)
    [("y", ColOther 2)] [("x", ColList [VInt 5; VInt 6; VInt 7])]
  = (BokehPlot.Merged, [("y", ColOther 2); ("x", ColList [VInt 5; VInt 6; VInt 7])]).
Proof. reflexivity. Qed.

(** A triggering stream sends the last chunk and leaves the branch. *)
Example update_datasource_streams :
  (BokehPlot._update_datasource
     (BokehPlot.UpdateParams [BokehPlot.Stream true true 1 100] true)
     [("x", ColList [VInt 1])] [("x", ColList [VInt 1; VInt 2])]).1
  = BokehPlot.Streamed.
Proof. reflexivity. Qed.

(** An adjoint layout whose main element has no plotting class and that
    holds a curve to its right: the warning is emitted for the main
    element, and the side options of the curve then read [height] from
    a main plot that does not exist. *)
Example side_position_without_main_plot :
  let o := LayoutPlot._create_subplots (row_layout_plot false)
             (AdjointLayoutObj 7 {[ "main" := Demo.image 0; "right" := Demo.curve 1 ]})
             (AdjointLayoutPlot.positions AdjointLayoutPlot.Dual) [] 1
             (LayoutPlot.CsState ∅ image_adjoint None [] []) in
  (if o is Raises (AttributeError "height") _ then True else False)
  ∧ LayoutPlot.cs_warnings (final_state o)
    = ["Bokeh plotting class for Image type not found, object will not be rendered."].
Proof. split; vm_compute; done. Qed.

(** With tabs, an adjoint layout plot without a main subplot stops
    [initialize_plot] with a [KeyError]. *)
Example tabs_without_main_subplot :
  let lp :=
    {| LayoutPlot.shared_axes := true; LayoutPlot.merge_tools := true;
       LayoutPlot.tabs := true; LayoutPlot.toolbar := VStr "above";
       LayoutPlot.keys := [[0%Z]]; LayoutPlot.title := Demo.titled "Layout";
       LayoutPlot.rows := 1; LayoutPlot.cols := 1;
       LayoutPlot.coords := [(0, 0)];
       LayoutPlot.layout := LayoutObj cLayout 3 (1, 1) ∅;
       LayoutPlot.subplots :=
         {[ (0, 0) := AdjointLayoutPlot.AdjointLayoutPlotObj image_adjoint
                        AdjointLayoutPlot.Single ∅ ]};
       LayoutPlot.paths := {[ (0, 0) := Some ["Image"; "I"] ]} |} in
  if LayoutPlot.initialize_plot lp None (CompositePlot.State ∅ ∅ [])
  is Raises (KeyError "main") _ then True else False.
Proof. vm_compute. done. Qed.

End Examples.

(** * Further properties of the embedded methods *)

(** ** Loops: what holds in the state in which a loop stops *)

Lemma for_each_final {St A} (body : A → py St unit) (I : St → Prop) (xs : list A) :
  (∀ x s, x ∈ xs → I s → I (final_state (body x s))) →
  ∀ s, I s → I (final_state (for_each body xs s)).
Proof.
  induction xs as [|x xs IH]; intros Hbody s Hs; simpl; [done|].
  unfold mbind, py_mbind, py_bind.
  specialize (Hbody x s (list_elem_of_here _ _) Hs) as Hx.
  destruct (body x s) as [[] s1|e s1]; simpl in Hx; [|done].
  apply IH; [|done]. intros y s' Hy. apply Hbody. by right.
Qed.

Lemma for_enumerate_final {St A} (body : nat → A → py St unit) (I : St → Prop)
    (xs : list A) :
  (∀ i x s, x ∈ xs → I s → I (final_state (body i x s))) →
  ∀ i0 s, I s → I (final_state (for_enumerate body i0 xs s)).
Proof.
  induction xs as [|x xs IH]; intros Hbody i0 s Hs; simpl; [done|].
  unfold mbind, py_mbind, py_bind.
  specialize (Hbody i0 x s (list_elem_of_here _ _) Hs) as Hx.
  destruct (body i0 x s) as [[] s1|e s1]; simpl in Hx; [|done].
  apply IH; [|done]. intros j y s' Hy. apply Hbody. by right.
Qed.

(** ** GridPlot._create_subplots: the keyword arguments of a cell *)

Section GridCellOptions.
Context `{Upstream}.
Implicit Types (self : GridPlot.params) (layout : layout_obj)
  (s : GridPlot.cs_state) (k : pykey).

Lemma axis_kwargs_sizes self r c :
  GridPlot.axis_kwargs self r c !! "width"
  = Some (VInt (if GridPlot.shared_yaxis self && bool_decide (c = 0)
                then GridPlot.plot_size self + GridPlot.axis_offset self
                else GridPlot.plot_size self))
  ∧ GridPlot.axis_kwargs self r c !! "height"
    = Some (VInt (if GridPlot.shared_xaxis self && bool_decide (r = 0)
                  then GridPlot.plot_size self + GridPlot.axis_offset self
                  else GridPlot.plot_size self))
  ∧ GridPlot.axis_kwargs self r c !! "border" = Some (VInt 3)
  ∧ GridPlot.axis_kwargs self r c !! "show_legend" = Some (VBool false).
Proof.
  destruct self as [off size [] [] mt tb ks dyn ttl], r as [|r], c as [|c];
    vm_compute; done.
Qed.

Lemma construct_subplot_kwarg self pc v fr opts kwargs (name : string) x :
  name ≠ "subplot" → name ≠ "show_title" → kwargs !! name = Some x →
  sp_params (GridPlot.construct_subplot self pc v fr opts kwargs) !! name = Some x.
Proof.
  intros H1 H2 Hk. unfold GridPlot.construct_subplot, GridPlot.dict_override. simpl.
  rewrite !lookup_insert_ne by done. by apply lookup_union_Some_l.
Qed.

(** X1. An iteration of [GridPlot._create_subplots] over a view that
    has a plotting class and is no nested layout, in a grid of at least
    one row. When the options looked up for the element name one of the
    keywords that the constructor call gives itself ([show_title],
    [subplot], [keys], ...), the call raises [TypeError] and nothing is
    stored. Otherwise the subplot created for grid row [r = i % rows]
    and column [c = i // rows] is [plot_size] wide and high, enlarged by
    [axis_offset] in width exactly when [shared_yaxis] is on and [c = 0],
    and in height exactly when [shared_xaxis] is on and [r = 0]; its
    border is 3 and it shows no legend, whatever the options of the
    element say of these four; and it is made with [show_title=False]
    and [subplot=True]. *)
Theorem grid_cell_options_forced self rows layout fr i k v pc s :
  rows ≠ 0 →
  lo_data layout !! wrap_tuple k = Some v →
  GridPlot.is_nested_layout (Some v) = false →
  registry (GridPlot.vtype_of v) = Some pc →
  if GridPlot.keyword_clash GridPlot.explicit_keywords (lookup_options v)
  then GridPlot.create_subplot_at self rows layout fr i k s
       = Raises GridPlot.multiple_values s
  else
    ∃ sp,
      GridPlot.create_subplot_at self rows layout fr i k s
      = Returns tt (GridPlot.cs_add (wrap_tuple k) sp s)
      ∧ sp_params sp !! "width"
        = Some (VInt (if GridPlot.shared_yaxis self && bool_decide (i / rows = 0)
                      then GridPlot.plot_size self + GridPlot.axis_offset self
                      else GridPlot.plot_size self))
      ∧ sp_params sp !! "height"
        = Some (VInt (if GridPlot.shared_xaxis self && bool_decide (i mod rows = 0)
                      then GridPlot.plot_size self + GridPlot.axis_offset self
                      else GridPlot.plot_size self))
      ∧ sp_params sp !! "border" = Some (VInt 3)
      ∧ sp_params sp !! "show_legend" = Some (VBool false)
      ∧ sp_params sp !! "show_title" = Some (VBool false)
      ∧ sp_params sp !! "subplot" = Some (VBool true).
Proof.
  intros Hr Hv Hn Hreg.
  destruct (GridPlot.keyword_clash GridPlot.explicit_keywords (lookup_options v))
    eqn:Hc.
  { apply create_subplot_at_clash; [done|by rewrite Hv|].
    unfold clashes. rewrite Hv, Hreg, Hc. apply andb_true_iff.
    split; [|done]. by apply bool_decide_eq_true. }
  eexists. split.
  { rewrite create_subplot_at_plain; [|done|by rewrite Hv|].
    - unfold GridPlot.create_subplot_effect. by rewrite Hv, Hreg.
    - unfold clashes. by rewrite Hv, Hreg, Hc, andb_false_r. }
  destruct (axis_kwargs_sizes self (i mod rows) (i / rows)) as (Hw & Hh & Hb & Hl).
  split_and!.
  - by apply construct_subplot_kwarg.
  - by apply construct_subplot_kwarg.
  - by apply construct_subplot_kwarg.
  - by apply construct_subplot_kwarg.
  - unfold GridPlot.construct_subplot. simpl.
    rewrite lookup_insert_ne by done. by rewrite lookup_insert_eq.
  - unfold GridPlot.construct_subplot. simpl. by rewrite lookup_insert_eq.
Qed.

Lemma create_subplot_at_keys_inv self rows layout fr l i k s :
  k ∈ l → grid_keys_inv self layout fr l s →
  grid_keys_inv self layout fr l
    (final_state (GridPlot.create_subplot_at self rows layout fr i k s)).
Proof.
  intros Hk [Hdom Hin].
  destruct (decide (rows = 0)) as [->|Hr].
  { by rewrite create_subplot_at_zero_rows. }
  destruct (GridPlot.is_nested_layout (lo_data layout !! wrap_tuple k)) eqn:Hn.
  { by rewrite create_subplot_at_nested. }
  destruct (clashes layout k) eqn:Hclash.
  { by rewrite create_subplot_at_clash. }
  rewrite create_subplot_at_plain by done. simpl.
  unfold GridPlot.create_subplot_effect.
  destruct (lo_data layout !! wrap_tuple k) as [v|] eqn:Hv; [|done].
  destruct (registry (GridPlot.vtype_of v)) as [pc|] eqn:Hreg; [|done].
  split; simpl.
  - rewrite !dom_insert_L. by rewrite Hdom.
  - intros c sp Hc. destruct (decide (c = wrap_tuple k)) as [->|Hne].
    + rewrite lookup_insert_eq in Hc. injection Hc as <-. simpl.
      rewrite lookup_insert_eq.
      split_and!; [by apply list_elem_of_fmap_2|done..|by exists v].
    + rewrite lookup_insert_ne in Hc by done. rewrite lookup_insert_ne by done.
      by apply Hin.
Qed.

(** X2. In whatever state [GridPlot._create_subplots] stops, normally or
    by an exception, the collapsed layout has an item at exactly the
    coordinates that have a subplot. Each subplot sits at the coordinate
    of a full-grid key, was made by the plotting class registered for
    the view found there (collated if it was not displayable), with the
    keys of the plot and the frame ranges computed at the start, and the
    collapsed layout holds its [hmap], or its [layout] for a composite
    plot. *)
Theorem grid_create_subplots_keys self rows layout rng s :
  let s' := final_state (GridPlot._create_subplots self rows layout rng s) in
  dom (lo_data (GridPlot.cs_collapsed s')) = dom (GridPlot.cs_subplots s')
  ∧ ∀ c sp, GridPlot.cs_subplots s' !! c = Some sp →
      c ∈ wrap_tuple <$> keys_full_grid layout
      ∧ lo_data (GridPlot.cs_collapsed s') !! c
        = Some (if pc_composite (sp_class sp) then subplot_layout sp
                else subplot_hmap sp)
      ∧ sp_keys sp = GridPlot.keys self
      ∧ sp_ranges sp = GridPlot.frame_ranges_of self layout rng
      ∧ ∃ v, lo_data layout !! c = Some v
             ∧ registry (GridPlot.vtype_of v) = Some (sp_class sp)
             ∧ sp_view sp = (if displayable v then v else collate v).
Proof.
  unfold GridPlot._create_subplots.
  rewrite (py_bind_returns _ _ _ tt (GridPlot.cs_enter layout s)) by done.
  apply (for_enumerate_final _
           (grid_keys_inv self layout (GridPlot.frame_ranges_of self layout rng)
              (keys_full_grid layout))).
  - intros i k s1 Hk Hs1. by apply create_subplot_at_keys_inv.
  - split; simpl; [by rewrite !dom_empty_L|].
    intros c sp Hc. by rewrite lookup_empty in Hc.
Qed.

(** X3. The outcomes of [GridPlot._create_subplots]: it returns only if
    there is no key at all, or no key holds a nested layout and no
    constructor call names a keyword twice; and the only exceptions it
    raises are [ZeroDivisionError], with [rows = 0] and at least one
    key, [SkipRendering], with a nested layout under some key, and the
    [TypeError] of a constructor call, for a registered element whose
    options name one of the keywords of the call. *)
Theorem grid_create_subplots_outcome self rows layout rng s :
  match GridPlot._create_subplots self rows layout rng s with
  | Returns _ _ =>
      keys_full_grid layout = []
      ∨ (rows ≠ 0
         ∧ ∀ k, k ∈ keys_full_grid layout →
                ¬ nested_at layout k ∧ clashes layout k = false)
  | Raises e _ =>
      (e = ZeroDivisionError ∧ rows = 0 ∧ keys_full_grid layout ≠ [])
      ∨ (e = SkipRendering "Cannot plot nested Layouts." ∧ rows ≠ 0
         ∧ ∃ k, k ∈ keys_full_grid layout ∧ nested_at layout k)
      ∨ (e = GridPlot.multiple_values ∧ rows ≠ 0
         ∧ ∃ k, k ∈ keys_full_grid layout ∧ clashes layout k = true)
  end.
Proof.
  unfold GridPlot._create_subplots.
  rewrite (py_bind_returns _ _ _ tt (GridPlot.cs_enter layout s)) by done.
  destruct (keys_full_grid layout) as [|k0 l0] eqn:Hkeys; [by left|].
  destruct (decide (rows = 0)) as [->|Hr].
  { cbn [for_enumerate].
    rewrite (py_bind_raises _ _ _ _ _ (create_subplot_at_zero_rows _ _ _ _ _ _)).
    by left. }
  destruct (for_enumerate _ 0 (k0 :: l0) (GridPlot.cs_enter layout s))
    as [[] s'|e s'] eqn:Hrun.
  - apply create_loop_returns in Hrun as [_ Hall]; [|done].
    right. split; [done|]. intros k Hk. destruct (Hall k Hk) as [Hn Hc].
    split; [|done]. intros Hnest%is_nested_layout_spec. congruence.
  - apply create_loop_raises in Hrun as [[? ?]|[[-> (k & Hk & Hn)]|[-> (k & Hk & Hc)]]];
      [done|right; left|right; right].
    + split_and!; [done..|]. exists k. split; [done|]. by apply is_nested_layout_spec.
    + split_and!; [done..|]. by exists k.
Qed.

End GridCellOptions.

(** ** GridPlot.initialize_plot: the whole grid *)

Section GridCells.
Context `{Upstream}.
Implicit Types (g : GridPlot.t) (k : pykey) (l : list pykey)
  (plots : list (list (option bmodel))) (passed outs : list (option bmodel)).

(** One iteration of the loop, inside the grid. *)
Lemma place_step g rng i k plots passed :
  i < GridPlot.rows g * GridPlot.cols g →
  grid_shape plots (GridPlot.rows g) (GridPlot.cols g) →
  let r := i mod GridPlot.rows g in
  let c := i / GridPlot.rows g in
  let out := (λ sp, subplot_initialize_plot sp rng passed)
               <$> GridPlot.subplots g !! wrap_tuple k in
  ∃ plots1,
    GridPlot.place_subplot_at g rng i k (plots, passed)
    = Returns tt (plots1, passed ++ [out])
    ∧ grid_shape plots1 (GridPlot.rows g) (GridPlot.cols g)
    ∧ GridPlot.get_cell plots1 r c
      = (if out is Some _ then Some out else GridPlot.get_cell plots r c)
    ∧ ∀ r' c', (r', c') ≠ (r, c) →
               GridPlot.get_cell plots1 r' c' = GridPlot.get_cell plots r' c'.
Proof.
  intros Hi Hshape r c out.
  assert (GridPlot.rows g ≠ 0) as Hr by lia.
  destruct (position_in_grid _ _ _ Hi) as [Hrow Hcol].
  unfold GridPlot.place_subplot_at, GridPlot.grid_position.
  rewrite decide_False by done.
  unfold mbind at 1, py_mbind, py_bind, mret, py_mret, py_ret.
  subst out. destruct (GridPlot.subplots g !! wrap_tuple k) as [sp|]; simpl.
  - destruct (set_cell_spec (St := list (list (option bmodel)) * list (option bmodel))
                plots _ _ _ _ (subplot_initialize_plot sp rng passed)
                (plots, passed) Hshape Hrow Hcol)
      as (plots1 & Hset & Hshape1 & Hget & Hframe).
    exists plots1. split_and!; [|done..].
    unfold mbind, py_mbind, py_bind, get_state. simpl. by rewrite Hset.
  - exists plots. by split_and!.
Qed.

(** The loop over keys that fit the grid: [passed_plots] gets one entry
    per key, [None] for a key without subplot and otherwise the plot of
    the subplot, initialised with the entries made before it; that plot
    is put in the cell of the key, and nothing else is written. *)
Lemma place_loop_cells g rng l : ∀ i0 plots passed,
  i0 + length l ≤ GridPlot.rows g * GridPlot.cols g →
  grid_shape plots (GridPlot.rows g) (GridPlot.cols g) →
  ∃ plots' outs,
    for_enumerate (GridPlot.place_subplot_at g rng) i0 l (plots, passed)
    = Returns tt (plots', passed ++ outs)
    ∧ grid_shape plots' (GridPlot.rows g) (GridPlot.cols g)
    ∧ length outs = length l
    ∧ (∀ j k, l !! j = Some k →
         let out := (λ sp, subplot_initialize_plot sp rng (passed ++ take j outs))
                      <$> GridPlot.subplots g !! wrap_tuple k in
         outs !! j = Some out
         ∧ GridPlot.get_cell plots'
             ((i0 + j) mod GridPlot.rows g) ((i0 + j) / GridPlot.rows g)
           = (if out is Some _ then Some out
              else GridPlot.get_cell plots
                     ((i0 + j) mod GridPlot.rows g) ((i0 + j) / GridPlot.rows g)))
    ∧ (∀ r c, (∀ j, j < length l →
                    (r, c) ≠ ((i0 + j) mod GridPlot.rows g,
                              (i0 + j) / GridPlot.rows g)) →
              GridPlot.get_cell plots' r c = GridPlot.get_cell plots r c).
Proof.
  induction l as [|k l IH]; intros i0 plots passed Hlen Hshape.
  - exists plots, []. rewrite app_nil_r. split_and!; [done..| |done].
    intros j k Hj. by rewrite lookup_nil in Hj.
  - simpl in Hlen.
    assert (GridPlot.rows g ≠ 0) as Hr by lia.
    destruct (place_step g rng i0 k plots passed)
      as (plots1 & Hstep & Hshape1 & Hcell1 & Hframe1); [lia|done|].
    set (o := (λ sp, subplot_initialize_plot sp rng passed)
                <$> GridPlot.subplots g !! wrap_tuple k) in *.
    destruct (IH (S i0) plots1 (passed ++ [o]))
      as (plots' & outs & Hrun & Hshape' & Hlen' & Hcells & Hframe); [lia|done|].
    exists plots', (o :: outs). split_and!; [|done|by simpl; rewrite Hlen'| |].
    + cbn [for_enumerate]. rewrite (py_bind_returns _ _ _ _ _ Hstep).
      by rewrite Hrun, <- app_assoc.
    + intros [|j] k' Hj; simpl in Hj.
      * injection Hj as <-. cbn zeta. rewrite take_0, app_nil_r, Nat.add_0_r.
        split; [done|]. fold o. rewrite Hframe; [done|].
        intros j Hj [= Hm Hd]. apply position_injective in Hm; [lia|done..].
      * destruct (Hcells j k' Hj) as [Hout Hcell]. cbn zeta.
        rewrite firstn_cons. rewrite <- app_assoc in Hout, Hcell. simpl in Hout, Hcell.
        replace (i0 + S j) with (S (i0 + j)) by lia.
        split; [done|]. rewrite Hcell.
        destruct (GridPlot.subplots g !! wrap_tuple k'); simpl; [done|].
        apply Hframe1. intros [= Hm Hd].
        apply position_injective in Hm; [lia|done..].
    + intros r c Hrc. rewrite Hframe, Hframe1; [done| |].
      * specialize (Hrc 0). rewrite Nat.add_0_r in Hrc. apply Hrc. simpl. lia.
      * intros j Hj. replace (S i0 + j) with (i0 + S j) by lia. apply Hrc. simpl. lia.
Qed.

Lemma empty_grid_cell rows cols r c :
  r < rows → c < cols → GridPlot.get_cell (GridPlot.empty_grid rows cols) r c = Some None.
Proof.
  intros Hr Hc. unfold GridPlot.get_cell, GridPlot.empty_grid.
  rewrite lookup_replicate_2 by done. simpl. by rewrite lookup_replicate_2.
Qed.

Lemma get_title_no_title {C} tp key (st : CompositePlot.state C) :
  ¬ has_title tp key → CompositePlot._get_title tp key st = Returns None st.
Proof.
  intros Hno. unfold CompositePlot._get_title.
  rewrite decide_True; [done|].
  destruct (CompositePlot.show_title tp) eqn:Hshow; [|done].
  destruct (decide (CompositePlot._format_title tp key = EmptyString)); [done|].
  by destruct Hno.
Qed.

(** X4. [GridPlot.initialize_plot] on a grid that has a cell for every
    full-grid key: it returns the model it stores under ['plot'], and the
    grid it stores under ['plots'] has [rows] rows of [cols] cells. The
    cell [(i % rows, i // rows)] of the [i]-th key holds the plot of the
    key's subplot, initialised with the plots passed in followed by the
    entries of the earlier keys, or [None] when the key has no subplot;
    the cells beyond the last key stay [None]. The returned model shows
    the rows in reverse order inside the axes, under the title div when
    the title is not empty. *)
Theorem grid_initialize_plot_cells g passed key (st : CompositePlot.state coord) :
  last (GridPlot.keys (GridPlot.self_params g)) = Some key →
  length (keys_full_grid (GridPlot.layout g)) ≤ GridPlot.rows g * GridPlot.cols g →
  CompositePlot.handles st !! "title" = None →
  let rng := compute_ranges (GridPlot.layout g) (Some key) NoRanges in
  let tp := GridPlot.title (GridPlot.self_params g) in
  ∃ m st' plots outs,
    GridPlot.initialize_plot g passed st = Returns m st'
    ∧ CompositePlot.handles st' !! "plot" = Some (CompositePlot.HModel m)
    ∧ CompositePlot.handles st' !! "plots" = Some (CompositePlot.HGrid plots)
    ∧ grid_shape plots (GridPlot.rows g) (GridPlot.cols g)
    ∧ length outs = length (keys_full_grid (GridPlot.layout g))
    ∧ (∀ i k, keys_full_grid (GridPlot.layout g) !! i = Some k →
         outs !! i
         = Some ((λ sp, subplot_initialize_plot sp rng (passed ++ take i outs))
                   <$> GridPlot.subplots g !! wrap_tuple k)
         ∧ GridPlot.get_cell plots (i mod GridPlot.rows g) (i / GridPlot.rows g)
           = outs !! i)
    ∧ (∀ r c, r < GridPlot.rows g → c < GridPlot.cols g →
              length (keys_full_grid (GridPlot.layout g)) ≤ c * GridPlot.rows g + r →
              GridPlot.get_cell plots r c = Some None)
    ∧ (let grid := make_axes (BGrid (reverse plots)
                                (GridPlot.toolbar (GridPlot.self_params g))
                                (GridPlot.merge_tools (GridPlot.self_params g))) in
       (has_title tp key →
        ∃ d, m = BColumn [BDiv d; grid]
             ∧ CompositePlot.handles st' !! "title"
               = Some (CompositePlot.HModel (BDiv d)))
       ∧ (¬ has_title tp key →
          m = grid ∧ CompositePlot.handles st' !! "title" = None)).
Proof.
  intros Hkey Hlen Hno rng tp.
  destruct (place_loop_cells g rng (keys_full_grid (GridPlot.layout g)) 0
              (GridPlot.empty_grid (GridPlot.rows g) (GridPlot.cols g)) passed)
    as (plots & outs & Hrun & Hshape & Hlo & Hcells & Hframe);
    [done|apply empty_grid_shape|].
  assert (∀ i k, keys_full_grid (GridPlot.layout g) !! i = Some k →
            outs !! i
            = Some ((λ sp, subplot_initialize_plot sp rng (passed ++ take i outs))
                      <$> GridPlot.subplots g !! wrap_tuple k)
            ∧ GridPlot.get_cell plots (i mod GridPlot.rows g) (i / GridPlot.rows g)
              = outs !! i) as Hcells'.
  { intros i k Hi. destruct (Hcells i k Hi) as [Hout Hcell]. simpl in Hout, Hcell.
    split; [done|]. rewrite Hcell, Hout.
    destruct (GridPlot.subplots g !! wrap_tuple k); simpl; [done|].
    apply lookup_lt_Some in Hi.
    destruct (position_in_grid (GridPlot.rows g) (GridPlot.cols g) i); [lia|].
    by apply empty_grid_cell. }
  assert (∀ r c, r < GridPlot.rows g → c < GridPlot.cols g →
            length (keys_full_grid (GridPlot.layout g)) ≤ c * GridPlot.rows g + r →
            GridPlot.get_cell plots r c = Some None) as Hrest.
  { intros r c Hr Hc Hfar. rewrite Hframe; [by apply empty_grid_cell|].
    intros j Hj [= Hm Hd]. simpl in Hm, Hd.
    pose proof (Nat.div_mod_eq j (GridPlot.rows g)). nia. }
  unfold GridPlot.initialize_plot. rewrite Hkey.
  unfold GridPlot.place_subplots. fold rng. rewrite Hrun.
  destruct (decide (has_title tp key)) as [Ht|Ht].
  - rewrite (py_bind_returns _ _ _ _ _ (get_title_new_div tp key st Ht Hno)).
    eexists _, _, plots, outs.
    split_and!; [reflexivity| | |done|done|done|done| | ].
    + simpl. by rewrite lookup_insert_ne, lookup_insert_eq.
    + simpl. by rewrite lookup_insert_eq.
    + intros _. eexists. split; [reflexivity|]. simpl.
      rewrite !lookup_insert_ne by done. by rewrite lookup_insert_eq.
    + done.
  - rewrite (py_bind_returns _ _ _ _ _ (get_title_no_title tp key st Ht)).
    eexists _, _, plots, outs.
    split_and!; [reflexivity| | |done|done|done|done| | ].
    + simpl. by rewrite lookup_insert_ne, lookup_insert_eq.
    + simpl. by rewrite lookup_insert_eq.
    + done.
    + intros _. split; [done|]. simpl. by rewrite !lookup_insert_ne by done.
Qed.

(** The loop can only return if every key that has a subplot has a cell. *)
Lemma place_loop_in_grid g rng l : ∀ i0 plots passed plots' passed',
  grid_shape plots (GridPlot.rows g) (GridPlot.cols g) →
  for_enumerate (GridPlot.place_subplot_at g rng) i0 l (plots, passed)
  = Returns tt (plots', passed') →
  ∀ j k, l !! j = Some k → is_Some (GridPlot.subplots g !! wrap_tuple k) →
         i0 + j < GridPlot.rows g * GridPlot.cols g.
Proof.
  induction l as [|k l IH]; intros i0 plots passed plots' passed' Hshape Hrun j k' Hj Hsp.
  { by rewrite lookup_nil in Hj. }
  cbn [for_enumerate] in Hrun. unfold mbind at 1, py_mbind, py_bind in Hrun.
  destruct (GridPlot.place_subplot_at g rng i0 k (plots, passed))
    as [[] [plots1 passed1]|] eqn:Hstep; [|done].
  assert (grid_shape plots1 (GridPlot.rows g) (GridPlot.cols g)
          ∧ (is_Some (GridPlot.subplots g !! wrap_tuple k) →
             i0 < GridPlot.rows g * GridPlot.cols g)) as [Hshape1 Hi0].
  { unfold GridPlot.place_subplot_at, GridPlot.grid_position in Hstep.
    destruct (decide (GridPlot.rows g = 0)) as [|Hr]; [done|].
    unfold mbind at 1, py_mbind, py_bind, mret, py_mret, py_ret in Hstep.
    destruct (GridPlot.subplots g !! wrap_tuple k) as [sp|].
    - unfold mbind, py_mbind, py_bind, get_state, GridPlot.set_cell in Hstep.
      simpl in Hstep.
      destruct (plots !! (i0 mod GridPlot.rows g)) as [row|] eqn:Hrow; [|done].
      destruct (decide (i0 / GridPlot.rows g < length row)) as [Hc|]; [|done].
      assert (length row = GridPlot.cols g) as Hrl
        by (eapply Hshape, list_elem_of_lookup_2; done).
      assert (i0 < GridPlot.rows g * GridPlot.cols g) as Hi0.
      { pose proof (Nat.div_mod_eq i0 (GridPlot.rows g)).
        pose proof (Nat.mod_upper_bound i0 (GridPlot.rows g) Hr). nia. }
      split; [|done].
      destruct (position_in_grid _ _ _ Hi0) as [Hrow' Hcol'].
      destruct (set_cell_spec (St := unit) plots _ _ _ _
                  (subplot_initialize_plot sp rng passed) tt Hshape Hrow' Hcol')
        as (plots2 & Hset & Hshape2 & _).
      unfold GridPlot.set_cell in Hset. rewrite Hrow, decide_True in Hset by done.
      unfold modify in Hstep. injection Hstep as <- <-.
      injection Hset as <-. done.
    - unfold modify in Hstep. injection Hstep as <- <-.
      split; [done|]. by intros [? ?]. }
  destruct j as [|j]; simpl in Hj.
  - injection Hj as <-. rewrite Nat.add_0_r. by apply Hi0.
  - replace (i0 + S j) with (S i0 + j) by lia. by eapply IH.
Qed.

Lemma place_loop_raises g rng l : ∀ i0 plots passed e s,
  for_enumerate (GridPlot.place_subplot_at g rng) i0 l (plots, passed) = Raises e s →
  e = IndexError ∨ e = ZeroDivisionError.
Proof.
  induction l as [|k l IH]; intros i0 plots passed e s Hrun; [done|].
  cbn [for_enumerate] in Hrun. unfold mbind at 1, py_mbind, py_bind in Hrun.
  destruct (GridPlot.place_subplot_at g rng i0 k (plots, passed))
    as [[] [plots1 passed1]|e1 s1] eqn:Hstep; [by eapply IH|].
  injection Hrun as <- <-.
  unfold GridPlot.place_subplot_at, GridPlot.grid_position in Hstep.
  destruct (decide (GridPlot.rows g = 0)) as [|Hr]; [right; by injection Hstep|].
  unfold mbind at 1, py_mbind, py_bind, mret, py_mret, py_ret in Hstep.
  destruct (GridPlot.subplots g !! wrap_tuple k) as [sp|]; [|done].
  unfold mbind, py_mbind, py_bind, get_state, GridPlot.set_cell in Hstep.
  simpl in Hstep.
  destruct (plots !! (i0 mod GridPlot.rows g)) as [row|]; [|left; by injection Hstep].
  destruct (decide (i0 / GridPlot.rows g < length row)); [done|].
  left. by injection Hstep.
Qed.

(** X5. When some full-grid key that has a subplot lies beyond the
    [rows * cols] cells of the grid, [GridPlot.initialize_plot] raises
    [IndexError] (or [ZeroDivisionError], when there are no rows) and
    leaves the handles as they were. *)
Theorem grid_initialize_plot_out_of_grid g passed (st : CompositePlot.state coord) i k :
  keys_full_grid (GridPlot.layout g) !! i = Some k →
  is_Some (GridPlot.subplots g !! wrap_tuple k) →
  GridPlot.rows g * GridPlot.cols g ≤ i →
  ∃ e, GridPlot.initialize_plot g passed st = Raises e st
       ∧ (e = IndexError ∨ e = ZeroDivisionError).
Proof.
  intros Hi Hsp Hfar. unfold GridPlot.initialize_plot.
  destruct (last (GridPlot.keys (GridPlot.self_params g))) as [key|];
    [|exists IndexError; by split; [|left]].
  unfold GridPlot.place_subplots.
  destruct (for_enumerate _ 0 (keys_full_grid (GridPlot.layout g)) _)
    as [[] [plots' passed']|e s] eqn:Hrun.
  - eapply place_loop_in_grid in Hrun; [|apply empty_grid_shape|done..].
    simpl in Hrun. lia.
  - exists e. split; [done|]. by eapply place_loop_raises.
Qed.

End GridCells.

(** ** CompositePlot._get_title *)

Section GetTitle.
Context `{Upstream}.

(** X6. [_get_title] never touches the handles or the subplots. It
    returns [None], changing nothing, exactly when the title is empty.
    Otherwise it sets the text of one div and returns it: the div under
    ['title'] when the handles have one, which keeps its width, and else
    a new [Div] of width 450 that is none of the existing divs. Every
    other div is left as it is. *)
Theorem get_title_spec {C} tp key (st : CompositePlot.state C) :
  let o := CompositePlot._get_title tp key st in
  let text := CompositePlot.title_tags tp (CompositePlot._format_title tp key) in
  CompositePlot.handles (final_state o) = CompositePlot.handles st
  ∧ CompositePlot.updates (final_state o) = CompositePlot.updates st
  ∧ (o = Returns None st ↔ ¬ has_title tp key)
  ∧ (has_title tp key → CompositePlot.handles st !! "title" = None →
     ∃ d, (d ∉ dom (CompositePlot.divs st))
          ∧ o = Returns (Some d) (CompositePlot.set_div d (CompositePlot.Div 450 text) st))
  ∧ (has_title tp key →
     ∀ d, CompositePlot.handles st !! "title" = Some (CompositePlot.HModel (BDiv d)) →
     ∃ st', o = Returns (Some d) st'
            ∧ (CompositePlot.div_text <$> CompositePlot.divs st' !! d) = Some text
            ∧ (∀ w, (CompositePlot.div_width <$> CompositePlot.divs st !! d) = Some w →
                    (CompositePlot.div_width <$> CompositePlot.divs st' !! d) = Some w)
            ∧ ∀ d', d' ≠ d →
                    CompositePlot.divs st' !! d' = CompositePlot.divs st !! d').
Proof.
  intros o text. split_and!.
  - subst o. unfold CompositePlot._get_title. case_decide; [done|].
    unfold mbind, py_mbind, py_bind, get_state.
    by destruct (CompositePlot.handles st !! "title") as [[[]| | |]|].
  - apply get_title_updates.
  - split.
    + intros Ho [Hshow Hfmt]. subst o. unfold CompositePlot._get_title in Ho.
      rewrite Hshow, decide_False in Ho by done.
      unfold mbind, py_mbind, py_bind, get_state in Ho.
      by destruct (CompositePlot.handles st !! "title") as [[[]| | |]|].
    + apply get_title_no_title.
  - intros Ht Hno. exists (fresh (dom (CompositePlot.divs st))).
    split; [apply is_fresh|]. by apply get_title_new_div.
  - intros Ht d Hd. subst o. rewrite (get_title_existing_div tp key d st Ht Hd).
    eexists. split; [reflexivity|]. simpl. split_and!.
    + by rewrite lookup_insert_eq.
    + intros w Hw. rewrite lookup_insert_eq. simpl. by rewrite Hw.
    + intros d' Hne. by rewrite lookup_insert_ne.
Qed.

End GetTitle.

(** ** LayoutPlot._compute_grid *)

Section ComputeGrid.
Context `{Upstream}.
Implicit Types (lp : LayoutPlot.t).

Lemma mapM_fmap {St A B} (f : A → py St B) (g : A → B) (xs : list A) :
  (∀ x s, x ∈ xs → f x s = Returns (g x) s) →
  ∀ s, mapM f xs s = Returns (g <$> xs) s.
Proof.
  induction xs as [|x xs IH]; intros Hf s; simpl; [done|].
  unfold mbind, py_mbind, py_bind. rewrite Hf by left.
  rewrite IH; [done|]. intros y s' Hy. apply Hf. by right.
Qed.

Lemma foldl_max_flags {A} (P : A → Prop) `{∀ x, Decision (P x)} (l : list A) :
  ∀ a, a = 1 ∨ a = 2 →
  foldl Nat.max a ((λ x, if decide (P x) then 2 else 1) <$> l)
  = if decide (a = 2 ∨ Exists P l) then 2 else 1.
Proof.
  induction l as [|x l IH]; intros a Ha; simpl.
  - apply eq_sym. destruct Ha as [-> | ->].
    + apply decide_False. intros [?|Hd]; [done|]. by apply Exists_nil in Hd.
    + apply decide_True. by left.
  - rewrite IH by (destruct Ha as [-> | ->]; case_decide; simpl; auto).
    apply decide_ext. rewrite Exists_cons.
    destruct Ha as [-> | ->]; destruct (decide (P x)); simpl;
      intuition (try done; try lia).
Qed.

Lemma py_max_flags {St A} (P : A → Prop) `{∀ x, Decision (P x)} (l : list A) (s : St) :
  l ≠ [] →
  LayoutPlot.py_max ((λ x, if decide (P x) then 2 else 1) <$> l) s
  = Returns (if decide (Exists P l) then 2 else 1) s.
Proof.
  destruct l as [|x l]; [done|]. intros _. simpl.
  unfold mret, py_mret, py_ret. f_equal.
  rewrite foldl_max_flags by (case_decide; auto).
  apply decide_ext. rewrite Exists_cons.
  destruct (decide (P x)); intuition (try done; try lia).
Qed.

Lemma sum_list_flags {A} (P : A → Prop) `{∀ x, Decision (P x)} (l : list A) :
  sum_list ((λ x, if decide (P x) then 2 else 1) <$> l)
  = length l + length (filter P l).
Proof.
  induction l as [|x l IH]; csimpl; [done|].
  rewrite IH. destruct (decide (P x)).
  - rewrite filter_cons_True by done. simpl. lia.
  - rewrite filter_cons_False by done. lia.
Qed.

Lemma compute_grid_eq {St} lp (s : St) :
  LayoutPlot._compute_grid lp s
  = match LayoutPlot.rows lp, LayoutPlot.cols lp with
    | 0, 0 => Returns [] s
    | 0, S _ | S _, 0 => Raises (ValueError "max() arg is an empty sequence") s
    | S _, S _ =>
        Returns (replicate (LayoutPlot.rows lp + length (tall_rows lp))
                   (replicate (LayoutPlot.cols lp + length (wide_columns lp)) None)) s
    end.
Proof.
  unfold LayoutPlot._compute_grid. cbv zeta.
  destruct (LayoutPlot.rows lp) as [|n] eqn:Hrows;
    destruct (LayoutPlot.cols lp) as [|m] eqn:Hcols; try done.
  rewrite <- Hrows, <- Hcols.
  match goal with
  | |- context [mapM ?f (seq 0 (LayoutPlot.cols lp))] =>
      assert (∀ s' : St, mapM f (seq 0 (LayoutPlot.cols lp)) s'
                = Returns ((λ c, if decide (Exists (λ r, 1 < cell_len lp r c)
                                                  (seq 0 (LayoutPlot.rows lp)))
                                 then 2 else 1) <$> seq 0 (LayoutPlot.cols lp)) s')
        as Hw
  end.
  { apply mapM_fmap. intros c s' _. unfold cell_len.
    apply (py_max_flags (λ r, 1 < match LayoutPlot.subplots lp !! (r, c) with
                                  | Some sp => LayoutPlot.layout_len sp
                                  | None => 1
                                  end)).
    by rewrite Hrows. }
  match goal with
  | |- context [mapM ?f (seq 0 (LayoutPlot.rows lp))] =>
      assert (∀ s' : St, mapM f (seq 0 (LayoutPlot.rows lp)) s'
                = Returns ((λ r, if decide (Exists (λ c, 2 < cell_len lp r c)
                                                  (seq 0 (LayoutPlot.cols lp)))
                                 then 2 else 1) <$> seq 0 (LayoutPlot.rows lp)) s')
        as Hh
  end.
  { apply mapM_fmap. intros r s' _. unfold cell_len.
    apply (py_max_flags (λ c, 2 < match LayoutPlot.subplots lp !! (r, c) with
                                  | Some sp => LayoutPlot.layout_len sp
                                  | None => 1
                                  end)).
    by rewrite Hcols. }
  unfold mbind, py_mbind, py_bind. rewrite Hw, Hh.
  unfold mret, py_mret, py_ret.
  rewrite !sum_list_flags, !length_seq. reflexivity.
Qed.

(** X7. [_compute_grid] returns a rectangular grid of [None] cells with
    one row for each row of the layout and one more for each row that
    holds an adjoint layout of more than two items, and likewise one
    column for each column and one more for each that holds an adjoint
    layout of more than one item. Without rows and columns the grid is
    empty; with rows but no columns, or columns but no rows, [max] of an
    empty list raises [ValueError]. *)
Theorem compute_grid_size {St} lp (s : St) :
  LayoutPlot._compute_grid lp s
  = match LayoutPlot.rows lp, LayoutPlot.cols lp with
    | 0, 0 => Returns [] s
    | 0, S _ | S _, 0 => Raises (ValueError "max() arg is an empty sequence") s
    | S _, S _ =>
        Returns (replicate (LayoutPlot.rows lp + length (tall_rows lp))
                   (replicate (LayoutPlot.cols lp + length (wide_columns lp)) None)) s
    end.
Proof. apply compute_grid_eq. Qed.

End ComputeGrid.

(** ** AdjointLayoutPlot.initialize_plot *)

Section AdjointInitialize.
Context `{Upstream}.
Implicit Types (adj : AdjointLayoutPlot.t).

Lemma adjoin_plots_spec adj rng plots ps : ∀ acc,
  ∃ outs,
    AdjointLayoutPlot.adjoin_plots adj rng plots acc ps = acc ++ outs
    ∧ length outs = length ps
    ∧ ∀ i pos, ps !! i = Some pos →
        outs !! i
        = Some (match AdjointLayoutPlot.subplots adj !! pos with
                | Some (Some sp) =>
                    subplot_initialize_plot sp rng
                      (plots ++ (Some <$> (acc ++ take i outs)))
                | _ => BEmptyPlot 0 0
                end).
Proof.
  induction ps as [|pos ps IH]; intros acc.
  - exists []. rewrite app_nil_r. split_and!; [done..|].
    intros i pos Hi. by rewrite lookup_nil in Hi.
  - cbn [AdjointLayoutPlot.adjoin_plots]. cbv zeta.
    match goal with
    | |- context [AdjointLayoutPlot.adjoin_plots _ _ _ (acc ++ [?p]) ps] =>
        set (plot := p); destruct (IH (acc ++ [plot])) as (outs & Hrun & Hlen & Houts)
    end.
    exists (plot :: outs). split_and!.
    + by rewrite Hrun, <- app_assoc.
    + simpl. by rewrite Hlen.
    + intros [|i] pos' Hi; simpl in Hi.
      * injection Hi as <-. simpl. by rewrite app_nil_r.
      * rewrite lookup_cons. rewrite (Houts i pos' Hi).
        by rewrite firstn_cons, <- app_assoc.
Qed.

(** X8. [AdjointLayoutPlot.initialize_plot] returns one plot for each of
    its view positions, in their order, and never the list [[None]]: at
    a position whose subplot is missing or [None] the plot is
    [empty_plot(0, 0)], and elsewhere it is the plot of the subplot,
    initialised with the plots passed in followed by the plots of the
    positions before it. *)
Theorem adjoint_initialize_plot_spec adj rng plots :
  let res := AdjointLayoutPlot.initialize_plot adj rng plots in
  length res = length (AdjointLayoutPlot.view_positions adj)
  ∧ ∀ i pos, AdjointLayoutPlot.view_positions adj !! i = Some pos →
      res !! i
      = Some (Some (match AdjointLayoutPlot.subplots adj !! pos with
                    | Some (Some sp) =>
                        subplot_initialize_plot sp rng (default [] plots ++ take i res)
                    | _ => BEmptyPlot 0 0
                    end)).
Proof.
  intros res. subst res. unfold AdjointLayoutPlot.initialize_plot.
  destruct (adjoin_plots_spec adj rng (default [] plots)
              (AdjointLayoutPlot.view_positions adj) [])
    as (outs & Hrun & Hlen & Houts).
  rewrite Hrun. simpl.
  destruct (decide (outs = [])) as [->|_].
  { unfold AdjointLayoutPlot.view_positions in *.
    destruct (AdjointLayoutPlot.type adj); simpl in Hlen; lia. }
  split; [by rewrite length_fmap|].
  intros i pos Hi. rewrite list_lookup_fmap, (Houts i pos Hi). simpl.
  by rewrite fmap_take.
Qed.

End AdjointInitialize.

(** ** LayoutPlot._create_subplots *)

Section LayoutCreate.
Context `{Upstream}.
Implicit Types (lp : LayoutPlot.t) (layout : adjoint_layout)
  (s : LayoutPlot.cs_state) (pos : string).

(** [side_opts] is only computed when the main plot exists; it never
    changes the state and has no ['adjoined'] or ['shared_axes'] entry. *)
Lemma side_options_outcome pos plot_type main_plot s :
  match LayoutPlot.side_options pos plot_type main_plot s with
  | Returns opts s' =>
      s' = s ∧ is_Some main_plot
      ∧ opts !! "adjoined" = None ∧ opts !! "shared_axes" = None
  | Raises _ s' => s' = s
  end.
Proof.
  unfold LayoutPlot.side_options, LayoutPlot.main_attr, LayoutPlot.contains_bare.
  destruct (decide (pos = "right")), plot_type as [pt|], main_plot as [mp|];
    unfold mbind, py_mbind, py_bind, mret, py_mret, py_ret, raise;
    repeat match goal with
           | |- context [match ?x with VNone => _ | _ => _ end] => destruct x
           end;
    try done; by split_and!.
Qed.

(** What one iteration of the loop does: nothing, or one of the three
    assignments. *)
Lemma layout_create_step lp layout fr num pos s :
  let o := LayoutPlot.create_subplot_for lp layout fr num pos s in
  final_state o = s
  ∨ ∃ e, al_data layout !! pos = Some e ∧ has_elements e = true
      ∧ let element := if displayable e then e else collate e in
        let vtype := GridPlot.vtype_of element in
        (vtype = cEmpty ∧ o = Returns tt (LayoutPlot.cs_add_empty pos element s))
        ∨ (vtype ≠ cEmpty ∧ resolved_plot_type pos vtype = None
           ∧ o = Returns tt (LayoutPlot.cs_warn (LayoutPlot.not_found_warning vtype) s))
        ∨ (vtype ≠ cEmpty ∧ (pos = "main" ∨ is_Some (LayoutPlot.cs_main_plot s))
           ∧ ∃ pt side_opts,
               resolved_plot_type pos vtype = Some pt
               ∧ (pos = "main" → side_opts = ∅)
               ∧ side_opts !! "adjoined" = None
               ∧ side_opts !! "shared_axes" = None
               ∧ o = Returns tt
                       (LayoutPlot.cs_add pos
                          (LayoutPlot.construct_subplot lp pt element fr
                             (if decide (1 < length (LayoutPlot.coords lp))
                              then num else 0)
                             ({[ "adjoined" :=
                                   match LayoutPlot.cs_main_plot s with
                                   | Some _ => VRef "main"
                                   | None => VNone
                                   end ]}
                                ∪ (lookup_options element ∪ side_opts))) s)).
Proof.
  intros o. subst o. unfold LayoutPlot.create_subplot_for.
  destruct (al_data layout !! pos) as [e|] eqn:He; [|by left].
  destruct (has_elements e) eqn:Hhas; [|by left].
  change (negb true) with false. cbv iota.
  set (element := if displayable e then e else collate e).
  set (vtype := GridPlot.vtype_of element).
  unfold mbind at 1, py_mbind, py_bind, get_state.
  unfold resolved_plot_type.
  destruct (decide (pos = "main")) as [->|Hpos].
  - unfold mbind, py_mbind, py_bind, mret, py_mret, py_ret.
    destruct (decide (vtype = cEmpty)) as [Hv|Hv].
    { right. exists e. split_and!; [done..|]. by left. }
    destruct (registry vtype) as [pt|] eqn:Hreg.
    2: { right. exists e. split_and!; [done..|]. right. by left. }
    destruct (GridPlot.keyword_clash _ _); [by left|].
    right. exists e. split_and!; [done..|]. right. right.
    split_and!; [done|by left|]. exists pt, ∅. by split_and!.
  - set (pt' := match adjoint_registry vtype with
                | Some pt => Some pt
                | None => registry vtype
                end).
    pose proof (side_options_outcome pos pt' (LayoutPlot.cs_main_plot s) s) as Hside.
    unfold mbind, py_mbind, py_bind, mret, py_mret, py_ret.
    destruct (LayoutPlot.side_options pos pt' (LayoutPlot.cs_main_plot s) s)
      as [opts s'|err s']; [|by left].
    destruct Hside as (-> & Hmain & Hadj & Hsh).
    destruct (decide (vtype = cEmpty)) as [Hv|Hv].
    { right. exists e. split_and!; [done..|]. by left. }
    destruct pt' as [pt|] eqn:Hpt'.
    2: { right. exists e. split_and!; [done..|]. right. by left. }
    destruct (GridPlot.keyword_clash _ _); [by left|].
    right. exists e. split_and!; [done..|]. right. right.
    split_and!; [done|by right|]. exists pt, opts. by split_and!.
Qed.

(** The constructor call raises when the options of the element name
    one of its keywords; nothing is stored then. *)
Lemma layout_create_subplot_clash lp layout fr num e pt s :
  al_data layout !! "main" = Some e →
  has_elements e = true →
  let element := if displayable e then e else collate e in
  GridPlot.vtype_of element ≠ cEmpty →
  registry (GridPlot.vtype_of element) = Some pt →
  GridPlot.keyword_clash LayoutPlot.explicit_keywords (lookup_options element) = true →
  LayoutPlot.create_subplot_for lp layout fr num "main" s
  = Raises GridPlot.multiple_values s.
Proof.
  intros He Hhas element Hv Hreg Hclash.
  unfold LayoutPlot.create_subplot_for. rewrite He, Hhas.
  change (negb true) with false. cbv iota. fold element.
  unfold mbind, py_mbind, py_bind, get_state, mret, py_mret, py_ret. simpl.
  rewrite decide_False by done. rewrite Hreg.
  match goal with
  | |- context [GridPlot.keyword_clash ?ks ?d] =>
      assert (GridPlot.keyword_clash ks d = true) as ->; [|done]
  end.
  apply bool_decide_eq_true. apply bool_decide_eq_true in Hclash.
  apply Exists_exists in Hclash as (name & Hname & [x Hx]).
  apply Exists_exists. exists name. split; [done|]. exists x.
  apply lookup_union_Some_l.
  rewrite lookup_union_r.
  - by apply lookup_union_Some_l.
  - apply lookup_singleton_ne. intros <-.
    unfold LayoutPlot.explicit_keywords in Hname.
    repeat (apply elem_of_cons in Hname as [Hname|Hname]; [discriminate|]).
    by apply elem_of_nil in Hname.
Qed.

(** The invariant of the loop of [LayoutPlot._create_subplots]. *)
Lemma layout_create_subplots_inv lp layout (positions : list string) fr num s :
  let s' := final_state (LayoutPlot._create_subplots lp layout positions fr num s) in
  al_id (LayoutPlot.cs_clone s') = al_id layout
  ∧ dom (al_data (LayoutPlot.cs_clone s')) = dom (LayoutPlot.cs_subplots s')
  ∧ ∀ pos o, LayoutPlot.cs_subplots s' !! pos = Some o →
      pos ∈ positions
      ∧ ∃ e, al_data layout !! pos = Some e ∧ has_elements e = true
          ∧ let element := if displayable e then e else collate e in
            match o with
            | None =>
                GridPlot.vtype_of element = cEmpty
                ∧ al_data (LayoutPlot.cs_clone s') !! pos = Some element
            | Some sp =>
                GridPlot.vtype_of element ≠ cEmpty
                ∧ sp_view sp = element
                ∧ resolved_plot_type pos (GridPlot.vtype_of element)
                  = Some (sp_class sp)
                ∧ sp_keys sp = LayoutPlot.keys lp ∧ sp_ranges sp = fr
                ∧ al_data (LayoutPlot.cs_clone s') !! pos
                  = Some (if pc_composite (sp_class sp) then subplot_layout sp
                          else subplot_hmap sp)
            end.
Proof.
  unfold LayoutPlot._create_subplots.
  rewrite (py_bind_returns _ _ _ tt (LayoutPlot.cs_enter layout s)) by done.
  apply (for_each_final _
    (λ s', al_id (LayoutPlot.cs_clone s') = al_id layout
           ∧ dom (al_data (LayoutPlot.cs_clone s')) = dom (LayoutPlot.cs_subplots s')
           ∧ ∀ pos o, LayoutPlot.cs_subplots s' !! pos = Some o →
               pos ∈ positions
               ∧ ∃ e, al_data layout !! pos = Some e ∧ has_elements e = true
                   ∧ let element := if displayable e then e else collate e in
                     match o with
                     | None =>
                         GridPlot.vtype_of element = cEmpty
                         ∧ al_data (LayoutPlot.cs_clone s') !! pos = Some element
                     | Some sp =>
                         GridPlot.vtype_of element ≠ cEmpty
                         ∧ sp_view sp = element
                         ∧ resolved_plot_type pos (GridPlot.vtype_of element)
                           = Some (sp_class sp)
                         ∧ sp_keys sp = LayoutPlot.keys lp ∧ sp_ranges sp = fr
                         ∧ al_data (LayoutPlot.cs_clone s') !! pos
                           = Some (if pc_composite (sp_class sp)
                                   then subplot_layout sp else subplot_hmap sp)
                     end)).
  - intros pos s1 Hpos (Hid & Hdom & Hin).
    destruct (layout_create_step lp layout fr num pos s1)
      as [->|(e & He & Hhas & [[Hv ->]|[(Hv & _ & ->)|(Hv & _ & pt & so & Hres & _ & _ & _ & ->)]])];
      [done| | |]; simpl.
    + split_and!; [done|by rewrite !dom_insert_L, Hdom|].
      intros pos' o Ho. destruct (decide (pos' = pos)) as [->|Hne].
      * rewrite lookup_insert_eq in Ho. injection Ho as <-.
        split; [done|]. exists e. split_and!; [done..|]. simpl.
        by rewrite lookup_insert_eq.
      * rewrite lookup_insert_ne in Ho by done.
        destruct (Hin pos' o Ho) as (Hp & e' & He' & Hhas' & Ho').
        split; [done|]. exists e'. split_and!; [done..|].
        rewrite lookup_insert_ne by done. exact Ho'.
    + by split_and!.
    + split_and!; [done|by rewrite !dom_insert_L, Hdom|].
      intros pos' o Ho. destruct (decide (pos' = pos)) as [->|Hne].
      * rewrite lookup_insert_eq in Ho. injection Ho as <-.
        split; [done|]. exists e. split_and!; [done..|]. simpl.
        rewrite lookup_insert_eq. repeat (split; [done|]). done.
      * rewrite lookup_insert_ne in Ho by done.
        destruct (Hin pos' o Ho) as (Hp & e' & He' & Hhas' & Ho').
        split; [done|]. exists e'. split_and!; [done..|].
        rewrite lookup_insert_ne by done. exact Ho'.
  - simpl. split_and!; [done|by rewrite !dom_empty_L|].
    intros pos o Ho. by rewrite lookup_empty in Ho.
Qed.

(** X9. In whatever state [LayoutPlot._create_subplots] stops, normally
    or by an exception: the clone of the adjoint layout has an item at
    exactly the positions that have an entry in [subplots]; these are
    positions of the loop at which the adjoint layout holds a view with
    elements. The entry is [None] exactly when the view (collated if it
    was not displayable) is of type [Empty], and the clone then holds
    that view; otherwise the entry is a subplot made for that view with
    the keys of the plot and the given ranges, and the clone holds its
    [hmap], or its [layout] for a composite plot. *)
Theorem layout_create_subplots_keys lp layout (positions : list string) fr num s :
  let s' := final_state (LayoutPlot._create_subplots lp layout positions fr num s) in
  al_id (LayoutPlot.cs_clone s') = al_id layout
  ∧ dom (al_data (LayoutPlot.cs_clone s')) = dom (LayoutPlot.cs_subplots s')
  ∧ ∀ pos o, LayoutPlot.cs_subplots s' !! pos = Some o →
      pos ∈ positions
      ∧ ∃ e, al_data layout !! pos = Some e ∧ has_elements e = true
          ∧ let element := if displayable e then e else collate e in
            match o with
            | None =>
                GridPlot.vtype_of element = cEmpty
                ∧ al_data (LayoutPlot.cs_clone s') !! pos = Some element
            | Some sp =>
                GridPlot.vtype_of element ≠ cEmpty
                ∧ sp_view sp = element
                ∧ resolved_plot_type pos (GridPlot.vtype_of element)
                  = Some (sp_class sp)
                ∧ sp_keys sp = LayoutPlot.keys lp ∧ sp_ranges sp = fr
                ∧ al_data (LayoutPlot.cs_clone s') !! pos
                  = Some (if pc_composite (sp_class sp) then subplot_layout sp
                          else subplot_hmap sp)
            end.
Proof. apply layout_create_subplots_inv. Qed.

(** X10. A subplot that an iteration of [LayoutPlot._create_subplots]
    constructs at [pos] is stored under [pos] and is marked as a
    subplot; its [layout_num] is [num], or 0 when the layout has at most
    one coordinate; a side plot is only constructed once the main plot
    exists and is adjoined to it, while the main plot is adjoined to
    nothing; [shared_axes] is the layout's unless the element's own
    options set it. The element's options cannot override ['adjoined'],
    and options that name ['subplot'] or ['layout_num'] make the
    constructor call raise, so that no subplot is constructed. *)
Theorem layout_subplot_options lp layout fr num pos s s' sp :
  LayoutPlot.create_subplot_for lp layout fr num pos s = Returns tt s' →
  LayoutPlot.cs_constructed s' = LayoutPlot.cs_constructed s ++ [(pos, sp)] →
  LayoutPlot.cs_subplots s' !! pos = Some (Some sp)
  ∧ sp_keys sp = LayoutPlot.keys lp ∧ sp_ranges sp = fr
  ∧ sp_params sp !! "subplot" = Some (VBool true)
  ∧ sp_params sp !! "layout_num"
    = Some (VInt (Z.of_nat (if decide (1 < length (LayoutPlot.coords lp))
                            then num else 0)))
  ∧ sp_params sp !! "adjoined"
    = Some (match LayoutPlot.cs_main_plot s with
            | Some _ => VRef "main"
            | None => VNone
            end)
  ∧ (pos ≠ "main" → is_Some (LayoutPlot.cs_main_plot s))
  ∧ (∃ e, al_data layout !! pos = Some e
          ∧ sp_params sp !! "shared_axes"
            = Some (default (VBool (LayoutPlot.shared_axes lp))
                      (lookup_options (if displayable e then e else collate e)
                         !! "shared_axes"))).
Proof.
  intros Hrun Hcons.
  destruct (layout_create_step lp layout fr num pos s)
    as [Hs|(e & He & Hhas & [[Hv Ho]|[(Hv & _ & Ho)|(Hv & Hmain & pt & so & _ & _ & Hadj & Hsh & Ho)]])];
    rewrite Hrun in *; simpl in *.
  - subst s'. apply (f_equal length) in Hcons. rewrite length_app in Hcons.
    simpl in Hcons. lia.
  - injection Ho as ->. simpl in Hcons.
    apply (f_equal length) in Hcons. rewrite length_app in Hcons. simpl in Hcons. lia.
  - injection Ho as ->. simpl in Hcons.
    apply (f_equal length) in Hcons. rewrite length_app in Hcons. simpl in Hcons. lia.
  - injection Ho as ->. simpl in Hcons.
    apply app_inv_head in Hcons. injection Hcons as <-. simpl.
    split_and!; [by rewrite lookup_insert_eq|done|done|by rewrite lookup_insert_eq| | | |].
    + rewrite lookup_insert_ne by done. by rewrite lookup_insert_eq.
    + rewrite !lookup_insert_ne by done.
      apply lookup_union_Some_l, lookup_union_Some_l. by rewrite lookup_singleton_eq.
    + intros Hpos. by destruct Hmain.
    + exists e. split; [done|]. rewrite !lookup_insert_ne by done.
      rewrite lookup_union, lookup_union, lookup_union, Hsh.
      rewrite lookup_singleton_ne by done. rewrite lookup_singleton_eq.
      by destruct (lookup_options _ !! "shared_axes").
Qed.

End LayoutCreate.

(** ** Ordered dictionaries: keys and items after an update *)

Section OrderedDictItems.
Context {V : Type}.
Implicit Types (d new : odict V) (k : string) (v : V).

Lemma od_keys_set k v d :
  od_keys (od_set k v d)
  = if decide (k ∈ od_keys d) then od_keys d else od_keys d ++ [k].
Proof.
  unfold od_keys. induction d as [|[k0 v0] d IH].
  - by destruct (decide _) as [Hin%elem_of_nil|].
  - cbn [od_set]. destruct (decide (k = k0)) as [->|Hne].
    + rewrite !fmap_cons. rewrite decide_True; [done|]. left.
    + rewrite !fmap_cons, IH. cbn [fst].
      destruct (decide (k ∈ d.*1)) as [Hin|Hnin].
      * rewrite decide_True; [done|]. by right.
      * rewrite decide_False; [done|]. by intros [?|?]%elem_of_cons.
Qed.

Lemma od_set_nodup k v d : NoDup (od_keys d) → NoDup (od_keys (od_set k v d)).
Proof.
  intros Hnd. rewrite od_keys_set. case_decide; [done|].
  apply NoDup_app. split_and!; [done| |apply NoDup_singleton].
  intros x Hx ->%list_elem_of_singleton. done.
Qed.

Lemma od_set_elem k v d k' v' :
  NoDup (od_keys d) → (k', v') ∈ od_set k v d →
  (k' = k ∧ v' = v) ∨ (k' ≠ k ∧ (k', v') ∈ d).
Proof.
  unfold od_keys. induction d as [|[k0 v0] d IH]; simpl; intros Hnd Hin.
  - apply list_elem_of_singleton in Hin as [= -> ->]. by left.
  - apply NoDup_cons in Hnd as [Hk0 Hnd].
    destruct (decide (k = k0)) as [->|Hne].
    + apply elem_of_cons in Hin as [[= -> ->]|Hin]; [by left|].
      right. split; [|by right].
      intros ->. apply Hk0. apply list_elem_of_fmap. by exists (k0, v').
    + apply elem_of_cons in Hin as [[= -> ->]|Hin].
      * right. split; [done|left].
      * destruct (IH Hnd Hin) as [?|[? ?]]; [by left|]. right. split; [done|by right].
Qed.

(** [d.update(new)] keeps the keys of [d] in their order, followed by
    the keys that only [new] has, and keeps the keys distinct. *)
Lemma od_keys_update new : ∀ d,
  od_keys d `prefix_of` od_keys (od_update d new)
  ∧ (NoDup (od_keys d) → NoDup (od_keys (od_update d new)))
  ∧ ∀ k, k ∈ od_keys (od_update d new) ↔ k ∈ od_keys d ∨ k ∈ od_keys new.
Proof.
  unfold od_update. induction new as [|[k0 v0] new IH]; intros d; simpl.
  - split_and!; [done..|]. intros k. split; [by left|].
    intros [?|Hk]; [done|]. by apply elem_of_nil in Hk.
  - destruct (IH (od_set k0 v0 d)) as (Hpre & Hnd & Hin).
    assert (od_keys d `prefix_of` od_keys (od_set k0 v0 d)) as Hpre0.
    { rewrite od_keys_set. case_decide; [done|]. by apply prefix_app_r. }
    split_and!.
    + by etrans.
    + intros Hd. by apply Hnd, od_set_nodup.
    + intros k. rewrite Hin, od_keys_set. unfold od_keys at 3. simpl.
      rewrite elem_of_cons. case_decide as Hk0.
      * split; [tauto|]. intros [?|[->|?]]; auto.
      * rewrite elem_of_app, list_elem_of_singleton. tauto.
Qed.

(** An item of [d.update(new)] is an item of [d] whose key [new] does
    not have, or has a value of [new]. *)
Lemma od_update_elem new : ∀ d k v,
  NoDup (od_keys d) → (k, v) ∈ od_update d new →
  ((k, v) ∈ d ∧ k ∉ od_keys new) ∨ v ∈ od_values new.
Proof.
  unfold od_update. induction new as [|[k0 v0] new IH]; intros d k v Hnd Hin; simpl in *.
  - left. split; [done|]. apply not_elem_of_nil.
  - destruct (IH _ k v (od_set_nodup k0 v0 d Hnd) Hin) as [[Hd Hk]|Hv].
    + apply od_set_elem in Hd as [[-> ->]|[Hne Hd]]; [| |done].
      * right. left.
      * left. split; [done|]. unfold od_keys. simpl.
        by intros [?|?]%elem_of_cons.
    + right. by right.
Qed.

End OrderedDictItems.

(** ** BokehPlot._update_datasource: the columns of the result *)

Section UpdateDatasourceColumns.
Context `{Upstream}.

Lemma list_lengths_uniform (d : odict column) n :
  Forall (λ v, is_list_or_array v = true ∧ col_len v = n) (od_values d) →
  BokehPlot.list_lengths d = replicate (length d) n.
Proof.
  unfold BokehPlot.list_lengths, od_values.
  induction d as [|[k v] d IH]; intros Hall; [done|].
  rewrite fmap_cons in Hall. apply Forall_cons in Hall as [[Hl Hn] Hall].
  rewrite fmap_cons, filter_cons_True by done.
  rewrite fmap_cons, IH by done. simpl in *. by rewrite Hn.
Qed.

(** X11. When the columns of the source are all lists or arrays of one
    length, and so are the columns of the new data, then after an update
    outside the streaming branch the columns of the source again all
    have one length: differing lengths force the replacement. *)
Theorem update_datasource_lengths self (source_data data : odict column) n m :
  NoDup (od_keys source_data) →
  Forall (λ v, is_list_or_array v = true ∧ col_len v = n) (od_values source_data) →
  Forall (λ v, is_list_or_array v = true ∧ col_len v = m)
    (od_values (od_map decode_bytes data)) →
  BokehPlot.streaming_branch self (od_map decode_bytes data) = false →
  ∃ k, Forall (λ v, col_len v = k)
         (od_values (BokehPlot._update_datasource self source_data data).2).
Proof.
  intros Hnd Hsrc Hnew Hstream.
  unfold BokehPlot._update_datasource. rewrite Hstream.
  set (new := od_map decode_bytes data) in *.
  destruct (BokehPlot.needs_replacement source_data new) eqn:Hrep; simpl.
  { exists m. eapply Forall_impl; [exact Hnew|]. by intros v [_ ?]. }
  assert (∀ v, v ∈ od_values (od_update source_data new) →
               (∃ k, (k, v) ∈ source_data ∧ k ∉ od_keys new) ∨ v ∈ od_values new)
    as Hitems.
  { intros v (kv & -> & Hin)%list_elem_of_fmap. destruct kv as [k v].
    apply od_update_elem in Hin as [[? ?]|?]; [left; by exists k|by right|done]. }
  rewrite Forall_forall in Hsrc, Hnew.
  destruct (BokehPlot.untouched source_data new) as [|k0 u] eqn:Hun.
  - exists m. apply Forall_forall. intros v Hv.
    destruct (Hitems v Hv) as [(k & Hk & Hnone)|Hin]; [|by apply Hnew].
    assert (k ∈ BokehPlot.untouched source_data new) as Hin.
    { apply list_elem_of_filter. split.
      - by apply od_mem_false, od_lookup_None.
      - apply list_elem_of_fmap. by exists (k, v). }
    rewrite Hun in Hin. by apply elem_of_nil in Hin.
  - destruct new as [|kv new'] eqn:Hnew'.
    { exists n. apply Forall_forall. intros v Hv. by apply Hsrc. }
    assert (n = m) as <-.
    { unfold BokehPlot.needs_replacement in Hrep. rewrite Hun in Hrep.
      rewrite (list_lengths_uniform source_data n) in Hrep
        by by apply Forall_forall.
      rewrite (list_lengths_uniform (kv :: new') m) in Hrep
        by by apply Forall_forall.
      destruct source_data as [|kv0 sd].
      { unfold BokehPlot.untouched in Hun. done. }
      simpl in Hrep. apply negb_false_iff, bool_decide_eq_true in Hrep. done. }
    exists n. apply Forall_forall. intros v Hv.
    destruct (Hitems v Hv) as [(k & Hk & _)|Hin]; [|by apply Hnew].
    apply Hsrc. apply list_elem_of_fmap. by exists (k, v).
Qed.

(** X12. The column names after an update outside the streaming branch.
    A replacement leaves exactly the columns of the new data, so the
    columns that the new data does not name are dropped. A merge keeps
    the existing columns first and in their order, adds the columns that
    only the new data has, and keeps the names distinct. *)
Theorem update_datasource_columns self (source_data data : odict column) :
  BokehPlot.streaming_branch self (od_map decode_bytes data) = false →
  match BokehPlot._update_datasource self source_data data with
  | (BokehPlot.Replaced, res) =>
      od_keys res = od_keys data
      ∧ ∃ k, k ∈ od_keys source_data ∧ k ∉ od_keys res
  | (BokehPlot.Merged, res) =>
      od_keys source_data `prefix_of` od_keys res
      ∧ (∀ k, k ∈ od_keys res ↔ k ∈ od_keys source_data ∨ k ∈ od_keys data)
      ∧ (NoDup (od_keys source_data) → NoDup (od_keys res))
  | _ => False
  end.
Proof.
  intros Hstream. unfold BokehPlot._update_datasource. rewrite Hstream.
  destruct (BokehPlot.needs_replacement _ _) eqn:Hrep.
  - split; [apply od_keys_map|].
    apply needs_replacement_spec in Hrep as [(k & Hk & Hnone) _].
    exists k. split; [done|]. by apply od_lookup_None.
  - destruct (od_keys_update (od_map decode_bytes data) source_data)
      as (Hpre & Hnd & Hin).
    split_and!; [done| |done].
    intros k. by rewrite Hin, od_keys_map.
Qed.

End UpdateDatasourceColumns.

(** ** BokehPlot.sync_sources: groups, bookkeeping and callbacks *)

Section SyncBookkeeping.
Context `{Upstream}.
Implicit Types (w : BokehPlot.world) (gs : list (nat * list (nat * nat)))
  (ms : list nat).

(** X13. The groups of [sync_sources]: sorting by the identity of the
    data before [groupby] makes one group per data object, which lists
    the plots that pass the filter and draw from that object, in
    traversal order; every such plot is in exactly one group. *)
Theorem sync_sources_grouping w :
  NoDup (grouped_sources w).*1
  ∧ NoDup (grouped_sources w ≫= members)
  ∧ (∀ k g, (k, g) ∈ grouped_sources w →
       members (k, g) = BokehPlot.sharing w k ∧ BokehPlot.sharing w k ≠ [])
  ∧ (∀ i p, BokehPlot.plots w !! i = Some p → BokehPlot.filter_fn p = true →
       ∃ g, (BokehPlot.data_id p, g) ∈ grouped_sources w
            ∧ i ∈ members (BokehPlot.data_id p, g)).
Proof.
  destruct (groupby_sorted _ (sorted_by_key_sorted
              (BokehPlot.data_sources (BokehPlot.plots w)))) as (Hg & Hnd & Hk & _).
  split_and!.
  - exact Hnd.
  - apply grouped_sources_nodup.
  - intros k g Hin. pose proof (grouped_sources_members w k g Hin) as Hm.
    split; [done|].
    destruct (Hk k) as (y & Hy & Hyk).
    { apply list_elem_of_fmap. by exists (k, g). }
    rewrite sorted_by_key_perm in Hy. destruct y as [d i]. simpl in Hyk. subst d.
    intros Hnil.
    assert (i ∈ BokehPlot.sharing w k) as Hi.
    { apply elem_of_sharing. by apply elem_of_data_sources in Hy. }
    rewrite Hnil in Hi. by apply elem_of_nil in Hi.
  - intros i p Hp Hf.
    assert (i ∈ BokehPlot.sharing w (BokehPlot.data_id p)) as Hi.
    { apply elem_of_sharing. by exists p. }
    destruct (grouped_sources_complete w (BokehPlot.data_id p)) as [g Hin].
    { intros Hnil. rewrite Hnil in Hi. by apply elem_of_nil in Hi. }
    exists g. split; [done|]. by rewrite (grouped_sources_members w _ g Hin).
Qed.

Lemma sync_sources_unfold w :
  let st := foldl BokehPlot.sync_group (sync_start w, []) (grouped_sources w) in
  BokehPlot.sync_sources w
  = {| BokehPlot.plots := BokehPlot.plots st.1;
       BokehPlot.sources := BokehPlot.sources st.1;
       BokehPlot.shared_sources := BokehPlot.shared_sources st.1;
       BokehPlot.source_cols := BokehPlot.source_cols st.1;
       BokehPlot.events :=
         BokehPlot.events st.1
         ++ mjoin ((λ i, [BokehPlot.FinalizeHooks i; BokehPlot.CallbackInitialize i])
                     <$> st.2) |}.
Proof.
  unfold BokehPlot.sync_sources, grouped_sources, sync_start. cbv zeta.
  by destruct (foldl BokehPlot.sync_group _ _) as [w1 synced].
Qed.

Lemma sync_group_small st kg :
  length (members kg) ≤ 1 → BokehPlot.sync_group st kg = st.
Proof.
  intros Hsmall. destruct st as [w synced]. unfold BokehPlot.sync_group.
  unfold members in Hsmall. rewrite decide_False; [done|lia].
Qed.

(** X14. When no two plots that pass the filter draw from the same data
    object, [sync_sources] leaves every plot and every data source as it
    is, makes no call on callbacks or hooks, and leaves the handles
    ['shared_sources'] and ['source_cols'] empty. *)
Theorem sync_sources_without_sharing w :
  (∀ d, length (BokehPlot.sharing w d) ≤ 1) →
  BokehPlot.sync_sources w = sync_start w.
Proof.
  intros Hsmall. rewrite sync_sources_unfold. cbv zeta.
  assert (foldl BokehPlot.sync_group (sync_start w, []) (grouped_sources w)
          = (sync_start w, [])) as ->.
  { assert (∀ kg, kg ∈ grouped_sources w → length (members kg) ≤ 1) as Hgs.
    { intros [k g] Hin. rewrite (grouped_sources_members w k g Hin). apply Hsmall. }
    revert Hgs. generalize (grouped_sources w) as gs.
    induction gs as [|kg gs IH]; intros Hgs; [done|].
    cbn [foldl]. rewrite sync_group_small by (apply Hgs; left).
    apply IH. intros kg' Hin. apply Hgs. by right. }
  simpl. by rewrite app_nil_r.
Qed.

Lemma share_all_renderer n ms i : ∀ ps,
  (λ x, bool_decide (is_Some (BokehPlot.h_glyph_renderer x)))
    <$> BokehPlot.share_all n ms ps !! i
  = (λ x, bool_decide (is_Some (BokehPlot.h_glyph_renderer x))) <$> ps !! i.
Proof.
  unfold BokehPlot.share_all. induction ms as [|j ms IH]; intros ps; [done|].
  cbn [foldl]. rewrite IH. destruct (decide (i = j)) as [->|Hne].
  - rewrite list_lookup_alter_eq. destruct (ps !! j) as [x|]; [|done]. simpl.
    unfold BokehPlot.share_source.
    destruct (BokehPlot.h_glyph_renderer x) eqn:Hr; simpl; [done|by rewrite Hr].
  - by rewrite list_lookup_alter_ne.
Qed.

Lemma has_renderer_synced w ms i :
  BokehPlot.has_renderer (synced_world w ms) i = BokehPlot.has_renderer w i.
Proof.
  unfold BokehPlot.has_renderer, synced_world. simpl.
  pose proof (share_all_renderer (fresh (dom (BokehPlot.sources w))) ms i
                (BokehPlot.plots w)) as Hr.
  destruct (BokehPlot.share_all _ ms (BokehPlot.plots w) !! i),
    (BokehPlot.plots w !! i); simpl in Hr; congruence.
Qed.

(** The calls that the loop over the groups makes, and the plots it
    collects for the second loop. *)
Lemma sync_fold_events gs : ∀ w synced,
  let st := foldl BokehPlot.sync_group (w, synced) gs in
  let ms := filter (λ kg, 1 < length (members kg)) gs ≫= members in
  BokehPlot.events st.1 = BokehPlot.events w ++ (BokehPlot.CallbackReset <$> ms)
  ∧ st.2 = synced ++ filter (λ i, BokehPlot.has_renderer w i = true) ms.
Proof.
  induction gs as [|kg gs IH]; intros w synced; cbn [foldl].
  { simpl. by rewrite !app_nil_r. }
  destruct (decide (1 < length (members kg))) as [Hbig|Hsmall].
  - rewrite filter_cons_True by done. rewrite bind_cons.
    assert (BokehPlot.sync_group (w, synced) kg
            = (synced_world w (members kg),
               synced ++ filter (λ i, BokehPlot.has_renderer w i = true) (members kg)))
      as ->.
    { unfold BokehPlot.sync_group, members in *. by rewrite decide_True. }
    destruct (IH (synced_world w (members kg))
                (synced ++ filter (λ i, BokehPlot.has_renderer w i = true) (members kg)))
      as [Hev Hsy].
    cbv zeta in *. rewrite Hev, Hsy. simpl.
    rewrite fmap_app, filter_app, <- !app_assoc. split; [done|].
    do 2 f_equal. apply list_filter_iff. intros i. by rewrite has_renderer_synced.
  - rewrite filter_cons_False by done.
    rewrite sync_group_small by lia. apply IH.
Qed.

(** X15. The calls that [sync_sources] makes: first, group by group,
    the callbacks of every plot of a group of two or more are reset,
    whether or not the plot has a glyph renderer; then, in the same
    order, the finalize hooks are run and the callbacks initialised for
    those of these plots that have a glyph renderer, and for no other
    plot. *)
Theorem sync_sources_events w :
  BokehPlot.events (BokehPlot.sync_sources w)
  = BokehPlot.events w
    ++ (BokehPlot.CallbackReset <$> shared_members w)
    ++ mjoin ((λ i, [BokehPlot.FinalizeHooks i; BokehPlot.CallbackInitialize i])
                <$> filter (λ i, BokehPlot.has_renderer w i = true) (shared_members w)).
Proof.
  rewrite sync_sources_unfold. cbv zeta. simpl.
  destruct (sync_fold_events (grouped_sources w) (sync_start w) []) as [Hev Hsy].
  cbv zeta in *. rewrite Hev, Hsy. simpl. by rewrite <- app_assoc.
Qed.

(** The bookkeeping of the new sources, as an invariant of the loop. *)
Lemma sync_fold_sources (D0 : gset nat) gs : ∀ w,
  let P := λ w : BokehPlot.world,
    NoDup (BokehPlot.shared_sources w)
    ∧ dom (BokehPlot.source_cols w) = list_to_set (BokehPlot.shared_sources w)
    ∧ dom (BokehPlot.sources w) = D0 ∪ list_to_set (BokehPlot.shared_sources w)
    ∧ ∀ n, n ∈ BokehPlot.shared_sources w →
        (n ∉ D0) ∧ ∃ data, BokehPlot.sources w !! n = Some data
                   ∧ BokehPlot.source_cols w !! n = Some (od_keys data) in
  P w →
  let w' := foldl (λ w kg, if decide (1 < length (members kg))
                           then synced_world w (members kg) else w) w gs in
  P w'
  ∧ length (BokehPlot.shared_sources w')
    = length (BokehPlot.shared_sources w)
      + length (filter (λ kg, 1 < length (members kg)) gs).
Proof.
  induction gs as [|kg gs IH]; intros w P HP; cbn [foldl].
  { split; [done|]. simpl. lia. }
  destruct (decide (1 < length (members kg))) as [Hbig|Hsmall].
  - rewrite filter_cons_True by done.
    destruct (IH (synced_world w (members kg))) as [HP' Hlen].
    + destruct HP as (Hnd & Hcols & Hsrc & Hnew).
      set (n := fresh (dom (BokehPlot.sources w))).
      assert (n ∉ dom (BokehPlot.sources w)) as Hn by apply is_fresh.
      assert ((n ∉ D0) ∧ (n ∉ BokehPlot.shared_sources w)) as [HnD Hns].
      { rewrite Hsrc in Hn. rewrite not_elem_of_union, elem_of_list_to_set in Hn. done. }
      unfold synced_world. fold n. simpl. split_and!.
      * apply NoDup_app. split_and!; [done| |apply NoDup_singleton].
        intros x Hx ->%list_elem_of_singleton. done.
      * rewrite dom_insert_L, list_to_set_snoc_L, Hcols. apply (comm_L (∪)).
      * rewrite dom_insert_L, list_to_set_snoc_L, Hsrc.
        by rewrite (comm_L (∪) {[n]}), (assoc_L (∪)).
      * intros m [Hm| ->%list_elem_of_singleton]%elem_of_app.
        -- destruct (Hnew m Hm) as (HmD & data & Hd & Hc).
           split; [done|]. exists data.
           rewrite !lookup_insert_ne by (intros ->; done). done.
        -- split; [done|]. eexists. by rewrite !lookup_insert_eq.
    + split; [done|]. rewrite Hlen. unfold synced_world. simpl.
      rewrite length_app. simpl. lia.
  - rewrite filter_cons_False by done. by apply IH.
Qed.

(** X16. The handles that [sync_sources] leaves on [self]:
    ['shared_sources'] lists one new data source for each group of two
    or more plots, all distinct and none of them a source that existed
    before; ['source_cols'] has exactly these sources as keys and maps
    each to the column names of its data; and the store holds the old
    sources and the new ones. *)
Theorem sync_sources_handles w :
  let w' := BokehPlot.sync_sources w in
  NoDup (BokehPlot.shared_sources w')
  ∧ length (BokehPlot.shared_sources w') = length (big_groups w)
  ∧ dom (BokehPlot.source_cols w') = list_to_set (BokehPlot.shared_sources w')
  ∧ dom (BokehPlot.sources w')
    = dom (BokehPlot.sources w) ∪ list_to_set (BokehPlot.shared_sources w')
  ∧ ∀ n, n ∈ BokehPlot.shared_sources w' →
      (n ∉ dom (BokehPlot.sources w))
      ∧ ∃ data, BokehPlot.sources w' !! n = Some data
                ∧ BokehPlot.source_cols w' !! n = Some (od_keys data).
Proof.
  intros w'. subst w'. rewrite sync_sources_unfold. cbv zeta. simpl.
  rewrite foldl_sync_group_fst.
  destruct (sync_fold_sources (dom (BokehPlot.sources w)) (grouped_sources w)
              (sync_start w)) as [(Hnd & Hcols & Hsrc & Hnew) Hlen].
  { simpl. split_and!.
    - constructor.
    - by rewrite dom_empty_L.
    - by rewrite (right_id_L ∅ (∪)).
    - intros n Hn. by apply elem_of_nil in Hn. }
  cbv zeta in *. by split_and!.
Qed.

End SyncBookkeeping.

(** ** BokehPlot.push *)

Section PushSends.
Context {header : Type} (json_dumps : header → string).

Lemma push_buffers (bufs : list (header * string)) : ∀ log,
  for_each (λ hp, Push.send (Push.SendData (json_dumps hp.1)) ;;
                  Push.send (Push.SendBuffers [hp.2])) bufs log
  = Returns tt
      (log ++ (bufs ≫= λ hp, [Push.SendData (json_dumps hp.1);
                               Push.SendBuffers [hp.2]])).
Proof.
  induction bufs as [|hp bufs IH]; intros log; simpl.
  - by rewrite app_nil_r.
  - unfold mbind at 1, py_mbind, py_bind, Push.send, modify. simpl.
    rewrite IH. by rewrite <- !app_assoc.
Qed.

(** X17. [push] sends nothing in server mode, even when the plot has no
    comm; in any other mode it raises without a comm; and with a comm
    it sends nothing when the renderer reports no change and otherwise
    exactly the header, the metadata and the content of the message, in
    this order, followed for each buffer by its serialised header and
    then its payload. *)
Theorem push_sends (self : Push.t header) (log : list Push.sent) :
  Push.push json_dumps self log
  = if decide (Push.mode self = "server") then Returns tt log
    else if Push.has_comm self
         then Returns tt (log ++ from_option (Push.wire json_dumps) [] (Push.diff self))
         else Raises (PyException "Renderer does not have a comm.") log.
Proof.
  unfold Push.push. case_decide; [done|].
  destruct (Push.has_comm self); [|done]. simpl.
  destruct (Push.diff self) as [msg|]; simpl; [|by rewrite app_nil_r].
  unfold mbind at 1 2 3, py_mbind, py_bind, Push.send, modify. simpl.
  rewrite push_buffers. unfold Push.wire. by rewrite <- !app_assoc.
Qed.

End PushSends.

(** ** The document setter *)

Section DocumentSetter.

(** X18. After [plot.document = doc] the plot and every plot below it
    read back [doc] as their document; the tree of subplots is what it
    was, so that a second assignment overrides the first everywhere. *)
Theorem set_document_reaches_every_plot doc p :
  Forall (λ q, Document.document q = doc) (Document.plots_of (Document.set_document doc p))
  ∧ length (Document.plots_of (Document.set_document doc p))
    = length (Document.plots_of p)
  ∧ ∀ doc', Document.set_document doc (Document.set_document doc' p)
            = Document.set_document doc p.
Proof.
  induction p as [d|d l IH] using Document.plot_ind.
  - split_and!; [by repeat constructor|done..].
  - assert (Forall (λ q, Document.document q = doc)
              (flat_map (λ o, match o with
                              | Some q => Document.plots_of q
                              | None => []
                              end)
                 (List.map (λ o, match o with
                                 | Some q => Some (Document.set_document doc q)
                                 | None => None
                                 end) l))
            ∧ length (flat_map (λ o, match o with
                                     | Some q => Document.plots_of q
                                     | None => []
                                     end)
                        (List.map (λ o, match o with
                                        | Some q => Some (Document.set_document doc q)
                                        | None => None
                                        end) l))
              = length (flat_map (λ o, match o with
                                       | Some q => Document.plots_of q
                                       | None => []
                                       end) l)
            ∧ ∀ doc', List.map (λ o, match o with
                                     | Some q => Some (Document.set_document doc q)
                                     | None => None
                                     end)
                        (List.map (λ o, match o with
                                        | Some q => Some (Document.set_document doc' q)
                                        | None => None
                                        end) l)
                      = List.map (λ o, match o with
                                       | Some q => Some (Document.set_document doc q)
                                       | None => None
                                       end) l) as (Hall & Hlen & Hidem).
    { induction IH as [|o l Ho _ IHl]; [done|].
      destruct IHl as (Hall & Hlen & Hidem).
      destruct o as [q|]; simpl.
      - destruct Ho as (Hq1 & Hq2 & Hq3). split_and!.
        + apply Forall_app. by split.
        + rewrite !length_app. by rewrite Hq2, Hlen.
        + intros doc'. by rewrite Hq3, Hidem.
      - split_and!; [done..|]. intros doc'. by rewrite Hidem. }
    split_and!.
    + simpl. by constructor.
    + simpl. by rewrite Hlen.
    + intros doc'. simpl. by rewrite Hidem.
Qed.

End DocumentSetter.

(** ** AdjointLayoutPlot.update_frame *)

Section AdjointUpdateFrame.
Context `{Upstream}.

(** X19. [AdjointLayoutPlot.update_frame] never raises and touches
    neither handles nor divs: it calls [update_frame(key, ranges)] once
    on each of the subplots found, not [None], at ['main'], ['right']
    and ['top'], in this order, whatever the layout type is. Every
    subplot at a view position is therefore updated. *)
Theorem adjoint_update_frame_spec (self : AdjointLayoutPlot.t) key rng
    (st : CompositePlot.state string) :
  let updated :=
    filter (λ pos, is_Some (AdjointLayoutPlot.subplots self !! pos ≫= id))
      ["main"; "right"; "top"] in
  AdjointFrames.update_frame self key rng st
  = Returns tt (with_updates ((λ pos, (pos, key, rng)) <$> updated) st)
  ∧ ∀ pos sp, pos ∈ AdjointLayoutPlot.view_positions self →
              AdjointLayoutPlot.subplots self !! pos = Some (Some sp) →
              pos ∈ updated.
Proof.
  intros updated. split.
  - subst updated. unfold AdjointFrames.update_frame.
    destruct st as [hs ds us]. unfold with_updates. simpl.
    unfold mbind, py_mbind, py_bind, mret, py_mret, py_ret,
      CompositePlot.subplot_update_frame, modify, CompositePlot.log_update.
    rewrite !filter_cons, filter_nil.
    destruct (AdjointLayoutPlot.subplots self !! "main") as [[?|]|];
      destruct (AdjointLayoutPlot.subplots self !! "right") as [[?|]|];
      destruct (AdjointLayoutPlot.subplots self !! "top") as [[?|]|];
      simpl; rewrite <- ?app_assoc, ?app_nil_r; reflexivity.
  - intros pos sp Hpos Hsp. subst updated. apply list_elem_of_filter. split.
    + rewrite Hsp. by eexists.
    + unfold AdjointLayoutPlot.view_positions in Hpos.
      destruct (AdjointLayoutPlot.type self); simpl in Hpos;
        repeat (apply elem_of_cons in Hpos as [->|Hpos];
                [by repeat constructor|]);
        by apply elem_of_nil in Hpos.
Qed.

End AdjointUpdateFrame.

(** ** GridPlot._make_axes *)

Section MakeAxes.
Context `{Upstream}.
Context (make_axis : string → list Z → bool → bmodel)
  (unique_iterator : list Z → list Z)
  (filter_toolboxes_plot : bmodel → bmodel)
  (gridplot_toolbar : pyval) (gridplot_merge : bool).

Lemma factors_of_pairs {St} (keys : list pykey) (s : St) :
  Forall is_pair_key keys →
  mapM GridAxes.first_of keys s = Returns (key_first <$> keys) s
  ∧ mapM GridAxes.second_of keys s = Returns (key_second <$> keys) s.
Proof.
  intros Hkeys. split; apply mapM_fmap; intros k s' Hk;
    (eapply Forall_forall in Hkeys; [|exact Hk]);
    destruct Hkeys as (a & b & t & ->); done.
Qed.

(** X20. [_make_axes] returns the plot itself when neither axis is
    drawn. Over keys that are pairs it draws the x-axis from the
    distinct first components and the y-axis from the distinct second
    components, each flipped when the axis is shared. With both axes it
    makes a grid of two rows in which the x-axis is in the column of the
    plot, the y-axis in the row of the plot and the fourth cell is
    empty; the x-axis is above the plot exactly when [shared_xaxis] is
    set, and the y-axis is right of the plot exactly when [shared_yaxis]
    is set. With one axis it makes a row or a column with the same
    sides. *)
Theorem make_axes_arrangement {St} (self : GridAxes.t) (plot : bmodel) (s : St) :
  let params := GridPlot.self_params (GridAxes.grid self) in
  let keys := keys_full_grid (GridPlot.layout (GridAxes.grid self)) in
  let run := GridAxes._make_axes make_axis unique_iterator filter_toolboxes_plot
               gridplot_toolbar gridplot_merge self plot s in
  let x_axis := make_axis "x" (unique_iterator (key_first <$> keys))
                  (GridPlot.shared_xaxis params) in
  let y_axis := make_axis "y" (unique_iterator (key_second <$> keys))
                  (GridPlot.shared_yaxis params) in
  let rows := GridAxes.axes_rows self x_axis y_axis (filter_toolboxes_plot plot) in
  let pr := if GridPlot.shared_xaxis params then 1 else 0 in
  let pc := if GridPlot.shared_yaxis params then 0 else 1 in
  (GridAxes.xaxis self = false →
   GridAxes.yaxis self && bool_decide (1 < GridAxes.ndims self) = false →
   run = Returns plot s)
  ∧ (Forall is_pair_key keys →
     run = Returns
             (match GridAxes.xaxis self,
                    GridAxes.yaxis self && bool_decide (1 < GridAxes.ndims self) with
              | true, true => BGrid (layout_padding rows) gridplot_toolbar gridplot_merge
              | false, true =>
                  BRow (if GridPlot.shared_yaxis params then [plot; y_axis]
                        else [y_axis; plot])
              | true, false =>
                  BColumn (if GridPlot.shared_xaxis params then [x_axis; plot]
                           else [plot; x_axis])
              | false, false => plot
              end) s)
  ∧ GridPlot.get_cell rows pr pc = Some (Some (filter_toolboxes_plot plot))
  ∧ GridPlot.get_cell rows (1 - pr) pc = Some (Some x_axis)
  ∧ GridPlot.get_cell rows pr (1 - pc) = Some (Some y_axis)
  ∧ GridPlot.get_cell rows (1 - pr) (1 - pc) = Some None.
Proof.
  intros params keys run x_axis y_axis rows pr pc. split_and!.
  - intros Hx Hy. subst run. unfold GridAxes._make_axes. rewrite Hx, Hy. done.
  - intros Hkeys. subst run. unfold GridAxes._make_axes. fold params keys.
    destruct (factors_of_pairs (St := St) keys s Hkeys) as [Hfirst Hsecond].
    pose proof (py_bind_returns _
                  (λ xfactors, mret (Some (make_axis "x" (unique_iterator xfactors)
                                             (GridPlot.shared_xaxis params))))
                  _ _ _ Hfirst) as Hx.
    pose proof (py_bind_returns _
                  (λ yfactors, mret (Some (make_axis "y" (unique_iterator yfactors)
                                             (GridPlot.shared_yaxis params))))
                  _ _ _ Hsecond) as Hy.
    destruct (GridAxes.xaxis self);
      destruct (GridAxes.yaxis self && bool_decide (1 < GridAxes.ndims self));
      [rewrite (py_bind_returns _ _ _ _ _ Hx), (py_bind_returns _ _ _ _ _ Hy)
      |rewrite (py_bind_returns _ _ _ _ _ Hx)
      |erewrite (py_bind_returns _ _ _ None s) by done;
       rewrite (py_bind_returns _ _ _ _ _ Hy)
      |done];
      subst rows; unfold GridAxes.axes_rows; fold params;
      by destruct (GridPlot.shared_xaxis params), (GridPlot.shared_yaxis params).
  - subst rows pr pc. unfold GridAxes.axes_rows. fold params.
    by destruct (GridPlot.shared_xaxis params), (GridPlot.shared_yaxis params).
  - subst rows pr pc. unfold GridAxes.axes_rows. fold params.
    by destruct (GridPlot.shared_xaxis params), (GridPlot.shared_yaxis params).
  - subst rows pr pc. unfold GridAxes.axes_rows. fold params.
    by destruct (GridPlot.shared_xaxis params), (GridPlot.shared_yaxis params).
  - subst rows pr pc. unfold GridAxes.axes_rows. fold params.
    by destruct (GridPlot.shared_xaxis params), (GridPlot.shared_yaxis params).
Qed.

End MakeAxes.

(** ** LayoutPlot._init_layout *)

Lemma for_each_returned {St A} (body : A → py St unit) (I : list A → St → Prop)
    (xs : list A) : ∀ pre s s',
  I pre s →
  (∀ done x s s1, I done s → body x s = Returns tt s1 → I (done ++ [x]) s1) →
  for_each body xs s = Returns tt s' → I (pre ++ xs) s'.
Proof.
  induction xs as [|x xs IH]; intros pre s s' Hs Hbody Hrun; simpl in Hrun.
  - injection Hrun as <-. by rewrite app_nil_r.
  - unfold mbind, py_mbind, py_bind in Hrun.
    destruct (body x s) as [[] s1|e s1] eqn:Hx; [|done].
    replace (pre ++ x :: xs) with ((pre ++ [x]) ++ xs) by by rewrite <- app_assoc.
    eapply IH; [|done|done]. by eapply Hbody.
Qed.

Section InitLayoutSpec.
Context `{Upstream}.
Context (adjoint_has_elements : adjoint_layout → bool)
  (view_repr : view → string) (new_adjoint_id : nat).
Implicit Types (self : LayoutPlot.t) (s : InitLayout.state) (rc : nat * nat)
  (layout_items : gmap (nat * nat) (list string * InitLayout.grid_view)).

(** What one iteration leaves in the state, normally or not. *)
Lemma situate_layout_step self transpose layout_items fr rc s :
  let o := InitLayout.situate_layout adjoint_has_elements view_repr new_adjoint_id
             self transpose layout_items fr rc s in
  let item := InitLayout.item_at transpose layout_items rc in
  let view := InitLayout.wrap_adjoint new_adjoint_id (snd <$> item) in
  let lt := InitLayout.layout_type_of (InitLayout.wrapped_len (snd <$> item)) in
  InitLayout.paths (final_state o) = <[rc := fst <$> item]> (InitLayout.paths s)
  ∧ (InitLayout.layout_subplots (final_state o) = InitLayout.layout_subplots s
     ∨ ∃ main,
         al_data view !! "main" = Some main
         ∧ isinstance main cEmpty = false
         ∧ adjoint_has_elements view = true
         ∧ let c := final_state
                      (LayoutPlot._create_subplots self view
                         (AdjointLayoutPlot.positions lt) fr
                         (S (InitLayout.layout_count s)) (InitLayout.cs s)) in
           InitLayout.layout_subplots (final_state o)
           = <[rc := AdjointLayoutPlot.AdjointLayoutPlotObj
                       (LayoutPlot.cs_clone c) lt (LayoutPlot.cs_subplots c)]>
               (InitLayout.layout_subplots s)).
Proof.
  intros o item view lt. subst o. unfold InitLayout.situate_layout.
  fold item. fold view. fold lt.
  rewrite (py_bind_returns _ _ _ tt
             (InitLayout.set_view rc view (fst <$> item) s)) by done.
  destruct (al_data view !! "main") as [main|] eqn:Hmain; [|by split; [|left]].
  destruct (isinstance main cEmpty) eqn:Hempty; [by split; [|left]|].
  destruct (adjoint_has_elements view) eqn:Hhas; [|by split; [|left]].
  simpl.
  rewrite (py_bind_returns _ _ _ tt
             (InitLayout.count (InitLayout.set_view rc view (fst <$> item) s)))
    by done.
  rewrite (py_bind_returns _ _ _
             (InitLayout.count (InitLayout.set_view rc view (fst <$> item) s))
             (InitLayout.count (InitLayout.set_view rc view (fst <$> item) s)))
    by done.
  set (s2 := InitLayout.count (InitLayout.set_view rc view (fst <$> item) s)).
  set (m := LayoutPlot._create_subplots self view (AdjointLayoutPlot.positions lt) fr
              (InitLayout.layout_count s2)).
  change (InitLayout.layout_count s2) with (S (InitLayout.layout_count s)) in m.
  destruct (m (InitLayout.cs s)) as [[] c|e c] eqn:Hcs.
  - assert (InitLayout.create_subplots m s2
            = Returns tt
                {| InitLayout.cs := c;
                   InitLayout.layout_subplots := InitLayout.layout_subplots s2;
                   InitLayout.layouts := InitLayout.layouts s2;
                   InitLayout.paths := InitLayout.paths s2;
                   InitLayout.collapsed_layout := InitLayout.collapsed_layout s2;
                   InitLayout.layout_count := InitLayout.layout_count s2 |}) as Hrun.
    { unfold InitLayout.create_subplots.
      change (InitLayout.cs s2) with (InitLayout.cs s). by rewrite Hcs. }
    rewrite (py_bind_returns _ _ _ _ _ Hrun).
    split; [done|]. right. exists main. repeat (split; [done|]).
    subst m. cbv zeta. by rewrite Hcs.
  - assert (InitLayout.create_subplots m s2
            = Raises e
                {| InitLayout.cs := c;
                   InitLayout.layout_subplots := InitLayout.layout_subplots s2;
                   InitLayout.layouts := InitLayout.layouts s2;
                   InitLayout.paths := InitLayout.paths s2;
                   InitLayout.collapsed_layout := InitLayout.collapsed_layout s2;
                   InitLayout.layout_count := InitLayout.layout_count s2 |}) as Hrun.
    { unfold InitLayout.create_subplots.
      change (InitLayout.cs s2) with (InitLayout.cs s). by rewrite Hcs. }
    rewrite (py_bind_raises _ _ _ _ _ Hrun).
    split; [done|]. by left.
Qed.

(** X21. In whatever state [_init_layout] stops, every entry of
    [layout_subplots] sits at one of the coordinates of the plot, where
    the layout shows an item whose main view is neither [None] nor
    [Empty] and has elements; its layout type is the one of the length
    of that item, its layout is the clone made by [_create_subplots] and
    has an item at exactly the positions that have an entry in its
    subplots, all of them positions of its layout type. Every entry of
    [paths] belongs to a coordinate of the plot and is the key of the
    item shown there, and when [_init_layout] returns, every coordinate
    has its entry. *)
Theorem init_layout_spec self transpose dynamic layout layout_items s :
  let o := InitLayout._init_layout adjoint_has_elements view_repr new_adjoint_id
             self transpose dynamic layout layout_items s in
  let s' := final_state o in
  (∀ rc adj, InitLayout.layout_subplots s' !! rc = Some adj →
     rc ∈ LayoutPlot.coords self
     ∧ ∃ key gv main,
         InitLayout.item_at transpose layout_items rc = Some (key, gv)
         ∧ al_data (InitLayout.wrap_adjoint new_adjoint_id (Some gv)) !! "main"
           = Some main
         ∧ isinstance main cEmpty = false
         ∧ adjoint_has_elements (InitLayout.wrap_adjoint new_adjoint_id (Some gv))
           = true
         ∧ AdjointLayoutPlot.type adj
           = InitLayout.layout_type_of (InitLayout.wrapped_len (Some gv))
         ∧ al_id (AdjointLayoutPlot.layout adj)
           = al_id (InitLayout.wrap_adjoint new_adjoint_id (Some gv))
         ∧ dom (al_data (AdjointLayoutPlot.layout adj))
           = dom (AdjointLayoutPlot.subplots adj)
         ∧ ∀ pos, pos ∈ dom (AdjointLayoutPlot.subplots adj) →
                  pos ∈ AdjointLayoutPlot.view_positions adj)
  ∧ (∀ rc key, InitLayout.paths s' !! rc = Some key →
       rc ∈ LayoutPlot.coords self
       ∧ key = fst <$> InitLayout.item_at transpose layout_items rc)
  ∧ (∀ u, o = Returns u s' →
       ∀ rc, rc ∈ LayoutPlot.coords self →
             InitLayout.paths s' !! rc
             = Some (fst <$> InitLayout.item_at transpose layout_items rc)).
Proof.
  intros o s'. subst s' o. unfold InitLayout._init_layout.
  rewrite (py_bind_returns _ _ _ tt (InitLayout.enter s)) by done.
  set (fr := InitLayout.frame_ranges_of self dynamic layout).
  set (body := InitLayout.situate_layout adjoint_has_elements view_repr
                 new_adjoint_id self transpose layout_items fr).
  assert (∀ rc s1, InitLayout.paths (final_state (body rc s1))
                   = <[rc := fst <$> InitLayout.item_at transpose layout_items rc]>
                       (InitLayout.paths s1)) as Hpaths.
  { intros rc s1.
    by destruct (situate_layout_step self transpose layout_items fr rc s1). }
  split_and!.
  - apply (for_each_final body
      (λ s', ∀ rc adj, InitLayout.layout_subplots s' !! rc = Some adj →
         rc ∈ LayoutPlot.coords self
         ∧ ∃ key gv main,
             InitLayout.item_at transpose layout_items rc = Some (key, gv)
             ∧ al_data (InitLayout.wrap_adjoint new_adjoint_id (Some gv)) !! "main"
               = Some main
             ∧ isinstance main cEmpty = false
             ∧ adjoint_has_elements
                 (InitLayout.wrap_adjoint new_adjoint_id (Some gv)) = true
             ∧ AdjointLayoutPlot.type adj
               = InitLayout.layout_type_of (InitLayout.wrapped_len (Some gv))
             ∧ al_id (AdjointLayoutPlot.layout adj)
               = al_id (InitLayout.wrap_adjoint new_adjoint_id (Some gv))
             ∧ dom (al_data (AdjointLayoutPlot.layout adj))
               = dom (AdjointLayoutPlot.subplots adj)
             ∧ ∀ pos, pos ∈ dom (AdjointLayoutPlot.subplots adj) →
                      pos ∈ AdjointLayoutPlot.view_positions adj)).
    + intros rc s1 Hrc Hinv rc' adj Hadj.
      destruct (situate_layout_step self transpose layout_items fr rc s1)
        as [_ [Hsame|(main & Hmain & Hempty & Hhas & Hnew)]].
      { fold body in Hsame. rewrite Hsame in Hadj. by apply Hinv. }
      fold body in Hnew. cbv zeta in Hnew. rewrite Hnew in Hadj.
      destruct (decide (rc' = rc)) as [->|Hne];
        [|rewrite lookup_insert_ne in Hadj by done; by apply Hinv].
      rewrite lookup_insert_eq in Hadj. injection Hadj as <-.
      split; [done|].
      destruct (InitLayout.item_at transpose layout_items rc) as [[key gv]|] eqn:Hitem;
        [|done].
      exists key, gv, main. simpl in *.
      match goal with
      | |- context [final_state (LayoutPlot._create_subplots ?a ?b ?c ?d ?e ?f)] =>
          destruct (layout_create_subplots_inv a b c d e f) as (Hid & Hdom & Hin)
      end.
      split_and!; [done..|].
      intros pos [o Ho]%elem_of_dom. by destruct (Hin pos o Ho) as [? _].
    + intros rc adj Hadj. simpl in Hadj. by rewrite lookup_empty in Hadj.
  - apply (for_each_final body
      (λ s', ∀ rc key, InitLayout.paths s' !! rc = Some key →
         rc ∈ LayoutPlot.coords self
         ∧ key = fst <$> InitLayout.item_at transpose layout_items rc)).
    + intros rc s1 Hrc Hinv rc' key Hkey. rewrite Hpaths in Hkey.
      destruct (decide (rc' = rc)) as [->|Hne].
      * rewrite lookup_insert_eq in Hkey. by injection Hkey as <-.
      * rewrite lookup_insert_ne in Hkey by done. by apply Hinv.
    + intros rc key Hkey. simpl in Hkey. by rewrite lookup_empty in Hkey.
  - intros u Hrun rc Hrc. destruct u.
    destruct (for_each body (LayoutPlot.coords self) (InitLayout.enter s))
      as [[] s'|e s'] eqn:Hloop; [|done]. simpl.
    refine (for_each_returned body
              (λ done s', ∀ rc, rc ∈ done →
                 InitLayout.paths s' !! rc
                 = Some (fst <$> InitLayout.item_at transpose layout_items rc))
              _ [] _ _ _ _ Hloop rc Hrc).
    + intros rc' Hrc'. by apply elem_of_nil in Hrc'.
    + intros done x s1 s2 Hinv Hx rc' Hrc'.
      pose proof (Hpaths x s1) as Hp. rewrite Hx in Hp. simpl in Hp. rewrite Hp.
      destruct (decide (rc' = x)) as [->|Hne]; [by rewrite lookup_insert_eq|].
      rewrite lookup_insert_ne by done. apply Hinv.
      apply elem_of_app in Hrc' as [?|?%list_elem_of_singleton]; done.
Qed.

End InitLayoutSpec.

(** ** BokehPlot._construct_callbacks *)

Section ConstructCallbacks.
Context (stream_registry : gmap nat (list Callbacks.stream))
  (callback_registry : gmap nat nat).
Implicit Types (self : Callbacks.t).

Lemma elem_of_foldl_union {A} `{Countable B} (F : A → gset B) (l : list A) :
  ∀ (acc : gset B) x,
  x ∈ foldl (λ acc a, acc ∪ F a) acc l ↔ x ∈ acc ∨ ∃ a, a ∈ l ∧ x ∈ F a.
Proof.
  induction l as [|a l IH]; intros acc x; simpl.
  - split; [by left|]. intros [?|(a & Ha & _)]; [done|]. by apply elem_of_nil in Ha.
  - rewrite IH, elem_of_union. split.
    + intros [[?|?]|(a' & Ha' & ?)]; [by left|right; exists a; split; [left|done]|].
      right. exists a'. split; [by right|done].
    + intros [?|(a' & Ha' & ?)]; [by left; left|].
      apply elem_of_cons in Ha' as [->|Ha']; [by left; right|].
      right. by exists a'.
Qed.

(** The pairs in [cb_classes]: a callback class and a linked stream of
    a registered type that is registered on one of the sources. *)
Lemma elem_of_cb_classes self cb sid :
  (cb, sid) ∈ Callbacks.cb_classes stream_registry callback_registry self
  ↔ ∃ i source stream,
      (i, source) ∈ Callbacks.sources self
      ∧ stream ∈ default [] (stream_registry !! source)
      ∧ Callbacks.linked stream = true
      ∧ callback_registry !! Callbacks.stream_type stream = Some cb
      ∧ Callbacks.stream_id stream = sid.
Proof.
  unfold Callbacks.cb_classes.
  rewrite (elem_of_foldl_union
             (λ i_source : nat * nat,
                list_to_set (Callbacks.source_classes stream_registry
                               callback_registry i_source.2))).
  split.
  - intros [Hemp|([i source] & Hin & Hx)]; [by apply elem_of_empty in Hemp|].
    apply elem_of_list_to_set in Hx. unfold Callbacks.source_classes in Hx.
    apply list_elem_of_omap in Hx as (stream & Hstream & Hsome). simpl in *.
    destruct (callback_registry !! Callbacks.stream_type stream) as [cb'|] eqn:Hreg;
      [|done].
    destruct (Callbacks.linked stream) eqn:Hl; [|done].
    injection Hsome as <- <-. by exists i, source, stream.
  - intros (i & source & stream & Hin & Hstream & Hl & Hreg & Hid).
    right. exists (i, source). split; [done|].
    apply elem_of_list_to_set. unfold Callbacks.source_classes.
    apply list_elem_of_omap. exists stream. split; [done|].
    by rewrite Hreg, Hl, Hid.
Qed.

Lemma sources_of_overlay self :
  Callbacks.is_overlay self = true →
  Callbacks.batched self = false ∨ Callbacks.static self = false
  ∨ Callbacks.hmap_is_dynamic self = true →
  Callbacks.sources self = [].
Proof.
  intros Hov Hcases. unfold Callbacks.sources, Callbacks.zorders. rewrite Hov.
  destruct (Callbacks.batched self); [|done]. simpl.
  assert (negb (Callbacks.static self) || Callbacks.hmap_is_dynamic self = true)
    as ->.
  { destruct Hcases as [?|[-> | ->]]; [done|done|]. apply orb_true_r. }
  induction (Callbacks.stream_sources self) as [|[i inputs] l IH]; [done|].
  rewrite bind_cons, IH, app_nil_r. simpl.
  induction inputs as [|o inputs IHi]; [done|]. by rewrite bind_cons, IHi.
Qed.

(** X22. The callbacks that [_construct_callbacks] constructs. There is
    at most one for each callback class; an overlay plot gets none
    unless it is batched, static and not dynamic. The streams of a
    callback are, without repetition, the linked streams whose type is
    registered for the class of the callback and that are registered on
    one of the sources, and every class with such a stream gets its
    callback. Each callback receives as its source the last of the
    sources, whichever source its streams are registered on. *)
Theorem construct_callbacks_spec self :
  let cbs := Callbacks._construct_callbacks stream_registry callback_registry self in
  let classes := Callbacks.cb_classes stream_registry callback_registry self in
  NoDup (cbs.*1.*1)
  ∧ (∀ cb streams src, (cb, streams, src) ∈ cbs →
       streams ≠ [] ∧ NoDup streams
       ∧ (∀ sid, sid ∈ streams ↔ (cb, sid) ∈ classes)
       ∧ ∃ i source, last (Callbacks.sources self) = Some (i, source)
                     ∧ src = Some source)
  ∧ (∀ cb sid, (cb, sid) ∈ classes → ∃ streams src, (cb, streams, src) ∈ cbs)
  ∧ (Callbacks.is_overlay self = true →
     Callbacks.batched self = false ∨ Callbacks.static self = false
     ∨ Callbacks.hmap_is_dynamic self = true →
     cbs = []).
Proof.
  intros cbs classes. subst cbs. unfold Callbacks._construct_callbacks. cbv zeta.
  fold classes.
  set (sl := BokehPlot.sorted_by_key (elements classes)).
  destruct (groupby_sorted sl (sorted_by_key_sorted _)) as (Hg & Hnd & Hk & _).
  assert (∀ x, x ∈ sl ↔ x ∈ classes) as Hsl.
  { intros x. subst sl. by rewrite sorted_by_key_perm, elem_of_elements. }
  assert (NoDup sl) as Hndsl.
  { subst sl. rewrite sorted_by_key_perm. apply NoDup_elements. }
  split_and!.
  - match goal with
    | |- NoDup (?f <$> _).*1.*1 =>
        assert (∀ gs : list (nat * list (nat * nat)), (f <$> gs).*1.*1 = gs.*1) as ->
          by (induction gs as [|[] ? IH]; [done|]; csimpl; by rewrite IH)
    end.
    exact Hnd.
  - intros cb streams src Hin.
    apply list_elem_of_fmap in Hin as ([k g] & [= -> -> ->] & Hkg). simpl.
    pose proof (Hg k g Hkg) as Hgeq.
    assert (∀ sid, sid ∈ g.*2 ↔ (k, sid) ∈ classes) as Hmem.
    { intros sid. rewrite <- Hsl. rewrite Hgeq. split.
      - intros ([k' sid'] & -> & Hy)%list_elem_of_fmap.
        apply list_elem_of_filter in Hy as [Hyk Hy]. simpl in *. by subst k'.
      - intros Hy. apply list_elem_of_fmap. exists (k, sid). split; [done|].
        by apply list_elem_of_filter. }
    destruct (Hk k) as ([k' sid0] & Hy & Hyk).
    { apply list_elem_of_fmap. by exists (k, g). }
    simpl in Hyk. subst k'.
    assert (sid0 ∈ g.*2) as Hsid0 by (apply Hmem; by apply Hsl).
    split_and!.
    + intros Hnil. rewrite Hnil in Hsid0. by apply elem_of_nil in Hsid0.
    + rewrite Hgeq. apply NoDup_fmap_2_strong; [|by apply NoDup_filter].
      intros [k1 s1] [k2 s2] [Hk1 _]%list_elem_of_filter [Hk2 _]%list_elem_of_filter.
      simpl in *. congruence.
    + done.
    + apply Hmem, elem_of_cb_classes in Hsid0 as (i & source & _ & Hsrc & _).
      destruct (Callbacks.sources self) as [|x l] eqn:Hsources using rev_ind;
        [by apply elem_of_nil in Hsrc|].
      rewrite last_snoc. destruct x as [i' source']. by exists i', source'.
  - intros cb sid Hin. apply Hsl in Hin.
    rewrite <- (groupby_concat sl) in Hin.
    apply list_elem_of_join in Hin as (g & Hing & Hg').
    apply list_elem_of_fmap in Hg' as ([k g'] & -> & Hkg). simpl in Hing.
    rewrite (Hg k g' Hkg) in Hing. apply list_elem_of_filter in Hing as [Hkk _].
    simpl in Hkk. subst k.
    eexists _, _. apply list_elem_of_fmap. exists (cb, g'). split; [reflexivity|done].
  - intros Hov Hcases.
    assert (classes = ∅) as Hempty.
    { subst classes. unfold Callbacks.cb_classes.
      by rewrite (sources_of_overlay self Hov Hcases). }
    subst sl. by rewrite Hempty, elements_empty.
Qed.

End ConstructCallbacks.

(** ** BokehPlot._update_callbacks *)

Section UpdateCallbacks.
Context (select : string → list nat)
  (str_replace : string → string → string → string)
  (top_level : bool) (self_id : string).

Lemma merged_tools_fold (tools : list string) : ∀ (a : gmap string nat) tool,
  NoDup tools →
  foldl (λ a (tool_objs : string * list nat),
           match tool_objs.2 with
           | o :: _ =>
               if bool_decide (is_Some (a !! tool_objs.1))
               then <[tool_objs.1 := o]> a else a
           | [] => a
           end) a ((λ t, (t, select t)) <$> tools) !! tool
  = (λ old, if bool_decide (tool ∈ tools) then default old (head (select tool))
            else old) <$> a !! tool.
Proof.
  induction tools as [|t tools IH]; intros a tool Hnd.
  - simpl. by destruct (a !! tool).
  - apply NoDup_cons in Hnd as [Ht Hnd]. rewrite fmap_cons. cbn [foldl].
    rewrite IH by done. cbn [fst snd].
    destruct (decide (tool = t)) as [->|Hne].
    + rewrite (bool_decide_eq_false_2 (t ∈ tools)) by done.
      rewrite (bool_decide_eq_true_2 (t ∈ t :: tools)) by left.
      destruct (select t) as [|o objs]; [by destruct (a !! t)|].
      destruct (a !! t) as [old|] eqn:Hold.
      * rewrite bool_decide_eq_true_2 by (by eexists). by rewrite lookup_insert_eq.
      * rewrite bool_decide_eq_false_2 by (by intros [? ?]). by rewrite Hold.
    + assert (bool_decide (tool ∈ t :: tools) = bool_decide (tool ∈ tools)) as ->.
      { apply bool_decide_ext. rewrite elem_of_cons. tauto. }
      destruct (select t) as [|o objs]; [done|].
      destruct (bool_decide (is_Some (a !! t))); [|done].
      by rewrite lookup_insert_ne.
Qed.

(** X23. [_update_callbacks] gives a callback no argument that it did
    not have and takes none away: an argument named after one of the
    merged tools is set to the first model that the plot selects for the
    tool, if there is one, and every other argument is left as it is.
    The code of the callback is only touched for a top-level plot. *)
Theorem update_callbacks_args (c : Callbacks.customjs) :
  let c' := Callbacks.update_customjs select str_replace top_level self_id c in
  (∀ tool, Callbacks.args c' !! tool
           = (λ old, if bool_decide (tool ∈ Callbacks._merged_tools)
                     then default old (head (select tool)) else old)
               <$> Callbacks.args c !! tool)
  ∧ dom (Callbacks.args c') = dom (Callbacks.args c)
  ∧ (top_level = false → Callbacks.code c' = Callbacks.code c).
Proof.
  intros c'.
  assert (∀ tool, Callbacks.args c' !! tool
           = (λ old, if bool_decide (tool ∈ Callbacks._merged_tools)
                     then default old (head (select tool)) else old)
               <$> Callbacks.args c !! tool) as Hargs.
  { intros tool. subst c'. unfold Callbacks.update_customjs, Callbacks.merged_tools.
    cbn [Callbacks.args]. apply merged_tools_fold.
    refine (bool_decide_unpack _ _). vm_compute. exact I. }
  split_and!; [done| |].
  - apply set_eq. intros tool. rewrite !elem_of_dom, Hargs.
    destruct (Callbacks.args c !! tool); simpl; split; intros [? ?]; by eauto.
  - intros ->. done.
Qed.

End UpdateCallbacks.

(** ** BokehPlot.cleanup *)

Lemma filter_all {A} (P : A → Prop) `{∀ x, Decision (P x)} (xs : list A) :
  (∀ x, x ∈ xs → P x) → filter P xs = xs.
Proof.
  induction xs as [|x xs IH]; intros Hall; [done|].
  rewrite filter_cons_True by (apply Hall; left).
  rewrite IH; [done|]. intros y Hy. apply Hall. by right.
Qed.

Section Cleanup.
Implicit Types (w : Callbacks.world) (plots : list Callbacks.plot) (ids : list nat).

Lemma unsubscribe_lookup ids (streams : list nat) stream :
  ∀ subs : gmap nat (list (nat * nat)),
  foldl (λ subs stream, alter (filter (λ p_owner, p_owner.2 ∉ ids)) stream subs)
    subs streams !! stream
  = if decide (stream ∈ streams)
    then filter (λ p_owner, p_owner.2 ∉ ids) <$> subs !! stream
    else subs !! stream.
Proof.
  induction streams as [|s streams IH]; intros subs; cbn [foldl].
  - by rewrite decide_False by apply not_elem_of_nil.
  - rewrite IH. rewrite lookup_alter.
    destruct (decide (stream ∈ streams)) as [Hin|Hnin].
    + rewrite (decide_True (P := stream ∈ s :: streams)) by by right.
      destruct (decide (s = stream)) as [->|Hne]; [|done].
      destruct (subs !! stream) as [l|]; [|done]. simpl. f_equal.
      apply list_filter_filter_l. done.
    + destruct (decide (s = stream)) as [->|Hne].
      * by rewrite (decide_True (P := stream ∈ stream :: streams)) by left.
      * rewrite (decide_False (P := stream ∈ s :: streams)); [done|].
        by intros [?|?]%elem_of_cons.
Qed.

Lemma cleanup_callbacks_fold (cbs : list nat) : ∀ w,
  let w' := foldl Callbacks.cleanup_callback w cbs in
  Callbacks.subscribers w' = Callbacks.subscribers w
  ∧ Callbacks.callback_instances w'
    = filter (λ k_cb, k_cb.2 ∉ cbs) (Callbacks.callback_instances w)
  ∧ Callbacks.cleaned w' = Callbacks.cleaned w ++ cbs.
Proof.
  induction cbs as [|cb cbs IH]; intros w; cbn [foldl].
  - simpl. split_and!; [done| |by rewrite app_nil_r].
    symmetry. apply filter_all. intros x _. apply not_elem_of_nil.
  - destruct (IH (Callbacks.cleanup_callback w cb)) as (Hs & Hc & Hcl).
    cbv zeta in *. rewrite Hs, Hc, Hcl. simpl. split_and!; [done| |].
    + rewrite list_filter_filter. apply list_filter_iff. intros [k x]. simpl.
      rewrite not_elem_of_cons. tauto.
    + by rewrite <- app_assoc.
Qed.

Lemma cleanup_fold ids (l : list Callbacks.plot) : ∀ w,
  let w' := foldl (Callbacks.cleanup_plot ids) w l in
  (∀ stream,
     Callbacks.subscribers w' !! stream
     = if decide (stream ∈ cleanup_streams l)
       then filter (λ p_owner, p_owner.2 ∉ ids) <$> Callbacks.subscribers w !! stream
       else Callbacks.subscribers w !! stream)
  ∧ Callbacks.callback_instances w'
    = filter (λ k_cb, k_cb.2 ∉ cleanup_callbacks l) (Callbacks.callback_instances w)
  ∧ Callbacks.cleaned w' = Callbacks.cleaned w ++ cleanup_callbacks l.
Proof.
  induction l as [|x l IH]; intros w; cbn [foldl].
  - simpl. split_and!; [done| |by rewrite app_nil_r].
    symmetry. apply filter_all. intros y _. apply not_elem_of_nil.
  - destruct (IH (Callbacks.cleanup_plot ids w x)) as (Hs & Hc & Hcl).
    cbv zeta in *. unfold cleanup_streams, cleanup_callbacks in *.
    unfold Callbacks.cleanup_plot in *.
    destruct (Callbacks.is_generic x) eqn:Hgen; simpl in *.
    + rewrite (filter_cons_True (λ x, Callbacks.is_generic x = true)) by done.
      rewrite bind_cons.
      assert (∀ stream,
        Callbacks.subscribers
          (foldl (Callbacks.cleanup_plot ids)
             (if negb (Callbacks.is_element x)
              then Callbacks.unsubscribe ids (Callbacks.streams x) w
              else foldl Callbacks.cleanup_callback
                     (Callbacks.unsubscribe ids (Callbacks.streams x) w)
                     (Callbacks.callbacks x)) l) !! stream
        = if decide (stream ∈ Callbacks.streams x
                              ++ (filter (λ x, Callbacks.is_generic x = true) l
                                    ≫= Callbacks.streams))
          then filter (λ p_owner, p_owner.2 ∉ ids)
                 <$> Callbacks.subscribers w !! stream
          else Callbacks.subscribers w !! stream) as Hsub.
      { intros stream. unfold Callbacks.cleanup_plot. rewrite Hs.
        assert (Callbacks.subscribers
                  (if negb (Callbacks.is_element x)
                   then Callbacks.unsubscribe ids (Callbacks.streams x) w
                   else foldl Callbacks.cleanup_callback
                          (Callbacks.unsubscribe ids (Callbacks.streams x) w)
                          (Callbacks.callbacks x))
                = Callbacks.subscribers
                    (Callbacks.unsubscribe ids (Callbacks.streams x) w)) as ->.
        { destruct (Callbacks.is_element x); simpl; [|done].
          by destruct (cleanup_callbacks_fold (Callbacks.callbacks x)
                         (Callbacks.unsubscribe ids (Callbacks.streams x) w))
            as (-> & _). }
        simpl. rewrite unsubscribe_lookup.
        destruct (decide (stream ∈ Callbacks.streams x)) as [Hx|Hx];
          destruct (decide (stream ∈ _ ≫= Callbacks.streams)) as [Hl|Hl].
        - rewrite decide_True by (apply elem_of_app; by left).
          destruct (Callbacks.subscribers w !! stream) as [subs|]; [|done].
          simpl. f_equal. by apply list_filter_filter_l.
        - rewrite decide_True by (apply elem_of_app; by left). done.
        - rewrite decide_True by (apply elem_of_app; by right). done.
        - rewrite decide_False; [done|]. by intros [?|?]%elem_of_app. }
      destruct (Callbacks.is_element x) eqn:Hel; simpl in *.
      * rewrite (filter_cons_True
                   (λ x, Callbacks.is_generic x = true ∧ Callbacks.is_element x = true))
          by done.
        rewrite bind_cons. rewrite Hc, Hcl.
        destruct (cleanup_callbacks_fold (Callbacks.callbacks x)
                    (Callbacks.unsubscribe ids (Callbacks.streams x) w))
          as (_ & Hc1 & Hcl1).
        cbv zeta in *. rewrite Hc1, Hcl1. simpl. split_and!; [done| |].
        -- rewrite list_filter_filter. apply list_filter_iff. intros [k cb]. simpl.
           rewrite not_elem_of_app. tauto.
        -- by rewrite <- app_assoc.
      * rewrite (filter_cons_False
                   (λ x, Callbacks.is_generic x = true ∧ Callbacks.is_element x = true))
          by (intros [_ ?]; congruence).
        by rewrite Hc, Hcl.
    + rewrite (filter_cons_False (λ x, Callbacks.is_generic x = true))
        by congruence.
      rewrite (filter_cons_False
                 (λ x, Callbacks.is_generic x = true ∧ Callbacks.is_element x = true))
        by (intros [? _]; congruence).
      done.
Qed.

(** X24. After [cleanup], on every stream of a traversed composite,
    element or overlay plot the subscribers whose method belongs to a
    traversed plot are gone, while the other subscribers are kept, in
    their order, and the streams of no such plot are not touched;
    [Callback._callbacks] has lost exactly the entries whose callback
    belongs to a traversed element plot; and [cleanup] was called once
    on each of these callbacks, plot by plot. *)
Theorem cleanup_spec plots w :
  let w' := Callbacks.cleanup plots w in
  let ids := Callbacks.plot_id <$> plots in
  (∀ stream,
     Callbacks.subscribers w' !! stream
     = if decide (stream ∈ cleanup_streams plots)
       then filter (λ p_owner, p_owner.2 ∉ ids) <$> Callbacks.subscribers w !! stream
       else Callbacks.subscribers w !! stream)
  ∧ (∀ stream subs x p owner,
       x ∈ plots → Callbacks.is_generic x = true → stream ∈ Callbacks.streams x →
       Callbacks.subscribers w' !! stream = Some subs → (p, owner) ∈ subs →
       owner ∉ ids)
  ∧ Callbacks.callback_instances w'
    = filter (λ k_cb, k_cb.2 ∉ cleanup_callbacks plots) (Callbacks.callback_instances w)
  ∧ Callbacks.cleaned w' = Callbacks.cleaned w ++ cleanup_callbacks plots.
Proof.
  intros w' ids. subst w'. unfold Callbacks.cleanup. fold ids.
  destruct (cleanup_fold ids plots w) as (Hs & Hc & Hcl). cbv zeta in *.
  split_and!; [done| |done|done].
  intros stream subs x p owner Hx Hgen Hstream Hsubs Hin.
  rewrite Hs in Hsubs. rewrite decide_True in Hsubs.
  - destruct (Callbacks.subscribers w !! stream) as [subs0|]; [|done].
    injection Hsubs as <-. by apply list_elem_of_filter in Hin as [? _].
  - unfold cleanup_streams. apply list_elem_of_bind. exists x. split; [done|].
    by apply list_elem_of_filter.
Qed.

End Cleanup.

(** ** LayoutPlot.initialize_plot without tabs *)

Section LayoutGrid.
Context `{Upstream}.
Implicit Types (lp : LayoutPlot.t) (adj : AdjointLayoutPlot.t)
  (s : LayoutPlot.locals) (plots passed : list (option bmodel)).

Lemma py_index_nat {A} (l : list A) (n : nat) :
  n < length l → py_index l (Z.of_nat n) = Some n.
Proof.
  intros Hn. unfold py_index.
  destruct (0 <=? Z.of_nat n)%Z eqn:H0; [|apply Z.leb_gt in H0; lia].
  destruct (Z.of_nat n <? Z.of_nat (length l))%Z eqn:H1; [|apply Z.ltb_ge in H1; lia].
  by rewrite Nat2Z.id.
Qed.

(** [plot_grid[r][c] = x] inside the grid. *)
Lemma grid_setitem_spec rows cols r c x s :
  grid_shape (LayoutPlot.plot_grid s) rows cols → r < rows → c < cols →
  ∃ g, LayoutPlot.grid_setitem (Z.of_nat r) (Z.of_nat c) x s
       = Returns tt (LayoutPlot.set_plot_grid g s)
    ∧ grid_shape g rows cols
    ∧ GridPlot.get_cell g r c = Some x
    ∧ ∀ r' c', (r', c') ≠ (r, c) →
               GridPlot.get_cell g r' c' = GridPlot.get_cell (LayoutPlot.plot_grid s) r' c'.
Proof.
  intros [Hlen Hrows] Hr Hc. unfold LayoutPlot.grid_setitem.
  unfold mbind at 1, py_mbind, py_bind, get_state.
  destruct (LayoutPlot.plot_grid s !! r) as [row|] eqn:Hrow;
    [|apply lookup_ge_None in Hrow; lia].
  assert (length row = cols) as Hrl by (eapply Hrows, list_elem_of_lookup_2; done).
  unfold py_getitem, py_setitem.
  rewrite !py_index_nat by lia. simpl. rewrite Hrow.
  unfold mbind, py_mbind, py_bind, mret, py_mret, py_ret, modify.
  rewrite (py_index_nat row c) by lia.
  eexists. split_and!; [done| | |].
  - split; [by rewrite length_insert|].
    intros row' Hin. apply list_elem_of_lookup in Hin as [j Hj].
    destruct (decide (j = r)) as [->|Hne].
    + rewrite list_lookup_insert_eq in Hj by lia. injection Hj as <-.
      by rewrite length_insert.
    + rewrite list_lookup_insert_ne in Hj by done.
      by eapply Hrows, list_elem_of_lookup_2.
  - unfold GridPlot.get_cell. rewrite list_lookup_insert_eq by lia. simpl.
    by rewrite list_lookup_insert_eq by lia.
  - intros r' c' Hne. unfold GridPlot.get_cell.
    destruct (decide (r' = r)) as [->|Hr'].
    + rewrite list_lookup_insert_eq by lia. rewrite Hrow. simpl.
      rewrite list_lookup_insert_ne; [done|congruence].
    + by rewrite list_lookup_insert_ne.
Qed.

Lemma single_initialize_plot adj rng shared :
  AdjointLayoutPlot.type adj = AdjointLayoutPlot.Single →
  AdjointLayoutPlot.initialize_plot adj rng shared
  = [Some (single_plot adj rng (default [] shared))].
Proof.
  intros Htype.
  unfold AdjointLayoutPlot.initialize_plot, AdjointLayoutPlot.view_positions,
    single_plot.
  rewrite Htype. simpl. by rewrite app_nil_r.
Qed.

Lemma not_padded lp (P : nat * nat → Prop) n :
  single_layouts lp → 0 < n →
  ¬ Exists (λ ksp, P ksp.1 ∧ n < LayoutPlot.layout_len ksp.2)
      (map_to_list (LayoutPlot.subplots lp)).
Proof.
  intros Hsingle Hn ([rc adj] & Hin & _ & Hlen)%Exists_exists.
  apply elem_of_map_to_list in Hin. destruct (Hsingle rc adj Hin) as [Hle _].
  simpl in Hlen. lia.
Qed.

(** One cell of the traversal. *)
Lemma situate_single lp rng key plots done r c s :
  LayoutPlot.tabs lp = false → single_layouts lp →
  r < LayoutPlot.rows lp → c < LayoutPlot.cols lp →
  plain_locals lp rng plots done s →
  ∃ s', LayoutPlot.situate lp rng key r c s = Returns tt s'
        ∧ plain_locals lp rng plots (done ++ [(r, c)]) s'
        ∧ LayoutPlot.tab_plots s' = LayoutPlot.tab_plots s.
Proof.
  intros Htabs Hsingle Hr Hc (Hshape & Hro & Hco & Hpre & Hcells).
  unfold LayoutPlot.situate. cbv zeta.
  set (padded := bool_decide _).
  assert (padded = false) as ->
    by (apply bool_decide_eq_false, (not_padded lp (λ k, k.2 = c) 1); [done|lia]).
  rewrite (py_bind_returns _ _ _ tt s) by done.
  unfold mbind at 1, py_mbind, py_bind, get_state.
  rewrite Hco, lookup_empty. simpl.
  destruct (LayoutPlot.subplots lp !! (r, c)) as [adj|] eqn:Hadj.
  - destruct (Hsingle _ _ Hadj) as [_ Htype].
    rewrite (single_initialize_plot adj rng _ Htype). rewrite Htabs. simpl.
    rewrite Hro.
    replace (Z.of_nat r + Z.of_nat 0)%Z with (Z.of_nat r) by lia.
    replace (Z.of_nat c + Z.of_nat 0 - 0)%Z with (Z.of_nat c) by lia.
    set (p := Some (single_plot adj rng _)).
    destruct (grid_setitem_spec _ _ r c p s Hshape Hr Hc)
      as (g & Hset & Hshape' & Hget & Hframe).
    rewrite (py_bind_returns _ _ _ tt s) by done.
    rewrite (py_bind_returns _ _ _ tt (LayoutPlot.set_plot_grid g s)).
    2:{ rewrite (py_bind_returns _ _ _ p s) by done. exact Hset. }
    rewrite (py_bind_returns _ _ _ p (LayoutPlot.set_plot_grid g s)) by done.
    eexists. split; [reflexivity|]. split; [|done].
    split_and!; simpl; [done..| |].
    + by apply prefix_app_r.
    + intros r' c' Hr' Hc'. destruct (decide ((r', c') = (r, c))) as [[= -> ->]|Hne].
      * exists p. split_and!; [done| |].
        -- intros _. unfold cell_filled. rewrite Hadj.
           exists (LayoutPlot.passed_plots s). split; [done|]. subst p.
           by destruct (LayoutPlot.shared_axes lp).
        -- intros Hnin. exfalso. apply Hnin. apply elem_of_app. right. left.
      * destruct (Hcells r' c' Hr' Hc') as (o & Ho & Hdone & Hnot).
        exists o. rewrite Hframe by done. split_and!; [done| |].
        -- intros [?|?%list_elem_of_singleton]%elem_of_app; [auto|done].
        -- intros Hnin. apply Hnot. intros ?. apply Hnin. apply elem_of_app. by left.
  - exists s. split; [done|]. split; [|done]. split_and!; [done..|].
    intros r' c' Hr' Hc'. destruct (Hcells r' c' Hr' Hc') as (o & Ho & Hdone & Hnot).
    exists o. split_and!; [done| |].
    + intros [?|Hin%list_elem_of_singleton]%elem_of_app; [auto|].
      injection Hin as -> ->. unfold cell_filled. rewrite Hadj.
      destruct (decide ((r, c) ∈ done)) as [Hd|Hd]; [|auto].
      specialize (Hdone Hd). unfold cell_filled in Hdone. by rewrite Hadj in Hdone.
    + intros Hnin. apply Hnot. intros ?. apply Hnin. apply elem_of_app. by left.
Qed.

(** One row, and all the rows. *)
Lemma situate_row_single lp rng key plots done r s :
  LayoutPlot.tabs lp = false → single_layouts lp → r < LayoutPlot.rows lp →
  plain_locals lp rng plots done s →
  ∃ s', LayoutPlot.situate_row lp rng key r s = Returns tt s'
        ∧ plain_locals lp rng plots
            (done ++ ((λ c, (r, c)) <$> seq 0 (LayoutPlot.cols lp))) s'
        ∧ LayoutPlot.tab_plots s' = LayoutPlot.tab_plots s.
Proof.
  intros Htabs Hsingle Hr Hinv. unfold LayoutPlot.situate_row. cbv zeta.
  set (padded := bool_decide _).
  assert (padded = false) as ->
    by (apply bool_decide_eq_false, (not_padded lp (λ k, k.1 = r) 2); [done|lia]).
  rewrite (py_bind_returns _ _ _ tt s) by done.
  destruct (for_each_invariant (LayoutPlot.situate lp rng key r)
              (λ cs s', plain_locals lp rng plots (done ++ ((λ c, (r, c)) <$> cs)) s'
                        ∧ LayoutPlot.tab_plots s' = LayoutPlot.tab_plots s)
              (seq 0 (LayoutPlot.cols lp)) [] s) as (s' & Hrun & Hinv' & Htab).
  { simpl. by rewrite app_nil_r. }
  { intros cs c s1 [Hinv1 Htab1] Hc. apply elem_of_seq in Hc.
    destruct (situate_single lp rng key plots _ r c s1 Htabs Hsingle Hr ltac:(lia) Hinv1)
      as (s2 & Hs2 & Hinv2 & Htab2).
    exists s2. split_and!; [done| |congruence].
    by rewrite fmap_app, app_assoc. }
  exists s'. by split_and!.
Qed.

Lemma situate_all_single lp rng key plots s :
  LayoutPlot.tabs lp = false → single_layouts lp →
  plain_locals lp rng plots [] s →
  ∃ s', for_each (LayoutPlot.situate_row lp rng key) (seq 0 (LayoutPlot.rows lp)) s
        = Returns tt s'
        ∧ plain_locals lp rng plots
            (LayoutPlot.row_major (LayoutPlot.rows lp) (LayoutPlot.cols lp)) s'
        ∧ LayoutPlot.tab_plots s' = LayoutPlot.tab_plots s.
Proof.
  intros Htabs Hsingle Hinv.
  destruct (for_each_invariant (LayoutPlot.situate_row lp rng key)
              (λ rs s', plain_locals lp rng plots
                          (rs ≫= λ r, (λ c, (r, c)) <$> seq 0 (LayoutPlot.cols lp)) s'
                        ∧ LayoutPlot.tab_plots s' = LayoutPlot.tab_plots s)
              (seq 0 (LayoutPlot.rows lp)) [] s) as (s' & Hrun & Hinv' & Htab).
  { done. }
  { intros rs r s1 [Hinv1 Htab1] Hr. apply elem_of_seq in Hr.
    destruct (situate_row_single lp rng key plots _ r s1 Htabs Hsingle ltac:(lia) Hinv1)
      as (s2 & Hs2 & Hinv2 & Htab2).
    exists s2. split_and!; [done| |congruence].
    rewrite bind_app. simpl. by rewrite app_nil_r. }
  exists s'. by split_and!.
Qed.

(** X25. [LayoutPlot.initialize_plot] without tabs, for a layout with
    at least one row and one column whose adjoint layouts all hold a
    single item: it returns the model it stores under ['plot'], a grid
    plot, under the title div when the title is not empty, of the padded
    and filtered grid of [rows] rows of [cols] cells in which the cell
    [(r, c)] is empty where the layout has no adjoint layout and else
    holds the plot of the adjoint layout at [(r, c)], rendered with the
    plots passed on so far when the axes are shared. *)
Theorem layout_initialize_plot_grid lp (plots : option (list (option bmodel))) key
    (st : CompositePlot.state (nat * nat)) :
  LayoutPlot.tabs lp = false →
  last (LayoutPlot.keys lp) = Some key →
  0 < LayoutPlot.rows lp → 0 < LayoutPlot.cols lp →
  single_layouts lp →
  CompositePlot.handles st !! "title" = None →
  let rng := compute_ranges (LayoutPlot.layout lp) (Some key) NoRanges in
  ∃ m st' grid,
    LayoutPlot.initialize_plot lp plots st = Returns m st'
    ∧ CompositePlot.handles st' !! "plot" = Some (CompositePlot.HModel m)
    ∧ (let inner := BGrid (pad_plots (filter_toolboxes (layout_padding grid)))
                      (LayoutPlot.toolbar lp) (LayoutPlot.merge_tools lp) in
       (has_title (LayoutPlot.title lp) key → ∃ d, m = BColumn [BDiv d; inner])
       ∧ (¬ has_title (LayoutPlot.title lp) key → m = inner))
    ∧ grid_shape grid (LayoutPlot.rows lp) (LayoutPlot.cols lp)
    ∧ ∀ r c, r < LayoutPlot.rows lp → c < LayoutPlot.cols lp →
        ∃ o, GridPlot.get_cell grid r c = Some o
             ∧ cell_filled lp rng (default [] plots) (r, c) o.
Proof.
  intros Htabs Hkey Hrows Hcols Hsingle Hno rng.
  unfold LayoutPlot.initialize_plot. rewrite Hkey. fold rng.
  assert (tall_rows lp = [] ∧ wide_columns lp = []) as [Htall Hwide].
  { unfold tall_rows, wide_columns. split; apply filter_none; intros x _ Hex;
      apply Exists_exists in Hex as (y & _ & Hlen); unfold cell_len in Hlen;
      (destruct (LayoutPlot.subplots lp !! _) as [adj|] eqn:Hadj; [|lia]);
      destruct (Hsingle _ _ Hadj); lia. }
  pose proof (compute_grid_eq lp st) as Hgrid.
  destruct (LayoutPlot.rows lp) as [|n] eqn:Hn; [lia|].
  destruct (LayoutPlot.cols lp) as [|k] eqn:Hk; [lia|].
  rewrite Htall, Hwide in Hgrid. simpl length in Hgrid. rewrite !Nat.add_0_r in Hgrid.
  rewrite (py_bind_returns _ _ _ _ _ Hgrid).
  rewrite <- Hn, <- Hk in *.
  set (s0 := {| LayoutPlot.plot_grid := _ |}).
  destruct (situate_all_single lp rng key (default [] plots) s0 Htabs Hsingle)
    as (s' & Hrun & (Hshape & _ & _ & _ & Hcells) & Htab).
  { subst s0. split_and!; simpl; [apply (empty_grid_shape _ _)|done..|].
    intros r c Hr Hc. exists None. split_and!; [|by intros ?%elem_of_nil|done].
    apply (empty_grid_cell _ _ r c Hr Hc). }
  rewrite Hrun. rewrite Htabs.
  assert (∀ r c, r < LayoutPlot.rows lp → c < LayoutPlot.cols lp →
            ∃ o, GridPlot.get_cell (LayoutPlot.plot_grid s') r c = Some o
                 ∧ cell_filled lp rng (default [] plots) (r, c) o) as Hfilled.
  { intros r c Hr Hc. destruct (Hcells r c Hr Hc) as (o & Ho & Hdone & _).
    exists o. split; [done|]. apply Hdone.
    unfold LayoutPlot.row_major. apply list_elem_of_bind. exists r.
    split; [|apply elem_of_seq; lia].
    apply list_elem_of_fmap. exists c. split; [done|]. apply elem_of_seq. lia. }
  destruct (decide (has_title (LayoutPlot.title lp) key)) as [Ht|Ht].
  - rewrite (py_bind_returns _ _ _ _ _
               (get_title_new_div (LayoutPlot.title lp) key st Ht Hno)).
    eexists _, _, (LayoutPlot.plot_grid s').
    split_and!; [reflexivity| | | |done|done].
    + simpl. by rewrite lookup_insert_ne, lookup_insert_eq.
    + intros _. by eexists.
    + done.
  - rewrite (py_bind_returns _ _ _ _ _
               (get_title_no_title (LayoutPlot.title lp) key st Ht)).
    eexists _, _, (LayoutPlot.plot_grid s').
    split_and!; [reflexivity| | | |done|done].
    + simpl. by rewrite lookup_insert_ne, lookup_insert_eq.
    + done.
    + done.
Qed.

End LayoutGrid.

(** ** The further properties at concrete plots *)

Section AtFurtherConcretePlots.
Local Existing Instance Demo.upstream.

Lemma grid_cell_options_forced_witness :
  ∃ sp,
    GridPlot.create_subplot_at Demo.grid_params 2 Demo.grid [] 1 (KTuple [0; 1]%Z)
      GridPlot.cs_init
    = Returns tt (GridPlot.cs_add [0; 1]%Z sp GridPlot.cs_init)
    ∧ sp_params sp !! "width" = Some (VInt 170)
    ∧ sp_params sp !! "height" = Some (VInt 120)
    ∧ sp_params sp !! "border" = Some (VInt 3).
Proof.
  destruct (grid_cell_options_forced Demo.grid_params 2 Demo.grid [] 1
              (KTuple [0; 1]%Z) (Demo.curve 1) Demo.CurvePlot GridPlot.cs_init)
    as (sp & Hrun & Hw & Hh & Hb & _); [lia|reflexivity..|].
  exists sp. split_and!; [exact Hrun|exact Hw|exact Hh|exact Hb].
Defined.

Lemma grid_initialize_plot_cells_witness :
  ∃ m st' plots (outs : list (option bmodel)),
    GridPlot.initialize_plot sparse_grid_plot [] (CompositePlot.State ∅ ∅ [])
    = Returns m st'
    ∧ CompositePlot.handles st' !! "plots" = Some (CompositePlot.HGrid plots)
    ∧ grid_shape plots 2 2
    ∧ GridPlot.get_cell plots (3 mod 2) (3 / 2) = outs !! 3.
Proof.
  assert (keys_full_grid Demo.grid
          = [KTuple [0; 0]; KTuple [0; 1]; KTuple [1; 0]; KTuple [1; 1]]%Z) as Hkeys
    by (vm_compute; reflexivity).
  destruct (grid_initialize_plot_cells sparse_grid_plot [] [0%Z]
              (CompositePlot.State ∅ ∅ []))
    as (m & st' & plots & outs & Hrun & _ & Hplots & Hshape & _ & Hcells & _);
    [reflexivity
    |change (GridPlot.layout sparse_grid_plot) with Demo.grid; rewrite Hkeys; simpl; lia
    |reflexivity|].
  exists m, st', plots, outs.
  split_and!; [exact Hrun|exact Hplots|exact Hshape|].
  apply (Hcells 3 (KTuple [1; 1]%Z)).
  change (GridPlot.layout sparse_grid_plot) with Demo.grid. by rewrite Hkeys.
Defined.

Lemma grid_initialize_plot_out_of_grid_witness :
  ∃ e,
    GridPlot.initialize_plot cramped_grid_plot [] (CompositePlot.State ∅ ∅ [])
    = Raises e (CompositePlot.State ∅ ∅ [])
    ∧ (e = IndexError ∨ e = ZeroDivisionError).
Proof.
  assert (keys_full_grid Demo.grid
          = [KTuple [0; 0]; KTuple [0; 1]; KTuple [1; 0]; KTuple [1; 1]]%Z) as Hkeys
    by (vm_compute; reflexivity).
  apply (grid_initialize_plot_out_of_grid cramped_grid_plot []
           (CompositePlot.State ∅ ∅ []) 1 (KTuple [0; 1]%Z)).
  - change (GridPlot.layout cramped_grid_plot) with Demo.grid. by rewrite Hkeys.
  - by eexists.
  - simpl. lia.
Defined.

Lemma layout_subplot_options_witness :
  ∃ s' sp,
    LayoutPlot.create_subplot_for (row_layout_plot false) curve_adjoint [] 1 "main"
      (LayoutPlot.CsState ∅ curve_adjoint None [] []) = Returns tt s'
    ∧ LayoutPlot.cs_subplots s' !! "main" = Some (Some sp)
    ∧ sp_params sp !! "layout_num" = Some (VInt 1)
    ∧ sp_params sp !! "adjoined" = Some VNone
    ∧ sp_params sp !! "subplot" = Some (VBool true).
Proof.
  set (s0 := LayoutPlot.CsState ∅ curve_adjoint None [] []).
  set (sp := LayoutPlot.construct_subplot (row_layout_plot false) Demo.CurvePlot
               (Demo.curve 0) [] 1
               ({[ "adjoined" := VNone ]} ∪ (lookup_options (Demo.curve 0) ∪ ∅))).
  assert (LayoutPlot.create_subplot_for (row_layout_plot false) curve_adjoint [] 1
            "main" s0 = Returns tt (LayoutPlot.cs_add "main" sp s0)) as Hrun
    by reflexivity.
  destruct (layout_subplot_options (row_layout_plot false) curve_adjoint [] 1 "main"
              s0 _ sp Hrun eq_refl)
    as (Hsub & _ & _ & Hs & Hnum & Hadj & _).
  exists (LayoutPlot.cs_add "main" sp s0), sp.
  split_and!; [exact Hrun|exact Hsub|exact Hnum|exact Hadj|exact Hs].
Defined.

Lemma update_datasource_lengths_witness :
  let self := BokehPlot.UpdateParams [] false in
  let source_data := [("x", ColList [VInt 1; VInt 2]); ("y", ColList [VInt 3; VInt 4])] in
  let data := [("x", ColArray [VInt 1; VInt 2; VInt 3])] in
  NoDup (od_keys source_data)
  ∧ BokehPlot.streaming_branch self (od_map decode_bytes data) = false
  ∧ ∃ k, Forall (λ v, col_len v = k)
           (od_values (BokehPlot._update_datasource self source_data data).2).
Proof.
  intros self source_data data.
  assert (NoDup (od_keys source_data)) as Hnd
    by (refine (bool_decide_unpack _ _); vm_compute; exact I).
  split; [exact Hnd|]. split; [reflexivity|].
  apply (update_datasource_lengths self source_data data 2 3 Hnd).
  - repeat constructor.
  - repeat constructor.
  - reflexivity.
Defined.

Lemma update_datasource_columns_witness :
  let self := BokehPlot.UpdateParams [] false in
  let source_data := [("x", ColList [VInt 1; VInt 2]); ("y", ColList [VInt 3; VInt 4])] in
  let data := [("x", ColArray [VInt 1; VInt 2; VInt 3])] in
  BokehPlot.streaming_branch self (od_map decode_bytes data) = false
  ∧ match BokehPlot._update_datasource self source_data data with
    | (BokehPlot.Replaced, res) =>
        od_keys res = od_keys data
        ∧ ∃ k, k ∈ od_keys source_data ∧ k ∉ od_keys res
    | (BokehPlot.Merged, res) =>
        od_keys source_data `prefix_of` od_keys res
        ∧ (∀ k, k ∈ od_keys res ↔ k ∈ od_keys source_data ∨ k ∈ od_keys data)
        ∧ (NoDup (od_keys source_data) → NoDup (od_keys res))
    | _ => False
    end.
Proof.
  intros self source_data data. split; [reflexivity|].
  apply (update_datasource_columns self source_data data). reflexivity.
Defined.

Lemma sync_sources_without_sharing_witness :
  (∀ d, length (BokehPlot.sharing separate_world d) ≤ 1)
  ∧ BokehPlot.sync_sources separate_world = sync_start separate_world.
Proof.
  assert (∀ d, length (BokehPlot.sharing separate_world d) ≤ 1) as Hsmall.
  { intros d. unfold BokehPlot.sharing.
    assert (BokehPlot.data_sources (BokehPlot.plots separate_world) = [(5, 0); (9, 1)])
      as -> by (vm_compute; reflexivity).
    rewrite !filter_cons, filter_nil. simpl.
    destruct (decide (5 = d)), (decide (9 = d)); simpl; lia. }
  split; [exact Hsmall|].
  apply (sync_sources_without_sharing separate_world Hsmall).
Defined.

Lemma row_layout_single : single_layouts (row_layout_plot false).
Proof.
  intros rc adj Hadj. unfold row_layout_plot, LayoutPlot.subplots in Hadj.
  apply lookup_insert_Some in Hadj as [[_ <-]|[_ Hadj]]; [by split; [vm_compute; lia|]|].
  apply lookup_singleton_Some in Hadj as [_ <-]. by split; [vm_compute; lia|].
Defined.

Lemma layout_initialize_plot_grid_witness :
  ∃ m st' grid o,
    LayoutPlot.initialize_plot (row_layout_plot false) None (CompositePlot.State ∅ ∅ [])
    = Returns m st'
    ∧ grid_shape grid 1 2
    ∧ GridPlot.get_cell grid 0 1 = Some o
    ∧ cell_filled (row_layout_plot false)
        (compute_ranges (LayoutPlot.layout (row_layout_plot false)) (Some [0%Z]) NoRanges)
        [] (0, 1) o.
Proof.
  destruct (layout_initialize_plot_grid (row_layout_plot false) None [0%Z]
              (CompositePlot.State ∅ ∅ []))
    as (m & st' & grid & Hrun & _ & _ & Hshape & Hcells);
    [reflexivity|reflexivity|simpl; lia|simpl; lia|exact row_layout_single
    |reflexivity|].
  destruct (Hcells 0 1) as (o & Ho & Hfilled); [simpl; lia..|].
  exists m, st', grid, o. split_and!; [exact Hrun|exact Hshape|exact Ho|exact Hfilled].
Defined.

(** A message of one buffer goes out as five sends. *)
Example push_one_buffer :
  Push.push id pushing_plot []
  = Returns tt [Push.SendData "header"; Push.SendData "metadata";
                Push.SendData "content"; Push.SendData "h1";
                Push.SendBuffers ["payload1"]].
Proof. vm_compute. reflexivity. Qed.

(** Without a comm the same plot raises, unless the renderer is in
    server mode. *)
Example push_without_comm :
  Push.push id (Push.PushSelf "default" false (Push.diff pushing_plot)) []
  = Raises (PyException "Renderer does not have a comm.") []
  ∧ Push.push id (Push.PushSelf "server" false (Push.diff pushing_plot)) []
    = Returns tt [].
Proof. split; vm_compute; reflexivity. Qed.

(** The document reaches the plot below a subplot. *)
Example set_document_nested :
  Document.document <$> Document.plots_of (Document.set_document (Some 7) nested_plots)
  = [Some 7; Some 7; Some 7; Some 7].
Proof. vm_compute. reflexivity. Qed.

(** Two sources with a stream each: the callback for the stream of the
    first source is constructed with the second source. *)
Example construct_callbacks_last_source :
  Callbacks._construct_callbacks demo_stream_registry demo_callback_registry
    streamed_plot
  = [(10, [100], Some 8); (20, [101], Some 8)].
Proof. vm_compute. reflexivity. Qed.

(** With a shared x-axis only, the x-axis is above the plot and the
    y-axis to its left. *)
Example make_axes_shared_xaxis :
  GridAxes._make_axes demo_axis remove_dups id (VStr "above") true axes_plot
    (BFigure 0) tt
  = Returns (BGrid [[None; Some (BFigure 2)]; [Some (BFigure 2); Some (BFigure 0)]]
               (VStr "above") true) tt.
Proof. vm_compute. reflexivity. Qed.

(** A transposed layout: the item found at [(1, 0)] is shown at
    [(0, 1)]; without transposing nothing is shown there. The image has
    no plotting class, which is warned about, and the layout plot for it
    is still made. *)
Example init_layout_transposed :
  let run transpose :=
    InitLayout._init_layout (λ _, true) (λ _, "view") 9 (row_layout_plot false)
      transpose false (LayoutPlot.layout (row_layout_plot false)) demo_layout_items
      (InitLayout.State (LayoutPlot.CsState ∅ curve_adjoint None [] []) ∅ ∅ ∅ ∅ 0) in
  InitLayout.paths (final_state (run true)) !! (0, 1) = Some (Some ["Image"; "I"])
  ∧ InitLayout.paths (final_state (run false)) !! (0, 1) = Some None
  ∧ InitLayout.layout_count (final_state (run true)) = 2
  ∧ LayoutPlot.cs_warnings (InitLayout.cs (final_state (run true)))
    = ["Bokeh plotting class for Image type not found, object will not be rendered."].
Proof. cbv zeta. split_and!; vm_compute; reflexivity. Qed.

(** The plot options of a histogram name [show_title], which the
    constructor call of [GridPlot._create_subplots] gives itself: the
    call raises [TypeError] after the subplot of the curve before it was
    stored. *)
Example grid_keyword_clash :
  let o := GridPlot._create_subplots Demo.grid_params 1 histogram_grid NoRanges
             GridPlot.cs_init in
  clashes histogram_grid (KTuple [1; 0]%Z) = true
  ∧ (if o is Raises e _ then Some e else None) = Some GridPlot.multiple_values
  ∧ (elements (dom (GridPlot.cs_subplots (final_state o)))) = [[0; 0]%Z].
Proof. cbv zeta. split_and!; vm_compute; reflexivity. Qed.

End AtFurtherConcretePlots.
